(** * Zuhr-Star back end: membership, capacity, attendance and balance reset

    A shallow embedding of the student and group controllers
    (student.controller.js, group.controller.js), the two Mongoose models
    (student.model.js, group.model.js) and the balance-reset service
    (student-balance-reset.service.js), together with the properties the
    design document states about them.

    Conventions of the embedding.
    - Timestamps are [Z], milliseconds since the epoch, as [Date.now()]
      gives them; a [Date] holds a time value of at most 8.64e15 in
      magnitude, and is invalid beyond.  Counts of documents are [Z].
    - A number is a [jsnum]: not-a-number, an infinity, an integer, or a
      fraction [m / 2 ^ e] in lowest terms, which covers the
      double-precision values; the two zeros are one.  Addition rounds to
      53 significant bits, ties to even, as double precision does.
    - A stored ObjectId is the text [toString()] renders for it: 24
      hexadecimal digits in lower case.  A text of a request names an
      ObjectId by its digits in either case; [ObjectId] is the cast Mongoose
      applies to the text in a query or when it builds a document.  Where
      the handlers compare texts with [===] the embedding compares the
      texts as they are.
    - A string is a sequence of characters below U+0100 (Latin-1 text), one
      byte each, as the headers of a request are: [length], [trim] and
      [toLowerCase] are the JavaScript ones on such text.
    - A handler is a function of the world (the two collections and the two
      module-level variables of the reset service) that returns its HTTP
      response, the next world and the list of database calls it issued.
      One handler runs without another request interleaving. *)

From Stdlib Require Import ZArith String Ascii.
From stdpp Require Import prelude strings gmap.

Local Open Scope string_scope.
Local Open Scope list_scope.
Local Open Scope Z_scope.

(** ** JavaScript values used by the handlers *)

(** A number, as [Number(x)] gives it: not-a-number, an integer [z], a
    fraction [m / 2 ^ e] that is no integer ([m] odd), or an infinity. *)
Inductive jsnum : Type :=
| JNaN
| JNum (z : Z)
| JFrac (m : Z) (e : positive)
| JPosInf
| JNegInf.

Coercion JNum : Z >-> jsnum.

#[global] Instance jsnum_eq_dec : EqDecision jsnum.
Proof. solve_decision. Defined.

(** Truthiness of a number, as [x || d] tests it: [NaN] and [0] are falsy. *)
Definition truthy (x : jsnum) : bool :=
  match x with
  | JNaN => false
  | JNum z => negb (z =? 0)
  | JFrac m _ => negb (m =? 0)
  | JPosInf | JNegInf => true
  end.

(** [x || d] on numbers. *)
Definition js_or (x d : jsnum) : jsnum := if truthy x then x else d.

(** [x < y]; any comparison with [NaN] is false.  Two fractions are
    compared on a common denominator. *)
Definition js_lt (x y : jsnum) : bool :=
  match x, y with
  | JNaN, _ | _, JNaN => false
  | JNum a, JNum b => a <? b
  | JNum a, JFrac m e => a * 2 ^ Z.pos e <? m
  | JFrac m e, JNum b => m <? b * 2 ^ Z.pos e
  | JFrac m e, JFrac m' e' => m * 2 ^ Z.pos e' <? m' * 2 ^ Z.pos e
  | JNegInf, (JNum _ | JFrac _ _ | JPosInf) => true
  | (JNum _ | JFrac _ _), JPosInf => true
  | _, _ => false
  end.

(** [x <= y] and [y >= x]. *)
Definition js_le (x y : jsnum) : bool :=
  match x, y with
  | JNaN, _ | _, JNaN => false
  | _, _ => negb (js_lt y x)
  end.

(** [Math.max(x, y)]. *)
Definition Math_max (x y : jsnum) : jsnum :=
  match x, y with
  | JNaN, _ | _, JNaN => JNaN
  | JNum a, JNum b => JNum (Z.max a b)
  | _, _ => if js_lt x y then y else x
  end.

(** [Number.isFinite(x)]. *)
Definition Number_isFinite (x : jsnum) : bool :=
  match x with JNum _ | JFrac _ _ => true | _ => false end.

(** [Number.isInteger(x)]. *)
Definition Number_isInteger (x : jsnum) : bool :=
  match x with JNum _ => true | _ => false end.

(** The number [n / 2 ^ k] in lowest terms. *)
Fixpoint dyadic (n : Z) (k : nat) : jsnum :=
  match k with
  | O => JNum n
  | S k' => if Z.even n then dyadic (n / 2) k' else JFrac n (Pos.of_nat k)
  end.

(** The integer nearest to [n] among those of at most 53 significant bits,
    the even one of two that are equally near: the rounding of double
    precision. *)
Definition round_to_53_bits (n : Z) : Z :=
  let a := Z.abs n in
  let shift := Z.log2 a + 1 - 53 in
  if shift <=? 0 then n
  else
    let q := a / 2 ^ shift in
    let r := a mod 2 ^ shift in
    let half := 2 ^ (shift - 1) in
    let q' := if (half <? r) || ((r =? half) && Z.odd q) then q + 1 else q in
    Z.sgn n * (q' * 2 ^ shift).

(** A finite number as a numerator and the exponent of its denominator. *)
Definition as_fraction (x : jsnum) : option (Z * nat) :=
  match x with
  | JNum z => Some (z, O)
  | JFrac m e => Some (m, Pos.to_nat e)
  | _ => None
  end.

(** [x + y]: the exact sum rounded to 53 significant bits, an infinity
    from [2 ^ 1024] on. *)
Definition js_add (x y : jsnum) : jsnum :=
  match x, y with
  | JNaN, _ | _, JNaN => JNaN
  | JPosInf, JNegInf | JNegInf, JPosInf => JNaN
  | JPosInf, _ | _, JPosInf => JPosInf
  | JNegInf, _ | _, JNegInf => JNegInf
  | _, _ =>
      match as_fraction x, as_fraction y with
      | Some (n1, k1), Some (n2, k2) =>
          let k := Nat.max k1 k2 in
          let n := n1 * 2 ^ Z.of_nat (k - k1) + n2 * 2 ^ Z.of_nat (k - k2) in
          let r := round_to_53_bits n in
          if 2 ^ (1024 + Z.of_nat k) <=? Z.abs r
          then (if r <? 0 then JNegInf else JPosInf)
          else dyadic r k
      | _, _ => JNaN
      end
  end.

(** A call either returns a value or throws. *)
Inductive outcome (A : Type) : Type :=
| Returned (a : A)
| Thrown.
Arguments Returned {A} a.
Arguments Thrown {A}.

(** ** String helpers *)

(** The white space and line terminators of JavaScript below U+0100: tab,
    line feed, vertical tab, form feed, carriage return, space and
    no-break space.  These are what [trim] strips and [\s] matches. *)
Definition is_space (c : ascii) : bool :=
  let n := nat_of_ascii c in
  ((9 <=? n)%nat && (n <=? 13)%nat) || (n =? 32)%nat || (n =? 160)%nat.

Fixpoint trimStart (s : string) : string :=
  match s with
  | EmptyString => EmptyString
  | String c r => if is_space c then trimStart r else s
  end.

Fixpoint all_space (s : string) : bool :=
  match s with
  | EmptyString => true
  | String c r => is_space c && all_space r
  end.

Fixpoint trimEnd (s : string) : string :=
  match s with
  | EmptyString => EmptyString
  | String c r => if all_space s then EmptyString else String c (trimEnd r)
  end.

(** [s.trim()]. *)
Definition trim (s : string) : string := trimEnd (trimStart s).

(** The lower-case form of a character below U+0100: the letters [A] to
    [Z] and the capital letters from U+00C0 to U+00DE, the multiplication
    sign U+00D7 apart, move up by 32. *)
Definition lower_char (c : ascii) : ascii :=
  let n := nat_of_ascii c in
  if ((65 <=? n)%nat && (n <=? 90)%nat)
     || ((192 <=? n)%nat && (n <=? 222)%nat && negb (n =? 215)%nat)
  then ascii_of_nat (n + 32) else c.

(** [s.toLowerCase()]. *)
Fixpoint toLowerCase (s : string) : string :=
  match s with
  | EmptyString => EmptyString
  | String c r => String (lower_char c) (toLowerCase r)
  end.

Definition is_digit (c : ascii) : bool :=
  let n := nat_of_ascii c in ((48 <=? n)%nat && (n <=? 57)%nat).

Definition is_hex (c : ascii) : bool :=
  let n := nat_of_ascii c in
  is_digit c || ((97 <=? n)%nat && (n <=? 102)%nat)
             || ((65 <=? n)%nat && (n <=? 70)%nat).

Fixpoint string_forallb (p : ascii -> bool) (s : string) : bool :=
  match s with
  | EmptyString => true
  | String c r => p c && string_forallb p r
  end.

(** [mongoose.isValidObjectId] on strings written as 24 hexadecimal digits. *)
Definition isValidObjectId (s : string) : bool :=
  (String.length s =? 24)%nat && string_forallb is_hex s.

(** [new mongoose.Types.ObjectId(id).toString()], and the cast Mongoose
    applies to a text where a schema has an ObjectId: the id the text
    names, its digits in lower case. *)
Definition ObjectId (id : string) : string := toLowerCase id.

(** [PHONE_PATTERN.test(s)] for [/^\+?[0-9]{7,15}$/]. *)
Definition PHONE_PATTERN_test (s : string) : bool :=
  let digits := match s with
                | String "+"%char r => r
                | _ => s
                end in
  (7 <=? String.length digits)%nat && (String.length digits <=? 15)%nat
  && string_forallb is_digit digits.

(** [xs.join(sep)]. *)
Fixpoint join (sep : string) (xs : list string) : string :=
  match xs with
  | [] => ""
  | [x] => x
  | x :: r => x +:+ sep +:+ join sep r
  end.

(** [arr.findIndex(f)], with [None] for -1. *)
Fixpoint findIndex {A : Type} (f : A -> bool) (l : list A) : option nat :=
  match l with
  | [] => None
  | x :: r => if f x then Some 0%nat else S <$> findIndex f r
  end.

(** [[...new Set(xs)]]: the distinct elements in order of first occurrence. *)
Fixpoint set_values (seen xs : list string) : list string :=
  match xs with
  | [] => []
  | x :: r =>
      if existsb (String.eqb x) seen then set_values seen r
      else x :: set_values (x :: seen) r
  end.

Definition Set_of (xs : list string) : list string := set_values [] xs.

(** [arr.includes(x)] on strings. *)
Definition includes (xs : list string) (x : string) : bool :=
  existsb (String.eqb x) xs.

(** ** Dates *)

(** A [Date] is its time value: [Some t] for [t] milliseconds since the
    epoch, [None] for an invalid date (time value [NaN]). *)
Definition Date : Type := option Z.

Definition msPerDay : Z := 86400000.

(** The largest time value a [Date] holds: 100 000 000 days. *)
Definition maxTimeValue : Z := 8640000000000000.

(** [new Date(value)] for a date or a number of milliseconds: the time
    value is kept when it is in range, and is [NaN] otherwise. *)
Definition new_Date (value : Date) : Date :=
  match value with
  | Some t => if (- maxTimeValue <=? t) && (t <=? maxTimeValue) then Some t
              else None
  | None => None
  end.

(** [width] decimal digits of [z], most significant first. *)
Fixpoint fixed_digits (width : nat) (z : Z) : string :=
  match width with
  | O => ""
  | S w => fixed_digits w (z / 10)
           +:+ String (ascii_of_nat (48 + Z.to_nat (z mod 10))) ""
  end.

(** The proleptic Gregorian year, month and day of a day number counted
    from 1970-01-01. *)
Definition civil_from_days (days : Z) : Z * Z * Z :=
  let z := days + 719468 in
  let era := z / 146097 in
  let doe := z - era * 146097 in
  let yoe := (doe - doe / 1460 + doe / 36524 - doe / 146096) / 365 in
  let doy := doe - (365 * yoe + yoe / 4 - yoe / 100) in
  let mp := (5 * doy + 2) / 153 in
  let d := doy - (153 * mp + 2) / 5 + 1 in
  let m := if mp <? 10 then mp + 3 else mp - 9 in
  let y := yoe + era * 400 + (if m <=? 2 then 1 else 0) in
  (y, m, d).

(** [date.toISOString()] of a valid date: [YYYY-MM-DDTHH:mm:ss.sssZ], the
    year written with a sign and six digits outside 0..9999. *)
Definition toISOString (t : Z) : string :=
  let '(y, m, d) := civil_from_days (t / msPerDay) in
  let ms := t mod msPerDay in
  let year := if (0 <=? y) && (y <=? 9999) then fixed_digits 4 y
              else (if y <? 0 then "-" else "+") +:+ fixed_digits 6 (Z.abs y) in
  year +:+ "-" +:+ fixed_digits 2 m +:+ "-" +:+ fixed_digits 2 d
  +:+ "T" +:+ fixed_digits 2 (ms / 3600000)
  +:+ ":" +:+ fixed_digits 2 (ms / 60000 mod 60)
  +:+ ":" +:+ fixed_digits 2 (ms / 1000 mod 60)
  +:+ "." +:+ fixed_digits 3 (ms mod 1000) +:+ "Z".

(** [toDateKey]: the first ten characters of the ISO rendering, the empty
    string for an invalid date. *)
Definition toDateKey (value : Date) : string :=
  match new_Date value with
  | None => ""
  | Some t => substring 0 10 (toISOString t)
  end.

(** The day number of a year, month and day of the month: the inverse of
    [civil_from_days]. *)
Definition days_from_civil (y m d : Z) : Z :=
  let y' := if m <=? 2 then y - 1 else y in
  let era := y' / 400 in
  let yoe := y' - era * 400 in
  let mp := if 2 <? m then m - 3 else m + 9 in
  let doy := (153 * mp + 2) / 5 + d - 1 in
  let doe := yoe * 365 + yoe / 4 - yoe / 100 + doy in
  era * 146097 + doe - 719468.

(** A time from 0000-01-01T00:00:00.000Z to 9999-12-31T23:59:59.999Z, the
    times whose ISO form has a year of four digits. *)
Definition four_digit_year (t : Z) : Prop :=
  -62167219200000 <= t <= 253402300799999.

(** ** Data model (student.model.js, group.model.js) *)

(** [GROUP_STATUSES] of the student model: the status of one membership. *)
Inductive MemberStatus : Type := MActive | MPaused | MCompleted | MLeft.

(** The [status] enum of the group schema. *)
Inductive GroupStatus : Type :=
  GPlanned | GActive | GPaused | GCompleted | GArchived.

(** [ATTENDANCE_STATUSES]. *)
Inductive AttendanceStatus : Type := Present | Absent | Late | Excused.

#[global] Instance MemberStatus_eq_dec : EqDecision MemberStatus.
Proof. solve_decision. Defined.
#[global] Instance GroupStatus_eq_dec : EqDecision GroupStatus.
Proof. solve_decision. Defined.
#[global] Instance AttendanceStatus_eq_dec : EqDecision AttendanceStatus.
Proof. solve_decision. Defined.

(** [studentGroupSchema]: one membership row of a student. *)
Record Membership : Type := {
  group : string;
  m_status : MemberStatus;
  joinedAt : Z;
  m_note : option string;
}.

(** [studentSchema].  [password] is [None] when the document was loaded
    without it ([select: false]); [balanceResetAt] is [None] when the field
    is absent from the stored document. *)
Record Student : Type := {
  s_id : string;
  fullname : string;
  studentPhone : string;
  parentPhone : string;
  groupAttached : bool;
  gender : string;
  birthDate : Z;
  s_note : option string;
  password : option string;
  balance : jsnum;
  balanceResetAt : option Z;
  coinBalance : jsnum;
  groups : list Membership;
}.

(** [groupAttendanceSchema]. *)
Record AttendanceEntry : Type := {
  student : string;
  date : Z;
  a_status : AttendanceStatus;
  a_note : option string;
  markedBy : option string;
}.

(** The fields of [groupSchema] that the membership and attendance logic
    reads or writes.  The descriptive fields (name, course, teacher,
    schedule, dates, room, fee) take no part in it. *)
Record Group : Type := {
  g_id : string;
  g_status : GroupStatus;
  maxStudents : jsnum;
  students : list string;
  attendance : list AttendanceEntry;
}.

#[global] Instance Membership_eq_dec : EqDecision Membership.
Proof. solve_decision. Defined.
#[global] Instance Student_eq_dec : EqDecision Student.
Proof. solve_decision. Defined.
#[global] Instance AttendanceEntry_eq_dec : EqDecision AttendanceEntry.
Proof. solve_decision. Defined.
#[global] Instance Group_eq_dec : EqDecision Group.
Proof. solve_decision. Defined.

Definition isActive (st : MemberStatus) : bool :=
  match st with MActive => true | _ => false end.

Definition with_groups (gs : list Membership) (s : Student) : Student :=
  {| s_id := s_id s; fullname := fullname s; studentPhone := studentPhone s;
     parentPhone := parentPhone s; groupAttached := groupAttached s;
     gender := gender s; birthDate := birthDate s; s_note := s_note s;
     password := password s; balance := balance s;
     balanceResetAt := balanceResetAt s; coinBalance := coinBalance s;
     groups := gs |}.

Definition with_groupAttached (b : bool) (s : Student) : Student :=
  {| s_id := s_id s; fullname := fullname s; studentPhone := studentPhone s;
     parentPhone := parentPhone s; groupAttached := b;
     gender := gender s; birthDate := birthDate s; s_note := s_note s;
     password := password s; balance := balance s;
     balanceResetAt := balanceResetAt s; coinBalance := coinBalance s;
     groups := groups s |}.

Definition with_coinBalance (c : jsnum) (s : Student) : Student :=
  {| s_id := s_id s; fullname := fullname s; studentPhone := studentPhone s;
     parentPhone := parentPhone s; groupAttached := groupAttached s;
     gender := gender s; birthDate := birthDate s; s_note := s_note s;
     password := password s; balance := balance s;
     balanceResetAt := balanceResetAt s; coinBalance := c;
     groups := groups s |}.

(** The [$set] of the sweep: [balance] and [balanceResetAt]. *)
Definition with_balance_reset (b : jsnum) (at_ : Z) (s : Student)
    : Student :=
  {| s_id := s_id s; fullname := fullname s; studentPhone := studentPhone s;
     parentPhone := parentPhone s; groupAttached := groupAttached s;
     gender := gender s; birthDate := birthDate s; s_note := s_note s;
     password := password s; balance := b;
     balanceResetAt := Some at_; coinBalance := coinBalance s;
     groups := groups s |}.

Definition with_students (ids : list string) (g : Group) : Group :=
  {| g_id := g_id g; g_status := g_status g; maxStudents := maxStudents g;
     students := ids; attendance := attendance g |}.

Definition with_attendance (att : list AttendanceEntry) (g : Group) : Group :=
  {| g_id := g_id g; g_status := g_status g; maxStudents := maxStudents g;
     students := students g; attendance := att |}.

(** ** The world and the handler monad *)

(** The two collections, in insertion order, and the two module-level
    variables of the reset service. *)
Record world : Type := {
  Students : list Student;
  Groups : list Group;
  isResetRunning : bool;
  lastResetRunAt : Z;
}.

(** The server right after start: empty collections, [isResetRunning =
    false], [lastResetRunAt = 0]. *)
Definition initial_world : world :=
  {| Students := []; Groups := []; isResetRunning := false;
     lastResetRunAt := 0 |}.

Definition with_Students (l : list Student) (w : world) : world :=
  {| Students := l; Groups := Groups w;
     isResetRunning := isResetRunning w; lastResetRunAt := lastResetRunAt w |}.

Definition with_Groups (l : list Group) (w : world) : world :=
  {| Students := Students w; Groups := l;
     isResetRunning := isResetRunning w; lastResetRunAt := lastResetRunAt w |}.

Definition with_scheduler (running : bool) (last : Z) (w : world) : world :=
  {| Students := Students w; Groups := Groups w;
     isResetRunning := running; lastResetRunAt := last |}.

(** What a request cannot compute from the world: the clock, the
    environment variable, whether the sweep's bulk update fails, the
    ObjectId the driver generates for a new document, and bcrypt. *)
Record Ambient : Type := {
  now : Z;
  STUDENT_BALANCE_RESET_MIN_GAP_MS : jsnum;
  updateManyFails : bool;
  freshId : string;
  bcrypt_hash : string -> string;
}.

(** The database calls a handler issues. *)
Inductive db_call : Type :=
| CStudent_findById (id : string)
| CStudent_findOne
| CStudent_find
| CStudent_countDocuments
| CStudent_aggregate
| CStudent_create
| CStudent_save (id : string)
| CStudent_updateMany
| CStudent_findByIdAndDelete (id : string)
| CGroup_findById (id : string)
| CGroup_find
| CGroup_updateOne (id : string)
| CGroup_bulkWrite
| CGroup_save (id : string)
| CGroup_findByIdAndDelete (id : string).

Definition is_write (c : db_call) : bool :=
  match c with
  | CStudent_create | CStudent_save _ | CStudent_updateMany
  | CStudent_findByIdAndDelete _ | CGroup_updateOne _ | CGroup_bulkWrite
  | CGroup_save _ | CGroup_findByIdAndDelete _ => true
  | _ => false
  end.


Definition M (A : Type) : Type := world -> A * world * list db_call.

Definition ret {A : Type} (a : A) : M A := fun w => (a, w, []).

Definition bind {A B : Type} (m : M A) (k : A -> M B) : M B :=
  fun w =>
    let r1 := m w in
    let r2 := k (r1.1.1) (r1.1.2) in
    (r2.1.1, r2.1.2, r1.2 ++ r2.2).

Notation "x <- c1 ;; c2" := (bind c1 (fun x => c2))
  (at level 100, c1 at next level, right associativity).
Notation "c1 ;;; c2" := (bind c1 (fun _ => c2))
  (at level 100, right associativity).

Definition call {A : Type} (c : db_call) (f : world -> A * world) : M A :=
  fun w => (f w, [c]).

(** The three components of a run. *)
Definition result_of {A : Type} (r : A * world * list db_call) : A := r.1.1.
Definition world_of {A : Type} (r : A * world * list db_call) : world := r.1.2.
Definition calls_of {A : Type} (r : A * world * list db_call) : list db_call :=
  r.2.

(** ** The balance-reset service (student-balance-reset.service.js) *)

Definition THIRTY_DAYS_MS : Z := 30 * 24 * 60 * 60 * 1000.
Definition DEFAULT_INTERVAL_MS : Z := 60 * 60 * 1000.
Definition DEFAULT_MIN_GAP_MS : Z := 5 * 60 * 1000.

(** The object a bulk update resolves to, as a map from its numeric
    properties to their values. *)
Definition normalizeResultCount (result : gmap string Z)
    (primaryKey fallbackKey : string) : Z :=
  match result !! primaryKey with
  | Some n => n
  | None =>
      match result !! fallbackKey with
      | Some n => n
      | None => 0
      end
  end.

(** What [resetStudentBalancesIfNeeded] resolves to:
    [{ skipped: true, reason }] or [{ skipped: false, matched, modified }]. *)
Inductive sweep_result : Type :=
| Skipped (reason : string)
| Swept (matched modified : Z).

(** [minGapMs]: [Math.max(Number(process.env...) || DEFAULT_MIN_GAP_MS,
    10 * 1000)]. *)
Definition minGapMs (amb : Ambient) : jsnum :=
  Math_max (js_or (STUDENT_BALANCE_RESET_MIN_GAP_MS amb)
                  (JNum DEFAULT_MIN_GAP_MS))
           (JNum (10 * 1000)).

(** The filter of the bulk update: [balanceResetAt] does not exist, or is
    [$lte dueBefore]. *)
Definition reset_due (dueBefore : Z) (s : Student) : bool :=
  match balanceResetAt s with
  | None => true
  | Some t => t <=? dueBefore
  end.

(** [Student.updateMany(filter, update)]: every matching document is
    updated; the result counts the matching documents and those the update
    changed. *)
Definition Student_updateMany (filter : Student -> bool)
    (update : Student -> Student) : M (gmap string Z) :=
  call CStudent_updateMany (fun w =>
    let matched := List.filter filter (Students w) in
    let modified :=
      List.filter (fun s => negb (bool_decide (update s = s))) matched in
    ({[ "matchedCount" := Z.of_nat (length matched);
        "modifiedCount" := Z.of_nat (length modified) ]},
     with_Students
       (map (fun s => if filter s then update s else s) (Students w)) w)).

(** The synchronous prefix of [resetStudentBalancesIfNeeded], up to the
    first [await]: the throttle test, the overlap test, and the two
    assignments [isResetRunning = true; lastResetRunAt = now]. *)
Definition sweep_enter (force : bool) (amb : Ambient) (w : world)
    : string + world :=
  if negb force && js_lt (JNum (now amb - lastResetRunAt w)) (minGapMs amb)
  then inl "throttled"
  else if isResetRunning w then inl "in_progress"
  else inr (with_scheduler true (now amb) w).

(** The awaited bulk update of a sweep entered at time [t]. *)
Definition sweep_update (t : Z) : M (gmap string Z) :=
  Student_updateMany (reset_due (t - THIRTY_DAYS_MS)) (with_balance_reset 0 t).

(** The student collection after the bulk update of a sweep entered at
    time [t]. *)
Definition sweep_students (t : Z) (l : list Student) : list Student :=
  map (fun s => if reset_due (t - THIRTY_DAYS_MS) s
                then with_balance_reset 0 t s else s) l.

(** A student is stale at time [t] when [balanceResetAt] is absent or at
    least thirty days old. *)
Definition stale (t : Z) (s : Student) : Prop :=
  match balanceResetAt s with
  | None => True
  | Some r => THIRTY_DAYS_MS <= t - r
  end.

(** The [finally] block. *)
Definition sweep_release (w : world) : world :=
  with_scheduler false (lastResetRunAt w) w.

(** [resetStudentBalancesIfNeeded({ force })], run to completion. *)
Definition resetStudentBalancesIfNeeded (force : bool) (amb : Ambient)
    : M (outcome sweep_result) :=
  fun w =>
    match sweep_enter force amb w with
    | inl reason => (Returned (Skipped reason), w, [])
    | inr w1 =>
        if updateManyFails amb
        then (Thrown, sweep_release w1, [CStudent_updateMany])
        else
          let r := sweep_update (now amb) w1 in
          (Returned
             (Swept (normalizeResultCount (result_of r) "matchedCount" "n")
                    (normalizeResultCount (result_of r)
                                          "modifiedCount" "nModified")),
           sweep_release (world_of r), calls_of r)
    end.

(** [runBalanceResetSafely]: the non-forced check every handler starts
    with; an error of the sweep is logged and swallowed. *)
Definition runBalanceResetSafely (amb : Ambient) : M unit :=
  fun w =>
    let r := resetStudentBalancesIfNeeded false amb w in
    (tt, world_of r, calls_of r).

(** A change of a student that touches [balance] and [balanceResetAt]
    only, as the sweep makes it. *)
Definition balance_only (f : Student -> Student) : Prop :=
  forall s, f s = s \/ exists t, f s = with_balance_reset 0 t s.

(** *** Interleaved executions of the service

    A sweep suspends at its one [await], and other calls may run meanwhile.
    A system state is the world together with the sweeps that are
    suspended, each by the time it was entered.  A step is: a call of the
    service runs its synchronous prefix; a suspended sweep settles, with
    its bulk update applied or failed, and runs its [finally]; or another
    handler changes the collections. *)
Record sys : Type := {
  sys_world : world;
  awaiting : list Z;
}.

Inductive sys_step : sys -> sys -> Prop :=
| step_skipped (force : bool) (amb : Ambient) (s : sys) (reason : string) :
    sweep_enter force amb (sys_world s) = inl reason ->
    sys_step s s
| step_entered (force : bool) (amb : Ambient) (s : sys) (w1 : world) :
    sweep_enter force amb (sys_world s) = inr w1 ->
    sys_step s {| sys_world := w1; awaiting := now amb :: awaiting s |}
| step_settled (ok : bool) (s : sys) (before after : list Z) (t : Z) :
    awaiting s = before ++ t :: after ->
    sys_step s
      {| sys_world :=
           sweep_release
             (if ok then world_of (sweep_update t (sys_world s))
              else sys_world s);
         awaiting := before ++ after |}
| step_collections (s : sys) (ss : list Student) (gs : list Group) :
    sys_step s
      {| sys_world := with_Groups gs (with_Students ss (sys_world s));
         awaiting := awaiting s |}.

Inductive sys_reachable : sys -> Prop :=
| reach_start :
    sys_reachable {| sys_world := initial_world; awaiting := [] |}
| reach_step (s s' : sys) :
    sys_reachable s -> sys_step s s' -> sys_reachable s'.

(** *** A sample run of the sweep

    Two students at time [now = 100 days]: one reset 31 days ago with a
    balance of 5000, one reset 2 days ago with a balance of 700. *)
Definition day : Z := 24 * 60 * 60 * 1000.

Definition sample_student (id phone : string) (bal : Z) (resetAt : option Z)
    : Student :=
  {| s_id := id; fullname := "Student"; studentPhone := phone;
     parentPhone := "+998900000000"; groupAttached := false;
     gender := "male"; birthDate := 0; s_note := None; password := None;
     balance := bal; balanceResetAt := resetAt; coinBalance := 0;
     groups := [] |}.

Definition stale_student : Student :=
  sample_student "64b000000000000000000001" "+998901111111" 5000
                 (Some (69 * day)).

Definition recent_student : Student :=
  sample_student "64b000000000000000000002" "+998902222222" 700
                 (Some (98 * day)).

Definition sweep_sample_world : world :=
  {| Students := [stale_student; recent_student]; Groups := [];
     isResetRunning := false; lastResetRunAt := 0 |}.

Definition sample_ambient (t : Z) : Ambient :=
  {| now := t; STUDENT_BALANCE_RESET_MIN_GAP_MS := JNaN;
     updateManyFails := false; freshId := "64b0000000000000000000ff";
     bcrypt_hash := fun pw => "$2b$12$" +:+ pw |}.

(** ** Responses *)

(** The message of a response: a text the handler or a schema supplies, or
    the text Mongoose composes for a built-in validator of a path. *)
Inductive Message : Type :=
| Text (s : string)
| BuiltIn (path validator : string).

Coercion Text : string >-> Message.

(** What a response carries besides its message. *)
Inductive Payload : Type :=
| NoPayload
| StudentPayload (doc : option Student)
| RewardPayload (rewardedCoins : Z) (note : option string) (doc : Student)
| MembershipPayload (groupId : string) (studentsCount coins : Z)
    (doc : option Student)
| GroupPayload (doc : option Group) (studentsCount coins : Z).

(** [res.status(statusCode).json({ message, ... })]. *)
Record Response : Type := {
  statusCode : Z;
  message : Message;
  payload : Payload;
}.

Definition json (code : Z) (msg : Message) : Response :=
  {| statusCode := code; message := msg; payload := NoPayload |}.

(** ** Schema validation and persistence of students *)

Definition or_empty (o : option string) : string :=
  match o with Some s => s | None => "" end.

Definition too_long (limit : nat) (o : option string) : bool :=
  match o with
  | Some s => (limit <? String.length s)%nat
  | None => false
  end.

(** A validator as its verdict and the message of its failure; the errors
    of a list of validators are the messages of those that fail. *)
Definition failures (checks : list (bool * Message)) : list Message :=
  map snd (List.filter (fun c => negb c.1) checks).

(** The validators of the scalar paths of [studentSchema], in the order of
    the paths.  Every text reaches the schema already trimmed by the
    handler.  [password] is validated when the document holds it. *)
Definition scalar_checks (t : Z) (s : Student) : list (bool * Message) :=
  [ (negb (String.eqb (fullname s) ""), BuiltIn "fullname" "required");
    ((2 <=? String.length (fullname s))%nat, BuiltIn "fullname" "minlength");
    ((String.length (fullname s) <=? 120)%nat,
     BuiltIn "fullname" "maxlength");
    (PHONE_PATTERN_test (studentPhone s),
     Text "Phone must contain 7-15 digits");
    (PHONE_PATTERN_test (parentPhone s),
     Text "Phone must contain 7-15 digits");
    (includes ["male"; "female"] (gender s), BuiltIn "gender" "enum");
    (birthDate s <=? t, Text "birthDate cannot be in the future");
    (negb (too_long 1000 (s_note s)), BuiltIn "note" "maxlength");
    (match password s with
     | Some p => (8 <=? String.length p)%nat
     | None => true
     end, BuiltIn "password" "minlength");
    (js_le 0 (balance s), BuiltIn "balance" "min");
    (js_le 0 (coinBalance s), BuiltIn "coinBalance" "min") ].

(** The [groups] validator: no group id occurs twice. *)
Definition groups_unique (gs : list Membership) : bool :=
  (length (Set_of (map group gs)) =? length gs)%nat.

(** The validators of the [groups] path: the list holds no group twice,
    and in each row ([studentGroupSchema]) [note] has [maxlength: 300];
    [status] is in the enum by its type. *)
Definition group_checks (gs : list Membership) : list (bool * Message) :=
  (groups_unique gs,
   Text "Student cannot be attached to the same group twice")
  :: map (fun m => (negb (too_long 300 (m_note m)),
                    BuiltIn "groups.note" "maxlength")) gs.

(** The validation of a student document at time [t]: its errors. *)
Definition validateStudent (t : Z) (s : Student) : list Message :=
  failures (scalar_checks t s ++ group_checks (groups s)).

(** A student document that passes the schema at time [t]. *)
Definition valid_student (t : Z) (s : Student) : Prop :=
  validateStudent t s = [].

(** [studentSchema.pre('validate')]: [groupAttached] is recomputed from the
    memberships. *)
Definition preValidate (s : Student) : Student :=
  with_groupAttached
    (existsb (fun groupItem => isActive (m_status groupItem)) (groups s)) s.

Definition with_password (p : option string) (s : Student) : Student :=
  {| s_id := s_id s; fullname := fullname s; studentPhone := studentPhone s;
     parentPhone := parentPhone s; groupAttached := groupAttached s;
     gender := gender s; birthDate := birthDate s; s_note := s_note s;
     password := p; balance := balance s;
     balanceResetAt := balanceResetAt s; coinBalance := coinBalance s;
     groups := groups s |}.

(** How a [save] or [create] fails. *)
Inductive save_error : Type :=
| ValidationError (errors : list Message)
| DuplicateKey.

(** The stored document whose [_id] prints as [id]. *)
Definition stored (id : string) (l : list Student) : option Student :=
  List.find (fun s => String.eqb (s_id s) id) l.

(** The unique index on [studentPhone]: the write is refused when it gives
    the document a phone that another document holds. *)
Definition phone_conflict (doc : Student) (l : list Student) : bool :=
  match stored (s_id doc) l with
  | Some old => negb (String.eqb (studentPhone old) (studentPhone doc))
  | None => true
  end
  && existsb (fun s => negb (String.eqb (s_id s) (s_id doc))
                       && String.eqb (studentPhone s) (studentPhone doc)) l.

(** What a write of [doc] leaves in the collection: [doc] in the place of
    the stored document, whose password stays unless [doc] carries one. *)
Definition persist (doc : Student) (old : Student) : Student :=
  if String.eqb (s_id old) (s_id doc)
  then match password doc with
       | Some _ => doc
       | None => with_password (password old) doc
       end
  else old.

(** [doc.save()]: the [pre('validate')] hook, the validators, then the
    write. *)
Definition Student_save (amb : Ambient) (doc : Student)
    : M (save_error + Student) :=
  fun w =>
    let doc := preValidate doc in
    match validateStudent (now amb) doc with
    | (_ :: _) as errors => (inl (ValidationError errors), w, [])
    | [] =>
        if phone_conflict doc (Students w)
        then (inl DuplicateKey, w, [CStudent_save (s_id doc)])
        else (inr doc, with_Students (map (persist doc) (Students w)) w,
              [CStudent_save (s_id doc)])
    end.

(** [Student.create(payload)]: the new document gets its [_id] from the
    driver, is validated like a saved one and is appended. *)
Definition Student_create (amb : Ambient) (doc : Student)
    : M (save_error + Student) :=
  fun w =>
    let doc := preValidate doc in
    match validateStudent (now amb) doc with
    | (_ :: _) as errors => (inl (ValidationError errors), w, [])
    | [] =>
        if existsb (fun s => String.eqb (s_id s) (s_id doc)) (Students w)
           || phone_conflict doc (Students w)
        then (inl DuplicateKey, w, [CStudent_create])
        else (inr doc, with_Students (Students w ++ [doc]) w,
              [CStudent_create])
    end.

(** [Student.findById(id)]: the document of the id the text names,
    without its password ([select: false]). *)
Definition Student_findById (id : string) : M (option Student) :=
  call (CStudent_findById id)
       (fun w => (with_password None <$> stored (ObjectId id) (Students w),
                  w)).

(** [Student.findOne({ studentPhone })]. *)
Definition Student_findOne (phone : string) : M (option Student) :=
  call CStudent_findOne (fun w =>
    (with_password None
       <$> List.find (fun s => String.eqb (studentPhone s) phone)
                     (Students w), w)).

(** [Student.findByIdAndDelete(id)]. *)
Definition Student_findByIdAndDelete (id : string) : M (option Student) :=
  call (CStudent_findByIdAndDelete id) (fun w =>
    (with_password None <$> stored (ObjectId id) (Students w),
     with_Students
       (List.filter (fun s => negb (String.eqb (s_id s) (ObjectId id)))
                    (Students w)) w)).

(** ** Queries and writes on groups and memberships *)

(** The stored group whose [_id] prints as [id]. *)
Definition find_group (id : string) (l : list Group) : option Group :=
  List.find (fun g => String.eqb (g_id g) id) l.

(** [Group.findById(id)]: the group of the id the text names. *)
Definition Group_findById (id : string) : M (option Group) :=
  call (CGroup_findById id) (fun w => (find_group (ObjectId id) (Groups w), w)).

(** [Group.find({ _id: { $in: ids } })]: the groups of the ids the texts
    name. *)
Definition Group_find (ids : list string) : M (list Group) :=
  call CGroup_find (fun w =>
    (List.filter (fun g => includes (map ObjectId ids) (g_id g)) (Groups w),
     w)).

(** [Group.findByIdAndDelete(id)]. *)
Definition Group_findByIdAndDelete (id : string) : M (option Group) :=
  call (CGroup_findByIdAndDelete id) (fun w =>
    (find_group (ObjectId id) (Groups w),
     with_Groups
       (List.filter (fun g => negb (String.eqb (g_id g) (ObjectId id)))
                    (Groups w)) w)).

(** [Group.updateOne({ _id: id }, update)]. *)
Definition Group_updateOne (id : string) (update : Group -> Group) : M unit :=
  call (CGroup_updateOne id) (fun w =>
    (tt, with_Groups
           (map (fun g => if String.eqb (g_id g) (ObjectId id) then update g
                          else g)
                (Groups w)) w)).

(** [Group.bulkWrite(updates)], each update an [updateOne] that sets
    [students] of the group with the given [_id], an ObjectId read from a
    document. *)
Definition Group_bulkWrite (updates : list (string * list string)) : M unit :=
  call CGroup_bulkWrite (fun w =>
    (tt, with_Groups
           (foldl (fun gs u =>
                     map (fun g => if String.eqb (g_id g) u.1
                                   then with_students u.2 g else g) gs)
                  (Groups w) updates) w)).

(** The [$elemMatch] of the seat queries: the student holds an active
    membership in the group whose [_id] prints as [groupId]. *)
Definition activeIn (groupId : string) (s : Student) : bool :=
  existsb (fun groupItem => String.eqb (group groupItem) groupId
                            && isActive (m_status groupItem)) (groups s).

(** [excludeStudentId && mongoose.isValidObjectId(excludeStudentId)], and
    then [_id: { $ne: excludeStudentId }], the text cast to an ObjectId. *)
Definition excluded (excludeStudentId : option string) (s : Student) : bool :=
  match excludeStudentId with
  | Some id => negb (String.eqb id "") && isValidObjectId id
               && String.eqb (s_id s) (ObjectId id)
  | None => false
  end.

(** The students that hold an active membership in the group whose [_id]
    prints as [groupId], the excluded student apart: their number. *)
Definition activeSeats (groupId : string) (excludeStudentId : option string)
    (l : list Student) : Z :=
  Z.of_nat (length (List.filter
                      (fun s => activeIn groupId s
                                && negb (excluded excludeStudentId s)) l)).

(** [countActiveStudentsForGroup(groupId, { excludeStudentId })]: the
    number of students that hold an active membership in the group the
    text names, the excluded student apart. *)
Definition countActiveStudentsForGroup (groupId : string)
    (excludeStudentId : option string) : M Z :=
  call CStudent_countDocuments (fun w =>
    (activeSeats (ObjectId groupId) excludeStudentId (Students w), w)).

(** The [$unwind], [$match] and [$group] stages of the two aggregations:
    the active membership rows that point at one of the ObjectIds [ids],
    counted by group; a count is filed under the text of the group's
    [_id]. *)
Definition tally (ids : list string) (l : list Student) : gmap string Z :=
  foldl (fun (m : gmap string Z) (groupId : string) =>
           <[groupId := default 0 (m !! groupId) + 1]> m)
        ∅
        (flat_map (fun s =>
                     map group
                         (List.filter
                            (fun groupItem =>
                               includes ids (group groupItem)
                               && isActive (m_status groupItem))
                            (groups s))) l).

(** [countActiveMembershipsByGroupIds(groupIds, { excludeStudentId })]. *)
Definition countActiveMembershipsByGroupIds (groupIds : list string)
    (excludeStudentId : option string) : M (gmap string Z) :=
  match groupIds with
  | [] => ret ∅
  | _ =>
      call CStudent_aggregate (fun w =>
        (tally (map ObjectId groupIds)
               (List.filter (fun s => negb (excluded excludeStudentId s))
                            (Students w)), w))
  end.

(** [getActiveStudentCountsByGroupIds(groupIds)]. *)
Definition getActiveStudentCountsByGroupIds (groupIds : list string)
    : M (gmap string Z) :=
  match groupIds with
  | [] => ret ∅
  | _ =>
      call CStudent_aggregate (fun w =>
        (tally (map ObjectId
                    (List.filter (fun id => negb (String.eqb id "")) groupIds))
               (Students w), w))
  end.

(** [normalizeObjectIdArray(values)]: the ObjectIds of the valid texts, a
    text that was seen before left out. *)
Fixpoint normalizeObjectIdArray_from (seen values : list string)
    : list string :=
  match values with
  | [] => []
  | value :: rest =>
      let id := trim value in
      if String.eqb id "" || negb (isValidObjectId id) || includes seen id
      then normalizeObjectIdArray_from seen rest
      else ObjectId id :: normalizeObjectIdArray_from (id :: seen) rest
  end.

Definition normalizeObjectIdArray (values : list string) : list string :=
  normalizeObjectIdArray_from [] values.

(** [syncGroupStudentLinks({ studentId, previousGroupIds, nextGroupIds })]:
    the student is added to the mirror list of every group it joined and
    removed from that of every group it left.  The ids of a mirror list are
    compared with the text [studentId] as it is. *)
Definition syncGroupStudentLinks (studentId : string)
    (previousGroupIds nextGroupIds : list string) : M unit :=
  let previousSet := Set_of previousGroupIds in
  let nextSet := Set_of nextGroupIds in
  let groupsToAdd :=
    List.filter (fun groupId => negb (includes previousSet groupId)) nextSet in
  let groupsToRemove :=
    List.filter (fun groupId => negb (includes nextSet groupId)) previousSet in
  (match groupsToAdd with
   | [] => ret tt
   | _ =>
       found <- Group_find groupsToAdd ;;
       let updates :=
         map (fun g =>
                let currentStudents := normalizeObjectIdArray (students g) in
                (g_id g,
                 if includes currentStudents studentId then currentStudents
                 else currentStudents ++ [ObjectId studentId])) found in
       match updates with
       | [] => ret tt
       | _ => Group_bulkWrite updates
       end
   end) ;;;
  match groupsToRemove with
  | [] => ret tt
  | _ =>
      found <- Group_find groupsToRemove ;;
      let updates :=
        map (fun g =>
               (g_id g,
                List.filter (fun id => negb (String.eqb id studentId))
                            (normalizeObjectIdArray (students g)))) found in
      match updates with
      | [] => ret tt
      | _ => Group_bulkWrite updates
      end
  end.

(** [ensureStudentInGroupList]: [$setUnion] of the mirror list with the
    student, its elements listed in order of first occurrence. *)
Definition ensureStudentInGroupList (groupId studentId : string) : M unit :=
  let normalizedStudentId := ObjectId studentId in
  Group_updateOne groupId
    (fun g => with_students (Set_of (students g ++ [normalizedStudentId])) g).

(** [removeStudentFromGroupList]: [$filter] of the mirror list. *)
Definition removeStudentFromGroupList (groupId studentId : string) : M unit :=
  let normalizedStudentId := ObjectId studentId in
  Group_updateOne groupId
    (fun g => with_students
                (List.filter (fun studentRef =>
                                negb (String.eqb studentRef
                                                 normalizedStudentId))
                             (students g)) g).

(** ** student.controller.js *)

(** [req.body.groups] once a text body has gone through [JSON.parse] (a
    text that is not JSON counts as the array of that one text): absent,
    an array, or something that is not an array.  An array item that is not
    a text renders as a text that is no ObjectId, so the items are texts. *)
Inductive groups_input : Type :=
| GroupsUndefined
| GroupsArray (items : list string)
| GroupsNotArray.

(** A parser's answer: [undefined], [null], or a value. *)
Inductive parsed (A : Type) : Type :=
| Undefined
| Null
| Value (a : A).
Arguments Undefined {A}.
Arguments Null {A}.
Arguments Value {A} a.

(** [parseGroupIds(input)]. *)
Definition parseGroupIds (input : groups_input) : parsed (list string) :=
  match input with
  | GroupsUndefined => Undefined
  | GroupsNotArray => Null
  | GroupsArray items =>
      let normalizedIds := map trim items in
      if forallb (fun groupId => negb (String.eqb groupId "")
                                 && isValidObjectId groupId) normalizedIds
      then
        let uniqueIds := Set_of normalizedIds in
        if (length uniqueIds =? length normalizedIds)%nat
        then Value uniqueIds
        else Null
      else Null
  end.

(** [toStudentGroupMemberships(groupIds)], each row as the document takes
    it: [group] cast to an ObjectId, [joinedAt] set by the schema default
    [Date.now]. *)
Definition toStudentGroupMemberships (t : Z) (groupIds : list string)
    : list Membership :=
  map (fun groupId => {| group := ObjectId groupId; m_status := MActive;
                         joinedAt := t; m_note := None |}) groupIds.

(** [new Map(docs.map(group => [group._id.toString(), group]))]. *)
Definition groupsById (docs : list Group) : gmap string Group :=
  foldl (fun (m : gmap string Group) g => <[g_id g := g]> m) ∅ docs.

Definition closed (g : Group) : bool :=
  match g_status g with
  | GCompleted | GArchived => true
  | _ => false
  end.

(** [validateGroupAssignments(groupIds, { excludeStudentId })]: [None] when
    every group may take the student, the status code and message of the
    refusal otherwise. *)
Definition validateGroupAssignments (groupIds : list string)
    (excludeStudentId : option string) : M (option (Z * Message)) :=
  match groupIds with
  | [] => ret None
  | _ =>
      groupDocs <- Group_find groupIds ;;
      if negb (length groupDocs =? length groupIds)%nat
      then
        let found := map g_id groupDocs in
        let missing :=
          List.filter (fun groupId => negb (includes found groupId)) groupIds in
        ret (Some (400, Text ("One or more groups were not found: "
                              +:+ join ", " missing)))
      else
        let byId := groupsById groupDocs in
        let activeGroupIds := Set_of groupIds in
        if existsb (fun activeGroupId =>
                      match byId !! activeGroupId with
                      | Some linkedGroup => closed linkedGroup
                      | None => false
                      end) activeGroupIds
        then ret (Some (400, Text "Cannot attach an active student membership to completed or archived groups"))
        else
          activeCounts <-
            countActiveMembershipsByGroupIds activeGroupIds excludeStudentId ;;
          match
            List.find (fun activeGroupId =>
                         match byId !! activeGroupId with
                         | Some linkedGroup =>
                             js_le (maxStudents linkedGroup)
                                   (default 0 (activeCounts !! activeGroupId))
                         | None => false
                         end) activeGroupIds
          with
          | Some activeGroupId =>
              ret (Some (409, Text ("Group " +:+ activeGroupId
                                    +:+ " has reached maxStudents limit")))
          | None => ret None
          end
  end.

(** The body of a create request.  A text field is [None] when the body
    does not hold it; [c_birthDate] is the time value of
    [new Date(req.body.birthDate)]. *)
Record CreateBody : Type := {
  c_fullname : option string;
  c_studentPhone : option string;
  c_parentPhone : option string;
  c_gender : option string;
  c_password : option string;
  c_note : option string;
  c_birthDate : Date;
  c_groups : groups_input;
}.

(** The checks of [createStudent] on the scalar fields, in order: the
    response of the first that fails. *)
Definition createStudent_scalars (body : CreateBody) : option Response :=
  let fullname := trim (or_empty (c_fullname body)) in
  let studentPhone := trim (or_empty (c_studentPhone body)) in
  let parentPhone := trim (or_empty (c_parentPhone body)) in
  let gender := toLowerCase (trim (or_empty (c_gender body))) in
  let password := or_empty (c_password body) in
  if String.eqb fullname "" || String.eqb studentPhone ""
     || String.eqb parentPhone "" || String.eqb gender ""
     || negb (bool_decide (is_Some (c_birthDate body)))
     || String.eqb password ""
  then Some (json 400 "fullname, studentPhone, parentPhone, gender, birthDate and password are required")
  else if negb (includes ["male"; "female"] gender)
  then Some (json 400 "Gender must be male or female")
  else if negb (PHONE_PATTERN_test studentPhone)
          || negb (PHONE_PATTERN_test parentPhone)
  then Some (json 400 "Phone must contain 7-15 digits")
  else if (String.length password <? 8)%nat
  then Some (json 400 "Password must be at least 8 characters")
  else None.

(** The answer to a failed [save] or [create] in the handlers that map a
    duplicate key to 409. *)
Definition save_failed_student (e : save_error) : Response :=
  match e with
  | DuplicateKey => json 409 "Student with this phone number already exists"
  | ValidationError errors =>
      json 400 (default (Text "Validation failed") (head errors))
  end.

(** [exports.createStudent], after its balance-reset check. *)
Definition createStudent_checked (amb : Ambient) (body : CreateBody) : M Response :=
  match createStudent_scalars body with
  | Some refusal => ret refusal
  | None =>
      let parsedGroups := parseGroupIds (c_groups body) in
      match parsedGroups with
      | Null =>
          ret (json 400 "groups must be an array of group ObjectId strings")
      | _ =>
          groupValidation <-
            match parsedGroups with
            | Value ids => validateGroupAssignments ids None
            | _ => ret None
            end ;;
          match groupValidation with
          | Some (code, msg) => ret (json code msg)
          | None =>
              let studentPhone := trim (or_empty (c_studentPhone body)) in
              existingStudent <- Student_findOne studentPhone ;;
              match existingStudent with
              | Some _ =>
                  ret (json 409 "Student with this phone number already exists")
              | None =>
                  let ids :=
                    match parsedGroups with Value ids => ids | _ => [] end in
                  created <-
                    Student_create amb
                      {| s_id := freshId amb;
                         fullname := trim (or_empty (c_fullname body));
                         studentPhone := studentPhone;
                         parentPhone := trim (or_empty (c_parentPhone body));
                         groupAttached := false;
                         gender :=
                           toLowerCase (trim (or_empty (c_gender body)));
                         birthDate := default 0 (c_birthDate body);
                         s_note :=
                           match c_note body with
                           | Some n => if String.eqb n "" then None
                                       else Some (trim n)
                           | None => None
                           end;
                         password :=
                           Some (bcrypt_hash amb (or_empty (c_password body)));
                         balance := 0;
                         balanceResetAt := Some (now amb);
                         coinBalance := 0;
                         groups := toStudentGroupMemberships (now amb) ids |} ;;
                  match created with
                  | inl e => ret (save_failed_student e)
                  | inr student =>
                      match ids with
                      | [] => ret tt
                      | _ => syncGroupStudentLinks (s_id student) [] ids
                      end ;;;
                      ret {| statusCode := 201;
                             message := "Student created successfully";
                             payload := StudentPayload (Some student) |}
                  end
              end
          end
      end
  end.

(** [exports.createStudent]. *)
Definition createStudent (amb : Ambient) (body : CreateBody) : M Response :=
  runBalanceResetSafely amb ;;; createStudent_checked amb body.

(** The body of an update request: each field is [None] when the body does
    not hold it.  [u_birthDate] is the time value of
    [new Date(req.body.birthDate)], [u_balance] and [u_coinBalance] are
    [Number(req.body.balance)] and [Number(req.body.coinBalance)]. *)
Record UpdateBody : Type := {
  u_fullname : option string;
  u_studentPhone : option string;
  u_parentPhone : option string;
  u_gender : option string;
  u_birthDate : option Date;
  u_note : option string;
  u_balance : option jsnum;
  u_coinBalance : option jsnum;
  u_password : option string;
  u_groups : groups_input;
}.

(** [updatePayload]: the fields [Object.assign] copies onto the document. *)
Record UpdatePayload : Type := {
  p_fullname : option string;
  p_studentPhone : option string;
  p_parentPhone : option string;
  p_gender : option string;
  p_birthDate : option Z;
  p_note : option string;
  p_balance : option jsnum;
  p_coinBalance : option jsnum;
  p_password : option string;
  p_groups : option (list Membership);
}.

Definition with_payload_groups (gs : option (list Membership))
    (p : UpdatePayload) : UpdatePayload :=
  {| p_fullname := p_fullname p; p_studentPhone := p_studentPhone p;
     p_parentPhone := p_parentPhone p; p_gender := p_gender p;
     p_birthDate := p_birthDate p; p_note := p_note p;
     p_balance := p_balance p; p_coinBalance := p_coinBalance p;
     p_password := p_password p; p_groups := gs |}.

(** The number, unless [!Number.isFinite(x) || x < 0]. *)
Definition non_negative (x : jsnum) : option jsnum :=
  if negb (Number_isFinite x) || js_lt x 0 then None else Some x.

(** A field of the body that is checked when present: the refusal, or the
    value to assign. *)
Definition field {A B : Type} (input : option A) (parse : A -> option B)
    (refusal : Response) (k : option B -> Response + UpdatePayload)
    : Response + UpdatePayload :=
  match input with
  | None => k None
  | Some a =>
      match parse a with
      | None => inl refusal
      | Some b => k (Some b)
      end
  end.

(** The part of [updateStudent] that reads the scalar fields of the body,
    in order: the response of the first check that fails, or the payload
    without its groups. *)
Definition updateStudent_scalars (amb : Ambient) (body : UpdateBody)
    : Response + UpdatePayload :=
  field (u_fullname body)
    (fun v => let fullname := trim v in
              if String.eqb fullname "" then None else Some fullname)
    (json 400 "fullname cannot be empty") (fun fullname =>
  field (u_studentPhone body)
    (fun v => let phone := trim v in
              if PHONE_PATTERN_test phone then Some phone else None)
    (json 400 "Invalid studentPhone format") (fun studentPhone =>
  field (u_parentPhone body)
    (fun v => let phone := trim v in
              if PHONE_PATTERN_test phone then Some phone else None)
    (json 400 "Invalid parentPhone format") (fun parentPhone =>
  field (u_gender body)
    (fun v => let gender := toLowerCase (trim v) in
              if includes ["male"; "female"] gender then Some gender else None)
    (json 400 "Gender must be male or female") (fun gender =>
  field (u_birthDate body) (fun v : Date => v)
    (json 400 "Invalid birthDate value") (fun birthDate =>
  field (u_note body)
    (fun v => Some (if String.eqb v "" then "" else trim v))
    (json 400 "") (fun note =>
  field (u_balance body) non_negative
    (json 400 "balance must be a non-negative number") (fun balance =>
  field (u_coinBalance body) non_negative
    (json 400 "coinBalance must be a non-negative number") (fun coinBalance =>
  field (u_password body)
    (fun v => if (String.length v <? 8)%nat then None
              else Some (bcrypt_hash amb v))
    (json 400 "Password must be at least 8 characters") (fun password =>
  inr {| p_fullname := fullname; p_studentPhone := studentPhone;
         p_parentPhone := parentPhone; p_gender := gender;
         p_birthDate := birthDate; p_note := note; p_balance := balance;
         p_coinBalance := coinBalance; p_password := password;
         p_groups := None |}))))))))).

(** [Object.assign(student, updatePayload)]. *)
Definition assign (p : UpdatePayload) (s : Student) : Student :=
  {| s_id := s_id s;
     fullname := default (fullname s) (p_fullname p);
     studentPhone := default (studentPhone s) (p_studentPhone p);
     parentPhone := default (parentPhone s) (p_parentPhone p);
     groupAttached := groupAttached s;
     gender := default (gender s) (p_gender p);
     birthDate := default (birthDate s) (p_birthDate p);
     s_note := match p_note p with Some n => Some n | None => s_note s end;
     password := match p_password p with
                 | Some h => Some h
                 | None => password s
                 end;
     balance := default (balance s) (p_balance p);
     balanceResetAt := balanceResetAt s;
     coinBalance := default (coinBalance s) (p_coinBalance p);
     groups := default (groups s) (p_groups p) |}.

(** [exports.updateStudent], after its balance-reset check. *)
Definition updateStudent_checked (amb : Ambient) (studentId : string)
    (body : UpdateBody) : M Response :=
  if negb (isValidObjectId studentId)
  then ret (json 400 "Invalid student id")
  else
    match updateStudent_scalars amb body with
    | inl refusal => ret refusal
    | inr scalars =>
        let parsedGroups := parseGroupIds (u_groups body) in
        match parsedGroups with
        | Null =>
            ret (json 400 "groups must be an array of group ObjectId strings")
        | _ =>
            groupValidation <-
              match parsedGroups with
              | Value ids => validateGroupAssignments ids (Some studentId)
              | _ => ret None
              end ;;
            match groupValidation with
            | Some (code, msg) => ret (json code msg)
            | None =>
                let updatePayload :=
                  match parsedGroups with
                  | Value ids =>
                      with_payload_groups
                        (Some (toStudentGroupMemberships (now amb) ids))
                        scalars
                  | _ => scalars
                  end in
                found <- Student_findById studentId ;;
                match found with
                | None => ret (json 404 "Student not found")
                | Some student =>
                    let previousGroupIds := map group (groups student) in
                    saved <- Student_save amb (assign updatePayload student) ;;
                    match saved with
                    | inl e => ret (save_failed_student e)
                    | inr student =>
                        match parsedGroups with
                        | Undefined => ret tt
                        | _ =>
                            syncGroupStudentLinks studentId previousGroupIds
                              (map group (groups student))
                        end ;;;
                        updatedStudent <- Student_findById studentId ;;
                        ret {| statusCode := 200;
                               message := "Student updated successfully";
                               payload := StudentPayload updatedStudent |}
                    end
                end
            end
        end
    end.

(** [exports.updateStudent]. *)
Definition updateStudent (amb : Ambient) (studentId : string)
    (body : UpdateBody) : M Response :=
  runBalanceResetSafely amb ;;; updateStudent_checked amb studentId body.

(** The body of a reward request: [r_amount] is [Number(req.body.amount)]. *)
Record RewardBody : Type := {
  r_amount : jsnum;
  r_note : option string;
}.

(** The answer to a failed [save] in the handlers that know no duplicate
    key: a validation error is a 400, anything else a 500. *)
Definition save_failed (e : save_error) : Response :=
  match e with
  | DuplicateKey => json 500 "Internal server error"
  | ValidationError errors =>
      json 400 (default (Text "Validation failed") (head errors))
  end.

(** [exports.rewardStudentCoins], after its balance-reset check. *)
Definition rewardStudentCoins_checked (amb : Ambient) (studentId : string)
    (body : RewardBody) : M Response :=
  if negb (isValidObjectId studentId)
  then ret (json 400 "Invalid student id")
  else
    match r_amount body with
    | JNum amount =>
        if amount <=? 0
        then ret (json 400 "amount must be a positive integer")
        else
          let note := trim <$> r_note body in
          if too_long 300 note
          then ret (json 400 "note must be 300 characters or less")
          else
            found <- Student_findById studentId ;;
            match found with
            | None => ret (json 404 "Student not found")
            | Some student =>
                saved <-
                  Student_save amb
                    (with_coinBalance (js_add (coinBalance student) amount)
                                      student) ;;
                match saved with
                | inl e => ret (save_failed e)
                | inr student =>
                    ret {| statusCode := 200;
                           message :=
                             "Student rewarded with coins successfully";
                           payload :=
                             RewardPayload amount
                               (match note with
                                | Some n => if String.eqb n "" then None
                                            else Some n
                                | None => None
                                end) student |}
                end
            end
    | _ => ret (json 400 "amount must be a positive integer")
    end.

(** [exports.rewardStudentCoins]. *)
Definition rewardStudentCoins (amb : Ambient) (studentId : string)
    (body : RewardBody) : M Response :=
  runBalanceResetSafely amb ;;; rewardStudentCoins_checked amb studentId body.

(** [exports.deleteStudent], after its balance-reset check. *)
Definition deleteStudent_checked (amb : Ambient) (studentId : string) : M Response :=
  if negb (isValidObjectId studentId)
  then ret (json 400 "Invalid student id")
  else
    deletedStudent <- Student_findByIdAndDelete studentId ;;
    match deletedStudent with
    | None => ret (json 404 "Student not found")
    | Some deletedStudent =>
        let previousGroupIds := map group (groups deletedStudent) in
        match previousGroupIds with
        | [] => ret tt
        | _ => syncGroupStudentLinks studentId previousGroupIds []
        end ;;;
        ret (json 200 "Student deleted successfully")
    end.

(** [exports.deleteStudent]. *)
Definition deleteStudent (amb : Ambient) (studentId : string) : M Response :=
  runBalanceResetSafely amb ;;; deleteStudent_checked amb studentId.

(** ** group.controller.js *)

Definition COINS_PER_ACTIVE_STUDENT : Z := 200.

(** The text of a membership status, and the status a text names. *)
Definition status_text (st : MemberStatus) : string :=
  match st with
  | MActive => "active"
  | MPaused => "paused"
  | MCompleted => "completed"
  | MLeft => "left"
  end.

Definition STUDENT_GROUP_STATUSES : list MemberStatus :=
  [MActive; MPaused; MCompleted; MLeft].

(** [parseGroupMemberStatus(input)]: the text, [active] when it is absent
    or empty, trimmed and lowercased, when it is one of
    [STUDENT_GROUP_STATUSES]. *)
Definition parseGroupMemberStatus (input : option string)
    : option MemberStatus :=
  let text := match input with
              | None | Some "" => "active"
              | Some s => s
              end in
  let status := toLowerCase (trim text) in
  List.find (fun st => String.eqb (status_text st) status)
            STUDENT_GROUP_STATUSES.

(** The body of an attach request.  [b_joinedAt] is [None] when the body
    holds no [joinedAt] (or [null], or the empty text), and the parsed
    date otherwise. *)
Record MembershipBody : Type := {
  b_status : option string;
  b_joinedAt : option Date;
  b_note : option string;
}.

Record MembershipPayload_ : Type := {
  mp_status : MemberStatus;
  mp_joinedAt : option Z;
  mp_note : option string;
}.

(** [parseGroupMembershipPayload(body)]: the error text, or the payload. *)
Definition parseGroupMembershipPayload (body : MembershipBody)
    : string + MembershipPayload_ :=
  match parseGroupMemberStatus (b_status body) with
  | None => inl "status must be one of active, paused, completed, left"
  | Some status =>
      match b_joinedAt body with
      | Some None => inl "Invalid joinedAt value"
      | joinedAt =>
          inr {| mp_status := status;
                 mp_joinedAt := mjoin joinedAt;
                 mp_note := trim <$> b_note body |}
      end
  end.

Definition hasGroup (groupId : string) (groupItem : Membership) : bool :=
  String.eqb (group groupItem) groupId.


(** The body as [attachStudentToGroup] hands it to the parser: a missing
    status is the status of the existing membership, or [active]. *)
Definition attach_body (body : MembershipBody)
    (existingMembership : option Membership) : MembershipBody :=
  {| b_status :=
       match b_status body with
       | None =>
           Some (match existingMembership with
                 | Some m => status_text (m_status m)
                 | None => "active"
                 end)
       | Some s => Some s
       end;
     b_joinedAt := b_joinedAt body;
     b_note := b_note body |}.

(** [nextMembership] of [attachStudentToGroup], as the document takes it:
    [group] cast to an ObjectId. *)
Definition nextMembership (t : Z) (groupId : string)
    (membershipPayload : MembershipPayload_)
    (existingMembership : option Membership) : Membership :=
  {| group := ObjectId groupId;
     m_status := mp_status membershipPayload;
     joinedAt :=
       match mp_joinedAt membershipPayload with
       | Some j => j
       | None =>
           match existingMembership with
           | Some m => joinedAt m
           | None => t
           end
       end;
     m_note :=
       match mp_note membershipPayload with
       | Some n => Some n
       | None => existingMembership ≫= m_note
       end |}.



(** [exports.attachStudentToGroup], after its balance-reset check. *)
Definition attachStudentToGroup_checked (amb : Ambient) (groupId studentId : string)
    (body : MembershipBody) : M Response :=
  if negb (isValidObjectId groupId) then ret (json 400 "Invalid group id")
  else if negb (isValidObjectId studentId)
  then ret (json 400 "Invalid student id")
  else
    foundGroup <- Group_findById groupId ;;
    foundStudent <- Student_findById studentId ;;
    match foundGroup, foundStudent with
    | None, _ => ret (json 404 "Group not found")
    | Some _, None => ret (json 404 "Student not found")
    | Some g, Some student =>
        let membershipIndex := findIndex (hasGroup groupId) (groups student) in
        let existingMembership :=
          membershipIndex ≫= (fun i => groups student !! i) in
        match parseGroupMembershipPayload
                (attach_body body existingMembership) with
        | inl error => ret (json 400 error)
        | inr membershipPayload =>
            guard <-
              (if isActive (mp_status membershipPayload)
               then
                 if closed g
                 then ret (Some (json 400 "Cannot add active students to completed or archived groups"))
                 else
                   let isActivatingNewSeat :=
                     match existingMembership with
                     | None => true
                     | Some m => negb (isActive (m_status m))
                     end in
                   if isActivatingNewSeat
                   then
                     activeStudentsCount <-
                       countActiveStudentsForGroup groupId (Some studentId) ;;
                     if js_le (maxStudents g) activeStudentsCount
                     then ret (Some (json 409 "Group has reached maxStudents limit"))
                     else ret None
                   else ret None
               else ret None) ;;
            match guard with
            | Some refusal => ret refusal
            | None =>
                let next :=
                  nextMembership (now amb) groupId membershipPayload
                                 existingMembership in
                let nextGroups :=
                  match membershipIndex with
                  | None => groups student ++ [next]
                  | Some i => <[i := next]> (groups student)
                  end in
                saved <- Student_save amb (with_groups nextGroups student) ;;
                match saved with
                | inl e => ret (save_failed e)
                | inr _ =>
                    ensureStudentInGroupList groupId studentId ;;;
                    updatedStudent <- Student_findById studentId ;;
                    countsMap <- getActiveStudentCountsByGroupIds [groupId] ;;
                    let studentsCount := default 0 (countsMap !! groupId) in
                    ret {| statusCode :=
                             match membershipIndex with
                             | None => 201
                             | Some _ => 200
                             end;
                           message :=
                             match membershipIndex with
                             | None =>
                                 "Student attached to group successfully"
                             | Some _ =>
                                 "Student group membership updated successfully"
                             end;
                           payload :=
                             MembershipPayload (g_id g) studentsCount
                               (studentsCount * COINS_PER_ACTIVE_STUDENT)
                               updatedStudent |}
                end
            end
        end
    end.

(** [exports.attachStudentToGroup]. *)
Definition attachStudentToGroup (amb : Ambient) (groupId studentId : string)
    (body : MembershipBody) : M Response :=
  runBalanceResetSafely amb ;;; attachStudentToGroup_checked amb groupId studentId body.

(** [exports.detachStudentFromGroup], after its balance-reset check. *)
Definition detachStudentFromGroup_checked (amb : Ambient) (groupId studentId : string)
    : M Response :=
  if negb (isValidObjectId groupId) then ret (json 400 "Invalid group id")
  else if negb (isValidObjectId studentId)
  then ret (json 400 "Invalid student id")
  else
    foundGroup <- Group_findById groupId ;;
    foundStudent <- Student_findById studentId ;;
    match foundGroup, foundStudent with
    | None, _ => ret (json 404 "Group not found")
    | Some _, None => ret (json 404 "Student not found")
    | Some g, Some student =>
        let previousGroupsCount := length (groups student) in
        let remaining :=
          List.filter (fun groupItem => negb (hasGroup groupId groupItem))
                      (groups student) in
        if (length remaining =? previousGroupsCount)%nat
        then ret (json 404 "Student is not attached to this group")
        else
          saved <- Student_save amb (with_groups remaining student) ;;
          match saved with
          | inl _ => ret (json 500 "Internal server error")
          | inr _ =>
              removeStudentFromGroupList groupId studentId ;;;
              updatedStudent <- Student_findById studentId ;;
              countsMap <- getActiveStudentCountsByGroupIds [groupId] ;;
              let studentsCount := default 0 (countsMap !! groupId) in
              ret {| statusCode := 200;
                     message := "Student detached from group successfully";
                     payload :=
                       MembershipPayload (g_id g) studentsCount
                         (studentsCount * COINS_PER_ACTIVE_STUDENT)
                         updatedStudent |}
          end
    end.

(** [exports.detachStudentFromGroup]. *)
Definition detachStudentFromGroup (amb : Ambient) (groupId studentId : string)
    : M Response :=
  runBalanceResetSafely amb ;;; detachStudentFromGroup_checked amb groupId studentId.

(** The two bulk updates of [deleteGroup] on one affected student: [$pull]
    of the membership rows of the group the text names, then
    [groupAttached] set to whether an active row remains. *)
Definition pullGroup (groupId : string) (s : Student) : Student :=
  with_groups
    (List.filter (fun groupItem => negb (hasGroup (ObjectId groupId) groupItem))
                 (groups s)) s.

Definition recomputeGroupAttached (s : Student) : Student :=
  with_groupAttached
    (0 <? length (List.filter (fun groupItem => isActive (m_status groupItem))
                              (groups s)))%nat s.

(** [exports.deleteGroup], after its balance-reset check. *)
Definition deleteGroup_checked (amb : Ambient) (groupId : string) : M Response :=
  if negb (isValidObjectId groupId) then ret (json 400 "Invalid group id")
  else
    deletedGroup <- Group_findByIdAndDelete groupId ;;
    match deletedGroup with
    | None => ret (json 404 "Group not found")
    | Some _ =>
        affectedStudents <-
          call CStudent_find (fun w =>
            (List.filter (fun s => existsb (hasGroup (ObjectId groupId))
                                           (groups s))
                         (Students w), w)) ;;
        match affectedStudents with
        | [] => ret tt
        | _ =>
            let affectedStudentIds := map s_id affectedStudents in
            Student_updateMany
              (fun s => includes affectedStudentIds (s_id s))
              (pullGroup groupId) ;;;
            Student_updateMany
              (fun s => includes affectedStudentIds (s_id s))
              recomputeGroupAttached ;;;
            ret tt
        end ;;;
        ret (json 200 "Group deleted successfully")
    end.

(** [exports.deleteGroup]. *)
Definition deleteGroup (amb : Ambient) (groupId : string) : M Response :=
  runBalanceResetSafely amb ;;; deleteGroup_checked amb groupId.

(** *** Attendance *)

(** One item of [req.body.records], or [None] for an item that is not an
    object.  [rr_student] is [String(item.student || '').trim()]. *)
Record RawRecord : Type := {
  rr_student : string;
  rr_status : option string;
  rr_note : option string;
}.

(** One parsed record: [{ student, status, note }]. *)
Record AttendanceRecord : Type := {
  ar_student : string;
  ar_status : AttendanceStatus;
  ar_note : option string;
}.

(** [req.body.records] once a text body has gone through
    [parseJsonIfNeeded]. *)
Inductive records_input : Type :=
| RecordsUndefined
| RecordsNotArray
| RecordsArray (items : list (option RawRecord)).

Definition attendance_status_text (st : AttendanceStatus) : string :=
  match st with
  | Present => "present"
  | Absent => "absent"
  | Late => "late"
  | Excused => "excused"
  end.

Definition ATTENDANCE_STATUSES : list AttendanceStatus :=
  [Present; Absent; Late; Excused].

(** One round of the loop of [parseAttendanceRecords]. *)
Definition parseAttendanceRecord (item : option RawRecord)
    : option AttendanceRecord :=
  match item with
  | None => None
  | Some raw =>
      let student := trim (rr_student raw) in
      let status :=
        toLowerCase (trim (match rr_status raw with
                           | None | Some "" => "present"
                           | Some s => s
                           end)) in
      if isValidObjectId student
      then
        match List.find (fun st => String.eqb (attendance_status_text st)
                                              status) ATTENDANCE_STATUSES with
        | Some st => Some {| ar_student := student; ar_status := st;
                             ar_note := trim <$> rr_note raw |}
        | None => None
        end
      else None
  end.

(** [parseAttendanceRecords(input)]. *)
Definition parseAttendanceRecords (input : records_input)
    : parsed (list AttendanceRecord) :=
  match input with
  | RecordsUndefined => Undefined
  | RecordsNotArray | RecordsArray [] => Null
  | RecordsArray items =>
      match mapM parseAttendanceRecord items with
      | Some normalized => Value normalized
      | None => Null
      end
  end.

(** The test of the [findIndex] in [upsertGroupAttendance]. *)
Definition sameStudentAndDay (studentId dateKey : string)
    (item : AttendanceEntry) : bool :=
  String.eqb (student item) studentId
  && String.eqb (toDateKey (Some (date item))) dateKey.

(** [payload] of the loop of [upsertGroupAttendance], as the log takes
    it: the entry written for a record, [student] cast to an ObjectId. *)
Definition attendancePayload (d : Z) (markedBy : option string)
    (record : AttendanceRecord) : AttendanceEntry :=
  {| student := ObjectId (ar_student record); date := d;
     a_status := ar_status record; a_note := ar_note record;
     markedBy := markedBy |}.

(** One round of the loop of [upsertGroupAttendance]: the entry of the same
    student and day is replaced where it stands, or the record is pushed. *)
Definition upsertRecord (d : Z) (markedBy : option string)
    (log : list AttendanceEntry) (record : AttendanceRecord)
    : list AttendanceEntry :=
  let dateKey := toDateKey (Some d) in
  let recordIndex :=
    findIndex (sameStudentAndDay (ar_student record) dateKey) log in
  let payload := attendancePayload d markedBy record in
  match recordIndex with
  | None => log ++ [payload]
  | Some i => <[i := payload]> log
  end.

(** The key of the attendance validator: [student::dateKey]. *)
Definition attendanceKey (item : AttendanceEntry) : string :=
  student item +:+ "::" +:+ toDateKey (Some (date item)).

(** The validators of the modelled paths of [groupSchema]: no duplicate in
    [students], [maxStudents] between 1 and 100, no two attendance entries
    with the same key, and [maxlength: 300] on the note of an entry. *)
Definition validateGroup (g : Group) : list Message :=
  failures
    ([ ((length (Set_of (students g)) =? length (students g))%nat,
        Text "Students list cannot contain duplicates");
       (js_le 1 (maxStudents g), BuiltIn "maxStudents" "min");
       (js_le (maxStudents g) 100, BuiltIn "maxStudents" "max");
       ((length (Set_of (map attendanceKey (attendance g)))
         =? length (attendance g))%nat,
        Text "Attendance cannot contain duplicate records for the same student and day") ]
     ++ map (fun item => (negb (too_long 300 (a_note item)),
                          BuiltIn "attendance.note" "maxlength"))
            (attendance g)).

(** [group.save()]. *)
Definition Group_save (doc : Group) : M (save_error + Group) :=
  fun w =>
    match validateGroup doc with
    | (_ :: _) as errors => (inl (ValidationError errors), w, [])
    | [] =>
        (inr doc,
         with_Groups
           (map (fun g => if String.eqb (g_id g) (g_id doc) then doc else g)
                (Groups w)) w,
         [CGroup_save (g_id doc)])
    end.

(** The request of an attendance upsert: [a_date] is the time value of
    [new Date(req.body.date)], [a_user] is [req.user?._id]. *)
Record AttendanceBody : Type := {
  a_date : Date;
  a_records : records_input;
  a_user : option string;
}.

(** [exports.upsertGroupAttendance], after its balance-reset check. *)
Definition upsertGroupAttendance_checked (amb : Ambient) (groupId : string)
    (body : AttendanceBody) : M Response :=
  if negb (isValidObjectId groupId) then ret (json 400 "Invalid group id")
  else
    match a_date body, parseAttendanceRecords (a_records body) with
    | Some d, Value records =>
        let studentIds := map ar_student records in
        if negb (length (Set_of studentIds) =? length studentIds)%nat
        then ret (json 400 "records cannot contain duplicate students for the same request")
        else
          foundGroup <- Group_findById groupId ;;
          match foundGroup with
          | None => ret (json 404 "Group not found")
          | Some g =>
              activeMembers <-
                call CStudent_find (fun w =>
                  (List.filter (fun s => includes (map ObjectId studentIds)
                                                  (s_id s)
                                         && activeIn (ObjectId groupId) s)
                               (Students w), w)) ;;
              if negb (length activeMembers =? length studentIds)%nat
              then ret (json 400 "All attendance students must be active members of the group")
              else
                let log :=
                  foldl (upsertRecord d (a_user body)) (attendance g) records in
                saved <- Group_save (with_attendance log g) ;;
                match saved with
                | inl e => ret (save_failed e)
                | inr _ =>
                    updatedGroup <- Group_findById groupId ;;
                    countsMap <- getActiveStudentCountsByGroupIds [groupId] ;;
                    let studentsCount := default 0 (countsMap !! groupId) in
                    ret {| statusCode := 200;
                           message := "Attendance updated successfully";
                           payload :=
                             GroupPayload updatedGroup studentsCount
                               (studentsCount * COINS_PER_ACTIVE_STUDENT) |}
                end
          end
    | _, _ => ret (json 400 "date and records are required, records must be a non-empty array")
    end.

(** [exports.upsertGroupAttendance]. *)
Definition upsertGroupAttendance (amb : Ambient) (groupId : string)
    (body : AttendanceBody) : M Response :=
  runBalanceResetSafely amb ;;; upsertGroupAttendance_checked amb groupId body.

(** ** Serialisation of a student (student.model.js) *)

(** A value of a plain object. *)
#[local] Unset Elimination Schemes.
Inductive jsval : Type :=
| JSBool (b : bool)
| JSNumber (x : jsnum)
| JSString (s : string)
| JSDate (t : Z)
| JSArray (items : list jsval)
| JSObject (fields : list (string * jsval)).
#[local] Set Elimination Schemes.

Definition optional (key : string) (o : option jsval)
    (ret : gmap string jsval) : gmap string jsval :=
  match o with
  | Some v => <[key := v]> ret
  | None => ret
  end.

Definition membership_object (m : Membership) : jsval :=
  JSObject ([("group", JSString (group m));
             ("status", JSString (status_text (m_status m)));
             ("joinedAt", JSDate (joinedAt m))]
            ++ match m_note m with
               | Some n => [("note", JSString n)]
               | None => []
               end).

(** The plain object Mongoose builds from a student document before the
    transform runs: every field the document holds. *)
Definition plain_object (doc : Student) : gmap string jsval :=
  optional "note" (JSString <$> s_note doc)
  (optional "password" (JSString <$> password doc)
  (optional "balanceResetAt" (JSDate <$> balanceResetAt doc)
  (<["_id" := JSString (s_id doc)]>
  (<["fullname" := JSString (fullname doc)]>
  (<["studentPhone" := JSString (studentPhone doc)]>
  (<["parentPhone" := JSString (parentPhone doc)]>
  (<["groupAttached" := JSBool (groupAttached doc)]>
  (<["gender" := JSString (gender doc)]>
  (<["birthDate" := JSDate (birthDate doc)]>
  (<["balance" := JSNumber (balance doc)]>
  (<["coinBalance" := JSNumber (coinBalance doc)]>
  (<["groups" := JSArray (map membership_object (groups doc))]> ∅)))))))))))).

(** [hideSensitiveFields(doc, ret)] of the student schema. *)
Definition hideSensitiveFields (doc : Student) (ret : gmap string jsval)
    : gmap string jsval :=
  delete "balanceResetAt" (delete "password" ret).

(** [doc.toJSON()] and [doc.toObject()]: both are set to the transform. *)
Definition toJSON (doc : Student) : gmap string jsval :=
  hideSensitiveFields doc (plain_object doc).

Definition toObject (doc : Student) : gmap string jsval :=
  hideSensitiveFields doc (plain_object doc).

(** The students a response carries, as documents. *)
Definition payload_students (p : Payload) : list Student :=
  match p with
  | StudentPayload doc | MembershipPayload _ _ _ doc => option_list doc
  | RewardPayload _ _ doc => [doc]
  | NoPayload | GroupPayload _ _ _ => []
  end.

(** The students of a response as [res.json] sends them: each through
    [toJSON]. *)
Definition sent_students (r : Response) : list (gmap string jsval) :=
  map toJSON (payload_students (payload r)).

(** ** Sample data *)

Definition g1 : string := "65a000000000000000000001".
Definition studentA : string := "64b00000000000000000000a".
Definition studentB : string := "64b00000000000000000000b".
Definition studentC : string := "64b00000000000000000000c".

(** Group [g1] and student A, named with their digits in upper case. *)
Definition G1 : string := "65A000000000000000000001".
Definition STUDENT_A : string := "64B00000000000000000000A".

Definition sample_group (st : GroupStatus) (seats : Z) : Group :=
  {| g_id := g1; g_status := st; maxStudents := seats; students := [];
     attendance := [] |}.

Definition sample_member (id phone : string) (gs : list Membership)
    : Student :=
  {| s_id := id; fullname := "Student"; studentPhone := phone;
     parentPhone := "+998900000000";
     groupAttached := existsb (fun m => isActive (m_status m)) gs;
     gender := "male"; birthDate := 0; s_note := None; password := None;
     balance := 0; balanceResetAt := Some (100 * day); coinBalance := 500;
     groups := gs |}.


(** Group [g1] with two seats and no member; students A, B and C. *)
Definition two_seat_world : world :=
  {| Students := [sample_member studentA "+998901111111" [];
                  sample_member studentB "+998902222222" [];
                  sample_member studentC "+998903333333" []];
     Groups := [sample_group GPlanned 2];
     isResetRunning := false;
     lastResetRunAt := 100 * day |}.



Definition activate : MembershipBody :=
  {| b_status := Some "active"; b_joinedAt := None; b_note := None |}.

Definition at_noon : Ambient := sample_ambient (100 * day + 12 * 3600000).

(** The scenario: activate A, activate B, activate C, detach A, activate C
    again, each request on the world the one before left. *)
Definition scenario_step1 := attachStudentToGroup at_noon g1 studentA activate two_seat_world.
Definition scenario_step2 := attachStudentToGroup at_noon g1 studentB activate (world_of scenario_step1).
Definition scenario_step3 := attachStudentToGroup at_noon g1 studentC activate (world_of scenario_step2).
Definition scenario_step4 := detachStudentFromGroup at_noon g1 studentA (world_of scenario_step3).

(** A create request for a student in one group, and an update request
    that replaces the groups of a student. *)
Definition create_in (ids : list string) : CreateBody :=
  {| c_fullname := Some "Dilnoza Karimova";
     c_studentPhone := Some "+998907777777";
     c_parentPhone := Some "+998900000000";
     c_gender := Some "female";
     c_password := Some "s3cretpass";
     c_note := None;
     c_birthDate := Some 0;
     c_groups := GroupsArray ids |}.

Definition no_update : UpdateBody :=
  {| u_fullname := None; u_studentPhone := None; u_parentPhone := None;
     u_gender := None; u_birthDate := None; u_note := None;
     u_balance := None; u_coinBalance := None; u_password := None;
     u_groups := GroupsUndefined |}.

Definition update_groups (ids : list string) : UpdateBody :=
  {| u_fullname := None; u_studentPhone := None; u_parentPhone := None;
     u_gender := None; u_birthDate := None; u_note := None;
     u_balance := None; u_coinBalance := None; u_password := None;
     u_groups := GroupsArray ids |}.

Definition update_coins (c : jsnum) : UpdateBody :=
  {| u_fullname := None; u_studentPhone := None; u_parentPhone := None;
     u_gender := None; u_birthDate := None; u_note := None;
     u_balance := None; u_coinBalance := Some c; u_password := None;
     u_groups := GroupsUndefined |}.

Definition g2 : string := "65a000000000000000000002".

(** ** The server as a transition system *)

(** A request to one of the handlers, or a run of the balance-reset
    service alone: forced, as the timer runs it, or not, as the handlers
    that only read run it. *)
Inductive request : Type :=
| CreateStudent (body : CreateBody)
| UpdateStudent (studentId : string) (body : UpdateBody)
| RewardStudentCoins (studentId : string) (body : RewardBody)
| DeleteStudent (studentId : string)
| AttachStudentToGroup (groupId studentId : string) (body : MembershipBody)
| DetachStudentFromGroup (groupId studentId : string)
| DeleteGroup (groupId : string)
| UpsertGroupAttendance (groupId : string) (body : AttendanceBody)
| BalanceReset (force : bool).

(** The world a request leaves. *)
Definition serve (amb : Ambient) (req : request) (w : world) : world :=
  match req with
  | CreateStudent body => world_of (createStudent amb body w)
  | UpdateStudent studentId body =>
      world_of (updateStudent amb studentId body w)
  | RewardStudentCoins studentId body =>
      world_of (rewardStudentCoins amb studentId body w)
  | DeleteStudent studentId => world_of (deleteStudent amb studentId w)
  | AttachStudentToGroup groupId studentId body =>
      world_of (attachStudentToGroup amb groupId studentId body w)
  | DetachStudentFromGroup groupId studentId =>
      world_of (detachStudentFromGroup amb groupId studentId w)
  | DeleteGroup groupId => world_of (deleteGroup amb groupId w)
  | UpsertGroupAttendance groupId body =>
      world_of (upsertGroupAttendance amb groupId body w)
  | BalanceReset force =>
      world_of (resetStudentBalancesIfNeeded force amb w)
  end.

(** A step of the server: a request is served, or a group is created or
    edited, which changes the group collection only. *)
Inductive server_step : world -> world -> Prop :=
| step_request (amb : Ambient) (req : request) (w : world) :
    server_step w (serve amb req w)
| step_group_edit (gs : list Group) (w : world) :
    server_step w (with_Groups gs w).

Inductive reachable : world -> Prop :=
| reachable_initial : reachable initial_world
| reachable_step (w w' : world) :
    reachable w -> server_step w w' -> reachable w'.

(** [groupAttached] says whether some membership is active. *)
Definition attached_consistent (s : Student) : Prop :=
  groupAttached s = existsb (fun m => isActive (m_status m)) (groups s).

(** A computation that leaves the student collection as it was, and one
    that leaves a property true of every student of the collection. *)
Definition keeps_students {A : Type} (m : M A) : Prop :=
  forall w, Students (world_of (m w)) = Students w.

Definition preserves (P : Student -> Prop) {A : Type} (m : M A) : Prop :=
  forall w, Forall P (Students w) -> Forall P (Students (world_of (m w))).

(** A run of the server from its start: a student is created, group [g1]
    is created with two seats, and the student is attached to it. *)
Definition enrolled_world : world :=
  serve at_noon
    (AttachStudentToGroup g1 (freshId at_noon) activate)
    (with_Groups [sample_group GPlanned 2]
       (serve at_noon (CreateStudent (create_in [])) initial_world)).

(** [wp m w Q]: the run of [m] on [w] ends with a result and a world that
    satisfy [Q]. *)
Definition wp {A : Type} (m : M A) (w : world) (Q : A -> world -> Prop)
    : Prop :=
  Q (result_of (m w)) (world_of (m w)).

(** Every document stored in [l] is stored in [l'], and with the
    [coinBalance] it had unless its [_id] prints as [but]. *)
Definition coins_stay_but (but : option string) (l l' : list Student)
    : Prop :=
  forall id s,
    stored id l = Some s ->
    exists s', stored id l' = Some s'
               /\ (Some id <> but -> coinBalance s' = coinBalance s).

(** Every document stored in [l] is stored in [l'] with the [coinBalance]
    it had. *)
Definition coins_stay (l l' : list Student) : Prop :=
  coins_stay_but None l l'.

(** A student stored in both [l] and [l'] has in [l'] the [coinBalance] it
    had in [l]. *)
Definition coins_kept (l l' : list Student) : Prop :=
  forall id s s',
    stored id l = Some s -> stored id l' = Some s' ->
    coinBalance s' = coinBalance s.

(** A request that is neither a reward nor a student update supplying
    [coinBalance]. *)
Definition leaves_coins (req : request) : Prop :=
  match req with
  | UpdateStudent _ body => u_coinBalance body = None
  | RewardStudentCoins _ _ => False
  | _ => True
  end.

Definition reward_of (amount : Z) : RewardBody :=
  {| r_amount := JNum amount; r_note := None |}.


(** A roster for group [g1]: A present, B late. *)
Definition roster : records_input :=
  RecordsArray
    [Some {| rr_student := studentA; rr_status := None; rr_note := None |};
     Some {| rr_student := studentB; rr_status := Some "late";
             rr_note := Some "bus" |}].

Definition teacher1 : string := "507f1f77bcf86cd799439012".

Definition submission (user : string) : AttendanceBody :=
  {| a_date := Some (100 * day + 9 * 3600000); a_records := roster;
     a_user := Some user |}.




(** ** The scheduled job of the balance-reset service *)

(** What [startStudentBalanceResetJob] does besides returning the timer:
    the startup run [resetStudentBalancesIfNeeded({ force: true })], which
    is not awaited, the [setInterval] with its delay, and the [unref] of
    the timer. *)
Inductive job_effect : Type :=
| StartupRun
| SetInterval (after : jsnum)
| Unref.

(** [TIMEOUT_MAX] of the timers of Node: [2 ^ 31 - 1]. *)
Definition TIMEOUT_MAX : Z := 2147483647.

(** The delay Node gives the timer of [setInterval(callback, after)]:
    [after], unless [!(after >= 1 && after <= TIMEOUT_MAX)], when it
    is 1. *)
Definition timer_delay (after : jsnum) : jsnum :=
  if js_le 1 after && js_le after TIMEOUT_MAX then after else 1.

(** A timer: its delay in milliseconds, and whether it keeps the process
    alive. *)
Record Timeout : Type := {
  idleTimeout : jsnum;
  hasRef : bool;
}.

(** [intervalMs]: [Math.max(Number(process.env...) || DEFAULT_INTERVAL_MS,
    60 * 1000)]. *)
Definition intervalMs (STUDENT_BALANCE_RESET_INTERVAL_MS : jsnum) : jsnum :=
  Math_max (js_or STUDENT_BALANCE_RESET_INTERVAL_MS (JNum DEFAULT_INTERVAL_MS))
           (JNum (60 * 1000)).

(** [startStudentBalanceResetJob()] on the module-level [resetInterval]:
    the timer returned, which is also the new [resetInterval], and the
    effects. *)
Definition startStudentBalanceResetJob
    (STUDENT_BALANCE_RESET_INTERVAL_MS : jsnum)
    (resetInterval : option Timeout)
    : option Timeout * list job_effect :=
  match resetInterval with
  | Some timer => (Some timer, [])
  | None =>
      let intervalMs := intervalMs STUDENT_BALANCE_RESET_INTERVAL_MS in
      (Some {| idleTimeout := timer_delay intervalMs; hasRef := false |},
       [StartupRun; SetInterval intervalMs; Unref])
  end.

(** The groups after the [updateOne]s of a [bulkWrite] are applied in
    order. *)
Definition bulk_applied (updates : list (string * list string))
    (gs : list Group) : list Group :=
  foldl (fun gs u =>
           map (fun g => if String.eqb (g_id g) u.1
                         then with_students u.2 g else g) gs)
        gs updates.

(** A student document none of whose memberships repeats a group, as the
    [groups] validator of the schema requires. *)
Definition one_row_per_group (s : Student) : Prop :=
  groups_unique (groups s) = true.

(** The test of the second loop of [validateGroupAssignments] on a desired
    group: the group has no free seat. *)
Definition no_free_seat (excludeStudentId : option string) (w : world)
    (groupId : string) : bool :=
  match find_group groupId (Groups w) with
  | Some linkedGroup =>
      js_le (maxStudents linkedGroup)
            (activeSeats groupId excludeStudentId (Students w))
  | None => false
  end.

(** ** Authentication and permissions (auth.middleware.js, token.js) *)

(** [userSchema] (user.model.js).  [usr_refreshToken] is [None] for [null];
    [usr_location] holds the two coordinates. *)
Record User : Type := {
  usr_id : string;
  usr_fullname : string;
  usr_phone : string;
  usr_email : string;
  usr_refreshToken : option string;
  usr_dateOfBirth : Z;
  usr_gender : string;
  usr_password : string;
  usr_role : string;
  usr_company : option string;
  usr_location : option (jsnum * jsnum);
  usr_imgURL : string;
}.

(** What the token utilities compute from the environment and the clock:
    [None] stands for a throw, of [ensureSecret] or of [jwt.verify]. *)
Record TokenEnv : Type := {
  verifyAccessToken : string -> option string;
  verifyRefreshToken : string -> option string;
  generateAccessToken : string -> string -> option string;
  generateRefreshToken : string -> option string;
}.

(** The own properties of [ROLE_PERMISSIONS]. *)
Definition ROLE_PERMISSIONS : list (string * list string) :=
  [ ("teacher", ["profile:read"; "students:read"; "groups:read"]);
    ("supporteacher", ["profile:read"; "students:read"; "groups:read"]);
    ("headteacher",
     ["profile:read"; "users:read"; "students:read"; "students:manage";
      "groups:read"; "groups:manage"]);
    ("admin",
     ["profile:read"; "users:read"; "users:manage"; "users:manage_roles";
      "students:read"; "students:manage"; "groups:read"; "groups:manage"]);
    ("superadmin", ["*"]) ].

(** The properties a plain object inherits from [Object.prototype]:
    [ROLE_PERMISSIONS[role]] is then a function or an object, which has no
    [includes]. *)
Definition Object_prototype_properties : list string :=
  ["constructor"; "__defineGetter__"; "__defineSetter__"; "hasOwnProperty";
   "__lookupGetter__"; "__lookupSetter__"; "isPrototypeOf";
   "propertyIsEnumerable"; "toString"; "valueOf"; "__proto__";
   "toLocaleString"].

Definition own_property (key : string) (o : list (string * list string))
    : option (list string) :=
  snd <$> List.find (fun entry => String.eqb entry.1 key) o.

(** [hasPermission(role, permission)]. *)
Definition hasPermission (role permission : string) : outcome bool :=
  match own_property role ROLE_PERMISSIONS with
  | Some permissions =>
      Returned (includes permissions "*" || includes permissions permission)
  | None =>
      if includes Object_prototype_properties role then Thrown
      else Returned false
  end.

(** A line terminator, which [.] does not match. *)
Definition is_line_terminator (c : ascii) : bool :=
  let n := nat_of_ascii c in (n =? 10)%nat || (n =? 13)%nat.

(** [s] without the prefix, when it begins with it, letters compared
    without case. *)
Fixpoint strip_prefix_i (prefix s : string) : option string :=
  match prefix, s with
  | EmptyString, _ => Some s
  | String p pr, String c r =>
      if Ascii.eqb (lower_char p) (lower_char c) then strip_prefix_i pr r
      else None
  | String _ _, EmptyString => None
  end.

Fixpoint last_char (s : string) : option ascii :=
  match s with
  | EmptyString => None
  | String c EmptyString => Some c
  | String _ r => last_char r
  end.

(** [s.match(/^Bearer\s+(.+)$/i)]: the capture, when the pattern matches.
    The greedy [\s+] takes all the space after the scheme; when nothing
    follows it, it gives its last character back to [(.+)]. *)
Definition match_Bearer (s : string) : option string :=
  match strip_prefix_i "Bearer" s with
  | None => None
  | Some after =>
      let rest := trimStart after in
      if (String.length rest <? String.length after)%nat
      then
        if String.eqb rest ""
        then
          match last_char after with
          | Some c =>
              if (2 <=? String.length after)%nat
                 && negb (is_line_terminator c)
              then Some (String c "")
              else None
          | None => None
          end
        else if string_forallb (fun c => negb (is_line_terminator c)) rest
        then Some rest
        else None
      else None
  end.

(** [extractBearerToken(authHeader)]; the header is [None] when it is not
    a string. *)
Definition extractBearerToken (authHeader : option string) : option string :=
  match authHeader with
  | None => None
  | Some header =>
      match match_Bearer (trim header) with
      | None => None
      | Some capture =>
          let token := trim capture in
          if String.eqb token "" then None else Some token
      end
  end.

(** [canCreateRoleViaRegister(actorRole, targetRole)]. *)
Definition canCreateRoleViaRegister (actorRole targetRole : string) : bool :=
  if String.eqb targetRole "superadmin" then false
  else String.eqb actorRole "superadmin"
       && includes ["teacher"; "supporteacher"; "headteacher"; "admin"]
                   targetRole.

(** What a middleware does: it calls [next], with [req.user] as it then
    is, or it answers. *)
Inductive verdict : Type :=
| Next (user : option User)
| Answer (statusCode : Z) (message : string).

(** [User.findById(id)]: a throw for an id that is no ObjectId.  An
    ObjectId is read from its digits in either case and prints them in
    lower case, as the stored ids are. *)
Definition User_findById (id : string) (users : list User)
    : outcome (option User) :=
  if isValidObjectId id
  then Returned (List.find (fun u => String.eqb (usr_id u) (toLowerCase id))
                           users)
  else Thrown.

(** [requireAuth]. *)
Definition requireAuth (env : TokenEnv) (authorization : option string)
    (users : list User) : verdict :=
  match extractBearerToken authorization with
  | None => Answer 401 "Authorization token missing"
  | Some token =>
      match verifyAccessToken env token with
      | None => Answer 401 "Invalid or expired access token"
      | Some id =>
          match User_findById id users with
          | Thrown => Answer 401 "Invalid or expired access token"
          | Returned None => Answer 401 "Invalid token user"
          | Returned (Some user) => Next (Some user)
          end
      end
  end.

(** [permissions.every(permission => hasPermission(role, permission))]. *)
Fixpoint every_permission (role : string) (permissions : list string)
    : outcome bool :=
  match permissions with
  | [] => Returned true
  | permission :: rest =>
      match hasPermission role permission with
      | Thrown => Thrown
      | Returned false => Returned false
      | Returned true => every_permission role rest
      end
  end.

(** [allowPermissions(...permissions)]; an error thrown in a middleware
    reaches the error handler of the application, which answers 500. *)
Definition allowPermissions (permissions : list string) (user : option User)
    : verdict :=
  match user with
  | None => Answer 401 "Unauthorized"
  | Some u =>
      match every_permission (usr_role u) permissions with
      | Thrown => Answer 500 "Internal server error"
      | Returned false => Answer 403 "Forbidden: insufficient permissions"
      | Returned true => Next user
      end
  end.

(** [removeUploadedFileIfAny(req)] on the files that exist: [file] is
    [req.file.path], [None] without an upload. *)
Definition removeUploadedFileIfAny (file : option string)
    (files : list string) : list string :=
  match file with
  | None | Some "" => files
  | Some path => List.filter (fun f => negb (String.eqb f path)) files
  end.

(** The request as [requireRegisterPermission] reads it. *)
Record RegisterRequest : Type := {
  rq_role : option string;
  rq_authorization : option string;
  rq_file : option string;
}.

(** [requireRegisterPermission]: the verdict and the files left. *)
Definition requireRegisterPermission (env : TokenEnv) (req : RegisterRequest)
    (users : list User) (files : list string) : verdict * list string :=
  let requestedRole :=
    toLowerCase (trim (match rq_role req with
                       | None | Some "" => "teacher"
                       | Some r => r
                       end)) in
  let rejected code msg :=
    (Answer code msg, removeUploadedFileIfAny (rq_file req) files) in
  match extractBearerToken (rq_authorization req) with
  | None => rejected 401 "Authorization token missing"
  | Some token =>
      match verifyAccessToken env token with
      | None => rejected 401 "Invalid or expired access token"
      | Some id =>
          match User_findById id users with
          | Thrown => rejected 401 "Invalid or expired access token"
          | Returned None => rejected 401 "Invalid token user"
          | Returned (Some user) =>
              if canCreateRoleViaRegister (usr_role user) requestedRole
              then (Next (Some user), files)
              else rejected 403
                     "Forbidden: only superadmin can register employees"
          end
      end
  end.

(** A guard of a route, and a route: its method, its path under the mount
    point of its router, its guards in order, and the handler. *)
Inductive guard : Type :=
| RequireAuth
| AllowPermissions (permissions : list string).

Record route : Type := {
  method : string;
  path : string;
  guards : list guard;
  handler : string;
}.

(** student.routes.js; [router.use(requireAuth)] comes first. *)
Definition student_routes : list route :=
  map (fun r => {| method := method r; path := path r;
                   guards := RequireAuth :: guards r;
                   handler := handler r |})
  [ {| method := "GET"; path := "/";
       guards := [AllowPermissions ["students:read"]];
       handler := "getStudents" |};
    {| method := "GET"; path := "/:studentId/groups";
       guards := [AllowPermissions ["students:read"; "groups:read"]];
       handler := "getStudentGroups" |};
    {| method := "POST"; path := "/:studentId/reward-coins";
       guards := [AllowPermissions ["students:manage"]];
       handler := "rewardStudentCoins" |};
    {| method := "GET"; path := "/:studentId";
       guards := [AllowPermissions ["students:read"]];
       handler := "getStudentById" |};
    {| method := "POST"; path := "/";
       guards := [AllowPermissions ["students:manage"]];
       handler := "createStudent" |};
    {| method := "PATCH"; path := "/:studentId";
       guards := [AllowPermissions ["students:manage"]];
       handler := "updateStudent" |};
    {| method := "DELETE"; path := "/:studentId";
       guards := [AllowPermissions ["students:manage"]];
       handler := "deleteStudent" |} ].

(** group.routes.js; [router.use(requireAuth)] comes first. *)
Definition group_routes : list route :=
  map (fun r => {| method := method r; path := path r;
                   guards := RequireAuth :: guards r;
                   handler := handler r |})
  [ {| method := "GET"; path := "/";
       guards := [AllowPermissions ["groups:read"]];
       handler := "getGroups" |};
    {| method := "POST"; path := "/";
       guards := [AllowPermissions ["groups:manage"]];
       handler := "createGroup" |};
    {| method := "GET"; path := "/:groupId";
       guards := [AllowPermissions ["groups:read"]];
       handler := "getGroupById" |};
    {| method := "PATCH"; path := "/:groupId";
       guards := [AllowPermissions ["groups:manage"]];
       handler := "updateGroup" |};
    {| method := "DELETE"; path := "/:groupId";
       guards := [AllowPermissions ["groups:manage"]];
       handler := "deleteGroup" |};
    {| method := "GET"; path := "/:groupId/students";
       guards := [AllowPermissions ["groups:read"; "students:read"]];
       handler := "getGroupStudents" |};
    {| method := "POST"; path := "/:groupId/students/:studentId";
       guards := [AllowPermissions ["groups:manage"]];
       handler := "attachStudentToGroup" |};
    {| method := "DELETE"; path := "/:groupId/students/:studentId";
       guards := [AllowPermissions ["groups:manage"]];
       handler := "detachStudentFromGroup" |};
    {| method := "POST"; path := "/:groupId/attendance";
       guards := [AllowPermissions ["groups:manage"]];
       handler := "upsertGroupAttendance" |} ].

(** The routes of auth.routes.js behind [requireAuth]; [register] has
    [requireRegisterPermission] instead, [login] and [refresh-token] have
    no guard. *)
Definition auth_routes : list route :=
  [ {| method := "POST"; path := "/logout"; guards := [RequireAuth];
       handler := "logout" |};
    {| method := "GET"; path := "/me"; guards := [RequireAuth];
       handler := "me" |};
    {| method := "GET"; path := "/users";
       guards := [RequireAuth; AllowPermissions ["users:read"]];
       handler := "listUsers" |};
    {| method := "PATCH"; path := "/users/:userId/role";
       guards := [RequireAuth; AllowPermissions ["users:manage_roles"]];
       handler := "updateUserRole" |} ].

(** The guards of a route run in order, from [req.user] as it is: the
    first answer, or [next] into the handler. *)
Fixpoint run_guards (env : TokenEnv) (authorization : option string)
    (users : list User) (gs : list guard) (user : option User) : verdict :=
  match gs with
  | [] => Next user
  | RequireAuth :: rest =>
      match requireAuth env authorization users with
      | Next user' => run_guards env authorization users rest user'
      | answer => answer
      end
  | AllowPermissions permissions :: rest =>
      match allowPermissions permissions user with
      | Next user' => run_guards env authorization users rest user'
      | answer => answer
      end
  end.

Definition the_five_roles : list string :=
  ["teacher"; "supporteacher"; "headteacher"; "admin"; "superadmin"].

Definition sample_user (id role : string) : User :=
  {| usr_id := id; usr_fullname := "Employee"; usr_phone := "+998901234567";
     usr_email := "employee@example.com"; usr_refreshToken := None;
     usr_dateOfBirth := 0; usr_gender := "female"; usr_password := "$2b$12$hash";
     usr_role := role; usr_company := None; usr_location := None;
     usr_imgURL := "/uploads/default-avatar.png" |}.

(** The users and the tokens of the smoke test. *)
Definition smoke_users : list User :=
  [ sample_user "507f1f77bcf86cd799439011" "superadmin";
    sample_user "507f1f77bcf86cd799439012" "teacher";
    sample_user "507f1f77bcf86cd799439013" "admin" ].

Definition smoke_env : TokenEnv :=
  {| verifyAccessToken := fun token =>
       if String.eqb token "superadmin.jwt"
       then Some "507f1f77bcf86cd799439011"
       else if String.eqb token "teacher.jwt"
       then Some "507f1f77bcf86cd799439012"
       else if String.eqb token "admin.jwt"
       then Some "507f1f77bcf86cd799439013"
       else None;
     verifyRefreshToken := fun _ => None;
     generateAccessToken := fun id role => Some (id +:+ "." +:+ role);
     generateRefreshToken := fun id => Some (id +:+ ".refresh") |}.

(** ** Sessions and roles (auth.controller.js) *)

Definition with_refreshToken (token : option string) (u : User) : User :=
  {| usr_id := usr_id u; usr_fullname := usr_fullname u; usr_phone := usr_phone u;
     usr_email := usr_email u; usr_refreshToken := token;
     usr_dateOfBirth := usr_dateOfBirth u; usr_gender := usr_gender u;
     usr_password := usr_password u; usr_role := usr_role u;
     usr_company := usr_company u; usr_location := usr_location u;
     usr_imgURL := usr_imgURL u |}.

Definition with_role (role : string) (u : User) : User :=
  {| usr_id := usr_id u; usr_fullname := usr_fullname u; usr_phone := usr_phone u;
     usr_email := usr_email u; usr_refreshToken := usr_refreshToken u;
     usr_dateOfBirth := usr_dateOfBirth u; usr_gender := usr_gender u;
     usr_password := usr_password u; usr_role := role;
     usr_company := usr_company u; usr_location := usr_location u;
     usr_imgURL := usr_imgURL u |}.

(** [doc.save()] of a document a handler read from the collection and
    changed: the paths it modified are set on the stored document of its
    id. *)
Definition User_save (doc : User) (change : User -> User)
    (users : list User) : list User :=
  map (fun old => if String.eqb (usr_id old) (usr_id doc) then change old
                  else old) users.

(** The plain object of a user document with every path selected. *)
Definition user_plain_object (u : User) : gmap string jsval :=
  optional "refreshToken" (JSString <$> usr_refreshToken u)
  (optional "company" (JSString <$> usr_company u)
  (optional "location"
     ((fun c => JSObject [("type", JSString "Point");
                          ("coordinates",
                           JSArray [JSNumber c.1; JSNumber c.2])])
      <$> usr_location u)
  (<["_id" := JSString (usr_id u)]>
  (<["fullname" := JSString (usr_fullname u)]>
  (<["phone" := JSString (usr_phone u)]>
  (<["email" := JSString (usr_email u)]>
  (<["dateOfBirth" := JSDate (usr_dateOfBirth u)]>
  (<["gender" := JSString (usr_gender u)]>
  (<["password" := JSString (usr_password u)]>
  (<["role" := JSString (usr_role u)]>
  (<["imgURL" := JSString (usr_imgURL u)]> ∅))))))))))).

(** [hideSensitiveFields(doc, ret)] of the user schema, the transform of
    [toJSON] and [toObject]. *)
Definition User_hideSensitiveFields (doc : User) (ret : gmap string jsval)
    : gmap string jsval :=
  delete "refreshToken" (delete "password" ret).

Definition User_toObject (doc : User) : gmap string jsval :=
  User_hideSensitiveFields doc (user_plain_object doc).

(** [sanitizeUser(userDocument)]. *)
Definition sanitizeUser (userDocument : User) : gmap string jsval :=
  delete "refreshToken" (delete "password" (User_toObject userDocument)).

(** The body of an answer of the auth handlers. *)
Record AuthResponse : Type := {
  res_status : Z;
  res_message : option string;
  res_accessToken : option string;
  res_refreshToken : option string;
  res_user : option (gmap string jsval);
}.

Definition answer (code : Z) (msg : string) : AuthResponse :=
  {| res_status := code; res_message := Some msg; res_accessToken := None;
     res_refreshToken := None; res_user := None |}.

(** [exports.login]; [compare] is [bcrypt.compare]. *)
Definition login (compare : string -> string -> bool) (env : TokenEnv)
    (body_phone body_password : option string) (users : list User)
    : AuthResponse * list User :=
  let phone := trim (or_empty body_phone) in
  let password := or_empty body_password in
  if String.eqb phone "" || String.eqb password ""
  then (answer 400 "Phone and password required", users)
  else
    match List.find (fun u => String.eqb (usr_phone u) phone) users with
    | None => (answer 404 "User not found", users)
    | Some user =>
        if negb (compare password (usr_password user))
        then (answer 401 "Invalid credentials", users)
        else
          match generateAccessToken env (usr_id user) (usr_role user),
                generateRefreshToken env (usr_id user) with
          | Some accessToken, Some refreshToken =>
              ({| res_status := 200; res_message := None;
                  res_accessToken := Some accessToken;
                  res_refreshToken := Some refreshToken;
                  res_user :=
                    Some (sanitizeUser
                            (with_refreshToken (Some refreshToken) user)) |},
               User_save user (with_refreshToken (Some refreshToken)) users)
          | _, _ => (answer 500 "Internal server error", users)
          end
    end.

(** [exports.refreshToken]. *)
Definition refreshToken (env : TokenEnv) (body_refreshToken : option string)
    (users : list User) : AuthResponse * list User :=
  let refreshToken := trim (or_empty body_refreshToken) in
  let expired := (answer 401 "Invalid or expired refresh token", users) in
  if String.eqb refreshToken ""
  then (answer 400 "Refresh token is required", users)
  else
    match verifyRefreshToken env refreshToken with
    | None => expired
    | Some id =>
        match User_findById id users with
        | Thrown => expired
        | Returned None => (answer 401 "Invalid refresh token", users)
        | Returned (Some user) =>
            match usr_refreshToken user with
            | None | Some "" => (answer 401 "Invalid refresh token", users)
            | Some stored =>
                if negb (String.eqb stored refreshToken)
                then (answer 401 "Refresh token mismatch", users)
                else
                  match generateAccessToken env (usr_id user) (usr_role user),
                        generateRefreshToken env (usr_id user) with
                  | Some newAccessToken, Some newRefreshToken =>
                      ({| res_status := 200; res_message := None;
                          res_accessToken := Some newAccessToken;
                          res_refreshToken := Some newRefreshToken;
                          res_user := None |},
                       User_save user
                         (with_refreshToken (Some newRefreshToken)) users)
                  | _, _ => expired
                  end
            end
        end
    end.

(** [exports.logout]; [user] is [req.user]. *)
Definition logout (user : option User) (users : list User)
    : AuthResponse * list User :=
  match user with
  | None => (answer 401 "Unauthorized", users)
  | Some u =>
      (answer 200 "Logged out successfully",
       User_save u (with_refreshToken None) users)
  end.

Definition ADMIN_MANAGEABLE_ROLES : list string :=
  ["teacher"; "supporteacher"; "headteacher"].

(** [exports.updateUserRole]; [actor] is [req.user], and [validate] gives
    the messages of the validators of [userSchema] that fail on a
    document.  [ALLOWED_ROLES] holds the five roles. *)
Definition updateUserRole (validate : User -> list string)
    (actor : option User) (userId : string) (body_role : option string)
    (users : list User) : AuthResponse * list User :=
  let role := toLowerCase (trim (or_empty body_role)) in
  if negb (includes the_five_roles role)
  then (answer 400 "Invalid role provided", users)
  else
    match actor with
    | None => (answer 500 "Internal server error", users)
    | Some actor =>
        if negb (includes ["admin"; "superadmin"] (usr_role actor))
        then (answer 403 "Only admin or superadmin can change user roles",
              users)
        else if String.eqb (usr_id actor) userId
                && negb (String.eqb role "superadmin")
        then (answer 400
                "You cannot remove your own superadmin access in this endpoint",
              users)
        else
          match User_findById userId users with
          | Thrown => (answer 400 "Invalid user id", users)
          | Returned None => (answer 404 "User not found", users)
          | Returned (Some user) =>
              if String.eqb (usr_role actor) "admin"
                 && negb (includes ADMIN_MANAGEABLE_ROLES role)
              then (answer 403
                      "Admin can only assign teacher, supporteacher, or headteacher roles",
                    users)
              else if String.eqb (usr_role actor) "admin"
                      && includes ["admin"; "superadmin"] (usr_role user)
              then (answer 403
                      "Admin cannot change admin or superadmin accounts",
                    users)
              else if String.eqb (usr_role actor) "superadmin"
                      && String.eqb role "superadmin"
                      && negb (String.eqb (usr_role user) "superadmin")
              then (answer 403
                      "Use a dedicated secure bootstrap flow to assign superadmin to another account",
                    users)
              else
                match validate (with_role role user) with
                | [] =>
                    ({| res_status := 200;
                        res_message := Some "User role updated successfully";
                        res_accessToken := None; res_refreshToken := None;
                        res_user := Some (User_toObject (with_role role user)) |},
                     User_save user (with_role role) users)
                | firstErrorMessage :: _ =>
                    (answer 400 (if String.eqb firstErrorMessage ""
                                 then "Validation failed"
                                 else firstErrorMessage),
                     users)
                end
          end
    end.

(** Tokens for the examples: a refresh token is the id of its user and a
    suffix; the password of the sample users is [correct horse]. *)
Definition session_env : TokenEnv :=
  {| verifyAccessToken := fun token =>
       if String.eqb (substring 24 7 token) ".access"
       then Some (substring 0 24 token) else None;
     verifyRefreshToken := fun token =>
       if String.eqb (substring 24 8 token) ".refresh"
       then Some (substring 0 24 token) else None;
     generateAccessToken := fun id role => Some (id +:+ ".access");
     generateRefreshToken := fun id => Some (id +:+ ".refresh") |}.

Definition later_env : TokenEnv :=
  {| verifyAccessToken := verifyAccessToken session_env;
     verifyRefreshToken := fun token =>
       if String.eqb (substring 24 8 token) ".refresh"
          || String.eqb (substring 24 9 token) ".refresh2"
       then Some (substring 0 24 token) else None;
     generateAccessToken := generateAccessToken session_env;
     generateRefreshToken := fun id => Some (id +:+ ".refresh2") |}.

Definition sample_compare (password hash : string) : bool :=
  String.eqb password "correct horse" && String.eqb hash "$2b$12$hash".

(** * Properties *)

(** ** Sanity checks of the date rendering *)

Example toDateKey_epoch : toDateKey (Some 0) = "1970-01-01".
Proof. reflexivity. Qed.

Example toDateKey_end_of_day : toDateKey (Some 86399999) = "1970-01-01".
Proof. reflexivity. Qed.

Example toDateKey_leap_day : toDateKey (Some 951827696789) = "2000-02-29".
Proof. reflexivity. Qed.

Example toDateKey_before_epoch : toDateKey (Some (-1)) = "1969-12-31".
Proof. reflexivity. Qed.

Example toISOString_sample :
  toISOString 1762128000123 = "2025-11-03T00:00:00.123Z".
Proof. reflexivity. Qed.


(** ** The balance-reset service *)

(** [Math.max(x || d, floor)] is not below [floor], whatever [x] is. *)
Lemma max_or_floor (x : jsnum) (d floor : Z) :
  floor <= d ->
  js_lt (Math_max (js_or x (JNum d)) (JNum floor)) (JNum floor) = false.
Proof.
  intros Hd. unfold js_or.
  destruct x as [|z|m e| |]; cbn [truthy].
  - cbn. apply Z.ltb_ge. lia.
  - destruct (z =? 0); cbn; apply Z.ltb_ge; lia.
  - destruct (m =? 0); cbn [negb].
    + cbn. apply Z.ltb_ge. lia.
    + unfold Math_max.
      destruct (js_lt (JFrac m e) (JNum floor)) eqn:E; [|exact E].
      cbn. apply Z.ltb_irrefl.
  - reflexivity.
  - cbn. apply Z.ltb_irrefl.
Qed.

Lemma minGapMs_floor (amb : Ambient) :
  js_lt (minGapMs amb) (JNum (10 * 1000)) = false.
Proof. apply max_or_floor. unfold DEFAULT_MIN_GAP_MS. lia. Qed.

Lemma sweep_enter_running (force : bool) (amb : Ambient) (w w1 : world) :
  sweep_enter force amb w = inr w1 ->
  isResetRunning w = false /\ w1 = with_scheduler true (now amb) w.
Proof.
  unfold sweep_enter. intros H.
  destruct (negb force && _); [discriminate|].
  destruct (isResetRunning w); [discriminate|].
  split; [reflexivity|congruence].
Qed.

Lemma sweep_enter_skipped (force : bool) (amb : Ambient) (w : world)
    (reason : string) :
  sweep_enter force amb w = inl reason ->
  reason = "throttled" \/ (reason = "in_progress" /\ isResetRunning w = true).
Proof.
  unfold sweep_enter. intros H.
  destruct (negb force && _); [left; congruence|].
  destruct (isResetRunning w) eqn:E; [right|discriminate].
  split; congruence.
Qed.

(** Whatever the outcome, a completed call leaves [isResetRunning] as it
    found it when it was skipped and [false] when it was not. *)
Lemma reset_ran_releases (force : bool) (amb : Ambient) (w : world) :
  (forall reason,
     result_of (resetStudentBalancesIfNeeded force amb w)
     <> Returned (Skipped reason)) ->
  isResetRunning (world_of (resetStudentBalancesIfNeeded force amb w)) = false
  /\ lastResetRunAt (world_of (resetStudentBalancesIfNeeded force amb w))
     = now amb.
Proof.
  unfold resetStudentBalancesIfNeeded. intros H.
  destruct (sweep_enter force amb w) as [reason|w1] eqn:E.
  - exfalso. exact (H reason eq_refl).
  - apply sweep_enter_running in E as [_ ->].
    destruct (updateManyFails amb); split; reflexivity.
Qed.

(** The collections after a call of the service: untouched when the call is
    skipped or its bulk update fails, the due balances reset otherwise. *)
Lemma reset_world_cases (force : bool) (amb : Ambient) (w : world) :
  let r := resetStudentBalancesIfNeeded force amb w in
  Groups (world_of r) = Groups w /\
  (Students (world_of r) = Students w \/
   Students (world_of r) = sweep_students (now amb) (Students w)).
Proof.
  unfold resetStudentBalancesIfNeeded.
  destruct (sweep_enter force amb w) as [reason|w1] eqn:E; simpl.
  - split; [reflexivity|left; reflexivity].
  - apply sweep_enter_running in E as [_ ->].
    destruct (updateManyFails amb); simpl.
    + split; [reflexivity|left; reflexivity].
    + split; [reflexivity|right; reflexivity].
Qed.

Lemma reset_due_stale (t : Z) (s : Student) :
  reset_due (t - THIRTY_DAYS_MS) s = true <-> stale t s.
Proof.
  unfold reset_due, stale. destruct (balanceResetAt s) as [r|].
  - rewrite Z.leb_le. lia.
  - tauto.
Qed.

(** C4. A run of the sweep that is not skipped sets [balance = 0] and
    [balanceResetAt = now] for exactly the students whose [balanceResetAt]
    is absent or at least thirty days old, changes nothing else of them,
    and leaves every other student and every group as it was.  On the
    sample world, a forced run at day 100 zeroes the balance of the student
    reset 31 days earlier and leaves the student reset 2 days earlier
    untouched. *)
Theorem sweep_resets_exactly_the_stale (force : bool) (amb : Ambient)
    (w : world) (matched modified : Z) :
  result_of (resetStudentBalancesIfNeeded force amb w)
  = Returned (Swept matched modified) ->
  let w' := world_of (resetStudentBalancesIfNeeded force amb w) in
  length (Students w') = length (Students w)
  /\ Groups w' = Groups w
  /\ (forall (i : nat) (s : Student),
        Students w !! i = Some s ->
        exists s',
          Students w' !! i = Some s'
          /\ (stale (now amb) s ->
              s' = with_balance_reset 0 (now amb) s
              /\ balance s' = 0 /\ balanceResetAt s' = Some (now amb))
          /\ (~ stale (now amb) s -> s' = s))
  /\ matched
     = Z.of_nat (length (List.filter (reset_due (now amb - THIRTY_DAYS_MS))
                                     (Students w)))
  /\ Students (world_of (resetStudentBalancesIfNeeded
                           true (sample_ambient (100 * day))
                           sweep_sample_world))
     = [with_balance_reset 0 (100 * day) stale_student; recent_student].
Proof.
  unfold resetStudentBalancesIfNeeded.
  destruct (sweep_enter force amb w) as [reason|w1] eqn:E; [discriminate|].
  apply sweep_enter_running in E as [_ ->].
  destruct (updateManyFails amb); [discriminate|].
  intros H. cbn in H. injection H as Hm _. cbn -[THIRTY_DAYS_MS].
  split; [apply length_map|]. split; [reflexivity|]. split; [|split].
  - intros i s Hi. rewrite list_lookup_fmap, Hi. cbn -[THIRTY_DAYS_MS].
    eexists. split; [reflexivity|]. split.
    + intros Hs. apply reset_due_stale in Hs. rewrite Hs. auto.
    + intros Hs. destruct (reset_due _ s) eqn:Hd; [|reflexivity].
      apply reset_due_stale in Hd. contradiction.
  - rewrite <- Hm. reflexivity.
  - reflexivity.
Qed.

Lemma sweep_resets_exactly_the_stale_witness :
  Students (world_of (resetStudentBalancesIfNeeded
                        true (sample_ambient (100 * day)) sweep_sample_world))
    !! 1%nat = Some recent_student.
Proof.
  destruct (sweep_resets_exactly_the_stale
              true (sample_ambient (100 * day)) sweep_sample_world 1 1
              eq_refl) as (_ & _ & H & _).
  destruct (H 1%nat recent_student eq_refl) as (s' & Hs' & _ & Hkeep).
  rewrite Hs'. f_equal. apply Hkeep. unfold stale. simpl.
  unfold THIRTY_DAYS_MS, day. lia.
Defined.

(** C5. A non-forced call made while [now - lastResetRunAt] is below the
    minimum gap (the configured gap, never less than ten seconds) resolves
    to [{ skipped: true, reason: 'throttled' }], issues no database call
    and leaves the collections and both scheduler variables as they were.
    In particular, after a call that ran a sweep at time [now amb1], a
    non-forced call within the gap is throttled. *)
Theorem sweep_throttled (amb : Ambient) (w : world) :
  js_lt (JNum (now amb - lastResetRunAt w)) (minGapMs amb) = true ->
  resetStudentBalancesIfNeeded false amb w
  = (Returned (Skipped "throttled"), w, [])
  /\ js_lt (minGapMs amb) (JNum (10 * 1000)) = false
  /\ (forall (force1 : bool) (amb1 : Ambient) (w0 : world),
        (forall reason,
           result_of (resetStudentBalancesIfNeeded force1 amb1 w0)
           <> Returned (Skipped reason)) ->
        js_lt (JNum (now amb - now amb1)) (minGapMs amb) = true ->
        let w1 := world_of (resetStudentBalancesIfNeeded force1 amb1 w0) in
        resetStudentBalancesIfNeeded false amb w1
        = (Returned (Skipped "throttled"), w1, [])).
Proof.
  intros H. split; [|split].
  - unfold resetStudentBalancesIfNeeded, sweep_enter. rewrite H. reflexivity.
  - apply minGapMs_floor.
  - intros force1 amb1 w0 Hran Hgap w1.
    destruct (reset_ran_releases force1 amb1 w0 Hran) as [_ Hlast].
    unfold resetStudentBalancesIfNeeded at 1. unfold sweep_enter.
    fold w1 in Hlast. rewrite Hlast, Hgap. reflexivity.
Qed.

Lemma sweep_throttled_witness :
  resetStudentBalancesIfNeeded false (sample_ambient (100 * day + 1000))
    (world_of (resetStudentBalancesIfNeeded
                 true (sample_ambient (100 * day)) sweep_sample_world))
  = (Returned (Skipped "throttled"),
     world_of (resetStudentBalancesIfNeeded
                 true (sample_ambient (100 * day)) sweep_sample_world),
     []).
Proof.
  exact (proj1 (sweep_throttled
                  (sample_ambient (100 * day + 1000))
                  (world_of (resetStudentBalancesIfNeeded
                               true (sample_ambient (100 * day))
                               sweep_sample_world))
                  eq_refl)).
Defined.

Lemma sys_invariant (s : sys) :
  sys_reachable s ->
  (length (awaiting s) <= 1)%nat
  /\ (isResetRunning (sys_world s) = true <-> awaiting s <> []).
Proof.
  induction 1 as [|s s' Hr [Hlen Hrun] Hstep].
  - simpl. split; [lia|]. split; [discriminate|congruence].
  - destruct Hstep as [force amb s reason He | force amb s w1 He
                      | ok s before after t Ha | s ss gs].
    + auto.
    + apply sweep_enter_running in He as [Hidle ->]. simpl.
      destruct (awaiting s) as [|t l].
      * split; [simpl; lia|]. split; [discriminate|reflexivity].
      * exfalso. assert (isResetRunning (sys_world s) = true)
          by (apply Hrun; discriminate). congruence.
    + rewrite Ha in Hlen. rewrite length_app in Hlen. simpl in Hlen.
      assert (before = []) as -> by (destruct before; [reflexivity|simpl in Hlen; lia]).
      assert (after = []) as -> by (destruct after; [reflexivity|simpl in Hlen; lia]).
      simpl. split; [lia|]. destruct ok; simpl; split; congruence.
    + simpl. auto.
Qed.

(** C6. Sweeps never overlap and a failed sweep does not block later ones.
    In every state the server can reach, with calls interleaved at the
    sweep's [await], at most one sweep is suspended, and one is suspended
    exactly when [isResetRunning] is true.  While [isResetRunning] is true,
    a call that is forced or past the throttle resolves to
    [{ skipped: true, reason: 'in_progress' }], issues no database call and
    changes nothing.  When a suspended sweep settles, its bulk update
    applied or failed, [isResetRunning] is false and no sweep is suspended;
    and a call that ran a sweep, whether it returned or threw, leaves
    [isResetRunning] false, so that no later call is skipped as in
    progress. *)
Theorem sweeps_never_overlap :
  (forall s : sys,
     sys_reachable s ->
     (length (awaiting s) <= 1)%nat
     /\ (isResetRunning (sys_world s) = true <-> awaiting s <> []))
  /\ (forall (force : bool) (amb : Ambient) (w : world),
        isResetRunning w = true ->
        force = true
        \/ js_lt (JNum (now amb - lastResetRunAt w)) (minGapMs amb) = false ->
        resetStudentBalancesIfNeeded force amb w
        = (Returned (Skipped "in_progress"), w, []))
  /\ (forall (s : sys) (ok : bool) (before after : list Z) (t : Z),
        sys_reachable s ->
        awaiting s = before ++ t :: after ->
        isResetRunning
          (sweep_release (if ok then world_of (sweep_update t (sys_world s))
                          else sys_world s)) = false
        /\ before ++ after = [])
  /\ (forall (force : bool) (amb : Ambient) (w : world),
        (forall reason,
           result_of (resetStudentBalancesIfNeeded force amb w)
           <> Returned (Skipped reason)) ->
        let w' := world_of (resetStudentBalancesIfNeeded force amb w) in
        isResetRunning w' = false
        /\ forall (force' : bool) (amb' : Ambient),
             result_of (resetStudentBalancesIfNeeded force' amb' w')
             <> Returned (Skipped "in_progress")).
Proof.
  split; [exact sys_invariant|]. split; [|split].
  - intros force amb w Hrun Hpast.
    unfold resetStudentBalancesIfNeeded, sweep_enter. rewrite Hrun.
    destruct Hpast as [-> | ->]; simpl.
    + reflexivity.
    + rewrite andb_false_r. reflexivity.
  - intros s ok before after t Hr Ha.
    destruct (sys_invariant s Hr) as [Hlen _].
    rewrite Ha, length_app in Hlen. simpl in Hlen.
    split; [destruct ok; reflexivity|].
    destruct before, after; simpl in *; try lia. reflexivity.
  - intros force amb w Hran w'.
    destruct (reset_ran_releases force amb w Hran) as [Hidle _].
    fold w' in Hidle. split; [exact Hidle|].
    intros force' amb'. unfold resetStudentBalancesIfNeeded, sweep_enter.
    rewrite Hidle.
    destruct (negb force' && _); [discriminate|].
    destruct (updateManyFails amb'); discriminate.
Qed.

Lemma sweeps_never_overlap_witness :
  resetStudentBalancesIfNeeded true (sample_ambient (100 * day))
    (with_scheduler true (99 * day) sweep_sample_world)
  = (Returned (Skipped "in_progress"),
     with_scheduler true (99 * day) sweep_sample_world, []).
Proof.
  exact (proj1 (proj2 sweeps_never_overlap)
           true (sample_ambient (100 * day))
           (with_scheduler true (99 * day) sweep_sample_world)
           eq_refl (or_introl eq_refl)).
Defined.

(** ** The day key *)

Ltac zdiv := Z.to_euclidean_division_equations; lia.

Lemma string_length_app (s1 s2 : string) :
  String.length (s1 +:+ s2) = (String.length s1 + String.length s2)%nat.
Proof.
  induction s1 as [|c r IH]; [reflexivity|].
  change (String c r +:+ s2) with (String c (r +:+ s2)).
  cbn [String.length]. rewrite IH. reflexivity.
Qed.

Lemma string_app_assoc (s1 s2 s3 : string) :
  (s1 +:+ s2) +:+ s3 = s1 +:+ (s2 +:+ s3).
Proof.
  induction s1 as [|c r IH]; [reflexivity|].
  change (String c r +:+ s2) with (String c (r +:+ s2)).
  change (String c (r +:+ s2) +:+ s3) with (String c ((r +:+ s2) +:+ s3)).
  rewrite IH. reflexivity.
Qed.

Lemma string_app_nil_r (s : string) : s +:+ "" = s.
Proof.
  induction s as [|c r IH]; [reflexivity|].
  change (String c r +:+ "") with (String c (r +:+ "")).
  rewrite IH. reflexivity.
Qed.

(** Two texts that begin with parts of one length are equal part by part. *)
Lemma string_app_inj (s1 s2 t1 t2 : string) :
  String.length s1 = String.length t1 ->
  s1 +:+ s2 = t1 +:+ t2 -> s1 = t1 /\ s2 = t2.
Proof.
  revert t1. induction s1 as [|c r IH]; intros [|c' r'] Hlen; try discriminate.
  - auto.
  - change (String c r +:+ s2) with (String c (r +:+ s2)).
    change (String c' r' +:+ t2) with (String c' (r' +:+ t2)).
    intros [= -> H]. destruct (IH r') as [-> ->]; [|exact H|auto].
    cbn in Hlen. lia.
Qed.

Lemma fixed_digits_length (width : nat) (z : Z) :
  String.length (fixed_digits width z) = width.
Proof.
  revert z. induction width as [|w IH]; intros z; [reflexivity|].
  cbn [fixed_digits]. rewrite string_length_app, IH. cbn. lia.
Qed.

Lemma digit_code (z : Z) :
  0 <= z < 10 ->
  nat_of_ascii (ascii_of_nat (48 + Z.to_nat z)) = (48 + Z.to_nat z)%nat.
Proof. intros H. apply nat_ascii_embedding. lia. Qed.

(** The decimal form of a number that fits the width determines it. *)
Lemma fixed_digits_inj (width : nat) (a b : Z) :
  0 <= a < 10 ^ Z.of_nat width -> 0 <= b < 10 ^ Z.of_nat width ->
  fixed_digits width a = fixed_digits width b -> a = b.
Proof.
  revert a b. induction width as [|w IH]; intros a b Ha Hb.
  - cbn in Ha, Hb. lia.
  - rewrite Nat2Z.inj_succ, Z.pow_succ_r in Ha, Hb by lia.
    cbn [fixed_digits]. intros H.
    apply string_app_inj in H as [Hq Hr];
      [|rewrite !fixed_digits_length; reflexivity].
    apply IH in Hq; [|zdiv|zdiv].
    assert (ascii_of_nat (48 + Z.to_nat (a mod 10))
            = ascii_of_nat (48 + Z.to_nat (b mod 10))) as Hc by congruence.
    apply (f_equal nat_of_ascii) in Hc.
    rewrite !digit_code in Hc by zdiv.
    assert (a mod 10 = b mod 10) as Hm by zdiv. zdiv.
Qed.

(** The first character of a decimal form is a digit, so neither sign. *)
Lemma fixed_digits_no_sign (width : nat) (z : Z) (more sign rest : string) :
  sign = "+" \/ sign = "-" ->
  fixed_digits (S width) z +:+ more <> sign +:+ rest.
Proof.
  intros Hsign H.
  assert (exists q r, fixed_digits (S width) z
                      = String (ascii_of_nat (48 + Z.to_nat (q mod 10))) r)
    as (q & r & E).
  { clear H. revert z. induction width as [|w IH]; intros z.
    - exists z, "". reflexivity.
    - destruct (IH (z / 10)) as (q & r & E).
      change (fixed_digits (S (S w)) z)
        with (fixed_digits (S w) (z / 10)
              +:+ String (ascii_of_nat (48 + Z.to_nat (z mod 10))) "").
      rewrite E. eexists q, _. reflexivity. }
  rewrite E in H.
  change (String ?c r +:+ more) with (String c (r +:+ more)) in H.
  assert (nat_of_ascii (ascii_of_nat (48 + Z.to_nat (q mod 10)))
          = (48 + Z.to_nat (q mod 10))%nat) as Hc by (apply digit_code; zdiv).
  destruct Hsign as [-> | ->].
  - assert (ascii_of_nat (48 + Z.to_nat (q mod 10)) = "+"%char) as Hch
      by (change ("+" +:+ rest) with (String "+" rest) in H; congruence).
    rewrite Hch in Hc. change (nat_of_ascii "+") with 43%nat in Hc. lia.
  - assert (ascii_of_nat (48 + Z.to_nat (q mod 10)) = "-"%char) as Hch
      by (change ("-" +:+ rest) with (String "-" rest) in H; congruence).
    rewrite Hch in Hc. change (nat_of_ascii "-") with 45%nat in Hc. lia.
Qed.

Lemma substring_all (s : string) : substring 0 (String.length s) s = s.
Proof. induction s as [|c r IH]; [reflexivity|]. cbn. rewrite IH. reflexivity. Qed.

Lemma substring_none (s : string) : substring 0 0 s = "".
Proof. destruct s; reflexivity. Qed.

(** The first [n] characters of [s1 ++ s2], when [s1] has at most [n]. *)
Lemma substring_peel (s1 s2 : string) (n : nat) :
  (String.length s1 <= n)%nat ->
  substring 0 n (s1 +:+ s2)
  = s1 +:+ substring 0 (n - String.length s1) s2.
Proof.
  revert n. induction s1 as [|c r IH]; intros n Hn.
  - cbn [String.length]. rewrite Nat.sub_0_r. reflexivity.
  - destruct n as [|n]; [cbn in Hn; lia|].
    change (String c r +:+ s2) with (String c (r +:+ s2)).
    cbn [substring String.length Nat.sub].
    rewrite IH by (cbn in Hn; lia).
    reflexivity.
Qed.

Lemma new_Date_in_range (t : Z) :
  - maxTimeValue <= t <= maxTimeValue -> new_Date (Some t) = Some t.
Proof.
  intros H. unfold new_Date.
  destruct (Z.leb_spec (- maxTimeValue) t); [|lia].
  destruct (Z.leb_spec t maxTimeValue); [reflexivity|lia].
Qed.

Lemma new_Date_out_of_range (t : Z) :
  ~ (- maxTimeValue <= t <= maxTimeValue) -> new_Date (Some t) = None.
Proof.
  intros H. unfold new_Date.
  destruct (Z.leb_spec (- maxTimeValue) t); [|reflexivity].
  destruct (Z.leb_spec t maxTimeValue); [lia|reflexivity].
Qed.

(** The key of a time a [Date] can hold: the year, month and day of the
    month of its UTC day as [YYYY-MM-DD] for the years 0 to 9999, the signed
    year of six digits and the month beyond them. *)
Lemma toDateKey_civil (t : Z) :
  - maxTimeValue <= t <= maxTimeValue ->
  toDateKey (Some t)
  = let '(y, m, d) := civil_from_days (t / msPerDay) in
    if (0 <=? y) && (y <=? 9999)
    then fixed_digits 4 y +:+ "-" +:+ fixed_digits 2 m +:+ "-"
         +:+ fixed_digits 2 d
    else (if y <? 0 then "-" else "+") +:+ fixed_digits 6 (Z.abs y)
         +:+ "-" +:+ fixed_digits 2 m.
Proof.
  intros Ht. unfold toDateKey. rewrite (new_Date_in_range t Ht).
  unfold toISOString.
  destruct (civil_from_days (t / msPerDay)) as [[y m] d].
  destruct ((0 <=? y) && (y <=? 9999)).
  - rewrite substring_peel by (rewrite fixed_digits_length; lia).
    rewrite fixed_digits_length.
    rewrite (substring_peel "-") by (cbn; lia).
    rewrite substring_peel by (rewrite fixed_digits_length; cbn; lia).
    rewrite fixed_digits_length.
    rewrite (substring_peel "-") by (cbn; lia).
    rewrite substring_peel by (rewrite fixed_digits_length; cbn; lia).
    rewrite fixed_digits_length. cbn [String.length Nat.sub].
    rewrite substring_none, string_app_nil_r. reflexivity.
  - assert (String.length (if y <? 0 then "-" else "+") = 1%nat) as Hs
      by (destruct (y <? 0); reflexivity).
    rewrite string_app_assoc.
    rewrite substring_peel by (rewrite Hs; lia). rewrite Hs.
    rewrite substring_peel by (rewrite fixed_digits_length; cbn; lia).
    rewrite fixed_digits_length.
    rewrite (substring_peel "-") by (cbn; lia).
    rewrite substring_peel by (rewrite fixed_digits_length; cbn; lia).
    rewrite fixed_digits_length. cbn [String.length Nat.sub].
    rewrite substring_none, string_app_nil_r, <- string_app_assoc.
    reflexivity.
Qed.

(** [days_from_civil] undoes [civil_from_days], whose month and day of the
    month are a month and a day of a month. *)
Lemma civil_round_trip (n : Z) :
  let '(y, m, d) := civil_from_days n in
  days_from_civil y m d = n /\ 1 <= m <= 12 /\ 1 <= d <= 31.
Proof.
  unfold civil_from_days, days_from_civil.
  set (z := n + 719468).
  set (era := z / 146097).
  set (doe := z - era * 146097).
  assert (0 <= doe < 146097) as Hdoe by (unfold doe, era; zdiv).
  set (yoe := (doe - doe / 1460 + doe / 36524 - doe / 146096) / 365).
  assert (0 <= yoe <= 399) as Hyoe by (unfold yoe; zdiv).
  set (doy := doe - (365 * yoe + yoe / 4 - yoe / 100)).
  assert (0 <= doy <= 365) as Hdoy by (unfold doy, yoe; zdiv).
  set (mp := (5 * doy + 2) / 153).
  assert (0 <= mp <= 11) as Hmp by (unfold mp; zdiv).
  cbv zeta.
  destruct (Z.ltb_spec mp 10) as [Hlt|Hge].
  - assert ((mp + 3 <=? 2) = false) as -> by lia.
    assert ((2 <? mp + 3) = true) as -> by lia.
    replace (mp + 3 - 3) with mp by lia.
    replace ((yoe + era * 400 + 0) / 400) with era by zdiv.
    split; [|split; [lia|unfold mp; zdiv]].
    unfold doy, z in *. zdiv.
  - assert ((mp - 9 <=? 2) = true) as -> by lia.
    assert ((2 <? mp - 9) = false) as -> by lia.
    replace (mp - 9 + 9) with mp by lia.
    replace ((yoe + era * 400 + 1 - 1) / 400) with era by zdiv.
    split; [|split; [lia|unfold mp; zdiv]].
    unfold doy, z in *. zdiv.
Qed.

(** The days from 0000-01-01 to 9999-12-31 are those of the years 0 to
    9999. *)
Lemma civil_year_range (n : Z) :
  -719528 <= n <= 2932896 ->
  let '(y, _, _) := civil_from_days n in 0 <= y <= 9999.
Proof.
  intros Hn. unfold civil_from_days.
  set (z := n + 719468).
  set (era := z / 146097).
  set (doe := z - era * 146097).
  assert (0 <= doe < 146097) as Hdoe by (unfold doe, era; zdiv).
  assert (-1 <= era <= 24) as Hera by (unfold era, z; zdiv).
  set (yoe := (doe - doe / 1460 + doe / 36524 - doe / 146096) / 365).
  assert (0 <= yoe <= 399) as Hyoe by (unfold yoe; zdiv).
  set (doy := doe - (365 * yoe + yoe / 4 - yoe / 100)).
  assert (0 <= doy <= 365) as Hdoy by (unfold doy, yoe; zdiv).
  set (mp := (5 * doy + 2) / 153).
  assert (0 <= mp <= 11) as Hmp by (unfold mp; zdiv).
  assert (era = -1 -> yoe = 399 /\ 10 <= mp) as Hfirst.
  { intros He.
    assert (146037 <= doe) as Hjan by (unfold doe, z; lia).
    assert (yoe = 399) as Hy by (unfold yoe; zdiv).
    split; [exact Hy|]. unfold mp, doy. zdiv. }
  assert (era = 24 -> yoe = 399 -> mp < 10) as Hlast.
  { intros He Hy.
    assert (doe <= 146036) as Hdec by (unfold doe, z; lia).
    unfold mp, doy. zdiv. }
  cbv zeta.
  destruct (Z.ltb_spec mp 10) as [Hlt|Hge].
  - assert ((mp + 3 <=? 2) = false) as -> by lia. lia.
  - assert ((mp - 9 <=? 2) = true) as -> by lia. lia.
Qed.

Lemma four_digit_year_day (t : Z) :
  four_digit_year t <-> -719528 <= t / msPerDay <= 2932896.
Proof. unfold four_digit_year, msPerDay. zdiv. Qed.

Lemma four_digit_year_in_range (t : Z) :
  four_digit_year t -> - maxTimeValue <= t <= maxTimeValue.
Proof. unfold four_digit_year, maxTimeValue. lia. Qed.

(** For a time whose year has four digits, the times with its key are the
    times of its UTC day. *)
Lemma same_key_same_day (d t : Z) :
  four_digit_year d ->
  toDateKey (Some t) = toDateKey (Some d) <-> t / msPerDay = d / msPerDay.
Proof.
  intros Hd. pose proof (four_digit_year_in_range d Hd) as Hrange.
  pose proof (proj1 (four_digit_year_day d) Hd) as Hday.
  pose proof (civil_year_range _ Hday) as Hyear.
  pose proof (civil_round_trip (d / msPerDay)) as Hcivil.
  rewrite (toDateKey_civil d Hrange).
  destruct (civil_from_days (d / msPerDay)) as [[y m] dd] eqn:E.
  destruct Hcivil as (Hinv & Hm & Hdd).
  assert ((0 <=? y) && (y <=? 9999) = true) as ->
    by (apply andb_true_iff; split; apply Z.leb_le; lia).
  split.
  - intros Hkey.
    destruct (decide (- maxTimeValue <= t <= maxTimeValue)) as [Ht|Ht].
    + rewrite (toDateKey_civil t Ht) in Hkey.
      pose proof (civil_round_trip (t / msPerDay)) as Hcivil'.
      destruct (civil_from_days (t / msPerDay)) as [[y' m'] dd'].
      destruct Hcivil' as (Hinv' & Hm' & Hdd').
      destruct ((0 <=? y') && (y' <=? 9999)) eqn:Hy'.
      * apply andb_true_iff in Hy' as [Hy1 Hy2].
        apply Z.leb_le in Hy1, Hy2.
        apply string_app_inj in Hkey as [Hy Hkey];
          [|rewrite !fixed_digits_length; reflexivity].
        apply (string_app_inj "-" _ "-") in Hkey as [_ Hkey];
          [|reflexivity].
        apply string_app_inj in Hkey as [Hmm Hkey];
          [|rewrite !fixed_digits_length; reflexivity].
        apply (string_app_inj "-" _ "-") in Hkey as [_ Hkey];
          [|reflexivity].
        apply fixed_digits_inj in Hy; [|cbn; lia|cbn; lia].
        apply fixed_digits_inj in Hmm; [|cbn; lia|cbn; lia].
        apply fixed_digits_inj in Hkey; [|cbn; lia|cbn; lia].
        congruence.
      * exfalso. symmetry in Hkey. revert Hkey.
        destruct (y' <? 0);
          apply (fixed_digits_no_sign 3); [right|left]; reflexivity.
    + exfalso. unfold toDateKey in Hkey.
      rewrite (new_Date_out_of_range t Ht) in Hkey.
      apply (f_equal String.length) in Hkey.
      rewrite !string_length_app, !fixed_digits_length in Hkey.
      discriminate Hkey.
  - intros Hsame.
    assert (four_digit_year t) as Ht
      by (apply four_digit_year_day; rewrite Hsame; exact Hday).
    rewrite (toDateKey_civil t (four_digit_year_in_range t Ht)), Hsame, E.
    assert ((0 <=? y) && (y <=? 9999) = true) as ->
      by (apply andb_true_iff; split; apply Z.leb_le; lia).
    reflexivity.
Qed.

(** ** ObjectIds and their texts *)

Lemma lower_char_idem (c : ascii) : lower_char (lower_char c) = lower_char c.
Proof. destruct c as [[] [] [] [] [] [] [] []]; reflexivity. Qed.

Lemma lower_char_hex (c : ascii) : is_hex (lower_char c) = is_hex c.
Proof. destruct c as [[] [] [] [] [] [] [] []]; reflexivity. Qed.

(** The cast of a text to an ObjectId gives a text that the cast leaves as
    it is. *)
Lemma ObjectId_idem (id : string) : ObjectId (ObjectId id) = ObjectId id.
Proof.
  unfold ObjectId. induction id as [|c r IH]; [reflexivity|].
  cbn. rewrite lower_char_idem, IH. reflexivity.
Qed.

Lemma toLowerCase_length (s : string) :
  String.length (toLowerCase s) = String.length s.
Proof. induction s as [|c r IH]; [reflexivity|]. cbn. rewrite IH. reflexivity. Qed.

(** A text names an ObjectId exactly when its cast does. *)
Lemma isValidObjectId_ObjectId (id : string) :
  isValidObjectId (ObjectId id) = isValidObjectId id.
Proof.
  unfold isValidObjectId, ObjectId. rewrite toLowerCase_length. f_equal.
  induction id as [|c r IH]; [reflexivity|].
  cbn. rewrite lower_char_hex, IH. reflexivity.
Qed.

Lemma map_ObjectId_canonical (ids : list string) :
  Forall (fun id => ObjectId id = id) ids -> map ObjectId ids = ids.
Proof.
  induction 1 as [|id ids Hid _ IH]; [reflexivity|].
  cbn. rewrite Hid, IH. reflexivity.
Qed.

(** ** Running a handler *)

Arguments runBalanceResetSafely : simpl never.
Arguments resetStudentBalancesIfNeeded : simpl never.
Arguments parseGroupMembershipPayload : simpl never.
Arguments parseGroupIds : simpl never.
Arguments parseAttendanceRecords : simpl never.
Arguments validateStudent : simpl never.
Arguments validateGroup : simpl never.
Arguments isValidObjectId : simpl never.
Arguments activeSeats : simpl never.
Arguments tally : simpl never.
Arguments toDateKey : simpl never.
Arguments trim : simpl never.
Arguments toLowerCase : simpl never.
Arguments Set_of : simpl never.
Arguments join : simpl never.
Arguments String.append : simpl never.
Arguments createStudent_scalars : simpl never.
Arguments updateStudent_scalars : simpl never.
Arguments Student_save : simpl never.
Arguments Student_create : simpl never.
Arguments Group_save : simpl never.
Arguments Student_updateMany : simpl never.
Arguments validateGroupAssignments : simpl never.
Arguments syncGroupStudentLinks : simpl never.
Arguments countActiveMembershipsByGroupIds : simpl never.
Arguments getActiveStudentCountsByGroupIds : simpl never.
Arguments ensureStudentInGroupList : simpl never.
Arguments removeStudentFromGroupList : simpl never.
Arguments phone_conflict : simpl never.
Arguments persist : simpl never.
Arguments groupsById : simpl never.
Arguments includes : simpl never.
Arguments closed : simpl never.

(** A handler is its balance-reset check followed by the rest, which runs
    on the world the check left. *)
Lemma after_reset {A : Type} (amb : Ambient) (h : M A) (w : world) :
  (runBalanceResetSafely amb ;;; h) w
  = (result_of (h (world_of (runBalanceResetSafely amb w))),
     world_of (h (world_of (runBalanceResetSafely amb w))),
     calls_of (runBalanceResetSafely amb w)
     ++ calls_of (h (world_of (runBalanceResetSafely amb w)))).
Proof. reflexivity. Qed.

Lemma sweep_students_balance_only (t : Z) :
  balance_only (fun s => if reset_due (t - THIRTY_DAYS_MS) s
                         then with_balance_reset 0 t s else s).
Proof.
  intros s. destruct (reset_due _ s); [right; eexists; reflexivity|left; reflexivity].
Qed.

(** The check changes no group, and of a student only the balance fields. *)
Lemma reset_check_effect (amb : Ambient) (w : world) :
  exists f,
    balance_only f
    /\ Students (world_of (runBalanceResetSafely amb w)) = map f (Students w)
    /\ Groups (world_of (runBalanceResetSafely amb w)) = Groups w.
Proof.
  unfold runBalanceResetSafely.
  destruct (reset_world_cases false amb w) as [Hg [Hs|Hs]].
  - exists (fun s => s). split; [intros s; left; reflexivity|].
    split; [|exact Hg]. cbn. rewrite Hs. symmetry. apply map_id.
  - eexists. split; [apply (sweep_students_balance_only (now amb))|].
    split; [exact Hs|exact Hg].
Qed.

Lemma failures_nil (checks : list (bool * Message)) :
  failures checks = [] <-> Forall (fun c => c.1 = true) checks.
Proof.
  unfold failures. induction checks as [|[ok msg] l IH]; cbn.
  - split; [constructor|reflexivity].
  - rewrite Forall_cons. cbn. destruct ok; cbn.
    + rewrite IH. tauto.
    + split; [discriminate|]. intros [? _]. discriminate.
Qed.

(** Reduction of the record projections on the record updates. *)
Ltac fields :=
  cbn [s_id fullname studentPhone parentPhone groupAttached gender birthDate
       s_note password balance balanceResetAt coinBalance groups
       with_groups with_groupAttached with_coinBalance with_balance_reset
       with_password preValidate assign
       g_id g_status maxStudents students attendance
       with_students with_attendance
       Students Groups isResetRunning lastResetRunAt
       with_Students with_Groups with_scheduler
       fst snd result_of world_of calls_of] in *.

Lemma valid_student_iff (t : Z) (s : Student) :
  valid_student t s
  <-> Forall (fun c => c.1 = true) (scalar_checks t s)
      /\ groups_unique (groups s) = true
      /\ Forall (fun m => too_long 300 (m_note m) = false) (groups s).
Proof.
  unfold valid_student, validateStudent, group_checks.
  rewrite failures_nil, Forall_app, Forall_cons, Forall_fmap.
  cbn [fst]. apply and_iff_compat_l, and_iff_compat_l, Forall_proper;
    [|reflexivity].
  intros m. cbn. rewrite negb_true_iff. reflexivity.
Qed.

Section BalanceOnly.
Variable f : Student -> Student.
Hypothesis Hf : balance_only f.

Lemma balance_only_id (s : Student) : s_id (f s) = s_id s.
Proof. destruct (Hf s) as [->|[t ->]]; reflexivity. Qed.

Lemma balance_only_groups (s : Student) : groups (f s) = groups s.
Proof. destruct (Hf s) as [->|[t ->]]; reflexivity. Qed.

Lemma balance_only_groupAttached (s : Student) :
  groupAttached (f s) = groupAttached s.
Proof. destruct (Hf s) as [->|[t ->]]; reflexivity. Qed.

Lemma balance_only_coinBalance (s : Student) :
  coinBalance (f s) = coinBalance s.
Proof. destruct (Hf s) as [->|[t ->]]; reflexivity. Qed.

Lemma balance_only_stored (id : string) (l : list Student) :
  stored id (map f l) = f <$> stored id l.
Proof.
  unfold stored. induction l as [|s l IH]; [reflexivity|].
  cbn. rewrite balance_only_id. destruct (String.eqb (s_id s) id); [reflexivity|exact IH].
Qed.

Lemma balance_only_activeIn (groupId : string) (s : Student) :
  activeIn groupId (f s) = activeIn groupId s.
Proof. unfold activeIn. rewrite balance_only_groups. reflexivity. Qed.

Lemma balance_only_excluded (x : option string) (s : Student) :
  excluded x (f s) = excluded x s.
Proof. unfold excluded. rewrite balance_only_id. reflexivity. Qed.

Lemma balance_only_activeSeats (groupId : string) (x : option string)
    (l : list Student) :
  activeSeats groupId x (map f l) = activeSeats groupId x l.
Proof.
  unfold activeSeats. f_equal.
  induction l as [|s l IH]; [reflexivity|].
  cbn. rewrite balance_only_activeIn, balance_only_excluded.
  destruct (_ && _); cbn; congruence.
Qed.


End BalanceOnly.

(** ** Lists, sets of texts and [findIndex] *)

Lemma includes_In (xs : list string) (x : string) :
  includes xs x = true <-> In x xs.
Proof.
  unfold includes. rewrite existsb_exists. split.
  - intros (y & Hy & He). apply String.eqb_eq in He. subst. exact Hy.
  - intros H. exists x. split; [exact H|apply String.eqb_refl].
Qed.

Lemma set_values_length (seen xs : list string) :
  (length (set_values seen xs) <= length xs)%nat.
Proof.
  revert seen. induction xs as [|x r IH]; intros seen; cbn; [lia|].
  destruct (existsb _ seen); cbn.
  - specialize (IH seen). lia.
  - specialize (IH (x :: seen)). lia.
Qed.

Lemma set_values_full (seen xs : list string) :
  length (set_values seen xs) = length xs
  <-> NoDup xs /\ (forall x, In x xs -> ~ In x seen).
Proof.
  revert seen. induction xs as [|x r IH]; intros seen; cbn.
  - split; [intros _; split; [constructor|tauto]|reflexivity].
  - destruct (existsb (String.eqb x) seen) eqn:E.
    + split.
      * intros H. pose proof (set_values_length seen r). lia.
      * intros [_ H]. exfalso. apply (H x); [left; reflexivity|].
        apply includes_In. exact E.
    + cbn. rewrite Nat.succ_inj_wd, IH, NoDup_cons, list_elem_of_In. split.
      * intros [Hnd H]. split; [split; [|exact Hnd]|].
        -- intros Hx. apply (H x Hx). left. reflexivity.
        -- intros y [<-|Hy] Hs.
           ++ apply includes_In in Hs. unfold includes in Hs. congruence.
           ++ apply (H y Hy). right. exact Hs.
      * intros [[Hx Hnd] H]. split; [exact Hnd|].
        intros y Hy [<-|Hs]; [contradiction|].
        apply (H y); [right; exact Hy|exact Hs].
Qed.

Lemma Set_of_length_NoDup (xs : list string) :
  (length (Set_of xs) =? length xs)%nat = true <-> NoDup xs.
Proof.
  unfold Set_of. rewrite Nat.eqb_eq, set_values_full. cbn. tauto.
Qed.

Lemma set_values_NoDup (seen xs : list string) :
  NoDup xs -> (forall x, In x xs -> ~ In x seen) -> set_values seen xs = xs.
Proof.
  revert seen. induction xs as [|x r IH]; intros seen Hnd H; cbn; [reflexivity|].
  apply NoDup_cons in Hnd as [Hx Hnd]. rewrite list_elem_of_In in Hx.
  destruct (existsb (String.eqb x) seen) eqn:E.
  - exfalso. apply (H x); [left; reflexivity|]. apply includes_In. exact E.
  - f_equal. apply IH; [exact Hnd|].
    intros y Hy [<-|Hs]; [contradiction|]. apply (H y); [right; exact Hy|exact Hs].
Qed.

Lemma Set_of_NoDup (xs : list string) : NoDup xs -> Set_of xs = xs.
Proof. intros H. apply set_values_NoDup; [exact H|]. intros x _ []. Qed.

Lemma set_values_In (seen xs : list string) (x : string) :
  In x (set_values seen xs) <-> In x xs /\ ~ In x seen.
Proof.
  revert seen. induction xs as [|y r IH]; intros seen; cbn; [tauto|].
  destruct (existsb (String.eqb y) seen) eqn:E.
  - rewrite IH. apply includes_In in E. split.
    + tauto.
    + intros [[<-|H] Hs]; tauto.
  - assert (~ In y seen) as Hy.
    { intros H. apply includes_In in H. unfold includes in H. congruence. }
    cbn. rewrite IH. cbn. split.
    + intros [<-|[H Hs]]; [tauto|]. split; [tauto|]. tauto.
    + intros [[<-|H] Hs]; [tauto|].
      destruct (String.eqb_spec y x) as [->|Hne]; [tauto|]. right. tauto.
Qed.

Lemma Set_of_In (xs : list string) (x : string) : In x (Set_of xs) <-> In x xs.
Proof. unfold Set_of. rewrite set_values_In. cbn. tauto. Qed.

Lemma findIndex_Some {A : Type} (f : A -> bool) (l : list A) (i : nat) :
  findIndex f l = Some i ->
  exists x, l !! i = Some x /\ f x = true
            /\ forall j y, (j < i)%nat -> l !! j = Some y -> f y = false.
Proof.
  revert i. induction l as [|a l IH]; intros i; cbn; [discriminate|].
  destruct (f a) eqn:E.
  - intros [= <-]. exists a. split; [reflexivity|]. split; [exact E|].
    intros j y Hj. lia.
  - destruct (findIndex f l) as [k|]; [|discriminate]. cbn. intros [= <-].
    destruct (IH k eq_refl) as (x & Hx & Hfx & Hlt).
    exists x. split; [exact Hx|]. split; [exact Hfx|].
    intros [|j] y Hj; cbn.
    + intros [= <-]. exact E.
    + apply Hlt. lia.
Qed.

Lemma findIndex_None {A : Type} (f : A -> bool) (l : list A) :
  findIndex f l = None <-> forall x, In x l -> f x = false.
Proof.
  induction l as [|a l IH]; cbn.
  - split; [intros _ x []|reflexivity].
  - destruct (f a) eqn:E.
    + split; [discriminate|]. intros H. rewrite (H a) in E; [discriminate|].
      left. reflexivity.
    + destruct (findIndex f l) as [k|]; cbn.
      * split; [discriminate|]. intros H.
        assert (@None nat = None) as _ by reflexivity.
        exfalso. assert (Some k = None) as Hk; [|discriminate].
        apply IH. intros x Hx. apply H. right. exact Hx.
      * split; [|reflexivity]. intros _ x [<-|Hx]; [exact E|].
        apply IH; [reflexivity|exact Hx].
Qed.

(** ** Attaching a student to a group *)


Lemma stored_id (id : string) (l : list Student) (s : Student) :
  stored id l = Some s -> s_id s = id /\ In s l.
Proof.
  unfold stored. intros H. apply find_some in H as [Hin He].
  apply String.eqb_eq in He. auto.
Qed.






Lemma groups_unique_NoDup (gs : list Membership) :
  groups_unique gs = true <-> NoDup (map group gs).
Proof.
  unfold groups_unique. rewrite <- (length_map group gs).
  apply Set_of_length_NoDup.
Qed.








Lemma persist_id (doc old : Student) : s_id (persist doc old) = s_id old.
Proof.
  unfold persist. destruct (String.eqb_spec (s_id old) (s_id doc)) as [E|E];
    [|reflexivity].
  destruct (password doc); cbn; congruence.
Qed.

Lemma stored_persist (doc : Student) (id : string) (l : list Student) :
  stored id (map (persist doc) l) = persist doc <$> stored id l.
Proof.
  unfold stored. induction l as [|s l IH]; [reflexivity|].
  cbn. rewrite persist_id. destruct (String.eqb (s_id s) id); [reflexivity|exact IH].
Qed.

Lemma persist_groups (doc old : Student) :
  s_id old = s_id doc ->
  groups (persist doc old) = groups doc
  /\ groupAttached (persist doc old) = groupAttached doc
  /\ coinBalance (persist doc old) = coinBalance doc.
Proof.
  unfold persist. intros ->. rewrite String.eqb_refl.
  destruct (password doc); repeat split; reflexivity.
Qed.




(** ** Serialisation *)

(** C10. The public rendering of a student document, [toJSON] and
    [toObject] alike, holds neither [password] nor [balanceResetAt],
    whatever the document stores: the transform removes both keys from any
    plain object, and every student a response carries is sent through
    it. *)
Theorem student_json_hides_sensitive_fields :
  (forall (doc : Student) (ret : gmap string jsval),
     hideSensitiveFields doc ret !! "password" = None
     /\ hideSensitiveFields doc ret !! "balanceResetAt" = None
     /\ forall key, key <> "password" -> key <> "balanceResetAt" ->
                    hideSensitiveFields doc ret !! key = ret !! key)
  /\ (forall doc : Student,
        toJSON doc !! "password" = None
        /\ toJSON doc !! "balanceResetAt" = None
        /\ toObject doc !! "password" = None
        /\ toObject doc !! "balanceResetAt" = None
        /\ toJSON doc !! "_id" = Some (JSString (s_id doc))
        /\ toJSON doc !! "balance" = Some (JSNumber (balance doc)))
  /\ (forall (r : Response) (sent : gmap string jsval),
        In sent (sent_students r) ->
        sent !! "password" = None /\ sent !! "balanceResetAt" = None).
Proof.
  assert (forall (doc : Student) (ret : gmap string jsval),
            hideSensitiveFields doc ret !! "password" = None
            /\ hideSensitiveFields doc ret !! "balanceResetAt" = None
            /\ forall key, key <> "password" -> key <> "balanceResetAt" ->
                           hideSensitiveFields doc ret !! key = ret !! key)
    as Hhide.
  { intros doc ret. unfold hideSensitiveFields. split; [|split].
    - rewrite lookup_delete_ne by discriminate. apply lookup_delete_eq.
    - apply lookup_delete_eq.
    - intros key Hp Hb. rewrite !lookup_delete_ne by congruence. reflexivity. }
  split; [exact Hhide|]. split.
  - intros doc. unfold toObject, toJSON.
    destruct (Hhide doc (plain_object doc)) as (Hp & Hb & Hrest).
    repeat split; try assumption.
    + rewrite Hrest by discriminate. unfold plain_object, optional.
      destruct (s_note doc), (password doc), (balanceResetAt doc); cbn;
        repeat (rewrite lookup_insert_ne by discriminate);
        apply lookup_insert_eq.
    + rewrite Hrest by discriminate. unfold plain_object, optional.
      destruct (s_note doc), (password doc), (balanceResetAt doc); cbn;
        repeat (rewrite lookup_insert_ne by discriminate);
        apply lookup_insert_eq.
  - intros r sent Hin. unfold sent_students in Hin.
    apply in_map_iff in Hin as (doc & <- & _). unfold toJSON.
    destruct (Hhide doc (plain_object doc)) as (Hp & Hb & _). auto.
Qed.

Lemma student_json_hides_sensitive_fields_witness :
  plain_object (sample_member studentA "+998901111111" []) !! "balanceResetAt"
  = Some (JSDate (100 * day))
  /\ toJSON (sample_member studentA "+998901111111" []) !! "balanceResetAt"
     = None.
Proof.
  split; [vm_compute; reflexivity|].
  exact (proj1 (proj2 (proj1 (proj2 student_json_hides_sensitive_fields)
                         (sample_member studentA "+998901111111" [])))).
Defined.

(** ** Completed and archived groups *)



Lemma find_group_In (id : string) (l : list Group) (g : Group) :
  find_group id l = Some g -> In g l /\ g_id g = id.
Proof.
  unfold find_group. intros H. apply find_some in H as [Hin He].
  apply String.eqb_eq in He. auto.
Qed.

Lemma groupsById_from (m : gmap string Group) (docs : list Group)
    (id : string) (g : Group) :
  foldl (fun (m : gmap string Group) g => <[g_id g := g]> m) m docs !! id
  = Some g ->
  (In g docs /\ g_id g = id) \/ m !! id = Some g.
Proof.
  revert m. induction docs as [|d docs IH]; intros m; cbn; [auto|].
  intros H. apply IH in H as [[Hin Hid]|H]; [left; auto|].
  destruct (decide (g_id d = id)) as [E|E].
  - rewrite <- E, lookup_insert_eq in H. injection H as ->. left. auto.
  - rewrite lookup_insert_ne in H by exact E. right. exact H.
Qed.

Lemma groupsById_some (m : gmap string Group) (docs : list Group)
    (id : string) :
  (exists g, In g docs /\ g_id g = id) \/ is_Some (m !! id) ->
  is_Some (foldl (fun (m : gmap string Group) g => <[g_id g := g]> m) m docs
           !! id).
Proof.
  revert m. induction docs as [|d docs IH]; intros m; cbn.
  - intros [(g & [] & _)|H]. exact H.
  - intros [(g & [<-|Hin] & Hid)|H]; apply IH.
    + right. rewrite Hid, lookup_insert_eq. eauto.
    + left. eauto.
    + right. destruct (decide (g_id d = id)) as [E|E].
      * rewrite E, lookup_insert_eq. eauto.
      * rewrite lookup_insert_ne by exact E. exact H.
Qed.

Lemma unique_group (l : list Group) (g g' : Group) :
  NoDup (map g_id l) -> In g l -> In g' l -> g_id g = g_id g' -> g = g'.
Proof.
  induction l as [|a l IH]; cbn; [tauto|].
  rewrite NoDup_cons, list_elem_of_In. intros [Ha Hnd] [<-|Hg] [<-|Hg'] He.
  - reflexivity.
  - exfalso. apply Ha. rewrite He. apply in_map. exact Hg'.
  - exfalso. apply Ha. rewrite <- He. apply in_map. exact Hg.
  - apply IH; assumption.
Qed.


Lemma createStudent_scalars_400 (body : CreateBody) (r : Response) :
  createStudent_scalars body = Some r ->
  statusCode r = 400 /\ payload r = NoPayload.
Proof.
  unfold createStudent_scalars.
  repeat match goal with
         | |- (if ?c then _ else _) = _ -> _ => destruct c
         end; intros [= <-] || discriminate; split; reflexivity.
Qed.

Lemma field_400 {A B : Type} (input : option A) (parse : A -> option B)
    (refusal : Response) (k : option B -> Response + UpdatePayload)
    (r : Response) :
  statusCode refusal = 400 ->
  (forall b r', k b = inl r' -> statusCode r' = 400) ->
  field input parse refusal k = inl r ->
  statusCode r = 400.
Proof.
  unfold field. intros Hr Hk. destruct input as [a|]; [|apply Hk].
  destruct (parse a); [apply Hk|]. intros [= <-]. exact Hr.
Qed.

Lemma updateStudent_scalars_400 (amb : Ambient) (body : UpdateBody)
    (r : Response) :
  updateStudent_scalars amb body = inl r -> statusCode r = 400.
Proof.
  unfold updateStudent_scalars.
  repeat (apply field_400; [reflexivity|]; intros ? ?).
  discriminate.
Qed.

Lemma updateStudent_scalars_groups (amb : Ambient) (body : UpdateBody)
    (p : UpdatePayload) :
  updateStudent_scalars amb body = inr p -> p_groups p = None.
Proof.
  unfold updateStudent_scalars, field.
  repeat match goal with
         | |- match ?x with _ => _ end = _ -> _ => destruct x
         end; intros [= <-] || discriminate; reflexivity.
Qed.





Lemma Student_save_cases (amb : Ambient) (doc : Student) (w : world) :
  (exists errors,
     Student_save amb doc w = (inl (ValidationError errors), w, [])
     /\ errors = validateStudent (now amb) (preValidate doc)
     /\ errors <> [])
  \/ (phone_conflict (preValidate doc) (Students w) = true
      /\ Student_save amb doc w
         = (inl DuplicateKey, w, [CStudent_save (s_id doc)]))
  \/ (valid_student (now amb) (preValidate doc)
      /\ Student_save amb doc w
         = (inr (preValidate doc),
            with_Students (map (persist (preValidate doc)) (Students w)) w,
            [CStudent_save (s_id doc)])).
Proof.
  unfold Student_save, valid_student.
  destruct (validateStudent (now amb) (preValidate doc)) as [|e es] eqn:E.
  - right. destruct (phone_conflict _ _); [left|right]; auto.
  - left. eexists. split; [reflexivity|]. split; [reflexivity|discriminate].
Qed.





(** ** Desired groups that do not exist, or occur twice *)

Lemma parseGroupIds_Value (input : groups_input) (ids : list string) :
  parseGroupIds input = Value ids ->
  NoDup ids
  /\ exists items, input = GroupsArray items /\ ids = map trim items.
Proof.
  unfold parseGroupIds. destruct input as [|items|]; try discriminate.
  destruct (forallb _ _); [|discriminate].
  destruct (length (Set_of (map trim items)) =? length (map trim items))%nat
    eqn:E; [|discriminate].
  apply Set_of_length_NoDup in E. rewrite (Set_of_NoDup _ E).
  intros [= <-]. split; [exact E|]. eauto.
Qed.

Lemma parseGroupIds_duplicate (items : list string) :
  ~ NoDup (map trim items) -> parseGroupIds (GroupsArray items) = Null.
Proof.
  intros H. unfold parseGroupIds. destruct (forallb _ _); [|reflexivity].
  destruct (length (Set_of (map trim items)) =? length (map trim items))%nat
    eqn:E; [|reflexivity].
  apply Set_of_length_NoDup in E. contradiction.
Qed.

Lemma filter_length_lt {A : Type} (p : A -> bool) (l : list A) (x : A) :
  In x l -> p x = false -> (length (List.filter p l) < length l)%nat.
Proof.
  induction l as [|a l IH]; cbn; [tauto|].
  intros [<-|Hin] Hx.
  - rewrite Hx. pose proof (List.filter_length_le p l). lia.
  - specialize (IH Hin Hx). destruct (p a); cbn; lia.
Qed.

(** With unique ids on both sides, [Group.find] returns as many documents
    as there are desired ids that exist. *)
Lemma found_groups_length (ids : list string) (gs : list Group) :
  NoDup ids ->
  NoDup (map g_id gs) ->
  length (List.filter (fun g => includes ids (g_id g)) gs)
  = length (List.filter (fun id => includes (map g_id gs) id) ids).
Proof.
  intros Hids Hgs.
  rewrite <- (length_map g_id (List.filter _ gs)).
  apply Permutation_length, NoDup_Permutation.
  - clear Hids. induction gs as [|g gs IH]; cbn; [constructor|].
    cbn in Hgs. apply NoDup_cons in Hgs as [Hg Hgs].
    destruct (includes ids (g_id g)); cbn; [|apply IH; exact Hgs].
    apply NoDup_cons. split; [|apply IH; exact Hgs].
    intros Hin. apply Hg. apply list_elem_of_In in Hin.
    apply list_elem_of_In. apply in_map_iff in Hin as (g' & <- & Hin).
    apply filter_In in Hin as [Hin _]. apply in_map. exact Hin.
  - clear Hgs. induction ids as [|i ids IH]; cbn; [constructor|].
    apply NoDup_cons in Hids as [Hi Hids].
    destruct (includes (map g_id gs) i); cbn; [|apply IH; exact Hids].
    apply NoDup_cons. split; [|apply IH; exact Hids].
    intros Hin. apply Hi. apply list_elem_of_In in Hin.
    apply list_elem_of_In. apply filter_In in Hin as [Hin _]. exact Hin.
  - intros x. rewrite !list_elem_of_In, in_map_iff, filter_In, includes_In.
    split.
    + intros (g & <- & Hin). apply filter_In in Hin as [Hin Hinc].
      apply includes_In in Hinc. split; [exact Hinc|]. apply in_map. exact Hin.
    + intros [Hx Hin]. apply in_map_iff in Hin as (g & <- & Hin).
      exists g. split; [reflexivity|]. apply filter_In. split; [exact Hin|].
      apply includes_In. exact Hx.
Qed.

Lemma find_group_None (id : string) (gs : list Group) :
  find_group id gs = None <-> includes (map g_id gs) id = false.
Proof.
  unfold find_group. rewrite <- not_true_iff_false, includes_In, in_map_iff.
  split.
  - intros H (g & <- & Hin). eapply find_none in H; [|exact Hin].
    rewrite String.eqb_refl in H. discriminate.
  - intros H. destruct (find _ gs) as [g|] eqn:E; [|reflexivity].
    exfalso. apply H. apply find_some in E as [Hin He].
    apply String.eqb_eq in He. eauto.
Qed.

Lemma NoDup_map_filter {A : Type} (f : A -> string) (p : A -> bool)
    (l : list A) :
  NoDup (map f l) -> NoDup (map f (List.filter p l)).
Proof.
  induction l as [|a l IH]; cbn; [trivial|].
  rewrite NoDup_cons, list_elem_of_In. intros [Ha Hnd].
  destruct (p a); cbn; [|apply IH; exact Hnd].
  apply NoDup_cons. split; [|apply IH; exact Hnd].
  rewrite list_elem_of_In. intros Hin. apply Ha.
  apply in_map_iff in Hin as (a' & <- & Hin).
  apply filter_In in Hin as [Hin _]. apply in_map. exact Hin.
Qed.

(** When a desired id names no group, [Group.find] returns fewer documents
    than there are desired ids. *)
Lemma found_groups_fewer (ids : list string) (gs : list Group)
    (absent : string) :
  NoDup (map g_id gs) ->
  In absent ids ->
  find_group (ObjectId absent) gs = None ->
  (length (List.filter (fun g => includes (map ObjectId ids) (g_id g)) gs)
   < length ids)%nat.
Proof.
  intros Hgs Hin Hnone.
  set (docs := List.filter (fun g => includes (map ObjectId ids) (g_id g)) gs).
  assert (NoDup (ObjectId absent :: map g_id docs)) as Hnd.
  { apply NoDup_cons. split; [|apply NoDup_map_filter; exact Hgs].
    rewrite list_elem_of_In. intros H.
    apply in_map_iff in H as (g & Hid & Hg).
    apply filter_In in Hg as [Hg _].
    apply find_group_None in Hnone.
    apply not_true_iff_false in Hnone. apply Hnone.
    apply includes_In. rewrite <- Hid. apply in_map. exact Hg. }
  assert (ObjectId absent :: map g_id docs ⊆+ map ObjectId ids) as Hsub.
  { apply NoDup_submseteq; [exact Hnd|]. intros x Hx.
    apply list_elem_of_In. apply list_elem_of_In in Hx as [<-|Hx].
    - apply in_map. exact Hin.
    - apply in_map_iff in Hx as (g & <- & Hg).
      apply filter_In in Hg as [_ Hg]. apply includes_In. exact Hg. }
  apply submseteq_length in Hsub. cbn in Hsub.
  rewrite !length_map in Hsub. lia.
Qed.

(** The ids [validateGroupAssignments] names as missing: the desired ids
    that no group of the collection prints. *)
Lemma missing_ids (ids : list string) (gs : list Group) :
  Forall (fun g => ObjectId (g_id g) = g_id g) gs ->
  List.filter
    (fun id => negb (includes
                       (map g_id (List.filter
                                    (fun g => includes (map ObjectId ids)
                                                       (g_id g)) gs)) id))
    ids
  = List.filter (fun id => negb (includes (map g_id gs) id)) ids.
Proof.
  intros Hgs. apply filter_ext_in. intros id Hid. f_equal.
  apply eq_true_iff_eq. rewrite !includes_In, !in_map_iff. split.
  - intros (g & <- & Hin). apply filter_In in Hin as [Hin _]. eauto.
  - intros (g & <- & Hin). exists g. split; [reflexivity|].
    apply filter_In. split; [exact Hin|]. apply includes_In.
    rewrite Forall_forall in Hgs.
    rewrite <- (Hgs g) by (apply list_elem_of_In; exact Hin).
    apply in_map. exact Hid.
Qed.

Lemma validateGroupAssignments_missing (ids : list string)
    (excludeStudentId : option string) (w : world) (absent : string) :
  NoDup (map g_id (Groups w)) ->
  Forall (fun g => ObjectId (g_id g) = g_id g) (Groups w) ->
  In absent ids ->
  find_group (ObjectId absent) (Groups w) = None ->
  validateGroupAssignments ids excludeStudentId w
  = (Some (400,
           Text ("One or more groups were not found: "
                 +:+ join ", "
                       (List.filter
                          (fun id => negb (includes (map g_id (Groups w)) id))
                          ids))),
     w, [CGroup_find]).
Proof.
  intros Hgs Hcan Hin Hnone. unfold validateGroupAssignments.
  destruct ids as [|i0 rest]; [destruct Hin|].
  remember (i0 :: rest) as l eqn:Hl. clear Hl.
  unfold bind, Group_find, call. cbn.
  pose proof (found_groups_fewer l (Groups w) absent Hgs Hin Hnone) as Hlt.
  destruct (Nat.eqb_spec
              (length (List.filter
                         (fun g => includes (map ObjectId l) (g_id g))
                         (Groups w)))
              (length l)) as [E|E]; [lia|].
  cbn. rewrite (missing_ids l (Groups w) Hcan). reflexivity.
Qed.

(** A desired id that names no group is not the text of a stored id. *)
Lemma absent_is_missing (ids : list string) (gs : list Group)
    (absent : string) :
  Forall (fun g => ObjectId (g_id g) = g_id g) gs ->
  In absent ids ->
  find_group (ObjectId absent) gs = None ->
  In absent (List.filter (fun id => negb (includes (map g_id gs) id)) ids).
Proof.
  intros Hcan Hin Hnone. apply filter_In. split; [exact Hin|].
  apply negb_true_iff, not_true_iff_false. intros H.
  apply includes_In, in_map_iff in H as (g & Hid & Hg).
  rewrite Forall_forall in Hcan.
  pose proof (Hcan g (proj2 (list_elem_of_In _ _) Hg)) as Hc.
  apply find_group_None in Hnone. apply not_true_iff_false in Hnone.
  apply Hnone, includes_In. rewrite <- Hid, Hc. apply in_map. exact Hg.
Qed.

(** C8, as the code has it.  Let the stored groups have their ids, each
    its own, printed in lower-case digits.  When the scalar fields of a
    create or update request pass their checks and the desired list names,
    in either case, a group that does not exist, the answer is 400, the
    status of a rejected input, and its message is
    [One or more groups were not found: ] followed by the desired ids that
    no stored id prints, the absent one among them; nothing is written and
    the world is the one the balance-reset check left.  A desired list that
    holds an id twice is answered 400 and changes nothing; with the scalar
    fields passing, the message is that [groups] must be an array of
    ObjectId strings. *)
Theorem missing_groups_are_refused :
  (forall (amb : Ambient) (w : world) (body : CreateBody) (ids : list string)
          (absent : string),
     NoDup (map g_id (Groups w)) ->
     Forall (fun g => ObjectId (g_id g) = g_id g) (Groups w) ->
     createStudent_scalars body = None ->
     parseGroupIds (c_groups body) = Value ids ->
     In absent ids ->
     find_group (ObjectId absent) (Groups w) = None ->
     let r := createStudent amb body w in
     let missing :=
       List.filter (fun id => negb (includes (map g_id (Groups w)) id)) ids in
     result_of r
     = json 400 (Text ("One or more groups were not found: "
                       +:+ join ", " missing))
     /\ In absent missing
     /\ world_of r = world_of (runBalanceResetSafely amb w)
     /\ List.filter is_write (calls_of r)
        = List.filter is_write (calls_of (runBalanceResetSafely amb w)))
  /\ (forall (amb : Ambient) (w : world) (studentId : string)
             (body : UpdateBody) (scalars : UpdatePayload)
             (ids : list string) (absent : string),
        NoDup (map g_id (Groups w)) ->
        Forall (fun g => ObjectId (g_id g) = g_id g) (Groups w) ->
        isValidObjectId studentId = true ->
        updateStudent_scalars amb body = inr scalars ->
        parseGroupIds (u_groups body) = Value ids ->
        In absent ids ->
        find_group (ObjectId absent) (Groups w) = None ->
        let r := updateStudent amb studentId body w in
        let missing :=
          List.filter (fun id => negb (includes (map g_id (Groups w)) id))
                      ids in
        result_of r
        = json 400 (Text ("One or more groups were not found: "
                          +:+ join ", " missing))
        /\ In absent missing
        /\ world_of r = world_of (runBalanceResetSafely amb w)
        /\ List.filter is_write (calls_of r)
           = List.filter is_write (calls_of (runBalanceResetSafely amb w)))
  /\ (forall (amb : Ambient) (w : world) (body : CreateBody)
             (items : list string),
        c_groups body = GroupsArray items ->
        ~ NoDup (map trim items) ->
        let r := createStudent amb body w in
        statusCode (result_of r) = 400
        /\ world_of r = world_of (runBalanceResetSafely amb w)
        /\ (createStudent_scalars body = None ->
            result_of r
            = json 400 "groups must be an array of group ObjectId strings"))
  /\ (forall (amb : Ambient) (w : world) (studentId : string)
             (body : UpdateBody) (items : list string),
        u_groups body = GroupsArray items ->
        ~ NoDup (map trim items) ->
        let r := updateStudent amb studentId body w in
        statusCode (result_of r) = 400
        /\ world_of r = world_of (runBalanceResetSafely amb w)
        /\ (isValidObjectId studentId = true ->
            (exists scalars, updateStudent_scalars amb body = inr scalars) ->
            result_of r
            = json 400 "groups must be an array of group ObjectId strings")).
Proof.
  split; [|split; [|split]].
  - intros amb w body ids absent Hnd Hcan Hsc Hp Hin Hnone r missing.
    destruct (reset_check_effect amb w) as (f & Hf & Hss & Hgs).
    unfold r, createStudent. rewrite after_reset. fields.
    unfold createStudent_checked. rewrite Hsc, Hp. unfold bind.
    rewrite (validateGroupAssignments_missing ids None _ absent);
      [|rewrite Hgs; exact Hnd|rewrite Hgs; exact Hcan|exact Hin
       |rewrite Hgs; exact Hnone].
    cbn. rewrite Hgs. split; [reflexivity|]. split; [|split].
    + apply absent_is_missing; assumption.
    + reflexivity.
    + rewrite List.filter_app. cbn. apply app_nil_r.
  - intros amb w studentId body scalars ids absent Hnd Hcan Hs Hsc Hp Hin
      Hnone r missing.
    destruct (reset_check_effect amb w) as (f & Hf & Hss & Hgs).
    unfold r, updateStudent. rewrite after_reset. fields.
    unfold updateStudent_checked. rewrite Hs, Hsc, Hp. cbn [negb].
    unfold bind.
    rewrite (validateGroupAssignments_missing ids (Some studentId) _ absent);
      [|rewrite Hgs; exact Hnd|rewrite Hgs; exact Hcan|exact Hin
       |rewrite Hgs; exact Hnone].
    cbn. rewrite Hgs. split; [reflexivity|]. split; [|split].
    + apply absent_is_missing; assumption.
    + reflexivity.
    + rewrite List.filter_app. cbn. apply app_nil_r.
  - intros amb w body items Hb Hdup r.
    unfold r, createStudent. rewrite after_reset. fields.
    unfold createStudent_checked.
    rewrite Hb, (parseGroupIds_duplicate items Hdup).
    destruct (createStudent_scalars body) as [refusal|] eqn:Hsc; cbn.
    + apply createStudent_scalars_400 in Hsc as [Hc _].
      split; [exact Hc|]. split; [reflexivity|discriminate].
    + split; [reflexivity|]. split; reflexivity.
  - intros amb w studentId body items Hb Hdup r.
    unfold r, updateStudent. rewrite after_reset. fields.
    unfold updateStudent_checked.
    rewrite Hb, (parseGroupIds_duplicate items Hdup).
    destruct (isValidObjectId studentId); cbn [negb].
    + destruct (updateStudent_scalars amb body) as [refusal|p] eqn:Hsc; cbn.
      * apply updateStudent_scalars_400 in Hsc.
        split; [exact Hsc|]. split; [reflexivity|].
        intros _ [p Hp]. discriminate.
      * split; [reflexivity|]. split; reflexivity.
    + cbn. split; [reflexivity|]. split; [reflexivity|discriminate].
Qed.

Lemma missing_groups_are_refused_witness :
  result_of (createStudent at_noon (create_in [g2]) two_seat_world)
  = json 400 "One or more groups were not found: 65a000000000000000000002".
Proof.
  destruct (proj1 missing_groups_are_refused at_noon two_seat_world
              (create_in [g2]) [g2] g2) as (H & _).
  - repeat constructor; set_solver.
  - repeat constructor.
  - reflexivity.
  - reflexivity.
  - left. reflexivity.
  - reflexivity.
  - exact H.
Defined.

(** The claim as first stated gives a missing group the outcome of an
    entity that is not found, which the handlers report as 404.  A create
    request that names a group that does not exist is answered 400. *)
Lemma missing_group_is_400_counterexample :
  parseGroupIds (c_groups (create_in [g2])) = Value [g2]
  /\ find_group (ObjectId g2) (Groups two_seat_world) = None
  /\ statusCode (result_of (createStudent at_noon (create_in [g2])
                              two_seat_world)) = 400
  /\ statusCode (result_of (createStudent at_noon (create_in [g2])
                              two_seat_world)) <> 404
  /\ Students (world_of (createStudent at_noon (create_in [g2])
                           two_seat_world))
     = Students two_seat_world.
Proof. repeat split; vm_compute; congruence. Qed.

(** ** Computations that leave the student collection alone *)

Lemma keeps_ret {A : Type} (a : A) : keeps_students (ret a).
Proof. intros w. reflexivity. Qed.

Lemma keeps_bind {A B : Type} (m : M A) (k : A -> M B) :
  keeps_students m -> (forall a, keeps_students (k a)) ->
  keeps_students (bind m k).
Proof.
  intros Hm Hk w. unfold bind, world_of. cbn.
  etransitivity; [apply Hk|apply Hm].
Qed.

Lemma keeps_call {A : Type} (c : db_call) (f : world -> A * world) :
  (forall w, Students (f w).2 = Students w) -> keeps_students (call c f).
Proof. intros E w. apply E. Qed.

Ltac keeps :=
  repeat first
    [ apply keeps_ret
    | apply keeps_bind; [|intros ?]
    | apply keeps_call; intros ?; reflexivity
    | match goal with
      | |- keeps_students (match ?x with _ => _ end) => destruct x
      | |- keeps_students (if ?x then _ else _) => destruct x
      end ].

Lemma keeps_Group_find (ids : list string) : keeps_students (Group_find ids).
Proof. apply keeps_call. reflexivity. Qed.

Lemma keeps_Group_bulkWrite (updates : list (string * list string)) :
  keeps_students (Group_bulkWrite updates).
Proof. apply keeps_call. reflexivity. Qed.

Lemma keeps_sync (studentId : string) (previous next : list string) :
  keeps_students (syncGroupStudentLinks studentId previous next).
Proof.
  unfold syncGroupStudentLinks. cbv zeta.
  apply keeps_bind; [|intros _].
  - destruct (List.filter _ (Set_of next)); [apply keeps_ret|].
    apply keeps_bind; [apply keeps_Group_find|intros found].
    destruct (map _ found); [apply keeps_ret|apply keeps_Group_bulkWrite].
  - destruct (List.filter _ (Set_of previous)); [apply keeps_ret|].
    apply keeps_bind; [apply keeps_Group_find|intros found].
    destruct (map _ found); [apply keeps_ret|apply keeps_Group_bulkWrite].
Qed.

Lemma keeps_counts (ids : list string) :
  keeps_students (getActiveStudentCountsByGroupIds ids).
Proof.
  unfold getActiveStudentCountsByGroupIds.
  destruct ids; [apply keeps_ret|apply keeps_call; reflexivity].
Qed.

Lemma keeps_memberships_count (ids : list string) (x : option string) :
  keeps_students (countActiveMembershipsByGroupIds ids x).
Proof.
  unfold countActiveMembershipsByGroupIds.
  destruct ids; [apply keeps_ret|apply keeps_call; reflexivity].
Qed.

Lemma keeps_validateGroupAssignments (ids : list string)
    (x : option string) :
  keeps_students (validateGroupAssignments ids x).
Proof.
  unfold validateGroupAssignments. destruct ids as [|i rest]; [apply keeps_ret|].
  apply keeps_bind; [apply keeps_Group_find|intros docs].
  destruct (negb _); [apply keeps_ret|]. cbv zeta.
  destruct (existsb _ _); [apply keeps_ret|].
  apply keeps_bind; [apply keeps_memberships_count|intros counts].
  destruct (find _ _); apply keeps_ret.
Qed.

Lemma keeps_ensure (groupId studentId : string) :
  keeps_students (ensureStudentInGroupList groupId studentId).
Proof. apply keeps_call. reflexivity. Qed.

Lemma keeps_remove (groupId studentId : string) :
  keeps_students (removeStudentFromGroupList groupId studentId).
Proof. apply keeps_call. reflexivity. Qed.

Lemma keeps_Group_save (doc : Group) : keeps_students (Group_save doc).
Proof.
  intros w. unfold Group_save. destruct (validateGroup doc); reflexivity.
Qed.

(** ** Properties of students that every handler preserves *)

Section Preservation.

Variable P : Student -> Prop.
Hypothesis P_password : forall p s, P s -> P (with_password p s).
Hypothesis P_validated :
  forall t doc, valid_student t (preValidate doc) -> P (preValidate doc).
Hypothesis P_reset : forall t s, P s -> P (with_balance_reset 0 t s).
Hypothesis P_group_deleted :
  forall groupId s, P s -> P (recomputeGroupAttached (pullGroup groupId s)).

Lemma preserves_ret {A : Type} (a : A) : preserves P (ret a).
Proof. intros w H. exact H. Qed.

Lemma preserves_bind {A B : Type} (m : M A) (k : A -> M B) :
  preserves P m -> (forall a, preserves P (k a)) -> preserves P (bind m k).
Proof. intros Hm Hk w H. apply (Hk _ _ (Hm w H)). Qed.

Lemma preserves_reset (force : bool) (amb : Ambient) :
  preserves P (resetStudentBalancesIfNeeded force amb).
Proof.
  intros w H. destruct (reset_world_cases force amb w) as [_ [E|E]];
    cbv zeta in E; rewrite E; [exact H|].
  unfold sweep_students. apply Forall_fmap. eapply Forall_impl; [exact H|].
  intros s Hs. cbn. destruct (reset_due _ s); [apply P_reset|]; exact Hs.
Qed.

Lemma preserves_reset_check (amb : Ambient) :
  preserves P (runBalanceResetSafely amb).
Proof. intros w H. apply (preserves_reset false amb w H). Qed.

Lemma preserves_save (amb : Ambient) (doc : Student) :
  preserves P (Student_save amb doc).
Proof.
  intros w H.
  destruct (Student_save_cases amb doc w)
    as [(errors & -> & _)|[[_ ->] | [Hv ->]]]; try exact H.
  cbn. apply Forall_fmap. eapply Forall_impl; [exact H|].
  intros s Hs. cbn. unfold persist.
  destruct (String.eqb (s_id s) (s_id (preValidate doc))); [|exact Hs].
  pose proof (P_validated _ _ Hv) as Hd.
  destruct (password (preValidate doc)); [exact Hd|].
  apply P_password. exact Hd.
Qed.

Lemma preserves_create (amb : Ambient) (doc : Student) :
  preserves P (Student_create amb doc).
Proof.
  intros w H. unfold Student_create.
  destruct (validateStudent (now amb) (preValidate doc)) eqn:E; [|exact H].
  destruct (_ || _); [exact H|]. cbn.
  apply Forall_app. split; [exact H|].
  constructor; [|constructor]. eapply P_validated. exact E.
Qed.

Lemma preserves_delete (id : string) :
  preserves P (Student_findByIdAndDelete id).
Proof.
  intros w H. cbn. rewrite Forall_forall in *. intros s Hs.
  apply H. apply list_elem_of_In in Hs. apply filter_In in Hs as [Hs _].
  apply list_elem_of_In. exact Hs.
Qed.

Lemma preserves_keeps {A : Type} (m : M A) :
  keeps_students m -> preserves P m.
Proof. intros E w H. rewrite E. exact H. Qed.


Lemma preserves_pull_recompute (ids : list string) (groupId : string) :
  preserves P (Student_updateMany (fun s => includes ids (s_id s))
                                (pullGroup groupId) ;;;
             Student_updateMany (fun s => includes ids (s_id s))
                                recomputeGroupAttached ;;;
             ret tt).
Proof.
  intros w H. unfold bind, Student_updateMany, call. cbn.
  rewrite map_map. apply Forall_fmap.
  eapply Forall_impl; [exact H|]. intros s Hs. cbn.
  destruct (includes ids (s_id s)) eqn:E; cbn; rewrite E; [|exact Hs].
  apply P_group_deleted. exact Hs.
Qed.

Ltac preserve :=
  cbv zeta;
  repeat first
    [ apply preserves_ret
    | apply preserves_reset_check
    | apply preserves_save
    | apply preserves_create
    | apply preserves_delete
    | apply preserves_pull_recompute
    | apply preserves_keeps;
      first [ apply keeps_sync | apply keeps_counts
            | apply keeps_validateGroupAssignments | apply keeps_ensure
            | apply keeps_remove | apply keeps_Group_save
            | apply keeps_ret
            | apply keeps_call; intros ?; reflexivity ]
    | apply preserves_bind; [|intros ?]
    | match goal with
      | |- preserves P (match ?x with _ => _ end) => destruct x
      | |- preserves P (if ?x then _ else _) => destruct x
      end ].

Lemma preserves_createStudent (amb : Ambient) (body : CreateBody) :
  preserves P (createStudent amb body).
Proof. unfold createStudent, createStudent_checked. preserve. Qed.

Lemma preserves_updateStudent (amb : Ambient) (studentId : string)
    (body : UpdateBody) :
  preserves P (updateStudent amb studentId body).
Proof. unfold updateStudent, updateStudent_checked. preserve. Qed.

Lemma preserves_rewardStudentCoins (amb : Ambient) (studentId : string)
    (body : RewardBody) :
  preserves P (rewardStudentCoins amb studentId body).
Proof. unfold rewardStudentCoins, rewardStudentCoins_checked. preserve. Qed.

Lemma preserves_deleteStudent (amb : Ambient) (studentId : string) :
  preserves P (deleteStudent amb studentId).
Proof. unfold deleteStudent, deleteStudent_checked. preserve. Qed.

Lemma preserves_attach (amb : Ambient) (groupId studentId : string)
    (body : MembershipBody) :
  preserves P (attachStudentToGroup amb groupId studentId body).
Proof.
  unfold attachStudentToGroup, attachStudentToGroup_checked,
    countActiveStudentsForGroup, Group_findById, Student_findById.
  preserve.
Qed.

Lemma preserves_detach (amb : Ambient) (groupId studentId : string) :
  preserves P (detachStudentFromGroup amb groupId studentId).
Proof.
  unfold detachStudentFromGroup, detachStudentFromGroup_checked,
    Group_findById, Student_findById.
  preserve.
Qed.

Lemma preserves_deleteGroup (amb : Ambient) (groupId : string) :
  preserves P (deleteGroup amb groupId).
Proof.
  unfold deleteGroup, deleteGroup_checked, Group_findByIdAndDelete.
  preserve.
Qed.

Lemma preserves_attendance (amb : Ambient) (groupId : string)
    (body : AttendanceBody) :
  preserves P (upsertGroupAttendance amb groupId body).
Proof.
  unfold upsertGroupAttendance, upsertGroupAttendance_checked, Group_findById.
  preserve.
Qed.

Lemma preserves_serve (amb : Ambient) (req : request) (w : world) :
  Forall P (Students w) -> Forall P (Students (serve amb req w)).
Proof.
  destruct req; cbn.
  - apply preserves_createStudent.
  - apply preserves_updateStudent.
  - apply preserves_rewardStudentCoins.
  - apply preserves_deleteStudent.
  - apply preserves_attach.
  - apply preserves_detach.
  - apply preserves_deleteGroup.
  - apply preserves_attendance.
  - apply preserves_reset.
Qed.

Lemma preserves_step (w w' : world) :
  server_step w w' -> Forall P (Students w) -> Forall P (Students w').
Proof.
  intros [amb req w0|gs w0]; [apply preserves_serve|]. cbn. trivial.
Qed.

Lemma reachable_Forall (w : world) : reachable w -> Forall P (Students w).
Proof.
  induction 1 as [|w w' _ IH Hstep]; [constructor|].
  exact (preserves_step w w' Hstep IH).
Qed.

End Preservation.

(** ** The derived flag [groupAttached] *)

Lemma some_active (gs : list Membership) :
  (0 <? length (List.filter (fun m => isActive (m_status m)) gs))%nat
  = existsb (fun m => isActive (m_status m)) gs.
Proof.
  induction gs as [|m gs IH]; [reflexivity|].
  cbn. destruct (isActive (m_status m)); [reflexivity|exact IH].
Qed.

Lemma attached_consistent_iff (s : Student) :
  attached_consistent s ->
  (groupAttached s = true
   <-> exists m, In m (groups s) /\ m_status m = MActive).
Proof.
  unfold attached_consistent. intros ->. rewrite existsb_exists.
  split; intros (m & Hin & Hm); exists m; (split; [exact Hin|]).
  - destruct (m_status m); try discriminate. reflexivity.
  - rewrite Hm. reflexivity.
Qed.

Lemma enrolled_world_reachable : reachable enrolled_world.
Proof.
  unfold enrolled_world.
  eapply reachable_step; [|apply step_request].
  eapply reachable_step; [|apply step_group_edit].
  eapply reachable_step; [|apply step_request].
  apply reachable_initial.
Qed.

(** C2. In every state the server reaches, [groupAttached] of every
    student is true exactly when one of the student's memberships is
    active.  Every request keeps it so: no field of a request sets the
    flag; the document a [save] or [create] writes has the flag recomputed
    by the [pre('validate')] hook, and the students a deleted group is
    pulled from have it recomputed by the second bulk update. *)
Theorem groupAttached_tracks_active_memberships :
  (forall w : world,
     reachable w ->
     forall s, In s (Students w) ->
               (groupAttached s = true
                <-> exists m, In m (groups s) /\ m_status m = MActive))
  /\ (forall (amb : Ambient) (req : request) (w : world),
        Forall attached_consistent (Students w) ->
        Forall attached_consistent (Students (serve amb req w)))
  /\ (forall doc : Student, attached_consistent (preValidate doc))
  /\ (forall (groupId : string) (s : Student),
        attached_consistent (recomputeGroupAttached (pullGroup groupId s))).
Proof.
  assert (forall doc : Student, attached_consistent (preValidate doc)) as Hpre
    by (intros doc; reflexivity).
  assert (forall (groupId : string) (s : Student),
            attached_consistent (recomputeGroupAttached (pullGroup groupId s)))
    as Hdel by (intros groupId s; apply some_active).
  assert (forall (amb : Ambient) (req : request) (w : world),
            Forall attached_consistent (Students w) ->
            Forall attached_consistent (Students (serve amb req w))) as Hstep.
  { intros amb req w. apply preserves_serve.
    - intros p s Hs. exact Hs.
    - intros t doc _. apply Hpre.
    - intros t s Hs. exact Hs.
    - intros groupId s _. apply Hdel. }
  split; [|split; [exact Hstep|split; [exact Hpre|exact Hdel]]].
  intros w Hw s Hs. apply attached_consistent_iff.
  assert (Forall attached_consistent (Students w)) as Hall.
  { apply reachable_Forall; [| | | |exact Hw].
    - intros p s0 H. exact H.
    - intros t doc _. apply Hpre.
    - intros t s0 H. exact H.
    - intros groupId s0 _. apply Hdel. }
  rewrite Forall_forall in Hall. apply Hall, list_elem_of_In. exact Hs.
Qed.

Lemma groupAttached_tracks_active_memberships_witness :
  exists s,
    Students enrolled_world = [s]
    /\ groupAttached s = true
    /\ (groupAttached s = true
        <-> exists m, In m (groups s) /\ m_status m = MActive).
Proof.
  eexists. split; [vm_compute; reflexivity|]. split; [reflexivity|].
  apply (proj1 groupAttached_tracks_active_memberships enrolled_world
           enrolled_world_reachable).
  vm_compute. left. reflexivity.
Defined.

(** ** What a run of a handler leaves: weakest preconditions *)

Lemma wp_ret {A : Type} (a : A) (w : world) (Q : A -> world -> Prop) :
  Q a w -> wp (ret a) w Q.
Proof. intros H. exact H. Qed.

Lemma wp_bind {A B : Type} (m : M A) (k : A -> M B) (w : world)
    (Q : B -> world -> Prop) :
  wp m w (fun a w1 => wp (k a) w1 Q) -> wp (bind m k) w Q.
Proof. intros H. exact H. Qed.

Lemma wp_keeps {A : Type} (m : M A) (w : world) (Q : A -> world -> Prop) :
  keeps_students m ->
  (forall a w', Students w' = Students w -> Q a w') ->
  wp m w Q.
Proof. intros Hm H. apply H, Hm. Qed.

Lemma wp_findById (id : string) (w : world)
    (Q : option Student -> world -> Prop) :
  Q (with_password None <$> stored (ObjectId id) (Students w)) w ->
  wp (Student_findById id) w Q.
Proof. intros H. exact H. Qed.

Lemma wp_save (amb : Ambient) (doc : Student) (w : world)
    (Q : save_error + Student -> world -> Prop) :
  (forall e, Q (inl e) w) ->
  (valid_student (now amb) (preValidate doc) ->
   Q (inr (preValidate doc))
     (with_Students (map (persist (preValidate doc)) (Students w)) w)) ->
  wp (Student_save amb doc) w Q.
Proof.
  intros He Hok. unfold wp.
  destruct (Student_save_cases amb doc w)
    as [(errors & -> & _)|[[_ ->] | [Hv ->]]]; [apply He|apply He|].
  apply Hok, Hv.
Qed.

Lemma wp_create (amb : Ambient) (doc : Student) (w : world)
    (Q : save_error + Student -> world -> Prop) :
  (forall e, Q (inl e) w) ->
  (valid_student (now amb) (preValidate doc) ->
   stored (s_id doc) (Students w) = None ->
   Q (inr (preValidate doc))
     (with_Students (Students w ++ [preValidate doc]) w)) ->
  wp (Student_create amb doc) w Q.
Proof.
  intros He Hok. unfold wp, Student_create.
  destruct (validateStudent (now amb) (preValidate doc)) eqn:E; [|apply He].
  destruct (existsb _ (Students w)) eqn:Hex; cbn [orb]; [apply He|].
  destruct (phone_conflict _ _); [apply He|]. apply Hok; [exact E|].
  unfold stored. destruct (find _ _) as [s|] eqn:Hf; [|reflexivity].
  apply find_some in Hf as [Hin Hs].
  apply not_true_iff_false in Hex. exfalso. apply Hex.
  apply existsb_exists. exists s. split; [exact Hin|exact Hs].
Qed.

Lemma wp_delete (id : string) (w : world)
    (Q : option Student -> world -> Prop) :
  Q (with_password None <$> stored (ObjectId id) (Students w))
    (with_Students
       (List.filter (fun s => negb (String.eqb (s_id s) (ObjectId id)))
                    (Students w)) w) ->
  wp (Student_findByIdAndDelete id) w Q.
Proof. intros H. exact H. Qed.

Lemma wp_reset_check (amb : Ambient) (w : world) (Q : unit -> world -> Prop) :
  (forall f w', balance_only f -> Students w' = map f (Students w) ->
                Q tt w') ->
  wp (runBalanceResetSafely amb) w Q.
Proof.
  intros H. destruct (reset_check_effect amb w) as (f & Hf & Hs & _).
  unfold wp. destruct (result_of _). apply (H f); assumption.
Qed.

Lemma wp_updateMany (p : Student -> bool) (u : Student -> Student)
    (w : world) (Q : gmap string Z -> world -> Prop) :
  (forall a,
     Q a (with_Students (map (fun s => if p s then u s else s) (Students w))
                        w)) ->
  wp (Student_updateMany p u) w Q.
Proof. intros H. apply H. Qed.

(** *** Coins *)

Lemma coins_stay_refl (but : option string) (l : list Student) :
  coins_stay_but but l l.
Proof. intros id s H. exists s. split; [exact H|reflexivity]. Qed.

Lemma coins_stay_trans (but : option string) (l1 l2 l3 : list Student) :
  coins_stay_but but l1 l2 -> coins_stay_but but l2 l3 ->
  coins_stay_but but l1 l3.
Proof.
  intros H12 H23 id s H. destruct (H12 id s H) as (s2 & H2 & Hle2).
  destruct (H23 id s2 H2) as (s3 & H3 & Hle3). exists s3.
  split; [exact H3|]. intros Hne. rewrite (Hle3 Hne). exact (Hle2 Hne).
Qed.

Lemma coins_stay_weaken (but : option string) (l l' : list Student) :
  coins_stay l l' -> coins_stay_but but l l'.
Proof.
  intros H id s Hs. destruct (H id s Hs) as (s' & Hs' & Hc).
  exists s'. split; [exact Hs'|]. intros _. apply Hc. discriminate.
Qed.

Lemma coins_stay_map (f : Student -> Student) (l : list Student) :
  (forall s, s_id (f s) = s_id s) ->
  (forall s, In s l -> coinBalance (f s) = coinBalance s) ->
  coins_stay l (map f l).
Proof.
  intros Hid Hc id s H. exists (f s). split.
  - unfold stored in *. clear Hc. induction l as [|a l IH]; [discriminate|].
    cbn in *. rewrite Hid. destruct (String.eqb (s_id a) id).
    + injection H as ->. reflexivity.
    + apply IH. exact H.
  - intros _. apply Hc. apply stored_id in H as [_ Hin]. exact Hin.
Qed.

Lemma coins_stay_balance_only (f : Student -> Student) (l : list Student) :
  balance_only f -> coins_stay l (map f l).
Proof.
  intros Hf. apply coins_stay_map.
  - apply (balance_only_id f Hf).
  - intros s _. apply (balance_only_coinBalance f Hf).
Qed.

Lemma coins_stay_app (l added : list Student) : coins_stay l (l ++ added).
Proof.
  intros id s H. exists s. split; [|reflexivity].
  unfold stored in *. induction l as [|a l IH]; [discriminate|].
  cbn in *. destruct (String.eqb (s_id a) id); [exact H|apply IH; exact H].
Qed.

(** Saving a document in the place of the stored one with its id changes
    the coins of that document at most, and of none when the document has
    the coins of the stored one. *)
Lemma coins_stay_persist (doc : Student) (l : list Student) :
  coins_stay_but (Some (s_id doc)) l (map (persist doc) l).
Proof.
  intros id s H. rewrite stored_persist, H. cbn.
  eexists. split; [reflexivity|]. intros Hne.
  unfold persist. destruct (String.eqb_spec (s_id s) (s_id doc)) as [E|E];
    [|reflexivity].
  apply stored_id in H as [Hid _]. congruence.
Qed.

Lemma coins_stay_persist_same (doc s0 : Student) (l : list Student) :
  stored (s_id doc) l = Some s0 ->
  coinBalance doc = coinBalance s0 ->
  coins_stay l (map (persist doc) l).
Proof.
  intros Hs0 Hc id s H. rewrite stored_persist, H. cbn.
  eexists. split; [reflexivity|]. intros _.
  unfold persist. destruct (String.eqb_spec (s_id s) (s_id doc)) as [E|E];
    [|reflexivity].
  apply stored_id in H as Hid. destruct Hid as [Hid _].
  assert (s = s0) as -> by (rewrite <- Hid, E in H; congruence).
  destruct (password doc); cbn; exact Hc.
Qed.

Lemma keeps_Group_findById (id : string) : keeps_students (Group_findById id).
Proof. apply keeps_call. reflexivity. Qed.

Lemma keeps_Group_findByIdAndDelete (id : string) :
  keeps_students (Group_findByIdAndDelete id).
Proof. apply keeps_call. reflexivity. Qed.

Lemma keeps_seat_count (groupId : string) (x : option string) :
  keeps_students (countActiveStudentsForGroup groupId x).
Proof. apply keeps_call. reflexivity. Qed.

Lemma keeps_findOne (phone : string) : keeps_students (Student_findOne phone).
Proof. apply keeps_call. reflexivity. Qed.

Ltac wp_keep :=
  apply wp_keeps;
  [ first [ apply keeps_sync | apply keeps_counts
          | apply keeps_validateGroupAssignments | apply keeps_ensure
          | apply keeps_remove | apply keeps_Group_save
          | apply keeps_memberships_count | apply keeps_Group_findById
          | apply keeps_Group_findByIdAndDelete | apply keeps_seat_count
          | apply keeps_findOne | apply keeps_Group_find
          | apply keeps_call; intros ?; reflexivity ]
  | intros ? ? ? ].

Ltac wp_step :=
  lazymatch goal with
  | |- wp (ret _) _ _ => apply wp_ret
  | |- wp (bind _ _) _ _ => apply wp_bind
  | |- wp (runBalanceResetSafely _) _ _ =>
      apply wp_reset_check; intros ? ? ? ?
  | |- wp (Student_findById _) _ _ => apply wp_findById
  | |- wp (Student_findByIdAndDelete _) _ _ => apply wp_delete
  | |- wp (Student_save _ _) _ _ => apply wp_save; [intros ?|intros ?]
  | |- wp (Student_create _ _) _ _ => apply wp_create; [intros ?|intros ? ?]
  | |- wp (Student_updateMany _ _) _ _ => apply wp_updateMany; intros ?
  | |- wp (match ?x with _ => _ end) _ _ => destruct x eqn:?
  | |- wp (if ?x then _ else _) _ _ => destruct x eqn:?
  | |- wp _ _ _ => wp_keep
  end.

Ltac wp_go := repeat (cbv zeta beta; wp_step); cbv zeta beta; fields.

Lemma coins_stay_saved (id : string) (l : list Student) (s doc : Student) :
  with_password None <$> stored id l = Some s ->
  s_id doc = s_id s ->
  coinBalance doc = coinBalance s ->
  coins_stay l (map (persist doc) l).
Proof.
  intros Hs Hid Hc. destruct (stored id l) as [s0|] eqn:E; [|discriminate].
  injection Hs as <-. apply (coins_stay_persist_same doc s0).
  - rewrite Hid. cbn. apply stored_id in E as Hi. destruct Hi as [-> _].
    exact E.
  - exact Hc.
Qed.

(** The goals the rules leave: the student collection at the end against
    the one at the start. *)
Ltac students_chain :=
  repeat match goal with
         | H : Students ?x = _ |- _ => is_var x; rewrite H in *; clear H
         end.

Ltac coins_close :=
  students_chain;
  first
    [ apply coins_stay_balance_only; assumption
    | eapply coins_stay_trans;
      [ apply coins_stay_balance_only; eassumption
      | first [ apply coins_stay_app
              | eapply coins_stay_saved;
                [ eassumption | reflexivity | fields; try reflexivity ] ] ] ].

Lemma attach_coins (amb : Ambient) (groupId studentId : string)
    (body : MembershipBody) (w : world) :
  wp (attachStudentToGroup amb groupId studentId body) w
     (fun _ w' => coins_stay (Students w) (Students w')).
Proof.
  unfold attachStudentToGroup, attachStudentToGroup_checked.
  wp_go; coins_close.
Qed.

Lemma detach_coins (amb : Ambient) (groupId studentId : string) (w : world) :
  wp (detachStudentFromGroup amb groupId studentId) w
     (fun _ w' => coins_stay (Students w) (Students w')).
Proof.
  unfold detachStudentFromGroup, detachStudentFromGroup_checked.
  wp_go; coins_close.
Qed.

Lemma create_coins (amb : Ambient) (body : CreateBody) (w : world) :
  wp (createStudent amb body) w
     (fun _ w' => coins_stay (Students w) (Students w')).
Proof.
  unfold createStudent, createStudent_checked.
  wp_go; coins_close.
Qed.

Lemma attendance_coins (amb : Ambient) (groupId : string)
    (body : AttendanceBody) (w : world) :
  wp (upsertGroupAttendance amb groupId body) w
     (fun _ w' => coins_stay (Students w) (Students w')).
Proof.
  unfold upsertGroupAttendance, upsertGroupAttendance_checked.
  wp_go; coins_close.
Qed.

Lemma coins_stay_kept (l l' : list Student) : coins_stay l l' -> coins_kept l l'.
Proof.
  intros H id s s' Hs Hs'. destruct (H id s Hs) as (s2 & H2 & Hc).
  assert (s2 = s') as -> by congruence. apply Hc. discriminate.
Qed.

Lemma coins_stay_update (p : Student -> bool) (u : Student -> Student)
    (l : list Student) :
  (forall s, s_id (u s) = s_id s) ->
  (forall s, coinBalance (u s) = coinBalance s) ->
  coins_stay l (map (fun s => if p s then u s else s) l).
Proof.
  intros Hid Hc. apply coins_stay_map.
  - intros s. destruct (p s); [apply Hid|reflexivity].
  - intros s _. destruct (p s); [apply Hc|reflexivity].
Qed.

Lemma deleteGroup_coins (amb : Ambient) (groupId : string) (w : world) :
  wp (deleteGroup amb groupId) w
     (fun _ w' => coins_stay (Students w) (Students w')).
Proof.
  unfold deleteGroup, deleteGroup_checked.
  wp_go; students_chain; try (apply coins_stay_balance_only; assumption).
  eapply coins_stay_trans; [apply coins_stay_balance_only; eassumption|].
  eapply coins_stay_trans; apply coins_stay_update; reflexivity.
Qed.

Lemma reset_coins (force : bool) (amb : Ambient) (w : world) :
  coins_stay (Students w)
             (Students (world_of (resetStudentBalancesIfNeeded force amb w))).
Proof.
  destruct (reset_world_cases force amb w) as [_ [E|E]]; cbv zeta in E;
    rewrite E; [apply coins_stay_refl|].
  apply coins_stay_balance_only, sweep_students_balance_only.
Qed.

Lemma updateStudent_scalars_coins (amb : Ambient) (body : UpdateBody)
    (p : UpdatePayload) :
  updateStudent_scalars amb body = inr p ->
  p_coinBalance p = u_coinBalance body ≫= non_negative.
Proof.
  unfold updateStudent_scalars, field.
  repeat match goal with
         | |- match ?x with _ => _ end = _ -> _ => destruct x eqn:?
         end; intros [= <-] || discriminate; cbn; congruence.
Qed.

Lemma update_coins_untouched (amb : Ambient) (studentId : string)
    (body : UpdateBody) (w : world) :
  u_coinBalance body = None ->
  wp (updateStudent amb studentId body) w
     (fun _ w' => coins_stay (Students w) (Students w')).
Proof.
  intros Hnone. unfold updateStudent, updateStudent_checked.
  wp_go;
    try match goal with
        | H : updateStudent_scalars _ _ = inr _ |- _ =>
            apply updateStudent_scalars_coins in H; rewrite Hnone in H;
            cbn in H
        end;
    students_chain;
    try (apply coins_stay_balance_only; assumption);
    (eapply coins_stay_trans;
     [ apply coins_stay_balance_only; eassumption
     | eapply coins_stay_saved; [eassumption|reflexivity|] ]);
    cbn;
    match goal with H : p_coinBalance _ = None |- _ => rewrite H end;
    reflexivity.
Qed.

Lemma stored_filter (id d : string) (l : list Student) :
  stored id (List.filter (fun s => negb (String.eqb (s_id s) d)) l)
  = if String.eqb id d then None else stored id l.
Proof.
  unfold stored. induction l as [|a l IH]; cbn; [destruct (_ =? _)%string; reflexivity|].
  destruct (String.eqb_spec (s_id a) d) as [Ea|Ea]; cbn.
  - rewrite IH. destruct (String.eqb_spec id d) as [E|E]; [reflexivity|].
    destruct (String.eqb_spec (s_id a) id) as [E'|E']; [congruence|reflexivity].
  - destruct (String.eqb_spec (s_id a) id) as [E'|E'].
    + destruct (String.eqb_spec id d) as [E|E]; [congruence|reflexivity].
    + exact IH.
Qed.

Lemma deleteStudent_coins (amb : Ambient) (studentId : string) (w : world) :
  wp (deleteStudent amb studentId) w
     (fun _ w' => coins_kept (Students w) (Students w')).
Proof.
  unfold deleteStudent, deleteStudent_checked.
  wp_go; students_chain;
    try (apply coins_stay_kept, coins_stay_balance_only; assumption).
  all: intros id0 st0 st1 Hs Hs'; rewrite stored_filter in Hs';
    destruct (String.eqb id0 (ObjectId studentId)); [discriminate|];
    eapply (coins_stay_kept _ _
              (coins_stay_balance_only _ (Students w) ltac:(eassumption)));
    eassumption.
Qed.

(** Every request but a reward and a student update that supplies
    [coinBalance] leaves each stored student the coins it had. *)
Lemma serve_keeps_coins (amb : Ambient) (req : request) (w : world) :
  leaves_coins req -> coins_kept (Students w) (Students (serve amb req w)).
Proof.
  destruct req; cbn; intros Hreq.
  - apply coins_stay_kept, create_coins.
  - apply coins_stay_kept, update_coins_untouched, Hreq.
  - destruct Hreq.
  - apply deleteStudent_coins.
  - apply coins_stay_kept, attach_coins.
  - apply coins_stay_kept, detach_coins.
  - apply coins_stay_kept, deleteGroup_coins.
  - apply coins_stay_kept, attendance_coins.
  - apply coins_stay_kept, reset_coins.
Qed.

Lemma saved_lookup (id : string) (l : list Student) (s1 doc : Student) :
  with_password None <$> stored id l = Some s1 ->
  s_id doc = s_id s1 ->
  exists s0 s',
    stored id l = Some s0
    /\ s1 = with_password None s0
    /\ stored id (map (persist doc) l) = Some s'
    /\ coinBalance s' = coinBalance doc
    /\ groups s' = groups doc
    /\ groupAttached s' = groupAttached doc.
Proof.
  intros Hs Hid. destruct (stored id l) as [s0|] eqn:E; [|discriminate].
  injection Hs as <-. exists s0. eexists. split; [reflexivity|].
  split; [reflexivity|]. rewrite stored_persist, E. cbn.
  split; [reflexivity|].
  destruct (persist_groups doc s0) as (Hg & Ha & Hc); [symmetry; exact Hid|].
  auto.
Qed.

Lemma non_negative_Some (x y : jsnum) :
  non_negative x = Some y ->
  y = x /\ Number_isFinite x = true /\ js_lt x 0 = false.
Proof.
  unfold non_negative.
  destruct (Number_isFinite x); cbn [negb orb]; [|discriminate].
  destruct (js_lt x 0); [discriminate|]. intros [= <-]. auto.
Qed.

Lemma updateStudent_scalars_coin_field (amb : Ambient) (body : UpdateBody)
    (p : UpdatePayload) :
  updateStudent_scalars amb body = inr p ->
  match u_coinBalance body with
  | None => p_coinBalance p = None
  | Some c => Number_isFinite c = true /\ js_lt c 0 = false
              /\ p_coinBalance p = Some c
  end.
Proof.
  intros H. pose proof (updateStudent_scalars_coins amb body p H) as Hc.
  destruct (u_coinBalance body) as [c|] eqn:Hu; cbn in Hc; [|exact Hc].
  destruct (non_negative c) as [y|] eqn:E.
  - apply non_negative_Some in E as (-> & Hfin & Hpos). auto.
  - exfalso. unfold updateStudent_scalars, field in H.
    rewrite Hu in H. cbv beta iota in H. rewrite E in H.
    repeat match type of H with
           | match ?x with _ => _ end = _ => destruct x
           end; discriminate H.
Qed.

(** The sum of two integers is exact below [2 ^ 53]. *)
Lemma js_add_exact (a b : Z) :
  Z.abs (a + b) < 2 ^ 53 -> js_add (JNum a) (JNum b) = JNum (a + b).
Proof.
  intros H. unfold js_add, as_fraction. cbn [Nat.max Nat.sub Z.of_nat].
  rewrite !Z.pow_0_r, !Z.mul_1_r. unfold round_to_53_bits.
  assert ((Z.log2 (Z.abs (a + b)) + 1 - 53 <=? 0) = true) as ->.
  { apply Z.leb_le. destruct (Z.eq_dec (Z.abs (a + b)) 0) as [-> | Hne].
    - cbn. lia.
    - assert (Z.log2 (Z.abs (a + b)) < 53); [|lia].
      apply Z.log2_lt_pow2; lia. }
  assert ((2 ^ (1024 + Z.of_nat 0) <=? Z.abs (a + b)) = false) as ->.
  { apply Z.leb_gt. eapply Z.lt_trans; [exact H|].
    apply Z.pow_lt_mono_r; cbn; lia. }
  reflexivity.
Qed.

Lemma reward_adds (amb : Ambient) (studentId : string) (body : RewardBody)
    (w : world) :
  wp (rewardStudentCoins amb studentId body) w
     (fun r w' =>
        statusCode r = 200 ->
        exists amount s s',
          r_amount body = JNum amount
          /\ 0 < amount
          /\ stored (ObjectId studentId) (Students w) = Some s
          /\ stored (ObjectId studentId) (Students w') = Some s'
          /\ coinBalance s' = js_add (coinBalance s) (JNum amount)).
Proof.
  unfold rewardStudentCoins, rewardStudentCoins_checked.
  wp_go; try (cbn; discriminate).
  - destruct e; cbn; [|discriminate].
    destruct (head errors); cbn; discriminate.
  - intros _. students_chain.
    match goal with
    | H : with_password None <$> _ = Some _ |- context [persist ?d] =>
        destruct (saved_lookup _ _ _ d H eq_refl)
          as (s0 & s' & Hs0 & Hs1 & Hs' & Hc & _)
    end.
    rewrite (balance_only_stored f) in Hs0 by assumption.
    destruct (stored (ObjectId studentId) (Students w)) as [s0'|] eqn:E;
      [|discriminate].
    injection Hs0 as <-. subst.
    exists z, s0'. eexists. split; [reflexivity|].
    split; [apply Z.leb_gt; assumption|]. split; [reflexivity|].
    split; [exact Hs'|]. rewrite Hc. fields.
    rewrite (balance_only_coinBalance f) by assumption. reflexivity.
Qed.

(** A reward changes the coins of no other student. *)
Lemma reward_coins (amb : Ambient) (studentId : string) (body : RewardBody)
    (w : world) :
  wp (rewardStudentCoins amb studentId body) w
     (fun _ w' =>
        coins_stay_but (Some (ObjectId studentId)) (Students w) (Students w')).
Proof.
  unfold rewardStudentCoins, rewardStudentCoins_checked.
  wp_go; students_chain;
    try (apply coins_stay_weaken, coins_stay_balance_only; assumption).
  eapply coins_stay_trans;
    [apply coins_stay_weaken, coins_stay_balance_only; eassumption|].
  match goal with
  | H : with_password None <$> stored ?i ?l = Some ?s
    |- coins_stay_but _ _ (map (persist ?d) _) =>
      assert (s_id d = i) as <-;
        [|apply coins_stay_persist]
  end.
  match goal with
  | H : with_password None <$> stored ?i ?l = Some ?s |- _ =>
      destruct (stored i l) as [s0|] eqn:E; [|discriminate];
      injection H as <-; apply stored_id in E as [E _]; exact E
  end.
Qed.

Lemma validateGroupAssignments_codes (ids : list string) (x : option string)
    (w : world) (code : Z) (msg : Message) :
  result_of (validateGroupAssignments ids x w) = Some (code, msg) ->
  code = 400 \/ code = 409.
Proof.
  unfold validateGroupAssignments. destruct ids as [|i rest]; [discriminate|].
  unfold bind, Group_find, call. cbn.
  destruct (negb _); cbn; [intros [= <- _]; auto|].
  destruct (existsb _ _); cbn; [intros [= <- _]; auto|].
  destruct (find _ _); cbn; [intros [= <- _]; auto|discriminate].
Qed.

Lemma wp_validate (ids : list string) (x : option string) (w : world)
    (Q : option (Z * Message) -> world -> Prop) :
  (forall r w',
     Students w' = Students w ->
     (forall code msg, r = Some (code, msg) -> code = 400 \/ code = 409) ->
     Q r w') ->
  wp (validateGroupAssignments ids x) w Q.
Proof.
  intros H. apply H.
  - apply keeps_validateGroupAssignments.
  - intros code msg. apply validateGroupAssignments_codes.
Qed.

Ltac wp_step_codes :=
  lazymatch goal with
  | |- wp (validateGroupAssignments _ _) _ _ =>
      apply wp_validate; intros ? ? ? ?
  | |- _ => wp_step
  end.

Ltac wp_go_codes :=
  repeat (cbv zeta beta; wp_step_codes); cbv zeta beta; fields.

Lemma save_failed_student_not_200 (e : save_error) :
  statusCode (save_failed_student e) <> 200.
Proof. destruct e; cbn; [|discriminate]. destruct (head errors); discriminate. Qed.

Lemma update_sets_coins (amb : Ambient) (studentId : string)
    (body : UpdateBody) (w : world) (c : jsnum) :
  u_coinBalance body = Some c ->
  wp (updateStudent amb studentId body) w
     (fun r w' =>
        statusCode r = 200 ->
        Number_isFinite c = true /\ js_lt c 0 = false
        /\ exists s',
             stored (ObjectId studentId) (Students w') = Some s'
             /\ coinBalance s' = c).
Proof.
  intros Hc. unfold updateStudent, updateStudent_checked.
  wp_go_codes; try (cbn; discriminate).
  all: try (intros E; exfalso; revert E; apply save_failed_student_not_200).
  all: try match goal with
           | H : updateStudent_scalars _ _ = inl ?r |- statusCode ?r = _ -> _ =>
               apply updateStudent_scalars_400 in H; rewrite H; discriminate
           end.
  all: try match goal with
           | H : forall code msg, Some (?z, ?m) = Some (code, msg) -> _
             |- statusCode (json ?z ?m) = 200 -> _ =>
               destruct (H z m eq_refl) as [-> | ->]; cbn; discriminate
           end.
  all: intros _; students_chain;
    match goal with
    | H : updateStudent_scalars _ _ = inr _ |- _ =>
        apply updateStudent_scalars_coin_field in H; rewrite Hc in H;
        destruct H as (Hfin & Hpos & Hp)
    end;
    match goal with
    | H : with_password None <$> _ = Some _ |- context [persist ?d] =>
        destruct (saved_lookup _ _ _ d H eq_refl)
          as (s0 & s' & Hs0 & Hs1 & Hs' & Hcoin & _)
    end;
    split; [exact Hfin|]; split; [exact Hpos|];
    exists s'; split; [exact Hs'|]; rewrite Hcoin; cbn; rewrite Hp;
    reflexivity.
Qed.

Lemma valid_coins (t : Z) (s : Student) :
  valid_student t s -> js_le 0 (coinBalance s) = true.
Proof.
  rewrite valid_student_iff. unfold scalar_checks. intros [H _].
  rewrite !Forall_cons in H. cbn [fst] in H.
  destruct H as (_ & _ & _ & _ & _ & _ & _ & _ & _ & _ & H & _).
  exact H.
Qed.

(** C9, as the code has it.  In every state the server reaches each
    student's [coinBalance] is not negative.  A reward that succeeds has a
    positive integer as its amount and stores for its student the sum of
    the [coinBalance] and the amount as double precision gives it, rounded
    to 53 significant bits: the exact sum when the balance is an integer
    and the sum stays below [2 ^ 53], while a student with one coin who is
    rewarded [2 ^ 53] coins ends with [2 ^ 53]; it changes the coins of no
    other student.  Every request other than a reward and a student update
    that supplies [coinBalance] leaves each stored student the coins it
    had.  A student update that supplies [coinBalance] and succeeds stores
    the supplied number, which is finite and not negative and need not be
    an integer, whatever the balance was. *)
Theorem coins_stay_non_negative_and_rewards_add :
  (forall w : world,
     reachable w ->
     forall s, In s (Students w) -> js_le 0 (coinBalance s) = true)
  /\ (forall (amb : Ambient) (req : request) (w : world),
        leaves_coins req ->
        coins_kept (Students w) (Students (serve amb req w)))
  /\ (forall (amb : Ambient) (studentId : string) (body : RewardBody)
             (w : world),
        let r := rewardStudentCoins amb studentId body w in
        statusCode (result_of r) = 200 ->
        (exists amount s s',
           r_amount body = JNum amount
           /\ 0 < amount
           /\ stored (ObjectId studentId) (Students w) = Some s
           /\ stored (ObjectId studentId) (Students (world_of r)) = Some s'
           /\ coinBalance s' = js_add (coinBalance s) (JNum amount)
           /\ (forall c : Z,
                 coinBalance s = JNum c ->
                 Z.abs (c + amount) < 2 ^ 53 ->
                 coinBalance s' = JNum (c + amount)))
        /\ coins_stay_but (Some (ObjectId studentId)) (Students w)
                          (Students (world_of r)))
  /\ (forall (amb : Ambient) (studentId : string) (body : UpdateBody)
             (w : world) (c : jsnum),
        u_coinBalance body = Some c ->
        statusCode (result_of (updateStudent amb studentId body w)) = 200 ->
        Number_isFinite c = true /\ js_lt c 0 = false
        /\ exists s',
             stored (ObjectId studentId)
               (Students (world_of (updateStudent amb studentId body w)))
             = Some s'
             /\ coinBalance s' = c)
  /\ (let one_coin :=
        world_of (updateStudent at_noon studentA (update_coins (JNum 1))
                    two_seat_world) in
      coinBalance <$> stored studentA (Students one_coin) = Some (JNum 1)
      /\ (coinBalance
            <$> stored studentA
                  (Students (world_of
                               (rewardStudentCoins at_noon studentA
                                  (reward_of (2 ^ 53)) one_coin))))
         = Some (JNum (2 ^ 53)))
  /\ (let half_coin :=
        world_of (updateStudent at_noon studentA (update_coins (JFrac 1 1))
                    two_seat_world) in
      coinBalance <$> stored studentA (Students half_coin) = Some (JFrac 1 1)
      /\ (coinBalance
            <$> stored studentA
                  (Students (world_of
                               (rewardStudentCoins at_noon studentA
                                  (reward_of 3) half_coin))))
         = Some (JFrac 7 1)).
Proof.
  split; [|split; [exact serve_keeps_coins|split; [|split; [|split]]]].
  - intros w Hw s Hs.
    assert (Forall (fun s => js_le 0 (coinBalance s) = true) (Students w))
      as Hall.
    { apply reachable_Forall; [| | | |exact Hw].
      - intros p s0 H. exact H.
      - intros t doc Hv. exact (valid_coins t _ Hv).
      - intros t s0 H. exact H.
      - intros groupId s0 H. exact H. }
    rewrite Forall_forall in Hall. apply Hall, list_elem_of_In. exact Hs.
  - intros amb studentId body w r H200. split.
    + destruct (reward_adds amb studentId body w H200)
        as (amount & s & s' & Ha & Hpos & Hs & Hs' & Hc).
      exists amount, s, s'. repeat (split; [assumption|]).
      intros c Hcoin Hsum. rewrite Hc, Hcoin. apply js_add_exact. exact Hsum.
    + exact (reward_coins amb studentId body w).
  - intros amb studentId body w c Hc.
    exact (update_sets_coins amb studentId body w c Hc).
  - split; vm_compute; reflexivity.
  - split; vm_compute; reflexivity.
Qed.

Lemma coins_stay_non_negative_and_rewards_add_witness :
  exists s',
    stored studentA
      (Students (world_of (rewardStudentCoins at_noon STUDENT_A (reward_of 50)
                             two_seat_world))) = Some s'
    /\ coinBalance s' = JNum 550.
Proof.
  destruct (proj1 (proj1 (proj2 (proj2 coins_stay_non_negative_and_rewards_add))
                     at_noon STUDENT_A (reward_of 50) two_seat_world eq_refl))
    as (amount & s & s' & Ha & _ & Hs & Hs' & _ & Hc).
  exists s'. split; [exact Hs'|].
  injection Ha as <-. vm_compute in Hs. injection Hs as <-.
  apply (Hc 500); [reflexivity|vm_compute; reflexivity].
Defined.

(** The claim as first stated lets no operation lower [coinBalance].  A
    student update that supplies [coinBalance: 0] is accepted and takes a
    student from 500 coins to none. *)
Lemma update_lowers_coins_counterexample :
  coinBalance <$> stored studentA (Students two_seat_world) = Some (JNum 500)
  /\ statusCode (result_of (updateStudent at_noon studentA
                              (update_coins (JNum 0)) two_seat_world)) = 200
  /\ coinBalance
       <$> stored studentA
             (Students (world_of (updateStudent at_noon studentA
                                    (update_coins (JNum 0)) two_seat_world)))
     = Some (JNum 0)
  /\ js_lt (JNum 0) (JNum 500) = true.
Proof. repeat split; vm_compute; reflexivity. Qed.

(** ** The attendance log *)

Section Attendance.

Variable d : Z.

Let matches (r : AttendanceRecord) (e : AttendanceEntry) : bool :=
  sameStudentAndDay (ar_student r) (toDateKey (Some d)) e.




Lemma key_matches (r : AttendanceRecord) (e e' : AttendanceEntry) :
  student e = student e' ->
  toDateKey (Some (date e)) = toDateKey (Some (date e')) ->
  matches r e = matches r e'.
Proof.
  intros Hs Hk. unfold matches, sameStudentAndDay. rewrite Hs, Hk. reflexivity.
Qed.


(** One round of the loop: the entry of the same student and day is
    replaced where it stands and the other entries stay; without such an
    entry the payload is pushed. *)
Lemma upsertRecord_cases (u : option string) (log : list AttendanceEntry)
    (r : AttendanceRecord) :
  (exists i e,
     log !! i = Some e /\ matches r e = true
     /\ (forall j y, (j < i)%nat -> log !! j = Some y -> matches r y = false)
     /\ upsertRecord d u log r = <[i := attendancePayload d u r]> log)
  \/ ((forall e, In e log -> matches r e = false)
      /\ upsertRecord d u log r = log ++ [attendancePayload d u r]).
Proof.
  unfold upsertRecord, matches. cbv zeta.
  destruct (findIndex _ log) as [i|] eqn:E.
  - left. apply findIndex_Some in E as (e & He & Hm & Hlt).
    exists i, e. repeat split; assumption.
  - right. split; [|reflexivity]. apply findIndex_None. exact E.
Qed.

Lemma upsertRecord_length (u : option string) (log : list AttendanceEntry)
    (r : AttendanceRecord) :
  length (upsertRecord d u log r)
  = if existsb (matches r) log then length log else S (length log).
Proof.
  destruct (upsertRecord_cases u log r)
    as [(i & e & He & Hm & _ & ->)|[Hnone ->]].
  - rewrite length_insert.
    assert (existsb (matches r) log = true) as ->; [|reflexivity].
    apply existsb_exists. exists e. split; [|exact Hm].
    apply list_elem_of_In. eapply list_elem_of_lookup_2. exact He.
  - rewrite length_app. cbn.
    assert (existsb (matches r) log = false) as ->; [|lia].
    apply not_true_iff_false. intros H. apply existsb_exists in H as (e & Hin & Hm).
    rewrite (Hnone e Hin) in Hm. discriminate.
Qed.









End Attendance.





Section ActiveMembers.
Variable f : Student -> Student.
Hypothesis Hf : balance_only f.

Lemma balance_only_active_members (ids : list string) (groupId : string)
    (l : list Student) :
  length (List.filter (fun s => includes ids (s_id s) && activeIn groupId s)
                      (map f l))
  = length (List.filter (fun s => includes ids (s_id s) && activeIn groupId s)
                        l).
Proof.
  induction l as [|s l IH]; [reflexivity|].
  cbn. rewrite (balance_only_id f Hf), (balance_only_activeIn f Hf).
  destruct (_ && _); cbn; congruence.
Qed.

End ActiveMembers.











(** ** Further properties of the balance-reset service *)

Lemma swept_students (force : bool) (amb : Ambient) (w : world)
    (matched modified : Z) :
  result_of (resetStudentBalancesIfNeeded force amb w)
  = Returned (Swept matched modified) ->
  Students (world_of (resetStudentBalancesIfNeeded force amb w))
  = sweep_students (now amb) (Students w)
  /\ matched
     = Z.of_nat (length (List.filter (reset_due (now amb - THIRTY_DAYS_MS))
                                     (Students w))).
Proof.
  unfold resetStudentBalancesIfNeeded.
  destruct (sweep_enter force amb w) as [reason|w1] eqn:E; [discriminate|].
  apply sweep_enter_running in E as [_ ->].
  destruct (updateManyFails amb); [discriminate|].
  intros H. cbn in H. injection H as Hm _.
  split; [reflexivity|]. rewrite <- Hm. reflexivity.
Qed.

Lemma filter_none {A : Type} (f : A -> bool) (l : list A) :
  (forall x, In x l -> f x = false) -> List.filter f l = [].
Proof.
  induction l as [|a l IH]; intros H; [reflexivity|].
  cbn. rewrite (H a (or_introl eq_refl)). apply IH.
  intros x Hx. apply H. right. exact Hx.
Qed.

Lemma sweep_students_fresh (t : Z) (l : list Student) (s' : Student) :
  In s' (sweep_students t l) ->
  exists r, balanceResetAt s' = Some r /\ t - THIRTY_DAYS_MS < r.
Proof.
  unfold sweep_students. intros H. apply in_map_iff in H as (s & <- & _).
  destruct (reset_due (t - THIRTY_DAYS_MS) s) eqn:E.
  - exists t. split; [reflexivity|]. unfold THIRTY_DAYS_MS. lia.
  - unfold reset_due in E. destruct (balanceResetAt s) as [r|]; [|discriminate].
    exists r. split; [reflexivity|]. apply Z.leb_gt in E. exact E.
Qed.

(** After a sweep that ran at time [now], no student is due at that time:
    every student has a [balanceResetAt], less than thirty days old.  A
    student the sweep reset is left as it is by every later call of the
    service made less than thirty days after the sweep, and a call made at
    the time of the sweep changes no student and, when it runs, matches
    none. *)
Theorem sweep_leaves_none_due (force : bool) (amb : Ambient) (w : world)
    (matched modified : Z) :
  result_of (resetStudentBalancesIfNeeded force amb w)
  = Returned (Swept matched modified) ->
  let w' := world_of (resetStudentBalancesIfNeeded force amb w) in
  (forall s', In s' (Students w') ->
     exists r, balanceResetAt s' = Some r /\ now amb - r < THIRTY_DAYS_MS)
  /\ (forall (force' : bool) (amb' : Ambient) (i : nat) (s' : Student),
        Students w' !! i = Some s' ->
        balanceResetAt s' = Some (now amb) ->
        now amb' - now amb < THIRTY_DAYS_MS ->
        Students (world_of (resetStudentBalancesIfNeeded force' amb' w')) !! i
        = Some s')
  /\ (forall (force' : bool) (amb' : Ambient),
        now amb' = now amb ->
        Students (world_of (resetStudentBalancesIfNeeded force' amb' w'))
        = Students w'
        /\ forall matched' modified',
             result_of (resetStudentBalancesIfNeeded force' amb' w')
             = Returned (Swept matched' modified') ->
             matched' = 0).
Proof.
  intros Hran w'. destruct (swept_students _ _ _ _ _ Hran) as [Hs _].
  fold w' in Hs.
  assert (forall s', In s' (Students w') ->
            exists r, balanceResetAt s' = Some r
                      /\ now amb - r < THIRTY_DAYS_MS) as Hfresh.
  { intros s' Hin. rewrite Hs in Hin.
    destruct (sweep_students_fresh _ _ _ Hin) as (r & Hr & Hlt).
    exists r. split; [exact Hr|lia]. }
  assert (forall t, t <= now amb ->
            sweep_students t (Students w') = Students w') as Hquiet.
  { intros t Ht. unfold sweep_students.
    rewrite <- (map_id (Students w')) at 2. apply map_ext_in.
    intros s' Hin. destruct (Hfresh s' Hin) as (r & Hr & Hlt).
    unfold reset_due. rewrite Hr.
    destruct (Z.leb_spec r (t - THIRTY_DAYS_MS)); [lia|reflexivity]. }
  split; [exact Hfresh|]. split.
  - intros force' amb' i s' Hi Hr Hlt.
    destruct (reset_world_cases force' amb' w') as [_ [E|E]];
      cbv zeta in E; rewrite E; [exact Hi|].
    unfold sweep_students. rewrite list_lookup_fmap, Hi. cbn.
    unfold reset_due. rewrite Hr.
    destruct (Z.leb_spec (now amb) (now amb' - THIRTY_DAYS_MS));
      [lia|reflexivity].
  - intros force' amb' Hnow. split.
    + destruct (reset_world_cases force' amb' w') as [_ [E|E]];
        cbv zeta in E; rewrite E; [reflexivity|].
      apply Hquiet. lia.
    + intros matched' modified' Hran'.
      destruct (swept_students _ _ _ _ _ Hran') as [_ ->].
      assert (List.filter (reset_due (now amb' - THIRTY_DAYS_MS))
                          (Students w') = []) as ->; [|reflexivity].
      apply filter_none. intros s' Hin.
      destruct (Hfresh s' Hin) as (r & Hr & Hlt).
      unfold reset_due. rewrite Hr.
      destruct (Z.leb_spec r (now amb' - THIRTY_DAYS_MS)); [lia|reflexivity].
Qed.

Lemma sweep_leaves_none_due_witness :
  Students
    (world_of
       (resetStudentBalancesIfNeeded true (sample_ambient (100 * day))
          (world_of (resetStudentBalancesIfNeeded
                       true (sample_ambient (100 * day))
                       sweep_sample_world))))
  = [with_balance_reset 0 (100 * day) stale_student; recent_student].
Proof.
  rewrite (proj1 (proj2 (proj2 (sweep_leaves_none_due
                                  true (sample_ambient (100 * day))
                                  sweep_sample_world 1 1 eq_refl))
                    true (sample_ambient (100 * day)) eq_refl)).
  reflexivity.
Defined.

(** A sweep whose bulk update fails throws, with the collections as they
    were and [isResetRunning] false again; but [lastResetRunAt] is the time
    of the failed sweep, so a non-forced call made within the minimum gap
    after it is throttled and does not retry.  The check the handlers start
    with swallows the error: it returns, and the collections are as they
    were. *)
Theorem failed_sweep_counts_as_a_run (force : bool) (amb : Ambient)
    (w : world) :
  updateManyFails amb = true ->
  isResetRunning w = false ->
  force = true
  \/ js_lt (JNum (now amb - lastResetRunAt w)) (minGapMs amb) = false ->
  resetStudentBalancesIfNeeded force amb w
  = (Thrown, with_scheduler false (now amb) w, [CStudent_updateMany])
  /\ (forall amb',
        js_lt (JNum (now amb' - now amb)) (minGapMs amb') = true ->
        resetStudentBalancesIfNeeded false amb'
          (with_scheduler false (now amb) w)
        = (Returned (Skipped "throttled"),
           with_scheduler false (now amb) w, []))
  /\ (force = false ->
      runBalanceResetSafely amb w
      = (tt, with_scheduler false (now amb) w, [CStudent_updateMany])).
Proof.
  intros Hfail Hidle Hpast.
  assert (resetStudentBalancesIfNeeded force amb w
          = (Thrown, with_scheduler false (now amb) w, [CStudent_updateMany]))
    as Hrun.
  { unfold resetStudentBalancesIfNeeded, sweep_enter. rewrite Hidle, Hfail.
    destruct Hpast as [-> | ->]; [reflexivity|].
    rewrite andb_false_r. reflexivity. }
  split; [exact Hrun|]. split.
  - intros amb' Hgap.
    unfold resetStudentBalancesIfNeeded, sweep_enter.
    cbn [lastResetRunAt isResetRunning with_scheduler negb andb].
    rewrite Hgap. reflexivity.
  - intros ->. unfold runBalanceResetSafely. rewrite Hrun. reflexivity.
Qed.

Lemma failed_sweep_counts_as_a_run_witness :
  resetStudentBalancesIfNeeded false
    {| now := 100 * day + 1000; STUDENT_BALANCE_RESET_MIN_GAP_MS := JNaN;
       updateManyFails := false; freshId := ""; bcrypt_hash := fun pw => pw |}
    (with_scheduler false (100 * day) sweep_sample_world)
  = (Returned (Skipped "throttled"),
     with_scheduler false (100 * day) sweep_sample_world, []).
Proof.
  exact (proj1 (proj2 (failed_sweep_counts_as_a_run
                         true
                         {| now := 100 * day;
                            STUDENT_BALANCE_RESET_MIN_GAP_MS := JNaN;
                            updateManyFails := true; freshId := "";
                            bcrypt_hash := fun pw => pw |}
                         sweep_sample_world eq_refl eq_refl
                         (or_introl eq_refl)))
           {| now := 100 * day + 1000;
              STUDENT_BALANCE_RESET_MIN_GAP_MS := JNaN;
              updateManyFails := false; freshId := "";
              bcrypt_hash := fun pw => pw |}
           eq_refl).
Defined.

Lemma js_or_number (x y : jsnum) : y <> JNaN -> js_or x y <> JNaN.
Proof.
  unfold js_or. destruct x; cbn; try (intros H; exact H); try discriminate.
  - destruct (z =? 0); [intros H; exact H|discriminate].
  - destruct (m =? 0); [intros H; exact H|discriminate].
Qed.

Lemma Math_max_number (x y : jsnum) :
  x <> JNaN -> y <> JNaN -> Math_max x y <> JNaN.
Proof.
  intros Hx Hy. unfold Math_max.
  destruct x, y; try congruence; try discriminate;
    match goal with
    | |- (if ?c then _ else _) <> _ => destruct c; discriminate
    end.
Qed.

Lemma intervalMs_floor (env : jsnum) :
  js_le (JNum (60 * 1000)) (intervalMs env) = true.
Proof.
  unfold intervalMs.
  pose proof (max_or_floor env DEFAULT_INTERVAL_MS (60 * 1000)
                ltac:(unfold DEFAULT_INTERVAL_MS; lia)) as H.
  assert (Math_max (js_or env (JNum DEFAULT_INTERVAL_MS)) (JNum (60 * 1000))
          <> JNaN) as Hn
    by (apply Math_max_number; [apply js_or_number|]; discriminate).
  destruct (Math_max (js_or env (JNum DEFAULT_INTERVAL_MS))
                     (JNum (60 * 1000))); [congruence| | | |];
    unfold js_le; rewrite H; reflexivity.
Qed.

(** The job is started once: a second call returns the timer of the first
    and neither runs the sweep nor sets another timer.  The interval asked
    for is never below one minute, and it is one hour when the environment
    variable is unset, not a number, or zero.  The timer waits the interval
    asked for as long as that is at most [2 ^ 31 - 1] ms; to a longer or an
    infinite interval the timer of Node answers with a delay of 1 ms. *)
Theorem reset_job_starts_once (env env' : jsnum) :
  let first := startStudentBalanceResetJob env None in
  let second := startStudentBalanceResetJob env' first.1 in
  first.2 = [StartupRun; SetInterval (intervalMs env); Unref]
  /\ first.1 = Some {| idleTimeout := timer_delay (intervalMs env);
                       hasRef := false |}
  /\ second = (first.1, [])
  /\ js_le (JNum (60 * 1000)) (intervalMs env) = true
  /\ (js_le (intervalMs env) (JNum TIMEOUT_MAX) = true ->
      timer_delay (intervalMs env) = intervalMs env)
  /\ (js_lt (JNum TIMEOUT_MAX) (intervalMs env) = true ->
      timer_delay (intervalMs env) = JNum 1)
  /\ (truthy env = false ->
      intervalMs env = JNum DEFAULT_INTERVAL_MS
      /\ timer_delay (intervalMs env) = JNum DEFAULT_INTERVAL_MS)
  /\ (forall z, env = JNum z -> 60 * 1000 <= z -> intervalMs env = JNum z)
  /\ timer_delay (intervalMs (JNum (TIMEOUT_MAX + 1))) = JNum 1
  /\ timer_delay (intervalMs JPosInf) = JNum 1.
Proof.
  cbv zeta. split; [reflexivity|]. split; [reflexivity|].
  split; [reflexivity|].
  pose proof (intervalMs_floor env) as Hfloor.
  split; [exact Hfloor|].
  assert (js_le (JNum 1) (intervalMs env) = true) as Hone.
  { destruct (intervalMs env) as [|z|m e| |]; cbn in Hfloor |- *;
      try discriminate Hfloor; try reflexivity.
    - apply negb_true_iff, Z.ltb_ge. apply negb_true_iff, Z.ltb_ge in Hfloor.
      lia.
    - apply negb_true_iff, Z.ltb_ge. apply negb_true_iff, Z.ltb_ge in Hfloor.
      assert (0 < 2 ^ Z.pos e) by (apply Z.pow_pos_nonneg; lia). nia. }
  split; [|split; [|split; [|split; [|split]]]].
  - intros Hle. unfold timer_delay. rewrite Hone, Hle. reflexivity.
  - intros Hlt. unfold timer_delay.
    assert (js_le (intervalMs env) (JNum TIMEOUT_MAX) = false) as ->.
    { destruct (intervalMs env); cbn in Hlt |- *; try discriminate Hlt;
        try reflexivity; rewrite Hlt; reflexivity. }
    rewrite andb_false_r. reflexivity.
  - intros Ht. unfold intervalMs, js_or. rewrite Ht. split; reflexivity.
  - intros z -> Hz. unfold intervalMs, js_or. cbn.
    destruct (Z.eqb_spec z 0); [lia|]. cbn. f_equal. lia.
  - reflexivity.
  - reflexivity.
Qed.

Lemma reset_job_starts_once_witness :
  intervalMs (JNum 5000) = JNum 60000
  /\ timer_delay (intervalMs (JNum 120000)) = JNum 120000
  /\ intervalMs (JNum 120000) = JNum 120000.
Proof.
  split; [reflexivity|].
  pose proof (reset_job_starts_once (JNum 120000) JNaN) as H. cbv zeta in H.
  destruct H as (_ & _ & _ & _ & Hle & _ & _ & Hz & _).
  split.
  - rewrite (Hle eq_refl). reflexivity.
  - exact (Hz 120000 eq_refl ltac:(lia)).
Defined.

(** ** Detaching a student from a group *)

Lemma persist_found (doc st : Student) :
  s_id st = s_id doc -> password doc = None ->
  persist doc st = with_password (password st) doc.
Proof.
  unfold persist. intros -> ->. rewrite String.eqb_refl. reflexivity.
Qed.

Lemma persist_other (doc old : Student) :
  s_id old <> s_id doc -> persist doc old = old.
Proof.
  unfold persist. intros H.
  destruct (String.eqb_spec (s_id old) (s_id doc)); [contradiction|reflexivity].
Qed.

Lemma stored_other (doc : Student) (id : string) (l : list Student) :
  id <> s_id doc -> stored id (map (persist doc) l) = stored id l.
Proof.
  intros Hne. rewrite stored_persist.
  destruct (stored id l) as [s|] eqn:E; [|reflexivity]. cbn.
  apply stored_id in E as [Hid _]. rewrite persist_other; congruence.
Qed.

Lemma filter_hasGroup_out (groupId : string) (gs : list Membership)
    (m : Membership) :
  In m (List.filter (fun groupItem => negb (hasGroup groupId groupItem)) gs) ->
  group m <> groupId.
Proof.
  intros H. apply filter_In in H as [_ H]. apply negb_true_iff in H.
  unfold hasGroup in H. apply String.eqb_neq in H. exact H.
Qed.

Lemma filter_length_same {A : Type} (f : A -> bool) (l : list A) :
  length (List.filter f l) = length l <-> forallb f l = true.
Proof.
  induction l as [|a l IH]; cbn; [tauto|].
  pose proof (filter_length_le f l) as Hle.
  destruct (f a); cbn.
  - rewrite <- IH. lia.
  - split; [lia|discriminate].
Qed.

Lemma find_group_map_other (id groupId : string) (update : Group -> Group)
    (l : list Group) :
  (forall g, g_id (update g) = g_id g) ->
  id <> groupId ->
  find_group id
    (map (fun g => if String.eqb (g_id g) groupId then update g else g) l)
  = find_group id l.
Proof.
  intros Hup Hne. unfold find_group.
  induction l as [|a l IH]; [reflexivity|]. cbn.
  destruct (String.eqb_spec (g_id a) groupId) as [E|E].
  - rewrite Hup, E. destruct (String.eqb_spec groupId id); [congruence|].
    exact IH.
  - destruct (String.eqb (g_id a) id); [reflexivity|exact IH].
Qed.

Lemma updateOne_groups (id : string) (update : Group -> Group) (w : world) :
  world_of (Group_updateOne id update w)
  = with_Groups
      (map (fun g => if String.eqb (g_id g) (ObjectId id) then update g else g)
           (Groups w)) w.
Proof. reflexivity. Qed.

(** The two outcomes of a detach request that finds the group and the
    student; both are looked up by the id the texts of the request cast
    to.  When the answer is 200 the student held a membership whose group
    prints as the text [groupId] of the request; afterwards the student's
    memberships are the former ones without those, in their order,
    [groupAttached] tells whether an active one remains, no group of the id
    lists the student, and every other student and every other group is as
    the balance-reset check left it.  When the student holds no membership
    whose group prints as the text of the request, the answer is 404 and
    nothing is written; so it is for the group of the scenario named with
    its digits in upper case. *)
Theorem detach_removes_the_membership :
  (forall (amb : Ambient) (groupId studentId : string) (w : world),
     statusCode (result_of (detachStudentFromGroup amb groupId studentId w))
     = 200 ->
     let w1 := world_of (runBalanceResetSafely amb w) in
     let w' := world_of (detachStudentFromGroup amb groupId studentId w) in
     exists st st',
       stored (ObjectId studentId) (Students w1) = Some st
       /\ existsb (hasGroup groupId) (groups st) = true
       /\ stored (ObjectId studentId) (Students w') = Some st'
       /\ groups st'
          = List.filter (fun groupItem => negb (hasGroup groupId groupItem))
                        (groups st)
       /\ (forall m, In m (groups st') -> group m <> groupId)
       /\ groupAttached st'
          = existsb (fun m => isActive (m_status m)) (groups st')
       /\ coinBalance st' = coinBalance st
       /\ balance st' = balance st
       /\ password st' = password st
       /\ (forall id, id <> ObjectId studentId ->
             stored id (Students w') = stored id (Students w1))
       /\ (forall g', In g' (Groups w') -> g_id g' = ObjectId groupId ->
             ~ In (ObjectId studentId) (students g'))
       /\ (forall id, id <> ObjectId groupId ->
             find_group id (Groups w') = find_group id (Groups w)))
  /\ (forall (amb : Ambient) (groupId studentId : string) (w : world)
             (g : Group) (st : Student),
        isValidObjectId groupId = true ->
        isValidObjectId studentId = true ->
        find_group (ObjectId groupId) (Groups w) = Some g ->
        stored (ObjectId studentId) (Students w) = Some st ->
        existsb (hasGroup groupId) (groups st) = false ->
        let r := detachStudentFromGroup amb groupId studentId w in
        result_of r = json 404 "Student is not attached to this group"
        /\ world_of r = world_of (runBalanceResetSafely amb w)
        /\ List.filter is_write (calls_of r)
           = List.filter is_write (calls_of (runBalanceResetSafely amb w)))
  /\ result_of (detachStudentFromGroup at_noon G1 studentA
                  (world_of scenario_step3))
     = json 404 "Student is not attached to this group"
  /\ statusCode (result_of (detachStudentFromGroup at_noon g1 STUDENT_A
                              (world_of scenario_step3)))
     = 200.
Proof.
  split; [|split; [|split; vm_compute; reflexivity]].
  - intros amb groupId studentId w H200 w1 w'. subst w1 w'.
    unfold detachStudentFromGroup in *. rewrite after_reset in *. fields.
    destruct (reset_check_effect amb w) as (f & Hf & Hs1 & Hg1).
    set (w1 := world_of (runBalanceResetSafely amb w)) in *.
    rewrite <- Hg1. clear Hs1 Hg1 f Hf.
    revert H200. unfold detachStudentFromGroup_checked.
    destruct (isValidObjectId groupId); cbn [negb]; [|discriminate].
    destruct (isValidObjectId studentId); cbn [negb]; [|discriminate].
    unfold bind, Group_findById, Student_findById, call. fields.
    destruct (find_group (ObjectId groupId) (Groups w1)) as [g|] eqn:Hfg;
      fields; [|discriminate].
    destruct (stored (ObjectId studentId) (Students w1)) as [st|] eqn:Hst;
      cbn [fmap option_fmap option_map]; fields; [|discriminate].
    set (remaining :=
           List.filter (fun groupItem => negb (hasGroup groupId groupItem))
                       (groups st)).
    destruct (length remaining =? length (groups st))%nat eqn:Hlen;
      [discriminate|].
    destruct (Student_save_cases amb
                (with_groups remaining (with_password None st)) w1)
      as [(errors & -> & _)|[[_ ->] | [Hv ->]]]; fields;
      [discriminate|discriminate|].
    intros _. unfold removeStudentFromGroupList, Group_updateOne,
      getActiveStudentCountsByGroupIds, call, ret. fields.
    destruct (stored_id _ _ _ Hst) as [Hid _].
    exists st. eexists.
    split; [reflexivity|]. split.
    { apply Nat.eqb_neq in Hlen.
      destruct (existsb (hasGroup groupId) (groups st)) eqn:E; [reflexivity|].
      exfalso. apply Hlen. apply filter_length_same.
      apply forallb_forall. intros m Hm. apply negb_true_iff.
      destruct (hasGroup groupId m) eqn:Em; [|reflexivity].
      assert (existsb (hasGroup groupId) (groups st) = true) as E'
        by (apply existsb_exists; eauto).
      congruence. }
    split.
    { rewrite stored_persist, Hst. cbn [fmap option_fmap option_map].
      rewrite persist_found by (fields; first [exact Hid|reflexivity]).
      reflexivity. }
    fields. split; [reflexivity|].
    split; [intros m; apply filter_hasGroup_out|].
    split; [reflexivity|]. split; [reflexivity|]. split; [reflexivity|].
    split; [reflexivity|].
    split.
    { intros id Hne. apply stored_other. fields. congruence. }
    split.
    { intros g' Hin Hgid. apply in_map_iff in Hin as (g0 & <- & _).
      destruct (String.eqb (g_id g0) (ObjectId groupId)) eqn:E.
      - cbn. rewrite filter_In. intros [_ H].
        rewrite String.eqb_refl in H. discriminate.
      - apply String.eqb_neq in E. contradiction. }
    intros id Hne. apply find_group_map_other; [reflexivity|exact Hne].
  - intros amb groupId studentId w g st Hg Hs Hfg Hst Hnone r. subst r.
    unfold detachStudentFromGroup. rewrite after_reset. fields.
    destruct (reset_check_effect amb w) as (f & Hf & Hs1 & Hg1).
    set (w1 := world_of (runBalanceResetSafely amb w)) in *.
    unfold detachStudentFromGroup_checked. rewrite Hg, Hs. cbn [negb].
    unfold bind, Group_findById, Student_findById, call. fields.
    rewrite Hg1, Hfg, Hs1, (balance_only_stored f Hf), Hst.
    cbn [fmap option_fmap option_map]. fields.
    rewrite (balance_only_groups f Hf).
    assert (length (List.filter (fun groupItem => negb (hasGroup groupId groupItem))
                                (groups st)) = length (groups st)) as Hlen.
    { apply filter_length_same. apply forallb_forall. intros m Hm.
      apply negb_true_iff. destruct (hasGroup groupId m) eqn:Em; [|reflexivity].
      assert (existsb (hasGroup groupId) (groups st) = true) as E'
        by (apply existsb_exists; eauto).
      congruence. }
    rewrite Hlen, Nat.eqb_refl. fields.
    split; [reflexivity|]. split; [reflexivity|].
    rewrite List.filter_app. cbn. rewrite app_nil_r. reflexivity.
Qed.

Lemma detach_removes_the_membership_witness :
  exists st',
    stored studentA (Students (world_of scenario_step4)) = Some st'
    /\ groups st' = [].
Proof.
  destruct (proj1 detach_removes_the_membership
              at_noon g1 studentA (world_of scenario_step3) eq_refl)
    as (st & st' & Hst & _ & Hst' & Hgroups & _).
  exists st'. split; [exact Hst'|]. rewrite Hgroups.
  vm_compute in Hst. injection Hst as <-. reflexivity.
Defined.

(** ** The mirror lists of the groups *)

Lemma with_students_same (g : Group) : with_students (students g) g = g.
Proof. destruct g. reflexivity. Qed.

Lemma bulk_applied_cons (u : string * list string)
    (us : list (string * list string)) (gs : list Group) :
  bulk_applied (u :: us) gs
  = bulk_applied us
      (map (fun g => if String.eqb (g_id g) u.1 then with_students u.2 g
                     else g) gs).
Proof. reflexivity. Qed.

Lemma bulk_applied_lookup (updates : list (string * list string))
    (gs : list Group) (i : nat) (g : Group) :
  gs !! i = Some g ->
  exists sts,
    bulk_applied updates gs !! i = Some (with_students sts g)
    /\ ((~ In (g_id g) (map fst updates) /\ sts = students g)
        \/ exists u, In u updates /\ u.1 = g_id g /\ sts = u.2).
Proof.
  revert gs g. induction updates as [|u us IH]; intros gs g Hi.
  - exists (students g). rewrite with_students_same. split; [exact Hi|].
    left. split; [intros []|reflexivity].
  - rewrite bulk_applied_cons.
    set (step := fun g0 : Group =>
                   if String.eqb (g_id g0) u.1 then with_students u.2 g0
                   else g0).
    assert (map step gs !! i = Some (step g)) as Hi1.
    { change (map step gs) with (step <$> gs).
      rewrite list_lookup_fmap, Hi. reflexivity. }
    destruct (IH _ _ Hi1) as (sts & Hl & Hcase).
    assert (g_id (step g) = g_id g) as Hid
      by (unfold step; destruct (String.eqb _ _); reflexivity).
    assert (with_students sts (step g) = with_students sts g) as Hws
      by (unfold step; destruct (String.eqb _ _); reflexivity).
    exists sts. rewrite Hl, Hws. split; [reflexivity|].
    rewrite Hid in Hcase. destruct Hcase as [[Hnot ->]|(u' & Hu' & Hu1 & ->)].
    + unfold step. destruct (String.eqb_spec (g_id g) u.1) as [E|E].
      * right. exists u. split; [left; reflexivity|]. split; [congruence|].
        reflexivity.
      * left. split; [|reflexivity]. cbn. intros [H|H]; [congruence|].
        contradiction.
    + right. exists u'. split; [right; exact Hu'|]. split; [exact Hu1|].
      reflexivity.
Qed.

Lemma Group_find_nil (w : world) :
  List.filter (fun g => includes [] (g_id g)) (Groups w) = [].
Proof. induction (Groups w) as [|g l IH]; [reflexivity|exact IH]. Qed.

(** The group collection after [syncGroupStudentLinks]: the updates of the
    groups joined, then those of the groups left. *)
Lemma sync_groups (studentId : string) (previous next : list string)
    (w : world) :
  let groupsToAdd :=
    List.filter (fun groupId => negb (includes (Set_of previous) groupId))
                (Set_of next) in
  let groupsToRemove :=
    List.filter (fun groupId => negb (includes (Set_of next) groupId))
                (Set_of previous) in
  let added :=
    bulk_applied
      (map (fun g =>
              (g_id g,
               if includes (normalizeObjectIdArray (students g)) studentId
               then normalizeObjectIdArray (students g)
               else normalizeObjectIdArray (students g)
                    ++ [ObjectId studentId]))
           (List.filter (fun g => includes (map ObjectId groupsToAdd) (g_id g))
                        (Groups w)))
      (Groups w) in
  Groups (world_of (syncGroupStudentLinks studentId previous next w))
  = bulk_applied
      (map (fun g =>
              (g_id g,
               List.filter (fun id => negb (String.eqb id studentId))
                           (normalizeObjectIdArray (students g))))
           (List.filter (fun g => includes (map ObjectId groupsToRemove)
                                           (g_id g)) added))
      added
  /\ Students (world_of (syncGroupStudentLinks studentId previous next w))
     = Students w.
Proof.
  cbv zeta. split; [|apply keeps_sync].
  unfold syncGroupStudentLinks. cbv zeta.
  set (groupsToAdd := List.filter _ (Set_of next)).
  set (groupsToRemove := List.filter _ (Set_of previous)).
  unfold bind. fields.
  set (first :=
         match groupsToAdd with
         | [] => ret tt
         | _ => _
         end w).
  assert (Groups (world_of first)
          = bulk_applied
              (map (fun g =>
                      (g_id g,
                       if includes (normalizeObjectIdArray (students g))
                                   studentId
                       then normalizeObjectIdArray (students g)
                       else normalizeObjectIdArray (students g)
                            ++ [ObjectId studentId]))
                   (List.filter (fun g => includes (map ObjectId groupsToAdd)
                                                   (g_id g))
                                (Groups w)))
              (Groups w)) as Hfirst.
  { subst first. destruct groupsToAdd as [|a l] eqn:E.
    - cbn [map]. rewrite Group_find_nil. reflexivity.
    - unfold bind, Group_find, call. fields.
      destruct (map _ (List.filter _ (Groups w))) as [|u us]; reflexivity. }
  change (world_of first) with first.1.2 in Hfirst.
  rewrite <- Hfirst.
  destruct groupsToRemove as [|a l] eqn:E.
  - cbn [map]. rewrite (Group_find_nil first.1.2). reflexivity.
  - unfold bind, Group_find, call. fields.
    destruct (map _ (List.filter _ (Groups first.1.2))) as [|u us];
      reflexivity.
Qed.

Lemma length_bulk_applied (us : list (string * list string))
    (l : list Group) :
  length (bulk_applied us l) = length l.
Proof.
  revert l. induction us as [|u us IH]; intros l; [reflexivity|].
  rewrite bulk_applied_cons, IH. apply length_map.
Qed.

(** Reconciling the mirror lists adds and removes no group. *)
Lemma length_sync (studentId : string) (previous next : list string)
    (w : world) :
  length (Groups (world_of (syncGroupStudentLinks studentId previous next w)))
  = length (Groups w).
Proof.
  destruct (sync_groups studentId previous next w) as [Hg _].
  cbv zeta in Hg. rewrite Hg, !length_bulk_applied. reflexivity.
Qed.

(** What reconciling the mirror lists leaves in the two collections, for
    ids written as ObjectIds print. *)
Lemma syncGroupStudentLinks_effect (studentId : string)
    (previous next : list string) (w : world) :
  ObjectId studentId = studentId ->
  Forall (fun id => ObjectId id = id) previous ->
  Forall (fun id => ObjectId id = id) next ->
  let w' := world_of (syncGroupStudentLinks studentId previous next w) in
  Students w' = Students w
  /\ length (Groups w') = length (Groups w)
  /\ forall (i : nat) (g : Group),
       Groups w !! i = Some g ->
       exists g',
         Groups w' !! i = Some g'
         /\ g' = with_students (students g') g
         /\ (In (g_id g) next -> ~ In (g_id g) previous ->
             In studentId (students g'))
         /\ (In (g_id g) previous -> ~ In (g_id g) next ->
             ~ In studentId (students g'))
         /\ ((In (g_id g) previous <-> In (g_id g) next) -> g' = g).
Proof.
  intros Hstudent Hcprev Hcnext.
  cbv zeta. destruct (sync_groups studentId previous next w) as [Hg Hs].
  cbv zeta in Hg. rewrite Hg, Hs. clear Hg Hs. rewrite Hstudent.
  assert (forall (f : string -> bool) l,
            Forall (fun id => ObjectId id = id) l ->
            map ObjectId (List.filter f (Set_of l)) = List.filter f (Set_of l))
    as Hcast.
  { intros f l Hl. apply map_ObjectId_canonical.
    rewrite Forall_forall in Hl |- *. intros id Hid. apply Hl.
    apply list_elem_of_In in Hid. apply filter_In in Hid as [Hid _].
    rewrite Set_of_In in Hid. apply list_elem_of_In. exact Hid. }
  rewrite (Hcast _ next Hcnext), (Hcast _ previous Hcprev). clear Hcast.
  set (groupsToAdd :=
         List.filter (fun groupId => negb (includes (Set_of previous) groupId))
                     (Set_of next)).
  set (groupsToRemove :=
         List.filter (fun groupId => negb (includes (Set_of next) groupId))
                     (Set_of previous)).
  set (updates1 := map _ (List.filter (fun g => includes groupsToAdd (g_id g))
                                      (Groups w))).
  set (added := bulk_applied updates1 (Groups w)).
  set (updates2 := map _ (List.filter (fun g => includes groupsToRemove (g_id g))
                                      added)).
  assert (forall id, In id groupsToAdd <-> In id next /\ ~ In id previous)
    as Hadd.
  { intros id. unfold groupsToAdd. rewrite filter_In, Set_of_In, negb_true_iff.
    rewrite <- not_true_iff_false, includes_In, Set_of_In. tauto. }
  assert (forall id, In id groupsToRemove <-> In id previous /\ ~ In id next)
    as Hrem.
  { intros id. unfold groupsToRemove.
    rewrite filter_In, Set_of_In, negb_true_iff.
    rewrite <- not_true_iff_false, includes_In, Set_of_In. tauto. }
  assert (forall u, In u updates1 ->
            In u.1 groupsToAdd /\ In studentId u.2) as Hu1.
  { intros u Hu. apply in_map_iff in Hu as (g & <- & Hin).
    apply filter_In in Hin as [_ Hin]. apply includes_In in Hin.
    split; [exact Hin|]. cbn.
    destruct (includes _ studentId) eqn:E.
    - apply includes_In. exact E.
    - apply in_or_app. right. left. reflexivity. }
  assert (forall u, In u updates2 ->
            In u.1 groupsToRemove /\ ~ In studentId u.2) as Hu2.
  { intros u Hu. apply in_map_iff in Hu as (g & <- & Hin).
    apply filter_In in Hin as [_ Hin]. apply includes_In in Hin.
    split; [exact Hin|]. cbn. rewrite filter_In. intros [_ H].
    rewrite String.eqb_refl in H. discriminate. }
  assert (forall l, length (bulk_applied updates2
                              (bulk_applied updates1 l)) = length l) as Hlen.
  { assert (forall us l, length (bulk_applied us l) = length l) as H.
    { induction us as [|u us IH]; intros l; [reflexivity|].
      rewrite bulk_applied_cons, IH. apply length_map. }
    intros l. rewrite !H. reflexivity. }
  split; [reflexivity|]. split; [apply Hlen|].
  intros i g Hi.
  destruct (bulk_applied_lookup updates1 _ i g Hi) as (sts1 & Hl1 & Hc1).
  fold added in Hl1.
  destruct (bulk_applied_lookup updates2 _ i _ Hl1) as (sts2 & Hl2 & Hc2).
  change (with_students sts2 (with_students sts1 g))
    with (with_students sts2 g) in Hl2.
  change (g_id (with_students sts1 g)) with (g_id g) in Hc2.
  change (students (with_students sts1 g)) with sts1 in Hc2.
  exists (with_students sts2 g). split; [exact Hl2|].
  split; [reflexivity|]. cbn [students with_students].
  assert (~ In (g_id g) (map fst updates1) -> ~ In (g_id g) groupsToAdd)
    as Hn1.
  { intros Hnot Hin. apply Hnot. apply in_map_iff.
    eexists (g_id g, _). split; [reflexivity|].
    apply in_map_iff. exists g. split; [reflexivity|].
    apply filter_In. split; [|apply includes_In; exact Hin].
    apply list_elem_of_In. eapply list_elem_of_lookup_2. exact Hi. }
  assert (~ In (g_id g) (map fst updates2) -> ~ In (g_id g) groupsToRemove)
    as Hn2.
  { intros Hnot Hin. apply Hnot. apply in_map_iff.
    eexists (g_id g, _). split; [reflexivity|].
    apply in_map_iff. exists (with_students sts1 g). split; [reflexivity|].
    apply filter_In. split; [|apply includes_In; exact Hin].
    apply list_elem_of_In. eapply list_elem_of_lookup_2. exact Hl1. }
  split; [|split].
  - intros Hnext Hprev.
    destruct Hc2 as [[_ ->]|(u & Hu & Hid & _)].
    + destruct Hc1 as [[Hnot _]|(u & Hu & _ & ->)].
      * exfalso. apply (Hn1 Hnot). apply Hadd. auto.
      * apply (Hu1 u Hu).
    + exfalso. destruct (Hu2 u Hu) as [Hin _]. rewrite Hid in Hin.
      apply Hrem in Hin. tauto.
  - intros Hprev Hnext.
    destruct Hc2 as [[Hnot _]|(u & Hu & _ & ->)].
    + exfalso. apply (Hn2 Hnot). apply Hrem. auto.
    + apply (Hu2 u Hu).
  - intros Hsame.
    destruct Hc2 as [[_ ->]|(u & Hu & Hid & _)].
    + destruct Hc1 as [[_ ->]|(u & Hu & Hid & _)].
      * apply with_students_same.
      * exfalso. destruct (Hu1 u Hu) as [Hin _]. rewrite Hid in Hin.
        apply Hadd in Hin. tauto.
    + exfalso. destruct (Hu2 u Hu) as [Hin _]. rewrite Hid in Hin.
      apply Hrem in Hin. tauto.
Qed.

(** The ids being valid and written as ObjectIds print, in lower-case
    digits (as those the handlers read from documents are): after the
    mirror lists are reconciled, every group the student joined lists
    the student and no group the student left does; a group that is in both
    lists or in neither is as it was, and of the other groups only
    [students] changed.  No group is added, removed or moved, and the
    student collection is not touched.  An id in other letters is compared
    as the text it is: the student [STUDENT_A] joining the group [g1],
    whose list holds the same student, is listed there a second time. *)
Theorem sync_reconciles_the_mirror (studentId : string)
    (previous next : list string) (w : world) :
  isValidObjectId studentId = true ->
  ObjectId studentId = studentId ->
  Forall (fun id => isValidObjectId id = true /\ ObjectId id = id) previous ->
  Forall (fun id => isValidObjectId id = true /\ ObjectId id = id) next ->
  let w' := world_of (syncGroupStudentLinks studentId previous next w) in
  Students w' = Students w
  /\ map g_id (Groups w') = map g_id (Groups w)
  /\ (forall (i : nat) (g : Group),
        Groups w !! i = Some g ->
        exists g',
          Groups w' !! i = Some g'
          /\ g' = with_students (students g') g
          /\ (In (g_id g) next -> ~ In (g_id g) previous ->
              In studentId (students g'))
          /\ (In (g_id g) previous -> ~ In (g_id g) next ->
              ~ In studentId (students g'))
          /\ ((In (g_id g) previous <-> In (g_id g) next) -> g' = g))
  /\ (students <$>
        find_group g1
          (Groups (world_of (syncGroupStudentLinks STUDENT_A [] [g1]
                               (world_of scenario_step1)))))
     = Some [studentA; studentA].
Proof.
  intros _ Hstudent Hprevious Hnext w'.
  destruct (syncGroupStudentLinks_effect studentId previous next w Hstudent
              (Forall_impl _ _ _ Hprevious (fun id H => proj2 H))
              (Forall_impl _ _ _ Hnext (fun id H => proj2 H)))
    as (Hs & Hlen & Hgs).
  fold w' in Hs, Hlen, Hgs. split; [exact Hs|].
  split; [|split; [exact Hgs|vm_compute; reflexivity]].
  apply list_eq. intros i. rewrite !list_lookup_fmap.
  destruct (Groups w !! i) as [g|] eqn:Hi.
  - destruct (Hgs i g Hi) as (g' & -> & Hshape & _). cbn.
    rewrite Hshape. reflexivity.
  - apply lookup_ge_None in Hi. rewrite <- Hlen in Hi.
    apply lookup_ge_None in Hi. rewrite Hi. reflexivity.
Qed.

Lemma sync_reconciles_the_mirror_witness :
  map g_id (Groups (world_of (syncGroupStudentLinks studentC [] [g1]
                                (world_of scenario_step1))))
  = map g_id (Groups (world_of scenario_step1)).
Proof.
  exact (proj1 (proj2 (sync_reconciles_the_mirror studentC [] [g1]
                         (world_of scenario_step1) eq_refl eq_refl
                         ltac:(constructor)
                         ltac:(repeat constructor)))).
Defined.

(** ** Deleting a student, deleting a group *)




Lemma find_group_None_filter (id : string) (l : list Group) :
  find_group id l = None ->
  List.filter (fun g => negb (String.eqb (g_id g) id)) l = l.
Proof.
  unfold find_group. induction l as [|a l IH]; [reflexivity|]. cbn.
  destruct (String.eqb (g_id a) id); [discriminate|]. cbn.
  intros H. rewrite (IH H). reflexivity.
Qed.

Lemma filter_hasGroup_none (groupId : string) (gs : list Membership) :
  existsb (hasGroup groupId) gs = false ->
  List.filter (fun groupItem => negb (hasGroup groupId groupItem)) gs = gs.
Proof.
  induction gs as [|m gs IH]; [reflexivity|]. cbn.
  destruct (hasGroup groupId m); [discriminate|]. cbn.
  intros H. rewrite (IH H). reflexivity.
Qed.

(** The world a delete request for a stored group leaves. *)
Lemma deleteGroup_checked_world (amb : Ambient) (groupId : string) (w : world)
    (g : Group) :
  isValidObjectId groupId = true ->
  find_group (ObjectId groupId) (Groups w) = Some g ->
  let r := deleteGroup_checked amb groupId w in
  let affected :=
    List.filter (fun s => existsb (hasGroup (ObjectId groupId)) (groups s))
                (Students w) in
  statusCode (result_of r) = 200
  /\ Groups (world_of r)
     = List.filter (fun g => negb (String.eqb (g_id g) (ObjectId groupId)))
                   (Groups w)
  /\ Students (world_of r)
     = map (fun s => if includes (map s_id affected) (s_id s)
                     then recomputeGroupAttached (pullGroup groupId s)
                     else s) (Students w).
Proof.
  intros Hvalid Hfg. cbv zeta.
  unfold deleteGroup_checked. rewrite Hvalid. cbn [negb].
  unfold bind, Group_findByIdAndDelete, call. fields. rewrite Hfg. fields.
  destruct (List.filter _ (Students w)) as [|a l] eqn:E.
  - unfold ret. fields. split; [reflexivity|]. split; [reflexivity|].
    rewrite <- (map_id (Students w)) at 1. apply map_ext.
    intros s. reflexivity.
  - unfold bind, Student_updateMany, call, ret. fields.
    split; [reflexivity|]. split; [reflexivity|].
    rewrite map_map. apply map_ext. intros s.
    destruct (includes _ (s_id s)) eqn:Ec.
    + change (s_id (pullGroup groupId s)) with (s_id s).
      rewrite Ec. reflexivity.
    + rewrite Ec. reflexivity.
Qed.

(** A delete request for a stored group, named in any letters, is answered
    200; no group of the id the request names is stored afterwards and the
    other groups are as they were.  Every student is stored as before,
    without the memberships in the deleted group and otherwise with the
    same memberships in the same order; of a student only [groups] and
    [groupAttached] can have changed, and for a student that held a
    membership in the group [groupAttached] tells whether an active
    membership remains.  For an id that names no group the answer is 404
    and the collections are as the check left them. *)
Theorem delete_group_pulls_the_memberships :
  (forall (amb : Ambient) (groupId : string) (w : world),
     statusCode (result_of (deleteGroup amb groupId w)) = 200 ->
     let w1 := world_of (runBalanceResetSafely amb w) in
     let w' := world_of (deleteGroup amb groupId w) in
     let id := ObjectId groupId in
     is_Some (find_group id (Groups w))
     /\ Groups w'
        = List.filter (fun g => negb (String.eqb (g_id g) id)) (Groups w)
     /\ find_group id (Groups w') = None
     /\ length (Students w') = length (Students w1)
     /\ forall (i : nat) (s : Student),
          Students w1 !! i = Some s ->
          exists s',
            Students w' !! i = Some s'
            /\ s' = with_groupAttached (groupAttached s')
                      (with_groups
                         (List.filter
                            (fun groupItem => negb (hasGroup id groupItem))
                            (groups s)) s)
            /\ (forall m, In m (groups s') -> group m <> id)
            /\ (existsb (hasGroup id) (groups s) = true ->
                groupAttached s'
                = existsb (fun m => isActive (m_status m)) (groups s'))
            /\ (existsb (hasGroup id) (groups s) = false ->
                groups s' = groups s))
  /\ (forall (amb : Ambient) (groupId : string) (w : world),
        isValidObjectId groupId = true ->
        find_group (ObjectId groupId) (Groups w) = None ->
        let r := deleteGroup amb groupId w in
        result_of r = json 404 "Group not found"
        /\ Students (world_of r)
           = Students (world_of (runBalanceResetSafely amb w))
        /\ Groups (world_of r) = Groups w).
Proof.
  split.
  - intros amb groupId w H200 w1 w' id. subst w1 w'.
    unfold deleteGroup in *. rewrite after_reset in *. fields.
    destruct (reset_check_effect amb w) as (f & Hf & _ & Hg1).
    set (w1 := world_of (runBalanceResetSafely amb w)) in *.
    rewrite <- Hg1. clear Hg1 f Hf.
    assert (exists g, isValidObjectId groupId = true
                      /\ find_group id (Groups w1) = Some g)
      as (g & Hvalid & Hfg).
    { revert H200. unfold deleteGroup_checked.
      destruct (isValidObjectId groupId); cbn [negb]; [|discriminate].
      unfold bind, Group_findByIdAndDelete, call. fields. fold id.
      destruct (find_group id (Groups w1)) as [g|] eqn:Hfg; fields;
        [|discriminate].
      intros _. exists g. auto. }
    split; [eexists; exact Hfg|].
    destruct (deleteGroup_checked_world amb groupId w1 g Hvalid Hfg)
      as (_ & Hga & Hsa).
    rewrite Hga, Hsa. clear Hga Hsa. fold id.
    set (affected :=
           List.filter (fun s => existsb (hasGroup id) (groups s))
                       (Students w1)).
    split; [reflexivity|]. split.
    { unfold find_group.
      destruct (find _ (List.filter _ (Groups w1))) as [g0|] eqn:E;
        [|reflexivity].
      apply find_some in E as [Hin He]. apply filter_In in Hin as [_ Hin].
      rewrite He in Hin. discriminate. }
    split; [apply length_map|].
    intros i s Hi. change (map ?h ?l) with (h <$> l).
    rewrite list_lookup_fmap, Hi. cbn [fmap option_fmap option_map].
    eexists. split; [reflexivity|].
    assert (includes (map s_id affected) (s_id s) = false ->
            existsb (hasGroup id) (groups s) = false) as Hout.
    { intros Hc. destruct (existsb _ (groups s)) eqn:E; [|reflexivity].
      exfalso.
      assert (includes (map s_id affected) (s_id s) = true) as Hin;
        [|congruence].
      apply includes_In, in_map, filter_In. split; [|exact E].
      apply list_elem_of_In. eapply list_elem_of_lookup_2. exact Hi. }
    destruct (includes (map s_id affected) (s_id s)) eqn:Ec.
    + split; [reflexivity|]. cbn [groups recomputeGroupAttached pullGroup
                                   with_groupAttached with_groups
                                   groupAttached]. fold id.
      split; [intros m; apply filter_hasGroup_out|].
      split; [intros _; apply some_active|].
      apply filter_hasGroup_none.
    + pose proof (filter_hasGroup_none id (groups s) (Hout eq_refl))
        as Hsame.
      split; [rewrite Hsame; destruct s; reflexivity|].
      split.
      { intros m Hm. rewrite <- Hsame in Hm.
        exact (filter_hasGroup_out id _ m Hm). }
      split; [|reflexivity].
      intros H. rewrite (Hout eq_refl) in H. discriminate.
  - intros amb groupId w Hvalid Hnone r. subst r.
    unfold deleteGroup. rewrite after_reset. fields.
    destruct (reset_check_effect amb w) as (f & Hf & Hs1 & Hg1).
    set (w1 := world_of (runBalanceResetSafely amb w)) in *.
    unfold deleteGroup_checked. rewrite Hvalid. cbn [negb].
    unfold bind, Group_findByIdAndDelete, call. fields.
    rewrite Hg1, Hnone. unfold ret. fields.
    split; [reflexivity|]. split; [reflexivity|].
    apply find_group_None_filter. exact Hnone.
Qed.

Lemma delete_group_pulls_the_memberships_witness :
  Groups (world_of (deleteGroup at_noon G1 (world_of scenario_step2))) = [].
Proof.
  rewrite (proj1 (proj2 (proj1 delete_group_pulls_the_memberships
                           at_noon G1 (world_of scenario_step2) eq_refl))).
  vm_compute. reflexivity.
Defined.

(** ** Counting the occupied seats *)

Lemma tally_from (xs : list string) (m : gmap string Z) (id : string) :
  default 0 (foldl (fun (m : gmap string Z) (groupId : string) =>
                      <[groupId := default 0 (m !! groupId) + 1]> m) m xs
             !! id)
  = default 0 (m !! id)
    + Z.of_nat (length (List.filter (fun x => String.eqb x id) xs)).
Proof.
  revert m. induction xs as [|x xs IH]; intros m; cbn [foldl List.filter].
  - cbn [length Z.of_nat]. symmetry. apply Z.add_0_r.
  - rewrite IH. destruct (String.eqb_spec x id) as [->|E].
    + rewrite lookup_insert_eq. cbn [default from_option length].
      unfold Datatypes.id. rewrite Nat2Z.inj_succ. lia.
    + rewrite lookup_insert_ne by exact E. reflexivity.
Qed.

Lemma no_row_no_seat (id : string) (gs : list Membership) :
  ~ In id (map group gs) ->
  existsb (fun groupItem => String.eqb (group groupItem) id
                            && isActive (m_status groupItem)) gs = false.
Proof.
  intros H. apply not_true_iff_false. intros E.
  apply existsb_exists in E as (m & Hm & E).
  apply andb_true_iff in E as [E _]. apply String.eqb_eq in E.
  apply H. rewrite <- E. apply in_map. exact Hm.
Qed.

(** Among the rows of one student that the aggregation keeps, a group that
    is asked for occurs once when the student holds an active membership
    in it, and not at all otherwise. *)
Lemma rows_of_student (ids : list string) (id : string)
    (gs : list Membership) :
  In id ids ->
  NoDup (map group gs) ->
  length (List.filter (fun x => String.eqb x id)
            (map group
               (List.filter (fun groupItem =>
                               includes ids (group groupItem)
                               && isActive (m_status groupItem)) gs)))
  = if existsb (fun groupItem => String.eqb (group groupItem) id
                                 && isActive (m_status groupItem)) gs
    then 1%nat else 0%nat.
Proof.
  intros Hid. induction gs as [|m gs IH]; intros Hnd; [reflexivity|].
  cbn [map] in Hnd. apply NoDup_cons in Hnd as [Hm Hnd].
  rewrite list_elem_of_In in Hm. specialize (IH Hnd).
  cbn [List.filter existsb].
  destruct (String.eqb_spec (group m) id) as [E|E].
  - rewrite E in Hm. rewrite (no_row_no_seat id gs Hm) in IH |- *.
    apply includes_In in Hid. rewrite E, Hid. cbn [andb orb].
    destruct (isActive (m_status m)); cbn [map List.filter orb].
    + rewrite E, String.eqb_refl. cbn [length]. rewrite IH. reflexivity.
    + exact IH.
  - cbn [andb orb].
    destruct (includes ids (group m) && isActive (m_status m));
      cbn [map List.filter]; [|exact IH].
    destruct (String.eqb_spec (group m) id); [contradiction|exact IH].
Qed.

Lemma tally_students (ids : list string) (id : string) (l : list Student) :
  In id ids ->
  Forall one_row_per_group l ->
  default 0 (tally ids l !! id)
  = Z.of_nat (length (List.filter (activeIn id) l)).
Proof.
  intros Hid Hl. unfold tally. rewrite tally_from, lookup_empty.
  cbn [default]. rewrite Z.add_0_l. f_equal.
  induction l as [|s l IH]; [reflexivity|].
  apply Forall_cons in Hl as [Hs Hl]. cbn [flat_map List.filter].
  rewrite List.filter_app, length_app, (IH Hl).
  rewrite rows_of_student; [|exact Hid|apply groups_unique_NoDup; exact Hs].
  unfold activeIn. destruct (existsb _ (groups s)); reflexivity.
Qed.

Lemma filter_filter_and {A : Type} (p q : A -> bool) (l : list A) :
  List.filter p (List.filter q l) = List.filter (fun x => p x && q x) l.
Proof.
  induction l as [|a l IH]; [reflexivity|]. cbn.
  destruct (q a); cbn; [|rewrite andb_false_r; exact IH].
  rewrite andb_true_r. destruct (p a); cbn; congruence.
Qed.

(** The aggregation counts membership rows and [countDocuments] counts
    students; on students that hold at most one row per group the two
    counts of a group are the same. *)
Lemma tally_activeSeats (ids : list string) (id : string)
    (x : option string) (l : list Student) :
  In id ids ->
  Forall one_row_per_group l ->
  default 0 (tally ids (List.filter (fun s => negb (excluded x s)) l) !! id)
  = activeSeats id x l.
Proof.
  intros Hid Hl. rewrite tally_students; [|exact Hid|].
  - unfold activeSeats. rewrite filter_filter_and. reflexivity.
  - rewrite Forall_forall in Hl |- *. intros s Hs.
    apply list_elem_of_In, filter_In in Hs as [Hs _].
    apply Hl, list_elem_of_In. exact Hs.
Qed.

Lemma filter_keeps_unique (p : Membership -> bool) (gs : list Membership) :
  groups_unique gs = true -> groups_unique (List.filter p gs) = true.
Proof.
  rewrite !groups_unique_NoDup. induction gs as [|m gs IH]; [trivial|].
  cbn [map]. rewrite NoDup_cons, list_elem_of_In. intros [Hm Hnd].
  cbn [List.filter]. destruct (p m); [|apply IH; exact Hnd].
  cbn [map]. apply NoDup_cons. split; [|apply IH; exact Hnd].
  rewrite list_elem_of_In. intros Hin. apply Hm.
  apply in_map_iff in Hin as (m' & <- & Hin).
  apply filter_In in Hin as [Hin _]. apply in_map. exact Hin.
Qed.

Lemma reachable_one_row_per_group (w : world) :
  reachable w -> Forall one_row_per_group (Students w).
Proof.
  apply reachable_Forall.
  - intros p s H. exact H.
  - intros t doc Hv. apply valid_student_iff in Hv as (_ & Hu & _). exact Hu.
  - intros t s H. exact H.
  - intros groupId s H. unfold one_row_per_group in *.
    cbn [groups recomputeGroupAttached pullGroup with_groupAttached
         with_groups].
    apply filter_keeps_unique. exact H.
Qed.

(** In every state the server reaches, the two ways the handlers count
    the occupied seats of a group agree on a group named as its id prints,
    in lower-case digits: the aggregations behind
    [countActiveMembershipsByGroupIds] and
    [getActiveStudentCountsByGroupIds] give a group that is asked for the
    number [countActiveStudentsForGroup] gives it, the excluded student
    left out of both.  The aggregations key their counts by the ids as
    they print, so a group asked for in upper-case digits gets no count
    under that text, while [countActiveStudentsForGroup] counts its
    seats. *)
Theorem seat_counts_agree (w : world) (ids : list string) (id : string)
    (x : option string) :
  reachable w ->
  In id ids ->
  ObjectId id = id ->
  default 0 (result_of (countActiveMembershipsByGroupIds ids x w) !! id)
  = result_of (countActiveStudentsForGroup id x w)
  /\ (id <> "" ->
      default 0 (result_of (getActiveStudentCountsByGroupIds ids w) !! id)
      = result_of (countActiveStudentsForGroup id None w))
  /\ 0 <= result_of (countActiveStudentsForGroup id x w)
     <= Z.of_nat (length (Students w))
  /\ result_of (getActiveStudentCountsByGroupIds [G1] enrolled_world) !! G1
     = None
  /\ result_of (getActiveStudentCountsByGroupIds [G1] enrolled_world) !! g1
     = Some (result_of (countActiveStudentsForGroup G1 None enrolled_world)).
Proof.
  intros Hw Hid Hcan. pose proof (reachable_one_row_per_group w Hw) as Hl.
  destruct ids as [|i0 rest]; [destruct Hid|].
  remember (i0 :: rest) as l eqn:El.
  unfold countActiveMembershipsByGroupIds, getActiveStudentCountsByGroupIds,
    countActiveStudentsForGroup, call.
  rewrite El. rewrite <- El. fields. rewrite Hcan.
  split; [|split; [|split; [|split; vm_compute; reflexivity]]].
  - apply tally_activeSeats; [|exact Hl].
    rewrite <- Hcan. apply in_map. exact Hid.
  - intros Hne. rewrite tally_students; [| |exact Hl].
    { unfold activeSeats. do 2 f_equal. apply filter_ext. intros s.
      cbn. rewrite andb_true_r. reflexivity. }
    rewrite <- Hcan. apply in_map. apply filter_In. split; [exact Hid|].
    apply negb_true_iff, String.eqb_neq. exact Hne.
  - unfold activeSeats.
    pose proof (filter_length_le
                  (fun s => activeIn id s && negb (excluded x s))
                  (Students w)). lia.
Qed.

Lemma seat_counts_agree_witness :
  default 0 (result_of (getActiveStudentCountsByGroupIds [g1] enrolled_world)
             !! g1)
  = result_of (countActiveStudentsForGroup g1 None enrolled_world).
Proof.
  apply (seat_counts_agree enrolled_world [g1] g1 None
           enrolled_world_reachable (or_introl eq_refl) eq_refl).
  discriminate.
Defined.

(** ** The stored students and the schema *)

Lemma valid_without_password (t : Z) (s : Student) :
  valid_student t s -> valid_student t (with_password None s).
Proof.
  rewrite !valid_student_iff. intros (Hs & Hu & Hn).
  split; [|split; assumption].
  unfold scalar_checks in *. fields.
  repeat (apply Forall_cons in Hs as [? Hs]).
  repeat (apply Forall_cons; split; [first [assumption|reflexivity]|]).
  constructor.
Qed.

Lemma valid_later (t t' : Z) (s : Student) :
  valid_student t s -> birthDate s <= t' -> valid_student t' s.
Proof.
  rewrite !valid_student_iff. intros (Hs & Hu & Hn) Hb.
  split; [|split; assumption].
  unfold scalar_checks in *.
  repeat (apply Forall_cons in Hs as [? Hs]).
  repeat (apply Forall_cons;
          split; [first [assumption|cbn; apply Z.leb_le; exact Hb]|]).
  constructor.
Qed.

(** In every state the server reaches, every stored student passes the
    validators of the schema at any time that is not before its
    [birthDate], the password apart: also after the sweep and the
    deletion of a group, which write without validation. *)
Theorem stored_students_pass_the_schema (w : world) (s : Student) (t : Z) :
  reachable w ->
  In s (Students w) ->
  birthDate s <= t ->
  valid_student t (with_password None s)
  /\ PHONE_PATTERN_test (studentPhone s) = true
  /\ PHONE_PATTERN_test (parentPhone s) = true
  /\ (2 <= String.length (fullname s) <= 120)%nat
  /\ js_le 0 (balance s) = true
  /\ NoDup (map group (groups s)).
Proof.
  intros Hw Hs Ht.
  assert (Forall (fun s => valid_student (birthDate s) (with_password None s))
                 (Students w)) as Hall.
  { apply reachable_Forall; [| | | |exact Hw].
    - intros p s0 H. exact H.
    - intros t0 doc Hv. apply valid_without_password in Hv.
      apply (valid_later t0); [exact Hv|]. cbn. lia.
    - intros t0 s0 H. revert H. rewrite !valid_student_iff.
      intros (Hsc & Hu & Hn). split; [|split; assumption].
      unfold scalar_checks in *. fields.
      repeat (apply Forall_cons in Hsc as [? Hsc]).
      repeat (apply Forall_cons; split; [first [assumption|reflexivity]|]).
      constructor.
    - intros groupId s0 H. revert H. rewrite !valid_student_iff.
      cbn [groups recomputeGroupAttached pullGroup with_groupAttached
           with_groups with_password].
      intros (Hsc & Hu & Hn). split; [exact Hsc|].
      split; [apply filter_keeps_unique; exact Hu|].
      rewrite Forall_forall in Hn |- *. intros m Hm. apply Hn.
      apply list_elem_of_In, filter_In in Hm as [Hm _].
      apply list_elem_of_In. exact Hm. }
  rewrite Forall_forall in Hall.
  pose proof (Hall s (proj2 (list_elem_of_In _ _) Hs)) as Hv.
  apply (valid_later _ t) in Hv; [|exact Ht].
  split; [exact Hv|].
  apply valid_student_iff in Hv as (Hsc & Hu & _).
  unfold scalar_checks in Hsc. fields.
  repeat (apply Forall_cons in Hsc as [? Hsc]). cbn [fst] in *.
  split; [assumption|]. split; [assumption|].
  split; [split; apply Nat.leb_le; assumption|].
  split; [assumption|].
  apply groups_unique_NoDup. exact Hu.
Qed.

Lemma stored_students_pass_the_schema_witness :
  Forall (fun s => js_le 0 (balance s) = true) (Students enrolled_world).
Proof.
  apply Forall_forall. intros s Hs. apply list_elem_of_In in Hs.
  exact (proj1 (proj2 (proj2 (proj2 (proj2
           (stored_students_pass_the_schema enrolled_world s
              (Z.max 0 (birthDate s)) enrolled_world_reachable Hs
              ltac:(lia))))))).
Defined.

(** ** The seat limit on a desired list of groups *)

Lemma find_ext_in {A : Type} (p q : A -> bool) (l : list A) :
  (forall x, In x l -> p x = q x) -> find p l = find q l.
Proof.
  induction l as [|a l IH]; intros H; [reflexivity|]. cbn.
  rewrite (H a (or_introl eq_refl)). destruct (q a); [reflexivity|].
  apply IH. intros x Hx. apply H. right. exact Hx.
Qed.

Lemma groupsById_found (ids : list string) (gs : list Group) (id : string)
    (g : Group) :
  NoDup (map g_id gs) ->
  In id ids ->
  find_group id gs = Some g ->
  groupsById (List.filter (fun g0 => includes ids (g_id g0)) gs) !! id
  = Some g.
Proof.
  intros Hnd Hin Hfg. apply find_group_In in Hfg as [Hg Hid].
  set (docs := List.filter (fun g0 => includes ids (g_id g0)) gs).
  assert (In g docs) as Hgd.
  { apply filter_In. split; [exact Hg|]. apply includes_In. congruence. }
  destruct (groupsById_some ∅ docs id) as [g' Hg']; [left; eauto|].
  unfold groupsById. rewrite Hg'. f_equal.
  apply groupsById_from in Hg' as [[Hin' Hid']|Hempty];
    [|rewrite lookup_empty in Hempty; discriminate].
  apply filter_In in Hin' as [Hin' _].
  apply (unique_group gs g' g Hnd Hin' Hg). congruence.
Qed.

Lemma all_found (ids : list string) (gs : list Group) :
  (forall id, In id ids -> is_Some (find_group id gs)) ->
  List.filter (fun id => includes (map g_id gs) id) ids = ids.
Proof.
  induction ids as [|i ids IH]; intros H; [reflexivity|]. cbn.
  destruct (includes (map g_id gs) i) eqn:E.
  - f_equal. apply IH. intros id Hid. apply H. right. exact Hid.
  - apply find_group_None in E. destruct (H i (or_introl eq_refl)) as [g Hg].
    congruence.
Qed.

Lemma countActiveMembershipsByGroupIds_run (ids : list string)
    (x : option string) (w : world) :
  ids <> [] ->
  countActiveMembershipsByGroupIds ids x w
  = (tally (map ObjectId ids)
       (List.filter (fun s => negb (excluded x s)) (Students w)),
     w, [CStudent_aggregate]).
Proof. destruct ids; [contradiction|reflexivity]. Qed.

(** [validateGroupAssignments] on desired groups that all exist and are
    open, named as their ids print: the refusal names the first group of
    the list that has no free seat, and there is none when every group has
    one. *)
Lemma validateGroupAssignments_seats (ids : list string) (x : option string)
    (w : world) :
  Forall (fun id => ObjectId id = id) ids ->
  NoDup ids ->
  NoDup (map g_id (Groups w)) ->
  Forall one_row_per_group (Students w) ->
  (forall id, In id ids ->
     exists g, find_group id (Groups w) = Some g /\ closed g = false) ->
  result_of (validateGroupAssignments ids x w)
  = match find (no_free_seat x w) ids with
    | Some activeGroupId =>
        Some (409, Text ("Group " +:+ activeGroupId
                         +:+ " has reached maxStudents limit"))
    | None => None
    end
  /\ world_of (validateGroupAssignments ids x w) = w
  /\ List.filter is_write (calls_of (validateGroupAssignments ids x w)) = [].
Proof.
  intros Hcan Hids Hgs Hrows Hopen. unfold validateGroupAssignments.
  destruct ids as [|i0 rest]; [repeat split; reflexivity|].
  remember (i0 :: rest) as l eqn:Hl.
  assert (l <> []) as Hne by (rewrite Hl; discriminate). clear Hl.
  unfold bind, Group_find, call. fields.
  rewrite (map_ObjectId_canonical l Hcan).
  rewrite (found_groups_length l (Groups w) Hids Hgs).
  rewrite all_found
    by (intros id Hid; destruct (Hopen id Hid) as (g & -> & _); eauto).
  rewrite Nat.eqb_refl. cbn [negb]. rewrite (Set_of_NoDup l Hids).
  set (docs := List.filter (fun g => includes l (g_id g)) (Groups w)).
  assert (existsb (fun activeGroupId =>
                     match groupsById docs !! activeGroupId with
                     | Some linkedGroup => closed linkedGroup
                     | None => false
                     end) l = false) as ->.
  { apply not_true_iff_false. intros E.
    apply existsb_exists in E as (id & Hid & E).
    destruct (Hopen id Hid) as (g & Hfg & Hc).
    unfold docs in E. rewrite (groupsById_found l _ id g Hgs Hid Hfg) in E.
    congruence. }
  rewrite (countActiveMembershipsByGroupIds_run l x w Hne). fields.
  rewrite (map_ObjectId_canonical l Hcan).
  set (counts := tally l _).
  rewrite (find_ext_in _ (no_free_seat x w) l).
  - destruct (find (no_free_seat x w) l); repeat split; reflexivity.
  - intros id Hid. destruct (Hopen id Hid) as (g & Hfg & _).
    unfold docs. rewrite (groupsById_found l _ id g Hgs Hid Hfg).
    unfold no_free_seat. rewrite Hfg. unfold counts.
    rewrite tally_activeSeats by assumption. reflexivity.
Qed.

Section AfterTheCheck.
Variable f : Student -> Student.
Hypothesis Hf : balance_only f.

Lemma balance_only_rows (l : list Student) :
  Forall one_row_per_group l -> Forall one_row_per_group (map f l).
Proof.
  intros H. apply Forall_fmap. eapply Forall_impl; [exact H|].
  intros s Hs. unfold one_row_per_group in *. cbn.
  rewrite (balance_only_groups f Hf). exact Hs.
Qed.

End AfterTheCheck.

Lemma no_free_seat_after_check (amb : Ambient) (x : option string)
    (w : world) (id : string) :
  no_free_seat x (world_of (runBalanceResetSafely amb w)) id
  = no_free_seat x w id.
Proof.
  destruct (reset_check_effect amb w) as (f & Hf & Hs & Hg).
  unfold no_free_seat. rewrite Hg, Hs, (balance_only_activeSeats f Hf).
  reflexivity.
Qed.

(** A create or update request whose desired groups all exist and are
    open, and are named as their ids print, in lower-case digits, is
    answered 409 when one of them has no free seat, the message naming the
    first such group of the list; nothing is written.  In an update the
    seat the student itself holds is not counted.
    [validateGroupAssignments] lets such a list pass exactly when for no
    group of it [maxStudents <= seats] holds. *)
Theorem full_groups_refuse_a_desired_list :
  (forall (amb : Ambient) (w : world) (body : CreateBody)
          (ids : list string) (full : string),
     NoDup (map g_id (Groups w)) ->
     Forall one_row_per_group (Students w) ->
     createStudent_scalars body = None ->
     parseGroupIds (c_groups body) = Value ids ->
     Forall (fun id => ObjectId id = id) ids ->
     (forall id, In id ids ->
        exists g, find_group id (Groups w) = Some g /\ closed g = false) ->
     find (no_free_seat None w) ids = Some full ->
     let r := createStudent amb body w in
     result_of r
     = json 409 (Text ("Group " +:+ full +:+ " has reached maxStudents limit"))
     /\ world_of r = world_of (runBalanceResetSafely amb w)
     /\ List.filter is_write (calls_of r)
        = List.filter is_write (calls_of (runBalanceResetSafely amb w)))
  /\ (forall (amb : Ambient) (w : world) (studentId : string)
             (body : UpdateBody) (scalars : UpdatePayload)
             (ids : list string) (full : string),
        NoDup (map g_id (Groups w)) ->
        Forall one_row_per_group (Students w) ->
        isValidObjectId studentId = true ->
        updateStudent_scalars amb body = inr scalars ->
        parseGroupIds (u_groups body) = Value ids ->
        Forall (fun id => ObjectId id = id) ids ->
        (forall id, In id ids ->
           exists g, find_group id (Groups w) = Some g /\ closed g = false) ->
        find (no_free_seat (Some studentId) w) ids = Some full ->
        let r := updateStudent amb studentId body w in
        result_of r
        = json 409
            (Text ("Group " +:+ full +:+ " has reached maxStudents limit"))
        /\ world_of r = world_of (runBalanceResetSafely amb w)
        /\ List.filter is_write (calls_of r)
           = List.filter is_write (calls_of (runBalanceResetSafely amb w)))
  /\ (forall (ids : list string) (x : option string) (w : world),
        Forall (fun id => ObjectId id = id) ids ->
        NoDup ids ->
        NoDup (map g_id (Groups w)) ->
        Forall one_row_per_group (Students w) ->
        (forall id, In id ids ->
           exists g, find_group id (Groups w) = Some g /\ closed g = false) ->
        (result_of (validateGroupAssignments ids x w) = None
         <-> forall id g,
               In id ids -> find_group id (Groups w) = Some g ->
               js_le (maxStudents g) (JNum (activeSeats id x (Students w)))
               = false)).
Proof.
  split; [|split].
  - intros amb w body ids full Hgs Hrows Hsc Hp Hcan Hopen Hfull r. subst r.
    unfold createStudent. rewrite after_reset. fields.
    destruct (reset_check_effect amb w) as (f & Hf & Hs1 & Hg1).
    set (w1 := world_of (runBalanceResetSafely amb w)) in *.
    destruct (parseGroupIds_Value _ _ Hp) as [Hids _].
    destruct (validateGroupAssignments_seats ids None w1 Hcan Hids)
      as (Hr & Hw & Hc).
    { rewrite Hg1. exact Hgs. }
    { rewrite Hs1. apply (balance_only_rows f Hf). exact Hrows. }
    { rewrite Hg1. exact Hopen. }
    rewrite (find_ext_in _ (no_free_seat None w)) in Hr
      by (intros id _; apply no_free_seat_after_check).
    rewrite Hfull in Hr.
    unfold createStudent_checked. rewrite Hsc, Hp.
    unfold bind. fold (result_of (validateGroupAssignments ids None w1)).
    fold (world_of (validateGroupAssignments ids None w1)).
    fold (calls_of (validateGroupAssignments ids None w1)).
    rewrite Hr, Hw. unfold ret. fields.
    split; [reflexivity|]. split; [reflexivity|].
    rewrite app_nil_r, List.filter_app, Hc, app_nil_r. reflexivity.
  - intros amb w studentId body scalars ids full Hgs Hrows Hvalid Hsc Hp
      Hcan Hopen Hfull r. subst r.
    unfold updateStudent. rewrite after_reset. fields.
    destruct (reset_check_effect amb w) as (f & Hf & Hs1 & Hg1).
    set (w1 := world_of (runBalanceResetSafely amb w)) in *.
    destruct (parseGroupIds_Value _ _ Hp) as [Hids _].
    destruct (validateGroupAssignments_seats ids (Some studentId) w1 Hcan Hids)
      as (Hr & Hw & Hc).
    { rewrite Hg1. exact Hgs. }
    { rewrite Hs1. apply (balance_only_rows f Hf). exact Hrows. }
    { rewrite Hg1. exact Hopen. }
    rewrite (find_ext_in _ (no_free_seat (Some studentId) w)) in Hr
      by (intros id _; apply no_free_seat_after_check).
    rewrite Hfull in Hr.
    unfold updateStudent_checked. rewrite Hvalid, Hsc, Hp. cbn [negb].
    unfold bind.
    fold (result_of (validateGroupAssignments ids (Some studentId) w1)).
    fold (world_of (validateGroupAssignments ids (Some studentId) w1)).
    fold (calls_of (validateGroupAssignments ids (Some studentId) w1)).
    rewrite Hr, Hw. unfold ret. fields.
    split; [reflexivity|]. split; [reflexivity|].
    rewrite app_nil_r, List.filter_app, Hc, app_nil_r. reflexivity.
  - intros ids x w Hcan Hids Hgs Hrows Hopen.
    destruct (validateGroupAssignments_seats ids x w Hcan Hids Hgs Hrows Hopen)
      as (-> & _ & _).
    split.
    + intros Hnone id g Hid Hfg.
      destruct (find (no_free_seat x w) ids) eqn:E; [discriminate|].
      pose proof (find_none _ _ E id Hid) as Hfree.
      unfold no_free_seat in Hfree. rewrite Hfg in Hfree. exact Hfree.
    + intros Hfree. destruct (find (no_free_seat x w) ids) eqn:E;
        [|reflexivity].
      exfalso. apply find_some in E as [Hid E].
      unfold no_free_seat in E.
      destruct (find_group s (Groups w)) as [g|] eqn:Hfg; [|discriminate].
      specialize (Hfree s g Hid Hfg). congruence.
Qed.

Lemma full_groups_refuse_a_desired_list_witness :
  result_of (createStudent at_noon (create_in [g1]) (world_of scenario_step2))
  = json 409 (Text ("Group " +:+ g1 +:+ " has reached maxStudents limit")).
Proof.
  refine (proj1 (proj1 full_groups_refuse_a_desired_list
                   at_noon (world_of scenario_step2) (create_in [g1]) [g1] g1
                   _ _ eq_refl eq_refl _ _ eq_refl)).
  - vm_compute. apply NoDup_cons. split; [intros H; inversion H|constructor].
  - vm_compute. repeat constructor.
  - repeat constructor.
  - intros id [<-|[]]. eexists. split; vm_compute; reflexivity.
Defined.

(** ** Replacing the memberships of a student *)

Lemma validateGroupAssignments_world (ids : list string) (x : option string)
    (w : world) :
  world_of (validateGroupAssignments ids x w) = w.
Proof.
  unfold validateGroupAssignments. destruct ids as [|i rest]; [reflexivity|].
  unfold bind, Group_find, call. fields.
  destruct (negb _); [reflexivity|]. fields.
  destruct (existsb _ _); [reflexivity|].
  unfold countActiveMembershipsByGroupIds.
  destruct (Set_of (i :: rest)); fields;
    match goal with |- context [find ?p ?l] => destruct (find p l) end;
    reflexivity.
Qed.

Lemma wp_validate_world (ids : list string) (x : option string) (w : world)
    (Q : option (Z * Message) -> world -> Prop) :
  (forall r,
     (forall code msg, r = Some (code, msg) -> code = 400 \/ code = 409) ->
     Q r w) ->
  wp (validateGroupAssignments ids x) w Q.
Proof.
  intros H. unfold wp. rewrite validateGroupAssignments_world. apply H.
  intros code msg. apply validateGroupAssignments_codes.
Qed.

Lemma wp_sync (studentId : string) (previous next : list string) (w : world)
    (Q : unit -> world -> Prop) :
  (forall w',
     Students w' = Students w ->
     length (Groups w') = length (Groups w) ->
     (ObjectId studentId = studentId ->
      Forall (fun id => ObjectId id = id) previous ->
      Forall (fun id => ObjectId id = id) next ->
      forall (i : nat) (g : Group),
        Groups w !! i = Some g ->
        exists g',
          Groups w' !! i = Some g'
          /\ g' = with_students (students g') g
          /\ (In (g_id g) next -> ~ In (g_id g) previous ->
              In studentId (students g'))
          /\ (In (g_id g) previous -> ~ In (g_id g) next ->
              ~ In studentId (students g'))
          /\ ((In (g_id g) previous <-> In (g_id g) next) -> g' = g)) ->
     Q tt w') ->
  wp (syncGroupStudentLinks studentId previous next) w Q.
Proof.
  intros H. unfold wp.
  destruct (result_of (syncGroupStudentLinks studentId previous next w)).
  apply H; [apply keeps_sync|apply length_sync|].
  intros Hs Hp Hn.
  exact (proj2 (proj2 (syncGroupStudentLinks_effect studentId previous next w
                         Hs Hp Hn))).
Qed.

Lemma memberships_of_ids (t : Z) (ids : list string) :
  map group (toStudentGroupMemberships t ids) = map ObjectId ids
  /\ Forall (fun m => m_status m = MActive /\ joinedAt m = t)
            (toStudentGroupMemberships t ids)
  /\ existsb (fun m => isActive (m_status m)) (toStudentGroupMemberships t ids)
     = negb (bool_decide (ids = [])).
Proof.
  unfold toStudentGroupMemberships. split; [|split].
  - rewrite map_map. reflexivity.
  - apply Forall_fmap, Forall_forall. intros id _. cbn. auto.
  - destruct ids; reflexivity.
Qed.

Lemma Forall_ObjectId_canonical (ids : list string) :
  Forall (fun id => ObjectId id = id) (map ObjectId ids).
Proof.
  apply Forall_fmap, Forall_forall. intros id _. apply ObjectId_idem.
Qed.

(** An update that supplies [groups] and is answered 200 replaces the
    memberships of the student the request names, in any letters:
    afterwards the student holds one membership for each desired id, in the
    order of the list, every one of them active and joined at the time of
    the request, whatever status and [joinedAt] the student had in these
    groups before; a membership names its group as the id prints, in
    lower-case digits; [groupAttached] tells whether the list is non-empty.
    Every other student is as the balance-reset check left it, and no
    group is added or removed.  When the request names the student as the
    id prints and the former memberships named their groups so, the groups
    the student joined list the student, the groups it left do not, and
    the groups that are in both lists or in neither are as they were. *)
Theorem update_replaces_the_memberships (amb : Ambient) (studentId : string)
    (body : UpdateBody) (w : world) (ids : list string) :
  parseGroupIds (u_groups body) = Value ids ->
  statusCode (result_of (updateStudent amb studentId body w)) = 200 ->
  let w1 := world_of (runBalanceResetSafely amb w) in
  let w' := world_of (updateStudent amb studentId body w) in
  exists st st',
    stored (ObjectId studentId) (Students w1) = Some st
    /\ stored (ObjectId studentId) (Students w') = Some st'
    /\ groups st' = toStudentGroupMemberships (now amb) ids
    /\ map group (groups st') = map ObjectId ids
    /\ Forall (fun m => m_status m = MActive /\ joinedAt m = now amb)
              (groups st')
    /\ groupAttached st' = negb (bool_decide (ids = []))
    /\ (forall id, id <> ObjectId studentId ->
          stored id (Students w') = stored id (Students w1))
    /\ length (Groups w') = length (Groups w)
    /\ (ObjectId studentId = studentId ->
        Forall (fun m => ObjectId (group m) = group m) (groups st) ->
        forall (i : nat) (g : Group),
          Groups w !! i = Some g ->
          exists g',
            Groups w' !! i = Some g'
            /\ g' = with_students (students g') g
            /\ (In (g_id g) (map ObjectId ids) ->
                ~ In (g_id g) (map group (groups st)) ->
                In studentId (students g'))
            /\ (In (g_id g) (map group (groups st)) ->
                ~ In (g_id g) (map ObjectId ids) ->
                ~ In studentId (students g'))
            /\ ((In (g_id g) (map group (groups st))
                 <-> In (g_id g) (map ObjectId ids)) ->
                g' = g)).
Proof.
  intros Hp. cbv zeta.
  change (wp (updateStudent amb studentId body) w
            (fun r w' =>
               statusCode r = 200 ->
               exists st st',
                 stored (ObjectId studentId)
                   (Students (world_of (runBalanceResetSafely amb w)))
                 = Some st
                 /\ stored (ObjectId studentId) (Students w') = Some st'
                 /\ groups st' = toStudentGroupMemberships (now amb) ids
                 /\ map group (groups st') = map ObjectId ids
                 /\ Forall (fun m => m_status m = MActive
                                     /\ joinedAt m = now amb) (groups st')
                 /\ groupAttached st' = negb (bool_decide (ids = []))
                 /\ (forall id, id <> ObjectId studentId ->
                       stored id (Students w')
                       = stored id
                           (Students (world_of (runBalanceResetSafely amb w))))
                 /\ length (Groups w') = length (Groups w)
                 /\ (ObjectId studentId = studentId ->
                     Forall (fun m => ObjectId (group m) = group m)
                            (groups st) ->
                     forall (i : nat) (g : Group),
                       Groups w !! i = Some g ->
                       exists g',
                         Groups w' !! i = Some g'
                         /\ g' = with_students (students g') g
                         /\ (In (g_id g) (map ObjectId ids) ->
                             ~ In (g_id g) (map group (groups st)) ->
                             In studentId (students g'))
                         /\ (In (g_id g) (map group (groups st)) ->
                             ~ In (g_id g) (map ObjectId ids) ->
                             ~ In studentId (students g'))
                         /\ ((In (g_id g) (map group (groups st))
                              <-> In (g_id g) (map ObjectId ids)) ->
                             g' = g)))).
  destruct (reset_check_effect amb w) as (f & Hf & _ & Hg1).
  unfold updateStudent. apply wp_bind. unfold wp at 1. cbv beta.
  set (w1 := world_of (runBalanceResetSafely amb w)) in *.
  rewrite <- Hg1. clear Hg1 f Hf.
  unfold updateStudent_checked.
  destruct (isValidObjectId studentId); cbn [negb];
    [|apply wp_ret; discriminate].
  destruct (updateStudent_scalars amb body) as [refusal|scalars] eqn:Hsc.
  { apply wp_ret. apply updateStudent_scalars_400 in Hsc. rewrite Hsc.
    discriminate. }
  apply updateStudent_scalars_groups in Hsc.
  rewrite Hp. cbv beta zeta. apply wp_bind.
  apply wp_validate_world. intros r Hcodes.
  destruct r as [[code msg]|].
  { apply wp_ret. destruct (Hcodes code msg eq_refl) as [-> | ->];
      discriminate. }
  apply wp_bind, wp_findById.
  destruct (stored (ObjectId studentId) (Students w1)) as [st|] eqn:Hst;
    cbn [fmap option_fmap option_map]; [|apply wp_ret; discriminate].
  cbv beta zeta. apply wp_bind.
  set (doc := assign _ (with_password None st)).
  apply wp_save; [intros e|intros Hv].
  { apply wp_ret. intros E. exfalso. revert E.
    apply save_failed_student_not_200. }
  set (w2 := with_Students _ w1).
  apply wp_bind, wp_sync. intros w3 Hs3 Hlen Hgs.
  apply wp_bind, wp_findById, wp_ret. intros _.
  destruct (stored_id _ _ _ Hst) as [Hid _].
  assert (groups doc = toStudentGroupMemberships (now amb) ids) as Hgd
    by reflexivity.
  destruct (memberships_of_ids (now amb) ids) as (Hids & Hall & Hact).
  exists st, (persist (preValidate doc) st).
  split; [reflexivity|]. rewrite Hs3. subst w2.
  cbn [Students with_Students]. split.
  { rewrite stored_persist, Hst. reflexivity. }
  destruct (persist_groups (preValidate doc) st) as (Hpg & Hpa & _);
    [cbn; congruence|].
  rewrite Hpg, Hpa. cbn [groups preValidate with_groupAttached groupAttached].
  rewrite Hgd. split; [reflexivity|]. split; [exact Hids|].
  split; [exact Hall|]. split; [exact Hact|].
  split.
  { intros id Hne. apply stored_other. cbn. congruence. }
  split; [exact Hlen|].
  intros Hcan Hprev i g Hi.
  cbn [groups preValidate with_groupAttached] in Hgs.
  rewrite Hgd, Hids in Hgs.
  destruct (Hgs Hcan ltac:(apply Forall_map; exact Hprev)
              (Forall_ObjectId_canonical ids) i g Hi)
    as (g' & Hl & Hshape & Hin & Hout & Hsame).
  exists g'. split; [exact Hl|]. split; [exact Hshape|].
  split; [exact Hin|]. split; [exact Hout|]. exact Hsame.
Qed.

Lemma update_replaces_the_memberships_witness :
  exists st',
    stored studentA
      (Students (world_of (updateStudent at_noon STUDENT_A (update_groups [])
                             (world_of scenario_step2)))) = Some st'
    /\ groups st' = [].
Proof.
  assert (statusCode (result_of (updateStudent at_noon STUDENT_A
                                   (update_groups [])
                                   (world_of scenario_step2))) = 200) as H200
    by (vm_compute; reflexivity).
  destruct (update_replaces_the_memberships
              at_noon STUDENT_A (update_groups []) (world_of scenario_step2) []
              eq_refl H200)
    as (st & st' & _ & Hst' & Hg & _).
  exists st'. split; [exact Hst'|exact Hg].
Defined.

(** ** Creating a student *)

Lemma wp_call {A : Type} (c : db_call) (f : world -> A * world) (w : world)
    (Q : A -> world -> Prop) :
  Q (f w).1 (f w).2 -> wp (call c f) w Q.
Proof. intros H. exact H. Qed.

Lemma createStudent_scalars_None (body : CreateBody) :
  createStudent_scalars body = None ->
  exists pw,
    c_password body = Some pw
    /\ (8 <= String.length pw)%nat
    /\ is_Some (c_birthDate body)
    /\ PHONE_PATTERN_test (trim (or_empty (c_studentPhone body))) = true
    /\ PHONE_PATTERN_test (trim (or_empty (c_parentPhone body))) = true.
Proof.
  unfold createStudent_scalars.
  destruct (_ || _) eqn:E1; [discriminate|].
  destruct (negb (includes _ _)); [discriminate|].
  destruct (negb (PHONE_PATTERN_test _) || _) eqn:E2; [discriminate|].
  destruct (String.length _ <? 8)%nat eqn:E3; [discriminate|]. intros _.
  repeat (apply orb_false_iff in E1 as [E1 ?]).
  apply orb_false_iff in E2 as [E2 E2'].
  apply negb_false_iff in E2, E2'.
  destruct (c_password body) as [pw|]; [|discriminate].
  exists pw. split; [reflexivity|]. split; [apply Nat.ltb_ge; exact E3|].
  split; [|split; assumption].
  match goal with
  | H : negb (bool_decide _) = false |- _ =>
      apply negb_false_iff, bool_decide_eq_true in H; exact H
  end.
Qed.

Lemma filter_includes_nil (l : list Group) :
  List.filter (fun g => includes [] (g_id g)) l = [].
Proof. induction l as [|g l IH]; [reflexivity|exact IH]. Qed.

(** Reconciling the mirror lists for a student that left no group: the
    groups the texts of the desired list name list the student, and the
    other groups are as they were. *)
Lemma sync_joins (studentId : string) (next : list string) (w : world) :
  ObjectId studentId = studentId ->
  let w' := world_of (syncGroupStudentLinks studentId [] next w) in
  forall (i : nat) (g : Group),
    Groups w !! i = Some g ->
    exists g',
      Groups w' !! i = Some g'
      /\ g' = with_students (students g') g
      /\ (In (g_id g) (map ObjectId next) -> In studentId (students g'))
      /\ (~ In (g_id g) (map ObjectId next) -> g' = g).
Proof.
  intros Hcan. cbv zeta.
  destruct (sync_groups studentId [] next w) as [Hg _].
  cbv zeta in Hg. rewrite Hg. clear Hg. rewrite Hcan.
  change (List.filter _ (Set_of [])) with (@nil string). cbn [map].
  rewrite filter_includes_nil. cbn [map].
  set (groupsToAdd :=
         List.filter (fun groupId => negb (includes (Set_of []) groupId))
                     (Set_of next)).
  assert (forall id, In id (map ObjectId groupsToAdd)
                     <-> In id (map ObjectId next)) as Hadd.
  { intros id. rewrite !in_map_iff. unfold groupsToAdd.
    split; intros (t & Ht & Hin); exists t; (split; [exact Ht|]).
    - apply filter_In in Hin as [Hin _]. apply Set_of_In. exact Hin.
    - apply filter_In. split; [apply Set_of_In; exact Hin|reflexivity]. }
  set (updates := map _ (List.filter _ (Groups w))).
  change (bulk_applied [] ?l) with l.
  intros i g Hi.
  destruct (bulk_applied_lookup updates _ i g Hi) as (sts & Hl & Hc).
  exists (with_students sts g). split; [exact Hl|].
  split; [reflexivity|]. cbn [students with_students].
  split.
  - intros Hin. destruct Hc as [[Hnot _]|(u & Hu & _ & ->)].
    + exfalso. apply Hnot. apply in_map_iff.
      eexists (g_id g, _). split; [reflexivity|].
      apply in_map_iff. exists g. split; [reflexivity|].
      apply filter_In. split; [|apply includes_In, Hadd; exact Hin].
      apply list_elem_of_In. eapply list_elem_of_lookup_2. exact Hi.
    + apply in_map_iff in Hu as (g0 & <- & _). cbn.
      destruct (includes _ studentId) eqn:E.
      * apply includes_In. exact E.
      * apply in_or_app. right. left. reflexivity.
  - intros Hout. destruct Hc as [[_ ->]|(u & Hu & Hid & _)].
    + apply with_students_same.
    + exfalso. apply Hout.
      apply in_map_iff in Hu as (g0 & <- & Hin0).
      apply filter_In in Hin0 as [_ Hin0]. apply includes_In in Hin0.
      cbn in Hid. rewrite <- Hid. apply Hadd. exact Hin0.
Qed.

(** A create request that is answered 201 appends one student to the
    collection and changes no other.  The new student has the id the
    driver generated, which no stored student had; its [password] is the
    bcrypt hash of the password of the request, which had at least eight
    characters; its balance and coins are zero and [balanceResetAt] is the
    time of the request; it holds an active membership, joined at that
    time, for each desired group, and [groupAttached] tells whether there
    is one.  The response carries this document.  No group is added or
    removed; the generated id printing in lower-case digits, as the ids of
    the driver do, the groups the desired texts name, in any letters, list
    the new student, and the other groups are as they were. *)
Theorem create_appends_the_student (amb : Ambient) (body : CreateBody)
    (w : world) :
  statusCode (result_of (createStudent amb body w)) = 201 ->
  let w1 := world_of (runBalanceResetSafely amb w) in
  let r := createStudent amb body w in
  exists pw ids st,
    c_password body = Some pw
    /\ (8 <= String.length pw)%nat
    /\ match parseGroupIds (c_groups body) with
       | Value desired => ids = desired
       | Undefined => ids = []
       | Null => False
       end
    /\ Students (world_of r) = Students w1 ++ [st]
    /\ payload (result_of r) = StudentPayload (Some st)
    /\ s_id st = freshId amb
    /\ stored (freshId amb) (Students w1) = None
    /\ password st = Some (bcrypt_hash amb pw)
    /\ studentPhone st = trim (or_empty (c_studentPhone body))
    /\ balance st = JNum 0 /\ coinBalance st = JNum 0
    /\ balanceResetAt st = Some (now amb)
    /\ groups st = toStudentGroupMemberships (now amb) ids
    /\ groupAttached st = negb (bool_decide (ids = []))
    /\ valid_student (now amb) st
    /\ length (Groups (world_of r)) = length (Groups w)
    /\ (ObjectId (freshId amb) = freshId amb ->
        forall (i : nat) (g : Group),
          Groups w !! i = Some g ->
          exists g',
            Groups (world_of r) !! i = Some g'
            /\ g' = with_students (students g') g
            /\ (In (g_id g) (map ObjectId ids) ->
                In (freshId amb) (students g'))
            /\ (~ In (g_id g) (map ObjectId ids) -> g' = g)).
Proof.
  cbv zeta.
  change (wp (createStudent amb body) w
            (fun r w' =>
               statusCode r = 201 ->
               exists pw ids st,
                 c_password body = Some pw
                 /\ (8 <= String.length pw)%nat
                 /\ match parseGroupIds (c_groups body) with
                    | Value desired => ids = desired
                    | Undefined => ids = []
                    | Null => False
                    end
                 /\ Students w'
                    = Students (world_of (runBalanceResetSafely amb w)) ++ [st]
                 /\ payload r = StudentPayload (Some st)
                 /\ s_id st = freshId amb
                 /\ stored (freshId amb)
                      (Students (world_of (runBalanceResetSafely amb w)))
                    = None
                 /\ password st = Some (bcrypt_hash amb pw)
                 /\ studentPhone st = trim (or_empty (c_studentPhone body))
                 /\ balance st = JNum 0 /\ coinBalance st = JNum 0
                 /\ balanceResetAt st = Some (now amb)
                 /\ groups st = toStudentGroupMemberships (now amb) ids
                 /\ groupAttached st = negb (bool_decide (ids = []))
                 /\ valid_student (now amb) st
                 /\ length (Groups w') = length (Groups w)
                 /\ (ObjectId (freshId amb) = freshId amb ->
                     forall (i : nat) (g : Group),
                       Groups w !! i = Some g ->
                       exists g',
                         Groups w' !! i = Some g'
                         /\ g' = with_students (students g') g
                         /\ (In (g_id g) (map ObjectId ids) ->
                             In (freshId amb) (students g'))
                         /\ (~ In (g_id g) (map ObjectId ids) -> g' = g)))).
  destruct (reset_check_effect amb w) as (f & Hf & _ & Hg1).
  unfold createStudent. apply wp_bind. unfold wp at 1. cbv beta.
  set (w1 := world_of (runBalanceResetSafely amb w)) in *.
  rewrite <- Hg1. clear Hg1 f Hf.
  unfold createStudent_checked.
  destruct (createStudent_scalars body) as [refusal|] eqn:Hsc.
  { apply wp_ret. apply createStudent_scalars_400 in Hsc as [Hsc _].
    rewrite Hsc. discriminate. }
  apply createStudent_scalars_None in Hsc as (pw & Hpw & Hlen & _).
  set (ids := match parseGroupIds (c_groups body) with
              | Value ids => ids
              | _ => []
              end).
  assert (match parseGroupIds (c_groups body) with
          | Value desired => ids = desired
          | Undefined => ids = []
          | Null => True
          end) as Hids
    by (subst ids; destruct (parseGroupIds (c_groups body)); reflexivity).
  destruct (parseGroupIds (c_groups body)) as [| |desired] eqn:Hp;
    [|apply wp_ret; discriminate|].
  all: cbv beta zeta; apply wp_bind.
  1: apply wp_ret.
  2: apply wp_validate_world; intros gv Hcodes;
     destruct gv as [[code msg]|];
     [apply wp_ret; destruct (Hcodes code msg eq_refl) as [-> | ->];
      discriminate|].
  all: apply wp_bind; unfold Student_findOne; apply wp_call;
    cbn [fst snd];
    destruct (find _ (Students w1));
    cbn [fmap option_fmap option_map]; [apply wp_ret; discriminate|].
  all: cbv beta zeta; apply wp_bind;
    apply wp_create; [intros e; apply wp_ret; destruct e; cbn;
                      [destruct (head errors)|]; discriminate
                     |intros Hv Hfresh].
  all: rewrite Hpw in *; cbn [or_empty] in *.
  all: match goal with
       | |- wp _ (with_Students (_ ++ [?d]) _) _ => set (doc := d) in *
       end.
  all: destruct (memberships_of_ids (now amb) ids) as (Hmap & _ & Hact).
  - rewrite Hids. apply wp_bind, wp_ret, wp_ret. intros _.
    exists pw, [], doc. rewrite Hids in Hact.
    repeat (split; [first [reflexivity|assumption]|]).
    intros _ i g Hi. exists g. split; [exact Hi|].
    split; [symmetry; apply with_students_same|].
    split; [intros []|reflexivity].
  - rewrite Hids in *. apply wp_bind.
    assert (wp (match desired with
                | [] => ret tt
                | _ => syncGroupStudentLinks (s_id doc) [] desired
                end)
               (with_Students (Students w1 ++ [doc]) w1)
               (fun _ w' =>
                  Students w' = Students w1 ++ [doc]
                  /\ length (Groups w') = length (Groups w1)
                  /\ (ObjectId (freshId amb) = freshId amb ->
                      forall (i : nat) (g : Group),
                        Groups w1 !! i = Some g ->
                        exists g',
                          Groups w' !! i = Some g'
                          /\ g' = with_students (students g') g
                          /\ (In (g_id g) (map ObjectId desired) ->
                              In (freshId amb) (students g'))
                          /\ (~ In (g_id g) (map ObjectId desired) ->
                              g' = g)))) as Hsync.
    { destruct desired as [|d0 rest] eqn:Ed.
      - apply wp_ret. split; [reflexivity|]. split; [reflexivity|].
        intros _ i g Hi. exists g. split; [exact Hi|].
        split; [symmetry; apply with_students_same|].
        split; [intros []|reflexivity].
      - rewrite <- Ed. unfold wp.
        split; [apply keeps_sync|].
        split;
          [exact (length_sync (freshId amb) [] desired
                    (with_Students (Students w1 ++ [doc]) w1))|].
        intros Hcan.
        exact (sync_joins (freshId amb) desired
                 (with_Students (Students w1 ++ [doc]) w1) Hcan). }
    unfold wp in Hsync |- *. destruct Hsync as (Hs3 & Hl3 & Hg3).
    unfold ret. cbn [fst snd result_of world_of].
    intros _. exists pw, desired, doc.
    repeat (split; [first [reflexivity|assumption]|]).
    exact Hg3.
Qed.

Lemma create_appends_the_student_witness :
  exists st,
    Students (world_of (createStudent at_noon (create_in []) initial_world))
    = [st]
    /\ password st = Some (bcrypt_hash at_noon "s3cretpass").
Proof.
  assert (statusCode (result_of (createStudent at_noon (create_in [])
                                   initial_world)) = 201) as H201
    by (vm_compute; reflexivity).
  destruct (create_appends_the_student at_noon (create_in []) initial_world
              H201)
    as (pw & ids & st & Hpw & _ & _ & Hs & _ & _ & _ & Hh & _).
  exists st. split; [exact Hs|]. rewrite Hh. injection Hpw as <-.
  reflexivity.
Defined.

(** ** What an attendance request writes *)

Lemma wp_Group_save (doc : Group) (w : world)
    (Q : save_error + Group -> world -> Prop) :
  (forall e, Q (inl e) w) ->
  (validateGroup doc = [] ->
   Q (inr doc)
     (with_Groups
        (map (fun g => if String.eqb (g_id g) (g_id doc) then doc else g)
             (Groups w)) w)) ->
  wp (Group_save doc) w Q.
Proof.
  intros He Hok. unfold wp, Group_save.
  destruct (validateGroup doc) eqn:E; [apply Hok; reflexivity|apply He].
Qed.

Lemma wp_counts (ids : list string) (w : world)
    (Q : gmap string Z -> world -> Prop) :
  (forall counts, Q counts w) ->
  wp (getActiveStudentCountsByGroupIds ids) w Q.
Proof.
  intros H. unfold wp, getActiveStudentCountsByGroupIds.
  destruct ids; apply H.
Qed.

Lemma unique_by_id (l : list Student) (s s' : Student) :
  NoDup (map s_id l) -> In s l -> In s' l -> s_id s = s_id s' -> s = s'.
Proof.
  induction l as [|a l IH]; cbn; [tauto|].
  rewrite NoDup_cons, list_elem_of_In. intros [Ha Hnd] [<-|Hs] [<-|Hs'] He.
  - reflexivity.
  - exfalso. apply Ha. rewrite He. apply in_map. exact Hs'.
  - exfalso. apply Ha. rewrite <- He. apply in_map. exact Hs.
  - apply IH; assumption.
Qed.

(** The students a roster finds as active members are fewer than its
    records when one record names no active member of the group. *)
Lemma active_members_short (ids : list string) (groupId absent : string)
    (l : list Student) :
  NoDup (map s_id l) ->
  In absent ids ->
  (forall s, In s l -> s_id s = absent -> activeIn groupId s = false) ->
  (length (List.filter (fun s => includes ids (s_id s) && activeIn groupId s)
                       l) < length ids)%nat.
Proof.
  intros Hl Habs Hnot.
  set (members := List.filter (fun s => includes ids (s_id s)
                                        && activeIn groupId s) l).
  rewrite <- (length_map s_id members).
  assert (NoDup (map s_id members)) as Hnd.
  { subst members. clear Hnot. induction l as [|a l IH]; [constructor|].
    cbn [map] in Hl. apply NoDup_cons in Hl as [Ha Hl].
    cbn [List.filter]. destruct (_ && _); [|apply IH; exact Hl].
    cbn [map]. apply NoDup_cons. split; [|apply IH; exact Hl].
    rewrite list_elem_of_In in *. intros Hin. apply Ha.
    apply in_map_iff in Hin as (s & <- & Hs).
    apply filter_In in Hs as [Hs _]. apply in_map. exact Hs. }
  assert (forall x, In x (map s_id members) ->
            In x (List.filter (fun id => negb (String.eqb id absent)) ids))
    as Hsub.
  { intros x Hx. apply in_map_iff in Hx as (s & <- & Hs).
    subst members. apply filter_In in Hs as [Hs Hc].
    apply andb_true_iff in Hc as [Hinc Hact].
    apply filter_In. split; [apply includes_In; exact Hinc|].
    apply negb_true_iff, String.eqb_neq. intros E.
    rewrite (Hnot s Hs E) in Hact. discriminate. }
  assert (length (map s_id members)
          <= length (List.filter (fun id => negb (String.eqb id absent)) ids))%nat
    as Hle.
  { apply submseteq_length, NoDup_submseteq; [exact Hnd|].
    intros x Hx. apply list_elem_of_In, Hsub, list_elem_of_In. exact Hx. }
  assert (negb (String.eqb absent absent) = false) as Hself
    by (rewrite String.eqb_refl; reflexivity).
  pose proof (filter_length_lt (fun id => negb (String.eqb id absent)) ids
                absent Habs Hself) as Hlt.
  lia.
Qed.

(** An attendance request writes nothing but the attendance log of the
    group its id names, in any letters: the students are as the
    balance-reset check left them, every other group is as it was, and the
    group itself differs at most in [attendance], and not at all unless
    the answer is 200.  A roster one of whose records names a student who
    holds no active membership in the group is refused with 400, and
    nothing is written. *)
Theorem attendance_writes_only_the_log :
  (forall (amb : Ambient) (groupId : string) (body : AttendanceBody)
          (w : world),
     NoDup (map g_id (Groups w)) ->
     let r := upsertGroupAttendance amb groupId body w in
     Students (world_of r) = Students (world_of (runBalanceResetSafely amb w))
     /\ length (Groups (world_of r)) = length (Groups w)
     /\ forall (i : nat) (g : Group),
          Groups w !! i = Some g ->
          exists g',
            Groups (world_of r) !! i = Some g'
            /\ g' = with_attendance (attendance g') g
            /\ (g_id g <> ObjectId groupId -> g' = g)
            /\ (statusCode (result_of r) <> 200 -> g' = g))
  /\ (forall (amb : Ambient) (groupId : string) (body : AttendanceBody)
             (w : world) (d : Z) (records : list AttendanceRecord)
             (g : Group) (absent : AttendanceRecord),
        NoDup (map s_id (Students w)) ->
        isValidObjectId groupId = true ->
        a_date body = Some d ->
        parseAttendanceRecords (a_records body) = Value records ->
        find_group (ObjectId groupId) (Groups w) = Some g ->
        In absent records ->
        (forall s, In s (Students w) ->
                   s_id s = ObjectId (ar_student absent) ->
                   activeIn (ObjectId groupId) s = false) ->
        let r := upsertGroupAttendance amb groupId body w in
        statusCode (result_of r) = 400
        /\ world_of r = world_of (runBalanceResetSafely amb w)).
Proof.
  split.
  - intros amb groupId body w Hnd. cbv zeta.
    change (wp (upsertGroupAttendance amb groupId body) w
              (fun r w' =>
                 Students w'
                 = Students (world_of (runBalanceResetSafely amb w))
                 /\ length (Groups w') = length (Groups w)
                 /\ forall (i : nat) (g : Group),
                      Groups w !! i = Some g ->
                      exists g',
                        Groups w' !! i = Some g'
                        /\ g' = with_attendance (attendance g') g
                        /\ (g_id g <> ObjectId groupId -> g' = g)
                        /\ (statusCode r <> 200 -> g' = g))).
    destruct (reset_check_effect amb w) as (f & Hf & _ & Hg1).
    unfold upsertGroupAttendance. apply wp_bind. unfold wp at 1. cbv beta.
    set (w1 := world_of (runBalanceResetSafely amb w)) in *.
    rewrite <- Hg1 in *. clear Hg1 f Hf.
    assert (forall r : Response,
              Students w1 = Students w1
              /\ length (Groups w1) = length (Groups w1)
              /\ forall (i : nat) (g : Group),
                   Groups w1 !! i = Some g ->
                   exists g',
                     Groups w1 !! i = Some g'
                     /\ g' = with_attendance (attendance g') g
                     /\ (g_id g <> ObjectId groupId -> g' = g)
                     /\ (statusCode r <> 200 -> g' = g)) as Hsame.
    { intros r. split; [reflexivity|]. split; [reflexivity|].
      intros i g Hi. exists g. split; [exact Hi|].
      split; [destruct g; reflexivity|]. split; reflexivity. }
    unfold upsertGroupAttendance_checked.
    destruct (negb (isValidObjectId groupId)); [apply wp_ret, Hsame|].
    destruct (a_date body) as [d|]; [|apply wp_ret, Hsame].
    destruct (parseAttendanceRecords (a_records body)) as [| |records];
      [apply wp_ret, Hsame|apply wp_ret, Hsame|].
    cbv zeta.
    destruct (negb _); [apply wp_ret, Hsame|].
    apply wp_bind. unfold Group_findById. apply wp_call. cbn [fst snd].
    destruct (find_group (ObjectId groupId) (Groups w1)) as [g0|] eqn:Hfg;
      [|apply wp_ret, Hsame].
    apply wp_bind, wp_call. cbn [fst snd].
    destruct (negb _); [apply wp_ret, Hsame|].
    apply wp_bind, wp_Group_save; [intros e; apply wp_ret, Hsame|intros Hv].
    set (log := foldl _ (attendance g0) records).
    apply wp_bind, wp_call. cbn [fst snd].
    apply wp_bind, wp_counts. intros counts. apply wp_ret.
    cbn [Students Groups with_Groups statusCode].
    split; [reflexivity|]. split; [apply length_map|].
    intros i g Hi. change (map ?h ?l) with (h <$> l).
    rewrite list_lookup_fmap, Hi. cbn [fmap option_fmap option_map].
    eexists. split; [reflexivity|].
    apply find_group_In in Hfg as [Hin0 Hid0].
    cbn [g_id with_attendance].
    destruct (String.eqb_spec (g_id g) (g_id g0)) as [E|E].
    + assert (g = g0) as ->.
      { apply (unique_group (Groups w1)); [exact Hnd| |exact Hin0|exact E].
        apply list_elem_of_In. eapply list_elem_of_lookup_2. exact Hi. }
      split; [reflexivity|]. split; [intros H; contradiction|].
      intros H. exfalso. apply H. reflexivity.
    + split; [destruct g; reflexivity|]. split; reflexivity.
  - intros amb groupId body w d records g absent Hnd Hvalid Hd Hp Hfg Habs
      Hnot. cbv zeta.
    unfold upsertGroupAttendance. rewrite after_reset. fields.
    destruct (reset_check_effect amb w) as (f & Hf & Hs1 & Hg1).
    set (w1 := world_of (runBalanceResetSafely amb w)) in *.
    unfold upsertGroupAttendance_checked. rewrite Hvalid, Hd, Hp.
    cbn [negb]. cbv zeta.
    destruct (length (Set_of (map ar_student records))
              =? length (map ar_student records))%nat eqn:Hdup;
      cbn [negb]; [|split; reflexivity].
    unfold bind, Group_findById, call. fields. rewrite Hg1, Hfg. fields.
    rewrite Hs1, (balance_only_active_members f Hf).
    pose proof (active_members_short (map ObjectId (map ar_student records))
                  (ObjectId groupId) (ObjectId (ar_student absent))
                  (Students w) Hnd
                  (in_map ObjectId _ _ (in_map ar_student _ _ Habs)) Hnot)
      as Hlt.
    rewrite !length_map in Hlt.
    destruct (Nat.eqb_spec
                (length (List.filter
                           (fun s => includes (map ObjectId
                                                   (map ar_student records))
                                              (s_id s)
                                     && activeIn (ObjectId groupId) s)
                           (Students w)))
                (length (map ar_student records))) as [E|E];
      [rewrite length_map in E; lia|].
    cbn [negb]. split; reflexivity.
Qed.

Lemma attendance_writes_only_the_log_witness :
  statusCode (result_of (upsertGroupAttendance at_noon g1 (submission teacher1)
                           two_seat_world)) = 400.
Proof.
  refine (proj1 (proj2 attendance_writes_only_the_log
                   at_noon g1 (submission teacher1) two_seat_world
                   (100 * day + 9 * 3600000) _ (sample_group GPlanned 2)
                   {| ar_student := studentA; ar_status := Present;
                      ar_note := None |}
                   _ eq_refl eq_refl eq_refl eq_refl _ _)).
  - vm_compute. repeat (apply NoDup_cons; split;
                        [rewrite list_elem_of_In; cbn; intuition discriminate|]).
    constructor.
  - left. reflexivity.
  - intros s Hs _. cbn in Hs.
    destruct Hs as [<-|[<-|[<-|[]]]]; reflexivity.
Defined.

(** ** The parsers of ids, statuses and days *)

Lemma hex_not_space (c : ascii) : is_hex c = true -> is_space c = false.
Proof.
  destruct c as [[] [] [] [] [] [] [] []]; vm_compute;
    first [reflexivity|discriminate].
Qed.

Lemma trimEnd_no_space (s : string) :
  string_forallb (fun c => negb (is_space c)) s = true -> trimEnd s = s.
Proof.
  induction s as [|c r IH]; [reflexivity|]. cbn.
  intros H. apply andb_true_iff in H as [Hc Hr].
  apply negb_true_iff in Hc. rewrite Hc. cbn. rewrite (IH Hr). reflexivity.
Qed.

Lemma trim_no_space (s : string) :
  string_forallb (fun c => negb (is_space c)) s = true -> trim s = s.
Proof.
  intros H. unfold trim.
  assert (trimStart s = s) as ->.
  { destruct s as [|c r]; [reflexivity|]. cbn in H |- *.
    apply andb_true_iff in H as [Hc _]. apply negb_true_iff in Hc.
    rewrite Hc. reflexivity. }
  apply trimEnd_no_space. exact H.
Qed.

Lemma string_forallb_impl (p q : ascii -> bool) (s : string) :
  (forall c, p c = true -> q c = true) ->
  string_forallb p s = true -> string_forallb q s = true.
Proof.
  intros Hpq. induction s as [|c r IH]; [reflexivity|]. cbn.
  intros H. apply andb_true_iff in H as [Hc Hr].
  rewrite (Hpq c Hc), (IH Hr). reflexivity.
Qed.

(** A valid ObjectId has no space in it, so trimming leaves it alone, and
    it is not the empty string. *)
Lemma valid_id_trimmed (id : string) :
  isValidObjectId id = true -> trim id = id /\ id <> "".
Proof.
  unfold isValidObjectId. intros H. apply andb_true_iff in H as [Hl Hh].
  split.
  - apply trim_no_space. revert Hh. apply string_forallb_impl.
    intros c Hc. rewrite (hex_not_space c Hc). reflexivity.
  - intros ->. discriminate.
Qed.

Lemma normalize_from_In (values seen : list string) (x : string) :
  In x (normalizeObjectIdArray_from seen values)
  <-> exists v, In v values /\ isValidObjectId (trim v) = true
                /\ ~ In (trim v) seen /\ x = ObjectId (trim v).
Proof.
  revert seen. induction values as [|v rest IH]; intros seen;
    cbn [normalizeObjectIdArray_from].
  { split; [intros []|intros (v & [] & _)]. }
  assert (forall P : string -> Prop,
            ~ P v ->
            (exists v', In v' rest /\ P v')
            <-> (exists v', In v' (v :: rest) /\ P v')) as Hskip.
  { intros P Hv. split; intros (v' & Hin & HP).
    - exists v'. split; [right; exact Hin|exact HP].
    - destruct Hin as [<-|Hin]; [contradiction|eauto]. }
  destruct (String.eqb_spec (trim v) "") as [Ee|Ee]; cbn [orb].
  - rewrite IH. apply (Hskip (fun v' => _ /\ _ /\ _)).
    rewrite Ee. intros (Hv & _). discriminate Hv.
  - destruct (isValidObjectId (trim v)) eqn:Ev; cbn [negb orb].
    + destruct (includes seen (trim v)) eqn:Es.
      * apply includes_In in Es. rewrite IH.
        apply (Hskip (fun v' => _ /\ _ /\ _)). intros (_ & Hs & _). auto.
      * apply not_true_iff_false in Es. rewrite includes_In in Es.
        cbn [In]. rewrite IH. split.
        -- intros [<-|(v' & Hin & Hv & Hs & ->)].
           ++ exists v. auto.
           ++ exists v'. split; [right; exact Hin|]. split; [exact Hv|].
              split; [|reflexivity]. intros H. apply Hs. right. exact H.
        -- intros (v' & [<-|Hin] & Hv & Hs & ->); [left; reflexivity|].
           destruct (String.eqb_spec (trim v) (trim v')) as [E|E];
             [left; rewrite E; reflexivity|].
           right. exists v'. split; [exact Hin|]. split; [exact Hv|].
           split; [|reflexivity]. intros [H|H]; auto.
    + rewrite IH. apply (Hskip (fun v' => _ /\ _ /\ _)).
      intros (Hv & _). congruence.
Qed.

Lemma normalize_from_NoDup (values seen : list string) :
  Forall (fun v => ObjectId (trim v) = trim v) values ->
  NoDup (normalizeObjectIdArray_from seen values).
Proof.
  revert seen. induction values as [|v rest IH]; intros seen Hcan;
    cbn [normalizeObjectIdArray_from]; [constructor|].
  apply Forall_cons in Hcan as [Hv Hcan].
  destruct (_ || _); [apply IH; exact Hcan|].
  apply NoDup_cons. split; [|apply IH; exact Hcan].
  rewrite list_elem_of_In, normalize_from_In.
  intros (v' & Hin & _ & Hs & E). apply Hs. left.
  rewrite Forall_forall in Hcan.
  rewrite <- (Hcan v' (proj2 (list_elem_of_In _ _) Hin)), <- E, Hv.
  reflexivity.
Qed.

Lemma normalize_from_cast (ids seen : list string) :
  NoDup ids ->
  Forall (fun id => isValidObjectId id = true) ids ->
  (forall id, In id ids -> ~ In id seen) ->
  normalizeObjectIdArray_from seen ids = map ObjectId ids.
Proof.
  revert seen. induction ids as [|i ids IH]; intros seen Hnd Hv Hs;
    [reflexivity|].
  apply NoDup_cons in Hnd as [Hi Hnd]. rewrite list_elem_of_In in Hi.
  apply Forall_cons in Hv as [Hvi Hv].
  destruct (valid_id_trimmed i Hvi) as [Ht He].
  cbn [normalizeObjectIdArray_from map]. rewrite Ht, Hvi.
  apply String.eqb_neq in He. rewrite He. cbn [negb orb].
  assert (includes seen i = false) as ->.
  { apply not_true_iff_false. rewrite includes_In.
    apply Hs. left. reflexivity. }
  f_equal. apply IH; [exact Hnd|exact Hv|].
  intros id Hid [<-|H]; [contradiction|].
  apply (Hs id); [right; exact Hid|exact H].
Qed.

(** [normalizeObjectIdArray] turns the valid texts of a list, trimmed,
    into ObjectIds, a text that occurred before left out: its result
    holds valid ids only, printed in lower-case digits, and exactly the
    ids of the valid ones among the trimmed items.  Two texts that differ
    in the case of their digits are two texts and one id, which the result
    then holds twice; the result has no duplicate when the items are in
    lower case, and a result without duplicate is left as it is when it is
    normalised again. *)
Theorem normalized_ids_are_valid_and_unique (values : list string) :
  let ids := normalizeObjectIdArray values in
  Forall (fun id => isValidObjectId id = true /\ ObjectId id = id) ids
  /\ (forall x, In x ids
                <-> exists v, In v values
                              /\ isValidObjectId (trim v) = true
                              /\ x = ObjectId (trim v))
  /\ (Forall (fun v => ObjectId (trim v) = trim v) values -> NoDup ids)
  /\ (NoDup ids -> normalizeObjectIdArray ids = ids)
  /\ (length ids <= length values)%nat
  /\ normalizeObjectIdArray [g1; G1] = [g1; g1].
Proof.
  cbv zeta. unfold normalizeObjectIdArray.
  assert (forall x, In x (normalizeObjectIdArray_from [] values)
                    <-> exists v, In v values
                                  /\ isValidObjectId (trim v) = true
                                  /\ x = ObjectId (trim v))
    as Hin.
  { intros x. rewrite normalize_from_In.
    split; intros (v & Hv & Hvalid & H); exists v.
    - tauto.
    - split; [exact Hv|]. split; [exact Hvalid|]. split; [intros []|exact H]. }
  assert (Forall (fun id => isValidObjectId id = true /\ ObjectId id = id)
                 (normalizeObjectIdArray_from [] values)) as Hv.
  { apply Forall_forall. intros x Hx.
    apply list_elem_of_In, Hin in Hx as (v & _ & Hvalid & ->).
    rewrite isValidObjectId_ObjectId, ObjectId_idem. auto. }
  split; [exact Hv|]. split; [exact Hin|].
  split; [apply normalize_from_NoDup|]. split; [|split; [|reflexivity]].
  - intros Hnd. rewrite normalize_from_cast;
      [|exact Hnd
       |eapply Forall_impl; [exact Hv|intros id H; exact (proj1 H)]
       |intros id _ []].
    apply map_ObjectId_canonical.
    eapply Forall_impl; [exact Hv|intros id H; exact (proj2 H)].
  - clear Hin Hv. generalize (@nil string).
    induction values as [|v rest IH]; intros seen; cbn; [lia|].
    destruct (_ || _); cbn; [specialize (IH seen)|specialize (IH (trim v :: seen))];
      lia.
Qed.

Lemma normalized_ids_are_valid_and_unique_witness :
  normalizeObjectIdArray (normalizeObjectIdArray [" " +:+ g1; "x"; studentA])
  = normalizeObjectIdArray [" " +:+ g1; "x"; studentA].
Proof.
  apply (proj1 (proj2 (proj2 (proj2
           (normalized_ids_are_valid_and_unique
              [" " +:+ g1; "x"; studentA]))))).
  apply (proj1 (proj2 (proj2
           (normalized_ids_are_valid_and_unique
              [" " +:+ g1; "x"; studentA])))).
  repeat constructor.
Defined.

(** A list [parseGroupIds] accepts is a list of valid ObjectId texts
    without a duplicate, as many as the items given; parsing it again
    gives it back, and [normalizeObjectIdArray] gives the ids the texts
    name.  A list with an item that is not a valid ObjectId once trimmed
    is refused. *)
Theorem parsed_group_ids_are_valid_and_unique :
  (forall (input : groups_input) (ids : list string),
     parseGroupIds input = Value ids ->
     NoDup ids
     /\ Forall (fun id => isValidObjectId id = true) ids
     /\ (exists items, input = GroupsArray items /\ ids = map trim items)
     /\ parseGroupIds (GroupsArray ids) = Value ids
     /\ normalizeObjectIdArray ids = map ObjectId ids)
  /\ (forall (items : list string) (item : string),
        In item items -> isValidObjectId (trim item) = false ->
        parseGroupIds (GroupsArray items) = Null).
Proof.
  split.
  - intros input ids H.
    destruct (parseGroupIds_Value input ids H) as (Hnd & items & -> & ->).
    assert (Forall (fun id => isValidObjectId id = true) (map trim items))
      as Hv.
    { unfold parseGroupIds in H.
      destruct (forallb _ (map trim items)) eqn:E; [|discriminate].
      rewrite forallb_forall in E. apply Forall_forall. intros x Hx.
      apply list_elem_of_In, E, andb_true_iff in Hx. tauto. }
    assert (map trim (map trim items) = map trim items) as Htrim.
    { rewrite <- (map_id (map trim items)) at 2. apply map_ext_in.
      intros x Hx. rewrite Forall_forall in Hv.
      apply (valid_id_trimmed x), Hv, list_elem_of_In, Hx. }
    split; [exact Hnd|]. split; [exact Hv|]. split; [eauto|]. split.
    + unfold parseGroupIds. rewrite Htrim.
      unfold parseGroupIds in H.
      destruct (forallb _ (map trim items)); [|discriminate]. exact H.
    + apply normalize_from_cast; [exact Hnd|exact Hv|intros id _ []].
  - intros items item Hin Hbad. unfold parseGroupIds.
    destruct (forallb _ (map trim items)) eqn:E; [|reflexivity].
    rewrite forallb_forall in E.
    specialize (E (trim item) (in_map trim _ _ Hin)).
    apply andb_true_iff in E as [_ E]. congruence.
Qed.

Lemma parsed_group_ids_are_valid_and_unique_witness :
  parseGroupIds (GroupsArray ["  65a000000000000000000001 "])
  = Value ["65a000000000000000000001"]
  /\ parseGroupIds (GroupsArray ["65a000000000000000000001"])
     = Value ["65a000000000000000000001"].
Proof.
  split; [reflexivity|].
  exact (proj1 (proj2 (proj2 (proj2
           (proj1 parsed_group_ids_are_valid_and_unique
              (GroupsArray ["  65a000000000000000000001 "])
              ["65a000000000000000000001"] eq_refl))))).
Defined.

Lemma trimStart_head (s : string) :
  match trimStart s with
  | String c _ => is_space c = false
  | EmptyString => True
  end.
Proof.
  induction s as [|c r IH]; [exact I|]. cbn.
  destruct (is_space c) eqn:E; [exact IH|exact E].
Qed.

Lemma all_space_trimEnd (s : string) : all_space s = true -> trimEnd s = "".
Proof. destruct s as [|c r]; [reflexivity|]. cbn. intros ->. reflexivity. Qed.

Lemma trimEnd_idem (s : string) : trimEnd (trimEnd s) = trimEnd s.
Proof.
  induction s as [|c r IH]; [reflexivity|].
  cbn [trimEnd]. destruct (all_space (String c r)) eqn:E; [reflexivity|].
  cbn [trimEnd]. rewrite IH.
  destruct (all_space (String c (trimEnd r))) eqn:E'; [|reflexivity].
  exfalso. cbn in E, E'. apply andb_true_iff in E' as [Hc Hr].
  rewrite Hc in E. cbn in E.
  assert (forall t, all_space (trimEnd t) = true -> all_space t = true) as H.
  { clear. induction t as [|c r IH]; [reflexivity|]. cbn [trimEnd].
    destruct (all_space (String c r)) eqn:E; [reflexivity|].
    cbn. intros H. apply andb_true_iff in H as [Hc Hr].
    cbn in E. rewrite Hc, (IH Hr) in E. discriminate. }
  rewrite (H r Hr) in E. discriminate.
Qed.

Lemma trim_idem (s : string) : trim (trim s) = trim s.
Proof.
  unfold trim. pose proof (trimStart_head s) as Hh.
  destruct (trimStart s) as [|c r] eqn:E; [reflexivity|].
  cbn [trimEnd]. destruct (all_space (String c r)) eqn:Ea.
  - reflexivity.
  - cbn [trimStart]. rewrite Hh.
    assert (trimEnd (String c r) = String c (trimEnd r)) as Ht
      by (cbn [trimEnd]; rewrite Ea; reflexivity).
    rewrite <- Ht. apply trimEnd_idem.
Qed.

(** The status of a membership as a request words it, in characters
    below U+0100: each of the four status texts parses to its status,
    whatever its case and the white space around it, the no-break space
    included; a missing or empty status is [active]; any other text is
    refused.  A payload that is accepted carries the parsed status, a
    valid [joinedAt] when the body holds one, and the trimmed note. *)
Theorem membership_status_round_trip :
  (forall st, parseGroupMemberStatus (Some (status_text st)) = Some st)
  /\ parseGroupMemberStatus None = Some MActive
  /\ parseGroupMemberStatus (Some "") = Some MActive
  /\ (forall s st,
        s <> "" ->
        (parseGroupMemberStatus (Some s) = Some st
         <-> toLowerCase (trim s) = status_text st))
  /\ (forall body mp,
        parseGroupMembershipPayload body = inr mp ->
        parseGroupMemberStatus (b_status body) = Some (mp_status mp)
        /\ b_joinedAt body <> Some None
        /\ mp_joinedAt mp = mjoin (b_joinedAt body)
        /\ mp_note mp = trim <$> b_note body
        /\ trim <$> mp_note mp = mp_note mp)
  /\ (forall body,
        parseGroupMemberStatus (b_status body) = None ->
        parseGroupMembershipPayload body
        = inl "status must be one of active, paused, completed, left").
Proof.
  split; [intros []; reflexivity|]. split; [reflexivity|].
  split; [reflexivity|]. split; [|split].
  - intros s st Hs. unfold parseGroupMemberStatus.
    assert (match s with "" => "active" | _ => s end = s) as ->
      by (destruct s; [contradiction|reflexivity]).
    unfold STUDENT_GROUP_STATUSES. cbn [find status_text].
    split.
    + repeat match goal with
             | |- context [String.eqb ?a ?b] =>
                 destruct (String.eqb_spec a b)
             end; intros [= <-] || discriminate; cbn; congruence.
    + intros ->. destruct st; reflexivity.
  - intros body mp. unfold parseGroupMembershipPayload.
    destruct (parseGroupMemberStatus (b_status body)) as [st|];
      [|discriminate].
    destruct (b_joinedAt body) as [[j|]|]; intros [= <-]; cbn;
      (split; [reflexivity|]); (split; [discriminate|]);
      (split; [reflexivity|]); (split; [reflexivity|]);
      destruct (b_note body); cbn; rewrite ?trim_idem; reflexivity.
  - intros body H. unfold parseGroupMembershipPayload. rewrite H.
    reflexivity.
Qed.

Lemma membership_status_round_trip_witness :
  parseGroupMemberStatus (Some (String "160" " PAUSED ")) = Some MPaused.
Proof.
  apply (proj1 (proj2 (proj2 (proj2 membership_status_round_trip)))
           (String "160" " PAUSED ") MPaused).
  - discriminate.
  - reflexivity.
Defined.

(** ** The day key *)

(** The key of a time a [Date] can hold is a function of its UTC day: the
    year, month and day of the month of that day, as [YYYY-MM-DD], for the
    years 0 to 9999.  Beyond them the ISO form begins with a signed
    six-digit year, and its first ten characters hold the year and the
    month only.  So two times of one UTC day have the same key, whatever
    the time of day; in the years 0 to 9999 the times with the key of a
    time are exactly the times of its UTC day, while the first and the
    second of January of the year 10000 have the same key.  A time more
    than 8 640 000 000 000 000 ms away from the epoch makes an invalid
    date, whose key is the empty string, as is that of an invalid date. *)
Theorem day_key_is_a_function_of_the_day :
  (forall t : Z,
     - maxTimeValue <= t <= maxTimeValue ->
     toDateKey (Some t)
     = let '(y, m, d) := civil_from_days (t / msPerDay) in
       if (0 <=? y) && (y <=? 9999)
       then fixed_digits 4 y +:+ "-" +:+ fixed_digits 2 m +:+ "-"
            +:+ fixed_digits 2 d
       else (if y <? 0 then "-" else "+") +:+ fixed_digits 6 (Z.abs y)
            +:+ "-" +:+ fixed_digits 2 m)
  /\ (forall t t' : Z,
        - maxTimeValue <= t <= maxTimeValue ->
        - maxTimeValue <= t' <= maxTimeValue ->
        t / msPerDay = t' / msPerDay ->
        toDateKey (Some t) = toDateKey (Some t'))
  /\ (forall d t : Z,
        four_digit_year d ->
        toDateKey (Some t) = toDateKey (Some d)
        <-> t / msPerDay = d / msPerDay)
  /\ (forall t : Z,
        - maxTimeValue <= t <= maxTimeValue ->
        String.length (toDateKey (Some t)) = 10%nat)
  /\ (forall t : Z,
        ~ (- maxTimeValue <= t <= maxTimeValue) -> toDateKey (Some t) = "")
  /\ toDateKey None = ""
  /\ toDateKey (Some 253402300800000) = "+010000-01"
  /\ toDateKey (Some (253402300800000 + msPerDay)) = "+010000-01".
Proof.
  split; [exact toDateKey_civil|].
  split; [|split; [exact same_key_same_day|split; [|split; [|split; [|split]]]]].
  - intros t t' Ht Ht' Hday.
    rewrite (toDateKey_civil t Ht), (toDateKey_civil t' Ht'), Hday.
    reflexivity.
  - intros t Ht. rewrite (toDateKey_civil t Ht).
    destruct (civil_from_days (t / msPerDay)) as [[y m] d].
    destruct ((0 <=? y) && (y <=? 9999)).
    + rewrite !string_length_app, !fixed_digits_length. reflexivity.
    + rewrite !string_length_app, !fixed_digits_length.
      destruct (y <? 0); reflexivity.
  - intros t Ht. unfold toDateKey. rewrite (new_Date_out_of_range t Ht).
    reflexivity.
  - reflexivity.
  - vm_compute. reflexivity.
  - vm_compute. reflexivity.
Qed.

Lemma day_key_is_a_function_of_the_day_witness :
  toDateKey (Some (100 * day + 9 * 3600000)) = toDateKey (Some (100 * day)).
Proof.
  apply (proj1 (proj2 day_key_is_a_function_of_the_day));
    [unfold maxTimeValue, day; lia|unfold maxTimeValue, day; lia|reflexivity].
Defined.

(** ** Permissions *)

(** The permissions of the roles are nested: what a teacher may do a
    supporteacher may, and conversely; what they may do a headteacher may,
    what a headteacher may an admin may, and a superadmin may do
    everything.  A role that is not one of the five has no permission,
    unless it is the name of a property every object inherits, for which
    the call throws.  Only an admin or a superadmin holds
    [users:manage_roles], and no teacher holds a [manage] permission. *)
Theorem permissions_are_nested :
  (forall permission,
     hasPermission "superadmin" permission = Returned true)
  /\ (forall permission,
        hasPermission "supporteacher" permission
        = hasPermission "teacher" permission)
  /\ (forall permission,
        hasPermission "teacher" permission = Returned true ->
        hasPermission "headteacher" permission = Returned true)
  /\ (forall permission,
        hasPermission "headteacher" permission = Returned true ->
        hasPermission "admin" permission = Returned true)
  /\ (forall role permission,
        ~ In role the_five_roles ->
        hasPermission role permission
        = if includes Object_prototype_properties role then Thrown
          else Returned false)
  /\ (forall role,
        hasPermission role "users:manage_roles" = Returned true
        <-> role = "admin" \/ role = "superadmin")
  /\ (forall role permission,
        In role the_five_roles ->
        exists allowed, hasPermission role permission = Returned allowed).
Proof.
  assert (forall role perms permission,
            own_property role ROLE_PERMISSIONS = Some perms ->
            hasPermission role permission
            = Returned (includes perms "*" || includes perms permission))
    as Hown.
  { intros role perms permission H. unfold hasPermission. rewrite H.
    reflexivity. }
  split; [reflexivity|]. split; [reflexivity|].
  split; [|split; [|split; [|split]]].
  - intros permission.
    rewrite (Hown "teacher" _ permission eq_refl),
      (Hown "headteacher" _ permission eq_refl).
    intros [= H]. apply includes_In in H. f_equal.
    apply orb_true_iff. right. apply includes_In.
    cbn in H |- *. intuition subst; auto 10.
  - intros permission.
    rewrite (Hown "headteacher" _ permission eq_refl),
      (Hown "admin" _ permission eq_refl).
    intros [= H]. apply includes_In in H. f_equal.
    apply orb_true_iff. right. apply includes_In.
    cbn in H |- *. intuition subst; auto 12.
  - intros role permission Hrole. unfold hasPermission, own_property.
    cbn [ROLE_PERMISSIONS find fst].
    repeat match goal with
           | |- context [String.eqb ?a role] =>
               destruct (String.eqb_spec a role) as [<-|?];
               [exfalso; apply Hrole; cbn; tauto|]
           end.
    reflexivity.
  - intros role. unfold hasPermission, own_property.
    cbn [ROLE_PERMISSIONS find fst].
    repeat match goal with
           | |- context [String.eqb ?a role] =>
               destruct (String.eqb_spec a role) as [<-|?]
           end; cbn;
      try (split; [discriminate|intros [?|?]; congruence]);
      try (split; [reflexivity|intros _; auto; tauto]).
    + split; [intros _; auto|reflexivity].
    + split; [intros _; auto|reflexivity].
    + destruct (includes Object_prototype_properties role);
        (split; [discriminate|intros [?|?]; congruence]).
  - intros role permission Hrole. cbn in Hrole.
    destruct Hrole as [<-|[<-|[<-|[<-|[<-|[]]]]]]; eexists; reflexivity.
Qed.

Lemma permissions_are_nested_witness :
  hasPermission "superadmin" "users:manage_roles" = Returned true
  /\ hasPermission "admin" "users:manage_roles" = Returned true
  /\ hasPermission "teacher" "users:read" = Returned false
  /\ hasPermission "admin" "students:manage" = Returned true
  /\ hasPermission "teacher" "students:manage" = Returned false
  /\ hasPermission "teacher" "students:read" = Returned true
  /\ hasPermission "headteacher" "students:read" = Returned true.
Proof.
  repeat (split; [reflexivity|]).
  exact (proj1 (proj2 (proj2 permissions_are_nested)) "students:read"
           eq_refl).
Defined.

(** ** The bearer token *)

Lemma all_space_app (s1 s2 : string) :
  all_space (s1 +:+ s2) = all_space s1 && all_space s2.
Proof.
  induction s1 as [|c r IH]; [reflexivity|].
  change (String c r +:+ s2) with (String c (r +:+ s2)).
  cbn [all_space]. rewrite IH, andb_assoc. reflexivity.
Qed.

Lemma trimEnd_app (s1 s2 : string) :
  all_space s2 = false -> trimEnd (s1 +:+ s2) = s1 +:+ trimEnd s2.
Proof.
  intros H. induction s1 as [|c r IH]; [reflexivity|].
  change (String c r +:+ s2) with (String c (r +:+ s2)).
  change (String c r +:+ trimEnd s2) with (String c (r +:+ trimEnd s2)).
  cbn [trimEnd].
  assert (all_space (String c (r +:+ s2)) = false) as ->.
  { cbn [all_space]. rewrite all_space_app, H, andb_false_r, andb_false_r.
    reflexivity. }
  rewrite IH. reflexivity.
Qed.

(** A text that is trimmed and not empty begins and ends with a character
    that is no space. *)
Lemma trimmed_shape (t : string) :
  trim t = t -> t <> "" ->
  trimStart t = t /\ trimEnd t = t /\ all_space t = false.
Proof.
  intros Ht Hne.
  assert (trimEnd t = t) as He.
  { rewrite <- Ht at 1. unfold trim. rewrite trimEnd_idem. exact Ht. }
  assert (all_space t = false) as Ha.
  { destruct (all_space t) eqn:E; [|reflexivity].
    rewrite (all_space_trimEnd t E) in He. congruence. }
  split; [|auto].
  pose proof (trimStart_head t) as Hh.
  destruct t as [|c r]; [contradiction|].
  assert (is_space c = false) as Hc.
  { destruct (is_space c) eqn:E; [|reflexivity]. exfalso.
    assert (String.length (trim (String c r)) <= String.length r)%nat as Hl.
    { unfold trim. cbn [trimStart]. rewrite E.
      assert (forall s, String.length (trimEnd s) <= String.length s)%nat
        as Hle.
      { clear. induction s as [|c r IH]; [cbn; lia|]. cbn [trimEnd].
        destruct (all_space (String c r)); cbn; lia. }
      assert (forall s, String.length (trimStart s) <= String.length s)%nat
        as Hls.
      { clear. induction s as [|c r IH]; [cbn; lia|]. cbn [trimStart].
        destruct (is_space c); cbn; lia. }
      specialize (Hle (trimStart r)). specialize (Hls r). lia. }
    rewrite Ht in Hl. cbn in Hl. lia. }
  cbn [trimStart]. rewrite Hc. reflexivity.
Qed.

Lemma trim_app_trimmed (s t : string) (c : ascii) :
  is_space c = false -> trimEnd t = t -> all_space t = false ->
  trim (String c s +:+ t) = String c s +:+ t.
Proof.
  intros Hc He Ha.
  unfold trim. change (String c s +:+ t) with (String c (s +:+ t)).
  cbn [trimStart]. rewrite Hc.
  change (String c (s +:+ t)) with (String c s +:+ t).
  rewrite (trimEnd_app _ _ Ha), He. reflexivity.
Qed.

Lemma strip_prefix_i_app (prefix scheme rest : string) :
  toLowerCase scheme = toLowerCase prefix ->
  strip_prefix_i prefix (scheme +:+ rest) = Some rest.
Proof.
  revert scheme. induction prefix as [|p pr IH]; intros [|c s];
    cbn [toLowerCase]; intros H; try discriminate H; [reflexivity|].
  injection H as Hc Hs.
  change (String c s +:+ rest) with (String c (s +:+ rest)).
  cbn [strip_prefix_i]. rewrite Hc, Ascii.eqb_refl. apply IH, Hs.
Qed.

Lemma strip_scheme (scheme rest : string) :
  toLowerCase scheme = "bearer" ->
  strip_prefix_i "Bearer" (scheme +:+ rest) = Some rest
  /\ exists c s, scheme = String c s /\ is_space c = false.
Proof.
  intros H. split; [apply strip_prefix_i_app, H|].
  destruct scheme as [|c s]; [discriminate H|].
  exists c, s. split; [reflexivity|].
  cbn [toLowerCase] in H. injection H as H _.
  destruct c as [[] [] [] [] [] [] [] []]; vm_compute in H |- *;
    first [reflexivity|discriminate H].
Qed.

Lemma match_Bearer_token (capture s : string) :
  match_Bearer s = Some capture ->
  capture <> ""
  /\ string_forallb (fun c => negb (is_line_terminator c)) capture = true.
Proof.
  unfold match_Bearer.
  destruct (strip_prefix_i "Bearer" s) as [after|]; [|discriminate].
  destruct (String.length _ <? String.length after)%nat; [|discriminate].
  destruct (String.eqb_spec (trimStart after) "") as [E|E].
  - destruct (last_char after) as [c|]; [|discriminate].
    destruct (_ && negb (is_line_terminator c)) eqn:Ec; [|discriminate].
    intros [= <-]. split; [discriminate|].
    apply andb_true_iff in Ec as [_ Ec]. cbn. rewrite Ec. reflexivity.
  - destruct (string_forallb _ (trimStart after)) eqn:Ed; [|discriminate].
    intros [= <-]. auto.
Qed.

Lemma trimEnd_keeps_lines (p : ascii -> bool) (s : string) :
  string_forallb p s = true -> string_forallb p (trimEnd s) = true.
Proof.
  induction s as [|c r IH]; [reflexivity|]. cbn [trimEnd string_forallb].
  intros H. apply andb_true_iff in H as [Hc Hr].
  destruct (all_space (String c r)); [reflexivity|].
  cbn. rewrite Hc, (IH Hr). reflexivity.
Qed.

Lemma trimStart_keeps_lines (p : ascii -> bool) (s : string) :
  string_forallb p s = true -> string_forallb p (trimStart s) = true.
Proof.
  induction s as [|c r IH]; [reflexivity|]. cbn [trimStart string_forallb].
  intros H. destruct (is_space c); [|exact H].
  apply andb_true_iff in H as [_ Hr]. apply IH, Hr.
Qed.

(** The token of an [Authorization] header, in characters below U+0100.
    A token that is extracted is not empty, has no white space at either
    end, the no-break space counting as white space, and no line break in
    it.  A header made of the word [bearer] in any case, a space and such
    a token yields the token, and so does one with a no-break space in
    place of the space; a header that does not begin with that word
    yields none, and so does a header that is not a string. *)
Theorem bearer_token_is_extracted :
  (forall (authHeader : option string) (token : string),
     extractBearerToken authHeader = Some token ->
     token <> "" /\ trim token = token
     /\ string_forallb (fun c => negb (is_line_terminator c)) token = true
     /\ exists header,
          authHeader = Some header
          /\ is_Some (strip_prefix_i "Bearer" (trim header)))
  /\ (forall (scheme token : string),
        toLowerCase scheme = "bearer" ->
        token <> "" -> trim token = token ->
        string_forallb (fun c => negb (is_line_terminator c)) token = true ->
        extractBearerToken (Some (scheme +:+ " " +:+ token)) = Some token)
  /\ (forall header,
        strip_prefix_i "Bearer" (trim header) = None ->
        extractBearerToken (Some header) = None)
  /\ extractBearerToken None = None
  /\ extractBearerToken (Some "Bearer") = None
  /\ extractBearerToken (Some "Token abc.def.ghi") = None
  /\ extractBearerToken
       (Some ("Bearer" +:+ String "160" ("abc" +:+ String "160" "")))
     = Some "abc".
Proof.
  split; [|split; [|split; [|repeat split; reflexivity]]].
  - intros authHeader token. unfold extractBearerToken.
    destruct authHeader as [header|]; [|discriminate].
    destruct (match_Bearer (trim header)) as [capture|] eqn:Em;
      [|discriminate].
    destruct (String.eqb_spec (trim capture) "") as [E|E]; [discriminate|].
    intros [= <-]. split; [exact E|]. split; [apply trim_idem|].
    destruct (match_Bearer_token _ _ Em) as [_ Hl]. split.
    + unfold trim. apply trimEnd_keeps_lines, trimStart_keeps_lines, Hl.
    + exists header. split; [reflexivity|]. unfold match_Bearer in Em.
      destruct (strip_prefix_i "Bearer" (trim header)); [eauto|discriminate].
  - intros scheme token Hscheme Hne Ht Hl.
    destruct (strip_scheme scheme (" " +:+ token) Hscheme)
      as (Hstrip & c & s & -> & Hc).
    destruct (trimmed_shape token Ht Hne) as (Hs & He & Ha).
    unfold extractBearerToken.
    change (" " +:+ token) with (String " " token) in *.
    assert (all_space (String " " token) = false) as Hsp.
    { cbn [all_space]. rewrite Ha. apply andb_false_r. }
    rewrite (trim_app_trimmed s (String " " token) c Hc).
    + unfold match_Bearer. rewrite Hstrip.
      cbn [trimStart]. change (is_space " ") with true. cbn iota.
      rewrite Hs. cbn [String.length].
      rewrite (proj2 (Nat.ltb_lt _ _)) by lia.
      apply String.eqb_neq in Hne. rewrite Hne, Hl, Ht, Hne. reflexivity.
    + cbn [trimEnd]. rewrite Hsp, He. reflexivity.
    + exact Hsp.
  - intros header H. unfold extractBearerToken, match_Bearer. rewrite H.
    reflexivity.
Qed.

Lemma bearer_token_is_extracted_witness :
  extractBearerToken (Some "bEaReR   abc.def.ghi  ") = Some "abc.def.ghi"
  /\ "abc.def.ghi" <> ""
  /\ exists header,
       Some "bEaReR   abc.def.ghi  " = Some header
       /\ is_Some (strip_prefix_i "Bearer" (trim header)).
Proof.
  split; [reflexivity|].
  destruct (proj1 bearer_token_is_extracted
              (Some "bEaReR   abc.def.ghi  ") "abc.def.ghi" eq_refl)
    as (H1 & _ & _ & H2).
  split; assumption.
Defined.

(** ** The guards of the routes *)

Lemma find_user_In (id : string) (users : list User) (u : User) :
  List.find (fun u => String.eqb (usr_id u) id) users = Some u ->
  In u users /\ usr_id u = id.
Proof.
  intros H. apply find_some in H as [Hin He].
  apply String.eqb_eq in He. auto.
Qed.

Lemma requireAuth_Next (env : TokenEnv) (authorization : option string)
    (users : list User) (v : option User) :
  requireAuth env authorization users = Next v ->
  exists u token id,
    v = Some u /\ In u users
    /\ extractBearerToken authorization = Some token
    /\ verifyAccessToken env token = Some id
    /\ usr_id u = toLowerCase id.
Proof.
  unfold requireAuth, User_findById.
  destruct (extractBearerToken authorization) as [token|]; [|discriminate].
  destruct (verifyAccessToken env token) as [id|] eqn:Ev; [|discriminate].
  destruct (isValidObjectId id); [|discriminate].
  destruct (List.find _ users) as [u|] eqn:Ef; [|discriminate].
  intros [= <-]. destruct (find_user_In _ _ _ Ef) as [Hin Hid].
  exists u, token, id. repeat split; auto.
Qed.

Lemma requireAuth_Answer (env : TokenEnv) (authorization : option string)
    (users : list User) (code : Z) (msg : string) :
  requireAuth env authorization users = Answer code msg -> code = 401.
Proof.
  unfold requireAuth.
  destruct (extractBearerToken authorization) as [token|];
    [|intros [= <- _]; reflexivity].
  destruct (verifyAccessToken env token) as [id|];
    [|intros [= <- _]; reflexivity].
  destruct (User_findById id users) as [[u|]|]; intros [= <- _]; reflexivity.
Qed.

Lemma hasPermission_holder (role permission : string) :
  hasPermission role permission = Returned true ->
  exists perms,
    In (role, perms) ROLE_PERMISSIONS
    /\ (In "*" perms \/ In permission perms).
Proof.
  unfold hasPermission, own_property.
  destruct (List.find _ ROLE_PERMISSIONS) as [[r perms]|] eqn:Ef.
  - apply find_some in Ef as [Hin He]. apply String.eqb_eq in He.
    cbn [fst] in He. subst r. cbn [fmap option_fmap option_map snd].
    intros [= H]. exists perms. split; [exact Hin|].
    apply orb_true_iff in H as [H|H]; apply includes_In in H; auto.
  - cbn [fmap option_fmap option_map].
    destruct (includes _ role); discriminate.
Qed.

Lemma role_holds (role permission : string) (perms : list string) :
  In (role, perms) ROLE_PERMISSIONS -> NoDup (map fst ROLE_PERMISSIONS) ->
  In "*" perms \/ In permission perms ->
  hasPermission role permission = Returned true.
Proof.
  intros Hin _ H. unfold hasPermission, own_property.
  cbn in Hin.
  destruct Hin as [E|[E|[E|[E|[E|[]]]]]]; injection E as <- <-;
    cbn [ROLE_PERMISSIONS find fst String.eqb Ascii.eqb Bool.eqb
         fmap option_fmap option_map snd];
    f_equal; apply orb_true_iff;
    (destruct H as [H|H]; [left|right]; apply includes_In; exact H).
Qed.

Lemma allowPermissions_Next (permissions : list string)
    (user v : option User) :
  allowPermissions permissions user = Next v ->
  exists u,
    user = Some u /\ v = Some u
    /\ Forall (fun p => hasPermission (usr_role u) p = Returned true)
              permissions.
Proof.
  unfold allowPermissions. destruct user as [u|]; [|discriminate].
  destruct (every_permission (usr_role u) permissions) as [[]|] eqn:E;
    try discriminate.
  intros [= <-]. exists u. split; [reflexivity|]. split; [reflexivity|].
  induction permissions as [|p rest IH]; [constructor|].
  cbn [every_permission] in E.
  destruct (hasPermission (usr_role u) p) as [[]|] eqn:Ep; try discriminate.
  constructor; auto.
Qed.

Lemma allowPermissions_held (permissions : list string) (u : User) :
  Forall (fun p => hasPermission (usr_role u) p = Returned true) permissions ->
  allowPermissions permissions (Some u) = Next (Some u).
Proof.
  intros H. unfold allowPermissions.
  assert (every_permission (usr_role u) permissions = Returned true) as ->;
    [|reflexivity].
  induction H as [|p rest Hp _ IH]; [reflexivity|].
  cbn [every_permission]. rewrite Hp. exact IH.
Qed.

Lemma allowPermissions_refused (permissions : list string) (u : User)
    (p : string) :
  In (usr_role u) the_five_roles ->
  In p permissions -> hasPermission (usr_role u) p = Returned false ->
  allowPermissions permissions (Some u)
  = Answer 403 "Forbidden: insufficient permissions".
Proof.
  intros Hrole Hin Hp. unfold allowPermissions.
  assert (every_permission (usr_role u) permissions = Returned false) as ->;
    [|reflexivity].
  induction permissions as [|q rest IH]; [destruct Hin|].
  cbn [every_permission].
  assert (exists b, hasPermission (usr_role u) q = Returned b) as [b Hq].
  { cbn in Hrole.
    destruct Hrole as [<-|[<-|[<-|[<-|[<-|[]]]]]]; eexists; reflexivity. }
  rewrite Hq. destruct b; [|reflexivity].
  destruct Hin as [->|Hin]; [congruence|]. apply IH, Hin.
Qed.

(** Who reaches a handler.  On every route of the student and group
    routers, and on the guarded routes of the auth router, the handler
    runs only for a stored user whose id the access token carries; every
    answer of the guards is 401, 403 or 500.  On the student and group
    routes the role of that user is one of the five, and one of
    headteacher, admin and superadmin unless the method is GET; the role
    handler of the auth router runs only for an admin or a superadmin. *)
Theorem handlers_run_for_permitted_users (env : TokenEnv)
    (authorization : option string) (users : list User) (r : route) :
  In r (student_routes ++ group_routes ++ auth_routes) ->
  (forall v,
     run_guards env authorization users (guards r) None = Next v ->
     exists u token id,
       v = Some u /\ In u users
       /\ extractBearerToken authorization = Some token
       /\ verifyAccessToken env token = Some id
       /\ usr_id u = toLowerCase id
       /\ (In r (student_routes ++ group_routes) ->
           In (usr_role u) the_five_roles
           /\ (method r <> "GET" ->
               In (usr_role u) ["headteacher"; "admin"; "superadmin"]))
       /\ (handler r = "listUsers" ->
           In (usr_role u) ["headteacher"; "admin"; "superadmin"])
       /\ (handler r = "updateUserRole" ->
           In (usr_role u) ["admin"; "superadmin"]))
  /\ (forall code msg,
        run_guards env authorization users (guards r) None
        = Answer code msg ->
        code = 401 \/ code = 403 \/ code = 500).
Proof.
  intros Hr.
  assert (exists ps, guards r = RequireAuth :: ps
                     /\ (ps = [] \/ exists l, ps = [AllowPermissions l]))
    as (ps & Hg & Hps).
  { cbn in Hr.
    repeat (destruct Hr as [<-|Hr];
            [eexists; split; [reflexivity|]; cbn; eauto|]).
    destruct Hr. }
  rewrite Hg. cbn [run_guards]. split.
  - intros v.
    destruct (requireAuth env authorization users) as [user|c m] eqn:Ea;
      [|discriminate].
    destruct (requireAuth_Next _ _ _ _ Ea)
      as (u & token & id & -> & Hin & Ht & Hv & Hid).
    intros Hrun.
    assert (v = Some u
            /\ forall l, ps = [AllowPermissions l] ->
                 Forall (fun p => hasPermission (usr_role u) p = Returned true)
                        l) as [-> Hheld].
    { destruct Hps as [->|[l ->]].
      - cbn in Hrun. injection Hrun as <-. split; [reflexivity|].
        intros l [=].
      - cbn [run_guards] in Hrun.
        destruct (allowPermissions l (Some u)) as [v'|] eqn:El;
          [|discriminate].
        injection Hrun as <-.
        destruct (allowPermissions_Next _ _ _ El) as (u' & [= <-] & -> & Hf).
        split; [reflexivity|]. intros l' [= <-]. exact Hf. }
    exists u, token, id. repeat (split; [assumption || reflexivity|]).
    assert (forall p l, ps = [AllowPermissions l] -> In p l ->
              exists perms, In (usr_role u, perms) ROLE_PERMISSIONS
                            /\ (In "*" perms \/ In p perms)) as Hhold.
    { intros p l Hl Hp. apply hasPermission_holder.
      exact (proj1 (List.Forall_forall _ _) (Hheld l Hl) p Hp). }
    clear Hheld Hrun Ea Hps.
    cbn in Hr.
    repeat (destruct Hr as [<-|Hr];
            [cbn [guards method handler] in *; injection Hg as <-|]);
      try destruct Hr;
      (split; [intros Hs|split; intros Hs]);
      try discriminate Hs;
      try (exfalso; cbn in Hs; clear - Hs;
           repeat (destruct Hs as [Hs|Hs]; [discriminate Hs|]);
           exact Hs);
      try (edestruct (Hhold _ _ eq_refl (or_introl eq_refl))
             as (perms & Hin' & Hp');
           clear - Hin' Hp'; cbn in Hin';
           repeat (destruct Hin' as [Hin'|Hin'];
                   [injection Hin' as <- <-|]);
           try destruct Hin';
           cbn in Hp' |- *;
           try (split; [tauto|]);
           first [ tauto
                 | intros _; tauto
                 | intros Hm; exfalso; apply Hm; reflexivity
                 | exfalso; clear - Hp'; intuition discriminate ]).
  - intros code msg.
    destruct (requireAuth env authorization users) as [user|c m] eqn:Ea.
    + destruct Hps as [->|[l ->]]; [discriminate|].
      cbn [run_guards]. unfold allowPermissions.
      destruct user as [u|]; [|intros [= <- _]; auto].
      destruct (every_permission (usr_role u) l) as [[]|];
        [discriminate|intros [= <- _]; auto|intros [= <- _]; auto].
    + intros [= <- <-]. left. exact (requireAuth_Answer _ _ _ _ _ Ea).
Qed.

Lemma handlers_run_for_permitted_users_witness :
  let r := {| method := "DELETE"; path := "/:studentId";
              guards := [RequireAuth; AllowPermissions ["students:manage"]];
              handler := "deleteStudent" |} in
  In r (student_routes ++ group_routes ++ auth_routes)
  /\ run_guards smoke_env (Some "Bearer admin.jwt") smoke_users (guards r)
       None
     = Next (Some (sample_user "507f1f77bcf86cd799439013" "admin"))
  /\ run_guards smoke_env (Some "Bearer teacher.jwt") smoke_users (guards r)
       None
     = Answer 403 "Forbidden: insufficient permissions"
  /\ exists u token id,
       Some (sample_user "507f1f77bcf86cd799439013" "admin") = Some u
       /\ In u smoke_users
       /\ extractBearerToken (Some "Bearer admin.jwt") = Some token
       /\ verifyAccessToken smoke_env token = Some id
       /\ usr_id u = toLowerCase id
       /\ (In r (student_routes ++ group_routes) ->
           In (usr_role u) the_five_roles
           /\ (method r <> "GET" ->
               In (usr_role u) ["headteacher"; "admin"; "superadmin"]))
       /\ (handler r = "listUsers" ->
           In (usr_role u) ["headteacher"; "admin"; "superadmin"])
       /\ (handler r = "updateUserRole" ->
           In (usr_role u) ["admin"; "superadmin"]).
Proof.
  intros r.
  assert (In r (student_routes ++ group_routes ++ auth_routes)) as Hr.
  { cbn. tauto. }
  split; [exact Hr|]. split; [reflexivity|]. split; [reflexivity|].
  exact (proj1 (handlers_run_for_permitted_users smoke_env
                  (Some "Bearer admin.jwt") smoke_users r Hr) _ eq_refl).
Defined.

(** What a role reaches.  Behind [requireAuth], a headteacher, an admin
    and a superadmin pass the guards of every student and group route; a
    teacher and a supporteacher pass those of the GET routes and are
    answered 403 on every other one. *)
Theorem teachers_read_and_managers_write (env : TokenEnv)
    (authorization : option string) (users : list User) (r : route)
    (u : User) :
  In r (student_routes ++ group_routes) ->
  requireAuth env authorization users = Next (Some u) ->
  (In (usr_role u) ["headteacher"; "admin"; "superadmin"] ->
   run_guards env authorization users (guards r) None = Next (Some u))
  /\ (In (usr_role u) ["teacher"; "supporteacher"] ->
      run_guards env authorization users (guards r) None
      = if String.eqb (method r) "GET" then Next (Some u)
        else Answer 403 "Forbidden: insufficient permissions").
Proof.
  intros Hr Ea. cbn in Hr.
  split; intros Hrole; cbn in Hrole;
    repeat (destruct Hr as [<-|Hr];
            [cbn [guards method run_guards]; rewrite Ea;
             unfold allowPermissions;
             repeat (destruct Hrole as [<-|Hrole]; [reflexivity|]);
             destruct Hrole|]);
    destruct Hr.
Qed.

Lemma teachers_read_and_managers_write_witness :
  let r := {| method := "POST"; path := "/:groupId/attendance";
              guards := [RequireAuth; AllowPermissions ["groups:manage"]];
              handler := "upsertGroupAttendance" |} in
  let teacher := sample_user "507f1f77bcf86cd799439012" "teacher" in
  In r (student_routes ++ group_routes)
  /\ requireAuth smoke_env (Some "Bearer teacher.jwt") smoke_users
     = Next (Some teacher)
  /\ In (usr_role teacher) ["teacher"; "supporteacher"]
  /\ run_guards smoke_env (Some "Bearer teacher.jwt") smoke_users (guards r)
       None
     = Answer 403 "Forbidden: insufficient permissions".
Proof.
  intros r teacher.
  assert (In r (student_routes ++ group_routes)) as Hr by (cbn; tauto).
  assert (In (usr_role teacher) ["teacher"; "supporteacher"]) as Hrole
    by (cbn; tauto).
  split; [exact Hr|]. split; [reflexivity|]. split; [exact Hrole|].
  exact (proj2 (teachers_read_and_managers_write smoke_env
                  (Some "Bearer teacher.jwt") smoke_users r teacher Hr
                  eq_refl) Hrole).
Defined.

(** ** Registration *)

Lemma removed_file_is_gone (path : string) (files : list string) :
  path <> "" -> ~ In path (removeUploadedFileIfAny (Some path) files).
Proof.
  intros Hne Hin. unfold removeUploadedFileIfAny in Hin.
  destruct path as [|c p]; [contradiction|].
  apply filter_In in Hin as [_ H]. rewrite String.eqb_refl in H.
  discriminate H.
Qed.

Lemma canCreateRoleViaRegister_spec (actorRole targetRole : string) :
  canCreateRoleViaRegister actorRole targetRole = true
  <-> actorRole = "superadmin"
      /\ In targetRole ["teacher"; "supporteacher"; "headteacher"; "admin"].
Proof.
  unfold canCreateRoleViaRegister.
  destruct (String.eqb_spec targetRole "superadmin") as [->|Hne].
  - split; [discriminate|]. intros [_ H]. cbn in H.
    repeat (destruct H as [H|H]; [discriminate H|]). destruct H.
  - rewrite andb_true_iff, String.eqb_eq, includes_In. reflexivity.
Qed.

(** Registration of an employee goes on only for a stored superadmin,
    identified by the access token, and for a requested role, trimmed and
    in lower case and [teacher] when none is given, that is one of
    teacher, supporteacher, headteacher and admin: never for a
    superadmin to be.  The files are then as they were.  Every other
    request is answered 401 or 403, and the avatar it uploaded is
    removed. *)
Theorem register_needs_a_superadmin (env : TokenEnv) (req : RegisterRequest)
    (users : list User) (files : list string) :
  let requestedRole :=
    toLowerCase (trim (match rq_role req with
                       | None | Some "" => "teacher"
                       | Some r => r
                       end)) in
  let out := requireRegisterPermission env req users files in
  (forall v,
     out.1 = Next v ->
     exists u token id,
       v = Some u /\ In u users
       /\ extractBearerToken (rq_authorization req) = Some token
       /\ verifyAccessToken env token = Some id
       /\ usr_id u = toLowerCase id
       /\ usr_role u = "superadmin"
       /\ In requestedRole ["teacher"; "supporteacher"; "headteacher"; "admin"]
       /\ out.2 = files)
  /\ (forall code msg,
        out.1 = Answer code msg ->
        (code = 401 \/ code = 403)
        /\ out.2 = removeUploadedFileIfAny (rq_file req) files
        /\ forall path,
             rq_file req = Some path -> path <> "" -> ~ In path out.2).
Proof.
  intros requestedRole out. subst out. unfold requireRegisterPermission.
  fold requestedRole. unfold User_findById.
  assert (forall path, rq_file req = Some path -> path <> "" ->
            ~ In path (removeUploadedFileIfAny (rq_file req) files)) as Hgone.
  { intros path -> Hne. apply removed_file_is_gone, Hne. }
  destruct (extractBearerToken (rq_authorization req)) as [token|] eqn:Et;
    [|split; [discriminate|intros code msg [= <- _]; cbn [snd]; auto]].
  destruct (verifyAccessToken env token) as [id|] eqn:Ev;
    [|split; [discriminate|intros code msg [= <- _]; cbn [snd]; auto]].
  destruct (isValidObjectId id);
    [|split; [discriminate|intros code msg [= <- _]; cbn [snd]; auto]].
  destruct (List.find _ users) as [u|] eqn:Ef;
    [|split; [discriminate|intros code msg [= <- _]; cbn [snd]; auto]].
  destruct (find_user_In _ _ _ Ef) as [Hin Hid].
  destruct (canCreateRoleViaRegister (usr_role u) requestedRole) eqn:Ec.
  - split; [|discriminate]. intros v [= <-].
    apply canCreateRoleViaRegister_spec in Ec as [Hrole Htarget].
    exists u, token, id. cbn [snd]. repeat split; auto.
  - split; [discriminate|]. intros code msg [= <- _]. cbn [snd]. auto.
Qed.

Lemma register_needs_a_superadmin_witness :
  let req := {| rq_role := Some " HeadTeacher ";
                rq_authorization := Some "Bearer superadmin.jwt";
                rq_file := Some "uploads/avatar-1.png" |} in
  let files := ["uploads/avatar-1.png"; "uploads/default-avatar.png"] in
  (requireRegisterPermission smoke_env req smoke_users files).1
  = Next (Some (sample_user "507f1f77bcf86cd799439011" "superadmin"))
  /\ (requireRegisterPermission smoke_env req smoke_users files).2 = files
  /\ In (toLowerCase (trim " HeadTeacher "))
        ["teacher"; "supporteacher"; "headteacher"; "admin"].
Proof.
  intros req files. split; [reflexivity|].
  destruct (proj1 (register_needs_a_superadmin smoke_env req smoke_users
                     files) _ eq_refl)
    as (u & token & id & _ & _ & _ & _ & _ & _ & Hrole & Hfiles).
  split; [exact Hfiles|exact Hrole].
Defined.

(** ** Sessions *)

Lemma find_user_saved (k : string) (doc : User) (change : User -> User)
    (users : list User) :
  (forall u, usr_id (change u) = usr_id u) ->
  List.find (fun u => String.eqb (usr_id u) k) (User_save doc change users)
  = (fun old => if String.eqb (usr_id old) (usr_id doc) then change old else old)
    <$> List.find (fun u => String.eqb (usr_id u) k) users.
Proof.
  intros Hid. unfold User_save.
  induction users as [|x l IH]; [reflexivity|]. cbn [map List.find].
  assert (usr_id (if String.eqb (usr_id x) (usr_id doc) then change x else x)
          = usr_id x) as ->.
  { destruct (String.eqb (usr_id x) (usr_id doc)); [apply Hid|reflexivity]. }
  destruct (String.eqb (usr_id x) k); [reflexivity|exact IH].
Qed.

Lemma findById_saved (id : string) (doc user : User) (change : User -> User)
    (users : list User) :
  (forall u, usr_id (change u) = usr_id u) ->
  User_findById id users = Returned (Some user) ->
  usr_id user = usr_id doc ->
  User_findById id (User_save doc change users)
  = Returned (Some (change user)).
Proof.
  intros Hid. unfold User_findById.
  destruct (isValidObjectId id); [|discriminate].
  intros [= Hf] He. rewrite (find_user_saved _ _ _ _ Hid), Hf.
  cbn [fmap option_fmap option_map]. rewrite He, String.eqb_refl.
  reflexivity.
Qed.

Lemma findById_In (id : string) (users : list User) (u : User) :
  User_findById id users = Returned (Some u) ->
  In u users /\ usr_id u = toLowerCase id /\ isValidObjectId id = true.
Proof.
  unfold User_findById. destruct (isValidObjectId id); [|discriminate].
  intros [= Hf]. apply find_some in Hf as [Hin He].
  apply String.eqb_eq in He. auto.
Qed.

(** A refresh asked with another text than the one its user stores. *)
Lemma refreshToken_mismatch (env : TokenEnv) (body : option string)
    (users : list User) (u : User) :
  (forall id, verifyRefreshToken env (trim (or_empty body)) = Some id ->
              User_findById id users = Thrown
              \/ User_findById id users = Returned (Some u)) ->
  usr_refreshToken u <> Some (trim (or_empty body)) ->
  (trim (or_empty body) <> "" ->
   res_status (refreshToken env body users).1 = 401)
  /\ res_status (refreshToken env body users).1 <> 200
  /\ (refreshToken env body users).2 = users.
Proof.
  intros Hfind Hne. unfold refreshToken.
  destruct (String.eqb_spec (trim (or_empty body)) "") as [E0|E0];
    [cbn; repeat split; [contradiction|discriminate]|].
  destruct (verifyRefreshToken env _) as [id|] eqn:Ev;
    [|cbn; repeat split; discriminate].
  destruct (Hfind id eq_refl) as [-> | ->];
    [cbn; repeat split; discriminate|].
  destruct (usr_refreshToken u) as [[|c stored]|];
    [cbn; repeat split; discriminate|
    |cbn; repeat split; discriminate].
  destruct (String.eqb_spec (String c stored) (trim (or_empty body)))
    as [E|E]; [congruence|cbn; repeat split; discriminate].
Qed.

(** What the second of two requests finds under the id of the first. *)
Lemma findById_after_save (id id' : string) (u : User)
    (change : User -> User) (users : list User) :
  (forall u, usr_id (change u) = usr_id u) ->
  User_findById id users = Returned (Some u) ->
  toLowerCase id' = usr_id u ->
  User_findById id' (User_save u change users) = Thrown
  \/ User_findById id' (User_save u change users)
     = Returned (Some (change u)).
Proof.
  intros Hid Ef Hsame.
  destruct (findById_In _ _ _ Ef) as (_ & Hu & Hvalid).
  unfold User_findById in Ef |- *. rewrite Hvalid in Ef.
  injection Ef as Ef. rewrite <- Hu in Ef.
  destruct (isValidObjectId id'); [right|left; reflexivity].
  rewrite (find_user_saved _ _ _ _ Hid), Hsame, Ef.
  cbn [fmap option_fmap option_map]. rewrite String.eqb_refl. reflexivity.
Qed.

(** A refresh token is good for one use.  A refresh that is not answered
    200 leaves the users as they are.  One that is answered 200 was asked
    with the token the user of its id stores; it returns tokens made for
    that user and stores the new refresh token in the place of the old
    one, so that, unless the two are the same text, a second refresh
    with the old one is answered 401 and changes nothing. *)
Theorem refresh_token_is_good_once (env env' : TokenEnv)
    (body : option string) (users : list User) :
  let token := trim (or_empty body) in
  let out := refreshToken env body users in
  (res_status out.1 <> 200 -> out.2 = users)
  /\ (res_status out.1 = 200 ->
      exists u id a r,
        token <> ""
        /\ verifyRefreshToken env token = Some id
        /\ User_findById id users = Returned (Some u)
        /\ usr_refreshToken u = Some token
        /\ generateAccessToken env (usr_id u) (usr_role u) = Some a
        /\ generateRefreshToken env (usr_id u) = Some r
        /\ res_accessToken out.1 = Some a
        /\ res_refreshToken out.1 = Some r
        /\ out.2 = User_save u (with_refreshToken (Some r)) users
        /\ (r <> token ->
            (forall id', verifyRefreshToken env' token = Some id' ->
                         toLowerCase id' = usr_id u) ->
            res_status (refreshToken env' body out.2).1 = 401
            /\ (refreshToken env' body out.2).2 = out.2)).
Proof.
  intros token out.
  assert (refreshToken env body users = out) as Hout by reflexivity.
  clearbody out. unfold refreshToken in Hout. fold token in Hout.
  destruct (String.eqb_spec token "") as [E0|E0];
    [subst out; split; [reflexivity|discriminate]|].
  destruct (verifyRefreshToken env token) as [id|] eqn:Ev;
    [|subst out; split; [reflexivity|discriminate]].
  destruct (User_findById id users) as [[u|]|] eqn:Ef;
    [|subst out; split; [reflexivity|discriminate]..].
  destruct (usr_refreshToken u) as [[|c stored]|] eqn:Es;
    [subst out; split; [reflexivity|discriminate]|
    |subst out; split; [reflexivity|discriminate]].
  destruct (String.eqb_spec (String c stored) token) as [E|E];
    [|subst out; split; [reflexivity|discriminate]].
  cbn [negb] in Hout.
  destruct (generateAccessToken env (usr_id u) (usr_role u)) as [a|] eqn:Ea;
    [|subst out; split; [reflexivity|discriminate]].
  destruct (generateRefreshToken env (usr_id u)) as [r|] eqn:Er;
    [|subst out; split; [reflexivity|discriminate]].
  subst out. cbn [fst snd res_status res_accessToken res_refreshToken].
  split; [intros H; contradiction H; reflexivity|]. intros _.
  rewrite E in Es. exists u, id, a, r.
  repeat (split; [assumption || reflexivity|]).
  intros Hr Hsame.
  destruct (refreshToken_mismatch env' body
              (User_save u (with_refreshToken (Some r)) users)
              (with_refreshToken (Some r) u)) as (Hs & _ & Hw).
  - fold token. intros id' Hv.
    apply (findById_after_save id); [reflexivity|exact Ef|].
    apply Hsame, Hv.
  - fold token. cbn [with_refreshToken usr_refreshToken]. congruence.
  - split; [apply Hs; exact E0|exact Hw].
Qed.

Lemma refresh_token_is_good_once_witness :
  let users :=
    map (fun u => with_refreshToken (Some (usr_id u +:+ ".refresh")) u)
        smoke_users in
  let body := Some " 507f1f77bcf86cd799439012.refresh " in
  let out := refreshToken later_env body users in
  res_status out.1 = 200
  /\ res_refreshToken out.1 = Some "507f1f77bcf86cd799439012.refresh2"
  /\ res_status (refreshToken later_env body out.2).1 = 401
  /\ (refreshToken later_env body out.2).2 = out.2.
Proof.
  intros users body out.
  assert (res_status out.1 = 200) as H200 by (vm_compute; reflexivity).
  split; [exact H200|]. split; [vm_compute; reflexivity|].
  destruct (proj2 (refresh_token_is_good_once later_env later_env body users)
              H200)
    as (u & id & a & r & _ & Hv & Hf & _ & _ & _ & _ & Hr & _ & Hnext).
  assert (r = "507f1f77bcf86cd799439012.refresh2") as ->.
  { vm_compute in Hr. congruence. }
  assert (id = "507f1f77bcf86cd799439012") as ->.
  { vm_compute in Hv. congruence. }
  assert (usr_id u = "507f1f77bcf86cd799439012") as Hid.
  { vm_compute in Hf. injection Hf as <-. reflexivity. }
  apply Hnext.
  - vm_compute. discriminate.
  - intros id' H. vm_compute in H. injection H as <-. rewrite Hid.
    reflexivity.
Defined.

(** Logging out ends the session, not the access.  The handler clears
    the refresh token of the user the guard read and of no other, so that
    no refresh that names this user is answered 200 afterwards, whatever
    token it brings; the access token that was presented keeps passing
    the guard. *)
Theorem logout_ends_the_session (env : TokenEnv)
    (authorization : option string) (users : list User) (u : User) :
  requireAuth env authorization users = Next (Some u) ->
  let out := logout (Some u) users in
  res_status out.1 = 200
  /\ out.2 = User_save u (with_refreshToken None) users
  /\ (forall u', In u' out.2 ->
        (usr_id u' = usr_id u -> usr_refreshToken u' = None)
        /\ (usr_id u' <> usr_id u -> In u' users))
  /\ (forall env' body,
        (forall id', verifyRefreshToken env' (trim (or_empty body)) = Some id'
                     -> toLowerCase id' = usr_id u) ->
        res_status (refreshToken env' body out.2).1 <> 200
        /\ (refreshToken env' body out.2).2 = out.2)
  /\ requireAuth env authorization out.2
     = Next (Some (with_refreshToken None u)).
Proof.
  intros Ha out. subst out. cbn [logout fst snd answer res_status].
  split; [reflexivity|]. split; [reflexivity|].
  assert (exists token id,
            extractBearerToken authorization = Some token
            /\ verifyAccessToken env token = Some id
            /\ User_findById id users = Returned (Some u))
    as (token & id & Ht & Hv & Hf).
  { unfold requireAuth in Ha.
    destruct (extractBearerToken authorization) as [token|] eqn:Et;
      [|discriminate].
    destruct (verifyAccessToken env token) as [id|] eqn:Ev; [|discriminate].
    destruct (User_findById id users) as [[u0|]|] eqn:Ef; try discriminate.
    injection Ha as <-. exists token, id. auto. }
  split; [|split].
  - intros u' Hin. unfold User_save in Hin.
    apply in_map_iff in Hin as (old & <- & Hold).
    destruct (String.eqb_spec (usr_id old) (usr_id u)) as [E|E]; split.
    + reflexivity.
    + cbn [with_refreshToken usr_id]. congruence.
    + congruence.
    + intros _. exact Hold.
  - intros env' body Hsame.
    destruct (refreshToken_mismatch env' body
                (User_save u (with_refreshToken None) users)
                (with_refreshToken None u)) as (_ & Hs & Hw); [| |auto].
    + intros id' H'.
      apply (findById_after_save id); [reflexivity|exact Hf|].
      apply Hsame, H'.
    + discriminate.
  - unfold requireAuth. rewrite Ht, Hv.
    rewrite (findById_saved id u u (with_refreshToken None) users
               (fun _ => eq_refl) Hf eq_refl).
    reflexivity.
Qed.

Lemma logout_ends_the_session_witness :
  let users :=
    map (fun u => with_refreshToken (Some (usr_id u +:+ ".refresh")) u)
        smoke_users in
  let teacher :=
    with_refreshToken (Some "507f1f77bcf86cd799439012.refresh")
      (sample_user "507f1f77bcf86cd799439012" "teacher") in
  let authorization := Some "Bearer 507f1f77bcf86cd799439012.access" in
  let body := Some "507f1f77bcf86cd799439012.refresh" in
  requireAuth session_env authorization users = Next (Some teacher)
  /\ res_status (refreshToken session_env body users).1 = 200
  /\ res_status (refreshToken session_env body (logout (Some teacher) users).2).1
     <> 200
  /\ requireAuth session_env authorization (logout (Some teacher) users).2
     = Next (Some (with_refreshToken None teacher)).
Proof.
  intros users teacher authorization body.
  assert (requireAuth session_env authorization users = Next (Some teacher))
    as Ha by (vm_compute; reflexivity).
  split; [exact Ha|]. split; [vm_compute; reflexivity|].
  destruct (logout_ends_the_session session_env authorization users teacher
              Ha) as (_ & _ & _ & Hrefresh & Hauth).
  split; [|exact Hauth].
  apply (Hrefresh session_env body).
  intros id' H. vm_compute in H. injection H as <-. reflexivity.
Defined.

Lemma sanitizeUser_hides (u : User) :
  sanitizeUser u !! "password" = None
  /\ sanitizeUser u !! "refreshToken" = None
  /\ sanitizeUser u !! "_id" = Some (JSString (usr_id u))
  /\ sanitizeUser u !! "role" = Some (JSString (usr_role u)).
Proof.
  unfold sanitizeUser, User_toObject, User_hideSensitiveFields.
  split; [|split; [|split]].
  - rewrite lookup_delete_ne by discriminate. apply lookup_delete_eq.
  - apply lookup_delete_eq.
  - rewrite !lookup_delete_ne by discriminate.
    unfold user_plain_object, optional.
    destruct (usr_refreshToken u), (usr_company u), (usr_location u); cbn;
      repeat (rewrite lookup_insert_ne by discriminate);
      apply lookup_insert_eq.
  - rewrite !lookup_delete_ne by discriminate.
    unfold user_plain_object, optional.
    destruct (usr_refreshToken u), (usr_company u), (usr_location u); cbn;
      repeat (rewrite lookup_insert_ne by discriminate);
      apply lookup_insert_eq.
Qed.

Lemma find_unique_id (users : list User) (u : User) :
  NoDup (map usr_id users) -> In u users ->
  List.find (fun x => String.eqb (usr_id x) (usr_id u)) users = Some u.
Proof.
  induction users as [|x l IH]; intros Hnd Hin; [destruct Hin|].
  cbn [map] in Hnd. apply NoDup_cons in Hnd as [Hx Hnd]. cbn [List.find].
  destruct Hin as [->|Hin]; [rewrite String.eqb_refl; reflexivity|].
  destruct (String.eqb_spec (usr_id x) (usr_id u)) as [E|E]; [|auto].
  exfalso. apply Hx. rewrite E. apply list_elem_of_In, in_map, Hin.
Qed.

(** Logging in opens a session.  A login that is not answered 200 leaves
    the users as they are and returns no token.  One that is answered
    200 found the user of the trimmed phone with a password that
    compares; it returns tokens made for that user, stores the refresh
    token on the document, and renders the user without [password] and
    [refreshToken].  A refresh with the token it returned is then served
    for the same user, as long as the token verifies. *)
Theorem login_opens_a_session (compare : string -> string -> bool)
    (env : TokenEnv) (body_phone body_password : option string)
    (users : list User) :
  let out := login compare env body_phone body_password users in
  (res_status out.1 <> 200 ->
   out.2 = users /\ res_accessToken out.1 = None
   /\ res_refreshToken out.1 = None /\ res_user out.1 = None)
  /\ (res_status out.1 = 200 ->
      exists u a r rendered,
        In u users
        /\ usr_phone u = trim (or_empty body_phone)
        /\ compare (or_empty body_password) (usr_password u) = true
        /\ generateAccessToken env (usr_id u) (usr_role u) = Some a
        /\ generateRefreshToken env (usr_id u) = Some r
        /\ res_accessToken out.1 = Some a
        /\ res_refreshToken out.1 = Some r
        /\ out.2 = User_save u (with_refreshToken (Some r)) users
        /\ res_user out.1 = Some rendered
        /\ rendered !! "password" = None
        /\ rendered !! "refreshToken" = None
        /\ rendered !! "_id" = Some (JSString (usr_id u))
        /\ forall env' a' r',
             NoDup (map usr_id users) ->
             isValidObjectId (usr_id u) = true ->
             toLowerCase (usr_id u) = usr_id u ->
             trim r = r -> r <> "" ->
             verifyRefreshToken env' r = Some (usr_id u) ->
             generateAccessToken env' (usr_id u) (usr_role u) = Some a' ->
             generateRefreshToken env' (usr_id u) = Some r' ->
             let again := refreshToken env' (Some r) out.2 in
             res_status again.1 = 200
             /\ res_accessToken again.1 = Some a'
             /\ res_refreshToken again.1 = Some r'
             /\ again.2 = User_save u (with_refreshToken (Some r')) users).
Proof.
  intros out.
  assert (login compare env body_phone body_password users = out) as Hout
    by reflexivity.
  clearbody out. unfold login in Hout.
  destruct (_ || _);
    [subst out; split; [intros _; repeat split|discriminate]|].
  destruct (List.find _ users) as [u|] eqn:Ef;
    [|subst out; split; [intros _; repeat split|discriminate]].
  destruct (compare (or_empty body_password) (usr_password u)) eqn:Ec;
    [|subst out; split; [intros _; repeat split|discriminate]].
  cbn [negb] in Hout.
  destruct (generateAccessToken env (usr_id u) (usr_role u)) as [a|] eqn:Ea;
    [|subst out; split; [intros _; repeat split|discriminate]].
  destruct (generateRefreshToken env (usr_id u)) as [r|] eqn:Er;
    [|subst out; split; [intros _; repeat split|discriminate]].
  subst out. cbn [fst snd res_status res_accessToken res_refreshToken res_user].
  split; [intros H; contradiction H; reflexivity|]. intros _.
  apply find_some in Ef as [Hin Hphone]. apply String.eqb_eq in Hphone.
  destruct (sanitizeUser_hides (with_refreshToken (Some r) u))
    as (Hp & Hr & Hi & _).
  cbn [with_refreshToken usr_id] in Hi.
  exists u, a, r, (sanitizeUser (with_refreshToken (Some r) u)).
  repeat (split; [assumption || reflexivity|]).
  intros env' a' r' Hnd Hvalid Hlow Htrim Hne Hv Ha' Hr'.
  unfold refreshToken. cbn [or_empty]. rewrite Htrim.
  apply String.eqb_neq in Hne. rewrite Hne, Hv.
  assert (User_findById (usr_id u) users = Returned (Some u)) as Hfind.
  { unfold User_findById. rewrite Hvalid, Hlow.
    rewrite (find_unique_id _ _ Hnd Hin). reflexivity. }
  rewrite (findById_saved (usr_id u) u u (with_refreshToken (Some r)) users
             (fun _ => eq_refl) Hfind eq_refl).
  cbn [with_refreshToken usr_refreshToken usr_id usr_role].
  destruct r as [|c r0]; [discriminate Hne|].
  rewrite String.eqb_refl. cbn [negb]. rewrite Ha', Hr'.
  cbn [fst snd res_status res_accessToken res_refreshToken].
  repeat split.
  unfold User_save. rewrite map_map. apply map_ext. intros x.
  destruct (String.eqb_spec (usr_id x) (usr_id u)) as [E|E];
    cbn [with_refreshToken usr_id].
  - rewrite E, String.eqb_refl. reflexivity.
  - apply String.eqb_neq in E. rewrite E. reflexivity.
Qed.

Lemma login_opens_a_session_witness :
  let out := login sample_compare session_env (Some " +998901234567 ")
               (Some "correct horse") smoke_users in
  let r := "507f1f77bcf86cd799439011.refresh" in
  res_status out.1 = 200
  /\ res_refreshToken out.1 = Some r
  /\ res_status (refreshToken later_env (Some r) out.2).1 = 200
  /\ res_refreshToken (refreshToken later_env (Some r) out.2).1
     = Some "507f1f77bcf86cd799439011.refresh2".
Proof.
  intros out r.
  assert (res_status out.1 = 200) as H200 by (vm_compute; reflexivity).
  split; [exact H200|]. split; [vm_compute; reflexivity|].
  destruct (proj2 (login_opens_a_session sample_compare session_env
                     (Some " +998901234567 ") (Some "correct horse")
                     smoke_users) H200)
    as (u & a0 & r0 & rendered & Hin & _ & _ & _ & Hgen & _ & Hr & _ & _ & _
        & _ & _ & Hnext).
  assert (r0 = r) as ->
    by (vm_compute in Hr; injection Hr as <-; reflexivity).
  assert (u = sample_user "507f1f77bcf86cd799439011" "superadmin") as ->.
  { cbn in Hin. destruct Hin as [<-|[<-|[<-|[]]]];
      [reflexivity|vm_compute in Hgen; discriminate Hgen..]. }
  assert (NoDup (map usr_id smoke_users)) as Hnd.
  { unfold smoke_users. cbn [map sample_user usr_id].
    repeat (apply NoDup_cons; split;
            [intros H; apply list_elem_of_In in H; cbn in H;
             repeat (destruct H as [H|H]; [discriminate H|]); exact H|]).
    apply NoDup_nil. exact I. }
  destruct (Hnext later_env "507f1f77bcf86cd799439011.access"
              "507f1f77bcf86cd799439011.refresh2" Hnd)
    as (Hs & _ & Hr' & _);
    try (vm_compute; reflexivity).
  - discriminate.
  - split; assumption.
Defined.

(** ** Roles *)

(** Changing a role respects rank.  A request that is not answered 200
    leaves the users as they are.  One that is answered 200 comes from
    an admin or a superadmin, sets one of the five roles on the user of
    the id and changes nothing else; an admin gives only teacher,
    supporteacher or headteacher, and never to an admin or a superadmin;
    superadmin is given only to a user who is superadmin already, and a
    request that names its own user by the id as it is stored gives no
    other role.  So no request makes a superadmin. *)
Theorem role_changes_respect_rank (validate : User -> list string)
    (actor : User) (userId : string) (body_role : option string)
    (users : list User) :
  let role := toLowerCase (trim (or_empty body_role)) in
  let out := updateUserRole validate (Some actor) userId body_role users in
  (res_status out.1 <> 200 -> out.2 = users)
  /\ (res_status out.1 = 200 ->
      exists target,
        User_findById userId users = Returned (Some target)
        /\ out.2 = User_save target (with_role role) users
        /\ validate (with_role role target) = []
        /\ In role the_five_roles
        /\ In (usr_role actor) ["admin"; "superadmin"]
        /\ (usr_role actor = "admin" ->
            In role ADMIN_MANAGEABLE_ROLES
            /\ ~ In (usr_role target) ["admin"; "superadmin"])
        /\ (role = "superadmin" -> usr_role target = "superadmin")
        /\ (usr_id actor = userId -> role = "superadmin"))
  /\ (forall u',
        In u' out.2 -> usr_role u' = "superadmin" ->
        exists u, In u users /\ usr_id u = usr_id u'
                  /\ usr_role u = "superadmin").
Proof.
  intros role out.
  assert ((res_status out.1 <> 200 -> out.2 = users)
          /\ (res_status out.1 = 200 ->
              exists target,
                User_findById userId users = Returned (Some target)
                /\ out.2 = User_save target (with_role role) users
                /\ validate (with_role role target) = []
                /\ In role the_five_roles
                /\ In (usr_role actor) ["admin"; "superadmin"]
                /\ (usr_role actor = "admin" ->
                    In role ADMIN_MANAGEABLE_ROLES
                    /\ ~ In (usr_role target) ["admin"; "superadmin"])
                /\ (role = "superadmin" -> usr_role target = "superadmin")
                /\ (usr_id actor = userId -> role = "superadmin")))
    as [Hfail Hok].
  { assert (updateUserRole validate (Some actor) userId body_role users = out)
      as Hout by reflexivity.
    clearbody out. unfold updateUserRole in Hout. fold role in Hout.
    destruct (includes the_five_roles role) eqn:Erole;
      [|subst out; split; [reflexivity|discriminate]].
    cbn [negb] in Hout.
    destruct (includes ["admin"; "superadmin"] (usr_role actor)) eqn:Eactor;
      [|subst out; split; [reflexivity|discriminate]].
    cbn [negb] in Hout.
    destruct (String.eqb (usr_id actor) userId
              && negb (String.eqb role "superadmin")) eqn:Eself;
      [subst out; split; [reflexivity|discriminate]|].
    destruct (User_findById userId users) as [[target|]|] eqn:Ef;
      [|subst out; split; [reflexivity|discriminate]..].
    destruct (String.eqb (usr_role actor) "admin"
              && negb (includes ADMIN_MANAGEABLE_ROLES role)) eqn:E1;
      [subst out; split; [reflexivity|discriminate]|].
    destruct (String.eqb (usr_role actor) "admin"
              && includes ["admin"; "superadmin"] (usr_role target)) eqn:E2;
      [subst out; split; [reflexivity|discriminate]|].
    destruct (String.eqb (usr_role actor) "superadmin"
              && String.eqb role "superadmin"
              && negb (String.eqb (usr_role target) "superadmin")) eqn:E3;
      [subst out; split; [reflexivity|discriminate]|].
    destruct (validate (with_role role target)) as [|msg rest] eqn:Ev;
      [|subst out; split; [reflexivity|discriminate]].
    subst out. cbn [fst snd res_status].
    split; [intros H; contradiction H; reflexivity|]. intros _.
    apply includes_In in Erole, Eactor.
    exists target. repeat (split; [assumption || reflexivity|]).
    split; [|split].
    - intros Hadmin. rewrite Hadmin, String.eqb_refl in E1, E2.
      cbn [andb] in E1, E2. apply negb_false_iff in E1.
      apply includes_In in E1. split; [exact E1|].
      intros Hin. apply includes_In in Hin. congruence.
    - intros Hsuper. rewrite Hsuper in E3, E1.
      cbn in Eactor. destruct Eactor as [Ha|[Ha|[]]].
      + rewrite <- Ha in E1. exfalso. vm_compute in E1. discriminate E1.
      + rewrite <- Ha, !String.eqb_refl in E3. cbn [andb] in E3.
        apply negb_false_iff, String.eqb_eq in E3. exact E3.
    - intros Hself. rewrite Hself, String.eqb_refl in Eself.
      cbn [andb] in Eself. apply negb_false_iff, String.eqb_eq in Eself.
      exact Eself. }
  split; [exact Hfail|]. split; [exact Hok|].
  intros u' Hin Hsuper.
  destruct (Z.eq_dec (res_status out.1) 200) as [E|E].
  - destruct (Hok E) as (target & Hf & Hw & _ & _ & _ & _ & Hgiven & _).
    destruct (findById_In _ _ _ Hf) as (Htarget & _ & _).
    rewrite Hw in Hin. unfold User_save in Hin.
    apply in_map_iff in Hin as (old & <- & Hold).
    destruct (String.eqb_spec (usr_id old) (usr_id target)) as [Eid|Eid].
    + exists target. split; [exact Htarget|]. split; [symmetry; exact Eid|].
      apply Hgiven. exact Hsuper.
    + exists old. auto.
  - rewrite (Hfail E) in Hin. exists u'. auto.
Qed.

Lemma role_changes_respect_rank_witness :
  let admin := sample_user "507f1f77bcf86cd799439013" "admin" in
  let superadmin := sample_user "507f1f77bcf86cd799439011" "superadmin" in
  let teacher := "507f1f77bcf86cd799439012" in
  res_status (updateUserRole (fun _ => []) (Some admin) teacher
              (Some " HeadTeacher ") smoke_users).1 = 200
  /\ (updateUserRole (fun _ => []) (Some admin) teacher
        (Some " HeadTeacher ") smoke_users).2
     = [ superadmin; sample_user teacher "headteacher"; admin ]
  /\ res_status (updateUserRole (fun _ => []) (Some admin) teacher
                 (Some "admin") smoke_users).1 = 403
  /\ res_status (updateUserRole (fun _ => []) (Some superadmin) teacher
                 (Some "superadmin") smoke_users).1 = 403
  /\ res_status (updateUserRole (fun _ => []) (Some superadmin)
                 "507f1f77bcf86cd799439011" (Some "admin") smoke_users).1
     = 400
  /\ res_status (updateUserRole (fun _ => []) (Some superadmin)
                 "507F1F77BCF86CD799439011" (Some "admin") smoke_users).1
     = 200
  /\ In (toLowerCase (trim " HeadTeacher ")) ADMIN_MANAGEABLE_ROLES.
Proof.
  intros admin superadmin teacher.
  assert (res_status (updateUserRole (fun _ => []) (Some admin) teacher
                      (Some " HeadTeacher ") smoke_users).1 = 200) as H200
    by (vm_compute; reflexivity).
  split; [exact H200|].
  repeat (split; [vm_compute; reflexivity|]).
  destruct (proj1 (proj2 (role_changes_respect_rank (fun _ => []) admin
                            teacher (Some " HeadTeacher ") smoke_users))
              H200)
    as (target & _ & _ & _ & _ & _ & Hadmin & _).
  exact (proj1 (Hadmin eq_refl)).
Defined.
